(** * RFCOMM TTY bridge (net/bluetooth/rfcomm/tty.c)

    A shallow embedding of the RFCOMM serial-port emulation of the Linux
    Bluetooth stack, and the properties of its device registry, device
    life cycle, data bridge and line-settings translator.

    The kernel objects live in explicit heaps (lists indexed by pointer);
    every function of tty.c becomes a function on the kernel state that
    returns an [outcome]: a value and the next state, or a fatal [BUG], or a
    memory fault.  Calls into the TTY layer and into the RFCOMM core are
    recorded in an event log; what they answer is an argument of the
    caller. *)

From Stdlib Require Import ZArith List Bool Lia Sorted.
From Stdlib.Strings Require Import Byte.
From stdpp Require Import base list.
Import ListNotations.
Open Scope Z_scope.

(** ** Constants of the headers *)

(** The constants of <net/bluetooth/rfcomm.h> that tty.c names.  The header
    is not part of the sources at hand, so its values are parameters. *)
Class rfcomm_h := {
  RFCOMM_MAX_DEV : Z;
  RFCOMM_SKB_RESERVE : Z;
  (* bit numbers of struct rfcomm_dev.flags and rfcomm_dev_req.flags *)
  RFCOMM_REUSE_DLC : Z;
  RFCOMM_RELEASE_ONHUP : Z;
  RFCOMM_HANGUP_NOW : Z;
  RFCOMM_TTY_ATTACHED : Z;
  RFCOMM_TTY_RELEASED : Z;
  (* V.24 signals *)
  RFCOMM_V24_RTC : Z;
  RFCOMM_V24_RTR : Z;
  RFCOMM_V24_IC : Z;
  RFCOMM_V24_DV : Z;
  (* remote port negotiation: parameter codes *)
  RFCOMM_RPN_BR_2400 : Z;
  RFCOMM_RPN_BR_4800 : Z;
  RFCOMM_RPN_BR_7200 : Z;
  RFCOMM_RPN_BR_9600 : Z;
  RFCOMM_RPN_BR_19200 : Z;
  RFCOMM_RPN_BR_38400 : Z;
  RFCOMM_RPN_BR_57600 : Z;
  RFCOMM_RPN_BR_115200 : Z;
  RFCOMM_RPN_BR_230400 : Z;
  RFCOMM_RPN_DATA_5 : Z;
  RFCOMM_RPN_DATA_6 : Z;
  RFCOMM_RPN_DATA_7 : Z;
  RFCOMM_RPN_DATA_8 : Z;
  RFCOMM_RPN_STOP_1 : Z;
  RFCOMM_RPN_STOP_15 : Z;
  RFCOMM_RPN_PARITY_NONE : Z;
  RFCOMM_RPN_PARITY_ODD : Z;
  RFCOMM_RPN_PARITY_EVEN : Z;
  RFCOMM_RPN_FLOW_NONE : Z;
  RFCOMM_RPN_XON_CHAR : Z;
  RFCOMM_RPN_XOFF_CHAR : Z;
  (* remote port negotiation: parameter mask *)
  RFCOMM_RPN_PM_BITRATE : Z;
  RFCOMM_RPN_PM_DATA : Z;
  RFCOMM_RPN_PM_STOP : Z;
  RFCOMM_RPN_PM_PARITY : Z;
  RFCOMM_RPN_PM_XON : Z;
  RFCOMM_RPN_PM_XOFF : Z
}.

(** The constants of the TTY headers (termbits.h, tty.h) that tty.c names. *)
Class termios_h := {
  CSIZE : Z;
  CS5 : Z;
  CS6 : Z;
  CS7 : Z;
  CS8 : Z;
  CSTOPB : Z;
  PARENB : Z;
  PARODD : Z;
  CRTSCTS : Z;
  CLOCAL : Z;
  VSTART : nat;
  VSTOP : nat;
  TIOCM_DTR : Z;
  TIOCM_RTS : Z;
  TIOCM_CTS : Z;
  TIOCM_CD : Z;
  TIOCM_RI : Z;
  TIOCM_DSR : Z
}.

(** The values of Linux (include/net/bluetooth/rfcomm.h). *)
Definition linux_rfcomm_h : rfcomm_h := {|
  RFCOMM_MAX_DEV := 256;
  RFCOMM_SKB_RESERVE := 21;
  RFCOMM_REUSE_DLC := 0;
  RFCOMM_RELEASE_ONHUP := 1;
  RFCOMM_HANGUP_NOW := 2;
  RFCOMM_TTY_ATTACHED := 3;
  RFCOMM_TTY_RELEASED := 4;
  RFCOMM_V24_RTC := 0x04;
  RFCOMM_V24_RTR := 0x08;
  RFCOMM_V24_IC := 0x40;
  RFCOMM_V24_DV := 0x80;
  RFCOMM_RPN_BR_2400 := 0;
  RFCOMM_RPN_BR_4800 := 1;
  RFCOMM_RPN_BR_7200 := 2;
  RFCOMM_RPN_BR_9600 := 3;
  RFCOMM_RPN_BR_19200 := 4;
  RFCOMM_RPN_BR_38400 := 5;
  RFCOMM_RPN_BR_57600 := 6;
  RFCOMM_RPN_BR_115200 := 7;
  RFCOMM_RPN_BR_230400 := 8;
  RFCOMM_RPN_DATA_5 := 0;
  RFCOMM_RPN_DATA_6 := 1;
  RFCOMM_RPN_DATA_7 := 2;
  RFCOMM_RPN_DATA_8 := 3;
  RFCOMM_RPN_STOP_1 := 0;
  RFCOMM_RPN_STOP_15 := 1;
  RFCOMM_RPN_PARITY_NONE := 0;
  RFCOMM_RPN_PARITY_ODD := 1;
  RFCOMM_RPN_PARITY_EVEN := 3;
  RFCOMM_RPN_FLOW_NONE := 0;
  RFCOMM_RPN_XON_CHAR := 0x11;
  RFCOMM_RPN_XOFF_CHAR := 0x13;
  RFCOMM_RPN_PM_BITRATE := 0x0001;
  RFCOMM_RPN_PM_DATA := 0x0002;
  RFCOMM_RPN_PM_STOP := 0x0004;
  RFCOMM_RPN_PM_PARITY := 0x0008;
  RFCOMM_RPN_PM_XON := 0x0020;
  RFCOMM_RPN_PM_XOFF := 0x0040
|}.

(** The values of Linux (include/uapi/asm-generic/termbits.h, termios.h). *)
Definition linux_termios_h : termios_h := {|
  CSIZE := 0x30;
  CS5 := 0x0;
  CS6 := 0x10;
  CS7 := 0x20;
  CS8 := 0x30;
  CSTOPB := 0x40;
  PARENB := 0x100;
  PARODD := 0x200;
  CRTSCTS := 0x80000000;
  CLOCAL := 0x800;
  VSTART := 8;
  VSTOP := 9;
  TIOCM_DTR := 0x002;
  TIOCM_RTS := 0x004;
  TIOCM_CTS := 0x020;
  TIOCM_CD := 0x040;
  TIOCM_RI := 0x080;
  TIOCM_DSR := 0x100
|}.

(** ** Data model *)

(** A kernel pointer: an index into the heap of its type. *)
Abbreviation ptr := nat.

(** Bluetooth device address (bdaddr_t), six bytes, kept as a number. *)
Definition bdaddr_t := Z.

(** Channel and socket states (enum of <net/bluetooth/bluetooth.h>). *)
Inductive bt_state :=
| BT_CONNECTED | BT_OPEN | BT_BOUND | BT_LISTEN | BT_CONNECT
| BT_CONNECT2 | BT_CONFIG | BT_DISCONN | BT_CLOSED.

(** Error codes; [Eraw] is a code handed through from another layer. *)
Inductive errno :=
| ENOMEM | EADDRINUSE | ENFILE | ENODEV | EPERM | EFAULT | EBADFD
| EINVAL | EINTR | ENOIOCTLCMD | Eraw (code : Z).

(** The result of an [int] function that answers a value or [-errno]. *)
Inductive kret :=
| Val (v : Z)
| Err (e : errno).

(** struct sk_buff: the bytes, the accounted size and the owner set by
    [rfcomm_set_owner_w] (skb->sk with skb->destructor = rfcomm_wfree). *)
Record sk_buff := {
  skb_data : list byte;
  skb_truesize : Z;
  skb_sk : option ptr
}.

Definition skb_len (skb : sk_buff) : Z := Z.of_nat (length (skb_data skb)).

(** The [void *owner] of a channel: nothing, a socket or a device. *)
Inductive dlc_owner :=
| OwnerNull
| OwnerSock (sk : ptr)
| OwnerDev (dev : ptr).

(** Who receives the three callbacks of a channel. *)
Inductive dlc_callbacks :=
| CallbacksOther
| CallbacksDev.

(** struct rfcomm_dlc, the fields tty.c reads or writes. [mtu] and
    [tx_credits] are [uint] there: 32-bit unsigned. *)
Record rfcomm_dlc := {
  dlc_state : bt_state;
  dlc_mtu : Z;
  dlc_tx_credits : Z;
  dlc_owner_of : dlc_owner;
  dlc_session : option ptr;
  dlc_dlci : Z;
  dlc_remote_v24_sig : Z;
  dlc_tx_queue : list sk_buff;
  dlc_cb : dlc_callbacks
}.

(** struct ktermios: control flags and control characters. *)
Record ktermios := {
  c_cflag : Z;
  c_cc : list Z
}.

(** struct tty_struct. *)
Record tty_struct := {
  tty_index : Z;
  tty_driver_data : option ptr;
  tty_termios : ktermios
}.

(** struct sock of an RFCOMM socket, with rfcomm_pi(sk)->dlc. *)
Record sock := {
  sk_state : bt_state;
  sk_receive_queue : list sk_buff;
  sk_rmem_alloc : Z;
  sk_dlc : ptr
}.

(** struct tty_port: open count, attached tty, reference count, and the
    flip buffer, kept as the chunks handed to [tty_insert_flip_string] in
    the order of the calls. *)
Record tty_port := {
  count : Z;
  tty : option ptr;
  kref : Z;
  flip_buf : list (list byte);
  flip_pushes : nat
}.

(** struct rfcomm_dev. *)
Record rfcomm_dev := {
  port : tty_port;
  dev_id : Z;
  flags : Z;
  err : Z;
  src : bdaddr_t;
  dst : bdaddr_t;
  channel : Z;
  modem_status : Z;
  dlc : option ptr;
  tty_dev_parent : bool;
  wmem_alloc : Z;
  pending : list sk_buff
}.

(** struct rfcomm_dev_req. *)
Record rfcomm_dev_req := {
  req_dev_id : Z;
  req_flags : Z;
  req_src : bdaddr_t;
  req_dst : bdaddr_t;
  req_channel : Z
}.

(** struct rfcomm_dev_info. *)
Record rfcomm_dev_info := {
  di_id : Z;
  di_flags : Z;
  di_state : option bt_state;
  di_src : bdaddr_t;
  di_dst : bdaddr_t;
  di_channel : Z
}.

(** Calls that leave tty.c, in the order they are made. *)
Inductive event :=
| EvDlcOpen (d : ptr) (s t : bdaddr_t) (ch : Z)
| EvDlcClose (d : ptr)
| EvDlcHold (d : ptr)
| EvDlcPut (d : ptr)
| EvDlcThrottle (d : ptr)
| EvDlcUnthrottle (d : ptr)
| EvDlcSend (d : ptr) (skb : sk_buff)
| EvSendRpn (session : ptr) (cr dlci baud data_bits stop_bits parity
             flow x_on x_off changes : Z)
| EvSetModemStatus (d : ptr) (v24_sig : Z)
| EvTtyHangup (t : ptr)
| EvTtyWakeup (t : ptr)
| EvWakeUpWait (dev : ptr)
| EvDeviceMove (dev : ptr) (attached : bool)
| EvTtyRegister (id : Z)
| EvTtyUnregister (id : Z)
| EvKfreeSkb (skb : sk_buff).

(** The kernel state tty.c works on: [devs] is the heap of device records
    ([None] once freed), [rfcomm_dev_list] the registry in list order. *)
Record kstate := {
  devs : list (option rfcomm_dev);
  rfcomm_dev_list : list ptr;
  dlcs : list rfcomm_dlc;
  ttys : list tty_struct;
  socks : list sock;
  module_refs : Z;
  log : list event
}.

(** ** Outcomes *)

(** The fatal assertions of tty.c. *)
Inductive bug :=
| BUG_destruct_on_list   (* BUG_ON(!list_empty(&dev->list)) *)
| BUG_del_released       (* BUG_ON(test_and_set_bit(RFCOMM_TTY_RELEASED)) *)
| BUG_add_no_sock.       (* BUG_ON(!sk) *)

(** What running a function gives: a result and the next state, a fatal
    assertion, or an access through a null or dangling pointer. *)
Inductive outcome (A : Type) :=
| Done (a : A) (s : kstate)
| Bug (b : bug)
| Fault.
Arguments Done {A} a s.
Arguments Bug {A} b.
Arguments Fault {A}.

Definition M (A : Type) := kstate -> outcome A.

Definition ret {A} (a : A) : M A := fun s => Done a s.

Definition bind {A B} (m : M A) (k : A -> M B) : M B :=
  fun s => match m s with
           | Done a s' => k a s'
           | Bug b => Bug b
           | Fault => Fault
           end.

Notation "'let*' x ':=' m 'in' k" := (bind m (fun x => k))
  (at level 10, x name, m at level 100, k at level 200).

Definition BUG {A} (b : bug) : M A := fun _ => Bug b.
Definition fault {A} : M A := fun _ => Fault.
Definition get_state : M kstate := fun s => Done s s.
Definition emit (e : event) : M unit :=
  fun s => Done tt {| devs := devs s; rfcomm_dev_list := rfcomm_dev_list s;
                      dlcs := dlcs s; ttys := ttys s; socks := socks s;
                      module_refs := module_refs s; log := log s ++ [e] |}.

(** ** Field updates *)

Definition set_devs (f : list (option rfcomm_dev) -> list (option rfcomm_dev))
    (s : kstate) : kstate :=
  {| devs := f (devs s); rfcomm_dev_list := rfcomm_dev_list s;
     dlcs := dlcs s; ttys := ttys s; socks := socks s;
     module_refs := module_refs s; log := log s |}.

Definition set_rfcomm_dev_list (f : list ptr -> list ptr) (s : kstate) : kstate :=
  {| devs := devs s; rfcomm_dev_list := f (rfcomm_dev_list s);
     dlcs := dlcs s; ttys := ttys s; socks := socks s;
     module_refs := module_refs s; log := log s |}.

Definition set_dlcs (f : list rfcomm_dlc -> list rfcomm_dlc) (s : kstate) : kstate :=
  {| devs := devs s; rfcomm_dev_list := rfcomm_dev_list s;
     dlcs := f (dlcs s); ttys := ttys s; socks := socks s;
     module_refs := module_refs s; log := log s |}.

Definition set_ttys (f : list tty_struct -> list tty_struct) (s : kstate) : kstate :=
  {| devs := devs s; rfcomm_dev_list := rfcomm_dev_list s;
     dlcs := dlcs s; ttys := f (ttys s); socks := socks s;
     module_refs := module_refs s; log := log s |}.

Definition set_socks (f : list sock -> list sock) (s : kstate) : kstate :=
  {| devs := devs s; rfcomm_dev_list := rfcomm_dev_list s;
     dlcs := dlcs s; ttys := ttys s; socks := f (socks s);
     module_refs := module_refs s; log := log s |}.

Definition set_module_refs (f : Z -> Z) (s : kstate) : kstate :=
  {| devs := devs s; rfcomm_dev_list := rfcomm_dev_list s;
     dlcs := dlcs s; ttys := ttys s; socks := socks s;
     module_refs := f (module_refs s); log := log s |}.

Definition set_port (f : tty_port -> tty_port) (d : rfcomm_dev) : rfcomm_dev :=
  {| port := f (port d); dev_id := dev_id d; flags := flags d; err := err d;
     src := src d; dst := dst d; channel := channel d;
     modem_status := modem_status d; dlc := dlc d;
     tty_dev_parent := tty_dev_parent d; wmem_alloc := wmem_alloc d;
     pending := pending d |}.

Definition set_flags (f : Z -> Z) (d : rfcomm_dev) : rfcomm_dev :=
  {| port := port d; dev_id := dev_id d; flags := f (flags d); err := err d;
     src := src d; dst := dst d; channel := channel d;
     modem_status := modem_status d; dlc := dlc d;
     tty_dev_parent := tty_dev_parent d; wmem_alloc := wmem_alloc d;
     pending := pending d |}.

Definition set_err (v : Z) (d : rfcomm_dev) : rfcomm_dev :=
  {| port := port d; dev_id := dev_id d; flags := flags d; err := v;
     src := src d; dst := dst d; channel := channel d;
     modem_status := modem_status d; dlc := dlc d;
     tty_dev_parent := tty_dev_parent d; wmem_alloc := wmem_alloc d;
     pending := pending d |}.

Definition set_modem_status (v : Z) (d : rfcomm_dev) : rfcomm_dev :=
  {| port := port d; dev_id := dev_id d; flags := flags d; err := err d;
     src := src d; dst := dst d; channel := channel d;
     modem_status := v; dlc := dlc d;
     tty_dev_parent := tty_dev_parent d; wmem_alloc := wmem_alloc d;
     pending := pending d |}.

Definition set_tty_dev_parent (v : bool) (d : rfcomm_dev) : rfcomm_dev :=
  {| port := port d; dev_id := dev_id d; flags := flags d; err := err d;
     src := src d; dst := dst d; channel := channel d;
     modem_status := modem_status d; dlc := dlc d;
     tty_dev_parent := v; wmem_alloc := wmem_alloc d;
     pending := pending d |}.

Definition set_wmem_alloc (f : Z -> Z) (d : rfcomm_dev) : rfcomm_dev :=
  {| port := port d; dev_id := dev_id d; flags := flags d; err := err d;
     src := src d; dst := dst d; channel := channel d;
     modem_status := modem_status d; dlc := dlc d;
     tty_dev_parent := tty_dev_parent d; wmem_alloc := f (wmem_alloc d);
     pending := pending d |}.

Definition set_pending (f : list sk_buff -> list sk_buff) (d : rfcomm_dev) : rfcomm_dev :=
  {| port := port d; dev_id := dev_id d; flags := flags d; err := err d;
     src := src d; dst := dst d; channel := channel d;
     modem_status := modem_status d; dlc := dlc d;
     tty_dev_parent := tty_dev_parent d; wmem_alloc := wmem_alloc d;
     pending := f (pending d) |}.

Definition set_count (f : Z -> Z) (p : tty_port) : tty_port :=
  {| count := f (count p); tty := tty p; kref := kref p;
     flip_buf := flip_buf p; flip_pushes := flip_pushes p |}.

Definition set_tty (v : option ptr) (p : tty_port) : tty_port :=
  {| count := count p; tty := v; kref := kref p;
     flip_buf := flip_buf p; flip_pushes := flip_pushes p |}.

Definition set_kref (f : Z -> Z) (p : tty_port) : tty_port :=
  {| count := count p; tty := tty p; kref := f (kref p);
     flip_buf := flip_buf p; flip_pushes := flip_pushes p |}.

Definition set_flip_buf (f : list (list byte) -> list (list byte)) (p : tty_port) : tty_port :=
  {| count := count p; tty := tty p; kref := kref p;
     flip_buf := f (flip_buf p); flip_pushes := flip_pushes p |}.

Definition set_flip_pushes (f : nat -> nat) (p : tty_port) : tty_port :=
  {| count := count p; tty := tty p; kref := kref p;
     flip_buf := flip_buf p; flip_pushes := f (flip_pushes p) |}.

Definition set_dlc (v : option ptr) (d : rfcomm_dev) : rfcomm_dev :=
  {| port := port d; dev_id := dev_id d; flags := flags d; err := err d;
     src := src d; dst := dst d; channel := channel d;
     modem_status := modem_status d; dlc := v;
     tty_dev_parent := tty_dev_parent d; wmem_alloc := wmem_alloc d;
     pending := pending d |}.

Definition set_dlc_owner (v : dlc_owner) (c : rfcomm_dlc) : rfcomm_dlc :=
  {| dlc_state := dlc_state c; dlc_mtu := dlc_mtu c;
     dlc_tx_credits := dlc_tx_credits c; dlc_owner_of := v;
     dlc_session := dlc_session c; dlc_dlci := dlc_dlci c;
     dlc_remote_v24_sig := dlc_remote_v24_sig c;
     dlc_tx_queue := dlc_tx_queue c; dlc_cb := dlc_cb c |}.

Definition set_dlc_cb (v : dlc_callbacks) (c : rfcomm_dlc) : rfcomm_dlc :=
  {| dlc_state := dlc_state c; dlc_mtu := dlc_mtu c;
     dlc_tx_credits := dlc_tx_credits c; dlc_owner_of := dlc_owner_of c;
     dlc_session := dlc_session c; dlc_dlci := dlc_dlci c;
     dlc_remote_v24_sig := dlc_remote_v24_sig c;
     dlc_tx_queue := dlc_tx_queue c; dlc_cb := v |}.

Definition set_dlc_state (v : bt_state) (c : rfcomm_dlc) : rfcomm_dlc :=
  {| dlc_state := v; dlc_mtu := dlc_mtu c;
     dlc_tx_credits := dlc_tx_credits c; dlc_owner_of := dlc_owner_of c;
     dlc_session := dlc_session c; dlc_dlci := dlc_dlci c;
     dlc_remote_v24_sig := dlc_remote_v24_sig c;
     dlc_tx_queue := dlc_tx_queue c; dlc_cb := dlc_cb c |}.

Definition set_dlc_tx_queue (f : list sk_buff -> list sk_buff) (c : rfcomm_dlc) : rfcomm_dlc :=
  {| dlc_state := dlc_state c; dlc_mtu := dlc_mtu c;
     dlc_tx_credits := dlc_tx_credits c; dlc_owner_of := dlc_owner_of c;
     dlc_session := dlc_session c; dlc_dlci := dlc_dlci c;
     dlc_remote_v24_sig := dlc_remote_v24_sig c;
     dlc_tx_queue := f (dlc_tx_queue c); dlc_cb := dlc_cb c |}.

Definition set_tty_driver_data (v : option ptr) (t : tty_struct) : tty_struct :=
  {| tty_index := tty_index t; tty_driver_data := v;
     tty_termios := tty_termios t |}.

Definition set_sk_state (v : bt_state) (k : sock) : sock :=
  {| sk_state := v; sk_receive_queue := sk_receive_queue k;
     sk_rmem_alloc := sk_rmem_alloc k; sk_dlc := sk_dlc k |}.

(** ** Heap access *)

(** Reading through a pointer faults when the object is not there. *)
Definition dev_read (p : ptr) : M rfcomm_dev :=
  fun s => match devs s !! p with
           | Some (Some d) => Done d s
           | _ => Fault
           end.

Definition dev_modify (p : ptr) (f : rfcomm_dev -> rfcomm_dev) : M unit :=
  fun s => match devs s !! p with
           | Some (Some d) => Done tt (set_devs (fun h => <[p := Some (f d)]> h) s)
           | _ => Fault
           end.

Definition dlc_read (c : ptr) : M rfcomm_dlc :=
  fun s => match dlcs s !! c with
           | Some x => Done x s
           | None => Fault
           end.

Definition dlc_modify (c : ptr) (f : rfcomm_dlc -> rfcomm_dlc) : M unit :=
  fun s => match dlcs s !! c with
           | Some x => Done tt (set_dlcs (fun h => <[c := f x]> h) s)
           | None => Fault
           end.

Definition tty_read (t : ptr) : M tty_struct :=
  fun s => match ttys s !! t with
           | Some x => Done x s
           | None => Fault
           end.

Definition tty_modify (t : ptr) (f : tty_struct -> tty_struct) : M unit :=
  fun s => match ttys s !! t with
           | Some x => Done tt (set_ttys (fun h => <[t := f x]> h) s)
           | None => Fault
           end.

Definition sock_read (k : ptr) : M sock :=
  fun s => match socks s !! k with
           | Some x => Done x s
           | None => Fault
           end.

Definition sock_modify (k : ptr) (f : sock -> sock) : M unit :=
  fun s => match socks s !! k with
           | Some x => Done tt (set_socks (fun h => <[k := f x]> h) s)
           | None => Fault
           end.

(** Dereferencing a pointer that may be NULL. *)
Definition deref {A} (o : option A) : M A :=
  match o with
  | Some a => ret a
  | None => fault
  end.

(** kfree(dev). *)
Definition kfree_dev (p : ptr) : M unit :=
  fun s => Done tt (set_devs (fun h => <[p := None]> h) s).

(** Bit operations on [unsigned long flags]. *)
Definition test_bit (nr : Z) (w : Z) : bool := Z.testbit w nr.
Definition set_bit (nr : Z) (w : Z) : Z := Z.setbit w nr.
Definition clear_bit (nr : Z) (w : Z) : Z := Z.clearbit w nr.

(** [!list_empty(&dev->list)]: the record is linked into a list, and the
    only list is the registry.  A record is off the registry from [kzalloc]
    to [list_add], where its links are not yet set, and after [list_del] or
    [list_del_init]; only after [list_del_init] does the code drop a
    reference on it, so the test of the destructor is only made on a record
    that is on the registry or has left it by [list_del_init]. *)
Definition on_dev_list (p : ptr) (s : kstate) : bool :=
  bool_decide (p ∈ rfcomm_dev_list s).

(** [list_del_init(&dev->list)] and [list_del(&dev->list)]. *)
Definition list_del (p : ptr) : M unit :=
  fun s => Done tt (set_rfcomm_dev_list (filter (fun q => q <> p)) s).

Section Tty.
Context {RH : rfcomm_h} {TH : termios_h}.

(** ** Device functions *)

(** [rfcomm_dev_destruct]: the destructor of the port, run when the last
    reference is dropped. *)
Definition rfcomm_dev_destruct (p : ptr) : M unit :=
  let* dev := dev_read p in
  let* c := deref (dlc dev) in
  let* s := get_state in
  if on_dev_list p s then BUG BUG_destruct_on_list else
  let* d := dlc_read c in
  let* _ := (match dlc_owner_of d with
             | OwnerDev q => if bool_decide (q = p)
                             then dlc_modify c (set_dlc_owner OwnerNull)
                             else ret tt
             | _ => ret tt
             end) in
  let* _ := emit (EvDlcPut c) in
  let* _ := emit (EvTtyUnregister (dev_id dev)) in
  let* _ := kfree_dev p in
  fun s => Done tt (set_module_refs (fun n => n - 1) s).

(** [tty_port_get]: take a reference on the port of a device. *)
Definition tty_port_get (p : ptr) : M unit :=
  dev_modify p (set_port (set_kref (fun n => n + 1))).

(** [tty_port_put]: drop a reference; the last one destroys the device
    (port->ops->destruct is [rfcomm_dev_destruct]). *)
Definition tty_port_put (p : ptr) : M unit :=
  let* _ := dev_modify p (set_port (set_kref (fun n => n - 1))) in
  let* dev := dev_read p in
  if kref (port dev) =? 0 then rfcomm_dev_destruct p else ret tt.

(** The loop of [__rfcomm_dev_get] over the registry. *)
Fixpoint dev_list_find (l : list ptr) (id : Z) : M (option ptr) :=
  match l with
  | [] => ret None
  | p :: l' =>
      let* dev := dev_read p in
      if dev_id dev =? id then ret (Some p) else dev_list_find l' id
  end.

Definition __rfcomm_dev_get (id : Z) : M (option ptr) :=
  let* s := get_state in dev_list_find (rfcomm_dev_list s) id.

Definition rfcomm_dev_get (id : Z) : M (option ptr) :=
  let* r := __rfcomm_dev_get id in
  match r with
  | None => ret None
  | Some p =>
      let* dev := dev_read p in
      if test_bit RFCOMM_TTY_RELEASED (flags dev) then ret None
      else let* _ := tty_port_get p in ret (Some p)
  end.

(** [C_CLOCAL(tty)]. *)
Definition C_CLOCAL (t : tty_struct) : bool :=
  negb (Z.land (c_cflag (tty_termios t)) CLOCAL =? 0).

Definition v24_to_tiocm (v24_sig : Z) : Z :=
  Z.lor (Z.lor (Z.lor
    (if Z.land v24_sig RFCOMM_V24_RTC =? 0 then 0 else Z.lor TIOCM_DSR TIOCM_DTR)
    (if Z.land v24_sig RFCOMM_V24_RTR =? 0 then 0 else Z.lor TIOCM_RTS TIOCM_CTS))
    (if Z.land v24_sig RFCOMM_V24_IC =? 0 then 0 else TIOCM_RI))
    (if Z.land v24_sig RFCOMM_V24_DV =? 0 then 0 else TIOCM_CD).

(** The device a callback works on is the owner of the channel. *)
Definition dlc_owner_dev (c : ptr) : M (option ptr) :=
  let* d := dlc_read c in
  match dlc_owner_of d with
  | OwnerNull => ret None
  | OwnerDev p => ret (Some p)
  | OwnerSock _ => fault
  end.

Definition rfcomm_dev_modem_status (c : ptr) (v24_sig : Z) : M unit :=
  let* o := dlc_owner_dev c in
  match o with
  | None => ret tt
  | Some p =>
      let* dev := dev_read p in
      let* _ :=
        (if negb (Z.land (modem_status dev) TIOCM_CD =? 0)
            && (Z.land v24_sig RFCOMM_V24_DV =? 0)
         then match tty (port dev) with
              | Some t => let* ts := tty_read t in
                          if negb (C_CLOCAL ts) then emit (EvTtyHangup t)
                          else ret tt
              | None => ret tt
              end
         else ret tt) in
      dev_modify p (set_modem_status (v24_to_tiocm v24_sig))
  end.

(** The first loop of [rfcomm_dev_add] (dev_id < 0): walk the registry
    while the ids are 0, 1, 2, ...; answers the first id that differs and
    the place to insert at, as the number of entries before it. *)
Fixpoint dev_add_scan_any (l : list ptr) (id : Z) (head : nat) : M (Z * nat) :=
  match l with
  | [] => ret (id, head)
  | e :: l' =>
      let* entry := dev_read e in
      if negb (dev_id entry =? id) then ret (id, head)
      else dev_add_scan_any l' (id + 1) (S head)
  end.

(** The second loop (a specific id): [None] when the id is taken. *)
Fixpoint dev_add_scan_id (l : list ptr) (id : Z) (head : nat) : M (option nat) :=
  match l with
  | [] => ret (Some head)
  | e :: l' =>
      let* entry := dev_read e in
      if dev_id entry =? id then ret None
      else if dev_id entry >? id - 1 then ret (Some head)
      else dev_add_scan_id l' id (S head)
  end.

(** [list_add(&dev->list, head)]: insert after [head]. *)
Definition list_add (p : ptr) (head : nat) : M unit :=
  fun s => Done tt (set_rfcomm_dev_list (fun l => take head l ++ p :: drop head l) s).

(** kzalloc of a device record: a fresh, zeroed record. *)
Definition zero_dev : rfcomm_dev :=
  {| port := {| count := 0; tty := None; kref := 0; flip_buf := [];
                flip_pushes := 0 |};
     dev_id := 0; flags := 0; err := 0; src := 0; dst := 0; channel := 0;
     modem_status := 0; dlc := None; tty_dev_parent := false;
     wmem_alloc := 0; pending := [] |}.

Definition kzalloc_dev : M ptr :=
  fun s => Done (length (devs s)) (set_devs (fun h => h ++ [Some zero_dev]) s).

(** [1 << nr]. *)
Definition BIT (nr : Z) : Z := Z.shiftl 1 nr.

(** [skb_orphan]: the buffer no longer belongs to a socket. *)
Definition skb_orphan (skb : sk_buff) : sk_buff :=
  {| skb_data := skb_data skb; skb_truesize := skb_truesize skb;
     skb_sk := None |}.

(** The loop of [rfcomm_dev_add] that moves what the socket has received to
    the pending queue of the device, one buffer at a time. *)
Fixpoint dev_add_take_queue (q : list sk_buff) (p k : ptr) : M unit :=
  match q with
  | [] => ret tt
  | skb :: q' =>
      let* _ := sock_modify k (fun x =>
                  {| sk_state := sk_state x; sk_receive_queue := q';
                     sk_rmem_alloc := sk_rmem_alloc x; sk_dlc := sk_dlc x |}) in
      let* _ := dev_modify p (set_pending (fun l => l ++ [skb_orphan skb])) in
      let* _ := sock_modify k (fun x =>
                  {| sk_state := sk_state x;
                     sk_receive_queue := sk_receive_queue x;
                     sk_rmem_alloc := sk_rmem_alloc x - skb_len skb;
                     sk_dlc := sk_dlc x |}) in
      dev_add_take_queue q' p k
  end.

(** [tty_port_init] on a zeroed port. *)
Definition tty_port_init (pt : tty_port) : tty_port :=
  {| count := 0; tty := None; kref := 1; flip_buf := []; flip_pushes := 0 |}.

(** [rfcomm_dev_add].  [kzalloc_ok] says whether the allocation succeeds,
    [register_err] is the error of [tty_port_register_device], if any. *)
(** The part of [rfcomm_dev_add] that chooses the id of the new device and
    its place in the registry: the two loops and the check of the range. *)
Definition dev_add_choose (req : rfcomm_dev_req) : M (Z * nat + errno) :=
  let* s := get_state in
  let* r :=
    (if req_dev_id req <? 0 then
       let* ih := dev_add_scan_any (rfcomm_dev_list s) 0 0%nat in
       ret (inl ih)
     else
       let* oh := dev_add_scan_id (rfcomm_dev_list s) (req_dev_id req) 0%nat in
       match oh with
       | None => ret (inr EADDRINUSE)
       | Some h => ret (inl (req_dev_id req, h))
       end) in
  match r with
  | inl (id, head) =>
      if (id <? 0) || (id >? RFCOMM_MAX_DEV - 1) then ret (inr ENFILE)
      else ret (inl (id, head))
  | inr e => ret (inr e)
  end.

Definition rfcomm_dev_add (req : rfcomm_dev_req) (c : ptr)
    (kzalloc_ok : bool) (register_err : option Z) : M kret :=
  if negb kzalloc_ok then ret (Err ENOMEM) else
  let* p := kzalloc_dev in
  let* r' := dev_add_choose req in
  match r' with
  | inr e => let* _ := kfree_dev p in ret (Err e)
  | inl (id, head) =>
      let* _ := list_add p head in
      let* _ := dev_modify p (fun d =>
        {| port := tty_port_init (port d); dev_id := id;
           flags := Z.land (req_flags req)
                      (Z.lor (BIT RFCOMM_RELEASE_ONHUP) (BIT RFCOMM_REUSE_DLC));
           err := err d; src := req_src req; dst := req_dst req;
           channel := req_channel req; modem_status := modem_status d;
           dlc := dlc d; tty_dev_parent := tty_dev_parent d;
           wmem_alloc := wmem_alloc d; pending := [] |}) in
      let* d := dlc_read c in
      let* _ :=
        (if negb (Z.land (req_flags req) (BIT RFCOMM_REUSE_DLC) =? 0) then
           match dlc_owner_of d with
           | OwnerNull => BUG BUG_add_no_sock
           | OwnerDev _ => fault
           | OwnerSock k =>
               let* _ := emit (EvDlcThrottle c) in
               let* sk := sock_read k in
               dev_add_take_queue (sk_receive_queue sk) p k
           end
         else ret tt) in
      let* _ := dlc_modify c (fun x => set_dlc_owner (OwnerDev p)
                                         (set_dlc_cb CallbacksDev x)) in
      let* _ := dev_modify p (set_dlc (Some c)) in
      let* _ := rfcomm_dev_modem_status c (dlc_remote_v24_sig d) in
      let* _ := (fun s => Done tt (set_module_refs (fun n => n + 1) s)) in
      match register_err with
      | Some e =>
          let* _ := list_del p in
          let* _ := kfree_dev p in
          ret (Err (Eraw e))
      | None =>
          let* _ := emit (EvTtyRegister id) in
          ret (Val id)
      end
  end.

(** [rfcomm_dev_del]. *)
Definition rfcomm_dev_del (p : ptr) : M unit :=
  let* dev := dev_read p in
  if test_bit RFCOMM_TTY_RELEASED (flags dev) then BUG BUG_del_released else
  let* _ := dev_modify p (set_flags (set_bit RFCOMM_TTY_RELEASED)) in
  let* dev := dev_read p in
  if count (port dev) >? 0 then ret tt else
  let* _ := list_del p in
  tty_port_put p.

(** ** Send buffer *)

(** Conversion to [unsigned int] and to [int] (32 bits). *)
Definition to_uint (x : Z) : Z := x mod 2 ^ 32.
Definition to_int (x : Z) : Z := (x + 2 ^ 31) mod 2 ^ 32 - 2 ^ 31.

(** [rfcomm_room]: [dlc->mtu * (dlc->tx_credits ?: 1)] in [unsigned int]. *)
Definition rfcomm_room (d : rfcomm_dlc) : Z :=
  to_uint (dlc_mtu d * (if dlc_tx_credits d =? 0 then 1 else dlc_tx_credits d)).

(** [tty_wakeup] is a call into the TTY layer. *)
Definition tty_wakeup (t : ptr) : M unit := emit (EvTtyWakeup t).

(** [rfcomm_wfree]: the destructor of an accounted buffer. *)
Definition rfcomm_wfree (skb : sk_buff) : M unit :=
  let* p := deref (skb_sk skb) in
  let* dev := dev_read p in
  let* _ := dev_modify p
              (set_wmem_alloc (fun n => to_int (n - skb_truesize skb))) in
  let* _ := (if test_bit RFCOMM_TTY_ATTACHED (flags dev)
             then match tty (port dev) with
                  | Some t => tty_wakeup t
                  | None => ret tt
                  end
             else ret tt) in
  tty_port_put p.

(** [kfree_skb]: runs the destructor of the buffer, when it has one. *)
Definition kfree_skb (skb : sk_buff) : M unit :=
  let* _ := (match skb_sk skb with
             | Some _ => rfcomm_wfree skb
             | None => ret tt
             end) in
  emit (EvKfreeSkb skb).

(** [rfcomm_set_owner_w]. *)
Definition rfcomm_set_owner_w (skb : sk_buff) (p : ptr) : M sk_buff :=
  let* _ := tty_port_get p in
  let* _ := dev_modify p
              (set_wmem_alloc (fun n => to_int (n + skb_truesize skb))) in
  ret {| skb_data := skb_data skb; skb_truesize := skb_truesize skb;
         skb_sk := Some p |}.

(** [rfcomm_wmalloc].  [alloc] is what [alloc_skb] answers: the accounted
    size of the new buffer, or nothing. The comparison is between an [int]
    and an [unsigned int], so it is made on [unsigned int]. *)
Definition rfcomm_wmalloc (p : ptr) (size : Z) (alloc : option Z)
    : M (option sk_buff) :=
  let* dev := dev_read p in
  let* c := deref (dlc dev) in
  let* d := dlc_read c in
  if to_uint (wmem_alloc dev) <? rfcomm_room d then
    match alloc with
    | Some ts =>
        let* skb := rfcomm_set_owner_w
                      {| skb_data := []; skb_truesize := ts; skb_sk := None |} p in
        ret (Some skb)
    | None => ret None
    end
  else ret None.

(** ** Channel callbacks *)

(** [tty_insert_flip_string]: the TTY layer takes the bytes; the flip
    buffer has room for all of them. *)
Definition tty_insert_flip_string (p : ptr) (chars : list byte) : M Z :=
  let* _ := dev_modify p (set_port (set_flip_buf (fun b => b ++ [chars]))) in
  ret (Z.of_nat (length chars)).

Definition tty_flip_buffer_push (p : ptr) : M unit :=
  dev_modify p (set_port (set_flip_pushes S)).

(** [rfcomm_dev_data_ready]. *)
Definition rfcomm_dev_data_ready (c : ptr) (skb : sk_buff) : M unit :=
  let* o := dlc_owner_dev c in
  match o with
  | None => kfree_skb skb
  | Some p =>
      let* dev := dev_read p in
      if negb (bool_decide (pending dev = [])) then
        dev_modify p (set_pending (fun q => q ++ [skb]))
      else
        let* _ := tty_insert_flip_string p (skb_data skb) in
        let* _ := tty_flip_buffer_push p in
        kfree_skb skb
  end.

(** [rfcomm_dev_state_change]. *)
Definition rfcomm_dev_state_change (c : ptr) (e : Z) : M unit :=
  let* o := dlc_owner_dev c in
  match o with
  | None => ret tt
  | Some p =>
      let* _ := dev_modify p (set_err e) in
      let* _ := emit (EvWakeUpWait p) in
      let* d := dlc_read c in
      match dlc_state d with
      | BT_CLOSED =>
          let* dev := dev_read p in
          match tty (port dev) with
          | None =>
              if test_bit RFCOMM_RELEASE_ONHUP (flags dev) then
                let* r := rfcomm_dev_get (dev_id dev) in
                match r with
                | None => ret tt
                | Some _ =>
                    let* _ := rfcomm_dev_del p in
                    tty_port_put p
                end
              else ret tt
          | Some t => emit (EvTtyHangup t)
          end
      | _ => ret tt
      end
  end.

(** [rfcomm_dlc_close] belongs to the RFCOMM core.  When the channel is not
    yet connected the core closes it at once and calls the state-change
    callback from inside the call: [sync] is then the error it reports.
    Otherwise the callback comes later, as an event of its own. *)
Definition rfcomm_dlc_close (c : ptr) (sync : option Z) : M unit :=
  let* _ := emit (EvDlcClose c) in
  match sync with
  | None => ret tt
  | Some e =>
      let* d := dlc_read c in
      let* _ := dlc_modify c (set_dlc_state BT_CLOSED) in
      match dlc_cb d with
      | CallbacksDev => rfcomm_dev_state_change c e
      | CallbacksOther => ret tt
      end
  end.

(** ** TTY functions *)

(** [skb_dequeue(&dev->pending)]. *)
Definition skb_dequeue_pending (p : ptr) : M (option sk_buff) :=
  let* dev := dev_read p in
  match pending dev with
  | [] => ret None
  | skb :: q =>
      let* _ := dev_modify p (set_pending (fun _ => q)) in
      ret (Some skb)
  end.

(** The loop of [rfcomm_tty_copy_pending]; [n] bounds the number of
    buffers taken, and the caller gives the length of the queue. *)
Fixpoint copy_pending_loop (n : nat) (p : ptr) (inserted : Z) : M Z :=
  let* o := skb_dequeue_pending p in
  match o with
  | None => ret inserted
  | Some skb =>
      match n with
      | O => fault
      | S n' =>
          let* k := tty_insert_flip_string p (skb_data skb) in
          let* _ := kfree_skb skb in
          copy_pending_loop n' p (inserted + k)
      end
  end.

Definition rfcomm_tty_copy_pending (p : ptr) : M unit :=
  let* dev := dev_read p in
  let* inserted := copy_pending_loop (length (pending dev)) p 0 in
  if inserted >? 0 then tty_flip_buffer_push p else ret tt.

(** The value of [err = -dev->err] as a result. *)
Definition neg_err (e : Z) : kret := if e =? 0 then Val 0 else Err (Eraw (- e)).

(** [rfcomm_tty_open] up to the wait for the channel.  [open_err] is what
    [rfcomm_dlc_open] answers.  The result is [inl r] when the call returns
    [r] before waiting, and [inr (dev, dlc)] when it goes on to wait. *)
Definition rfcomm_tty_open_attach (t : ptr) (open_err : Z)
    : M (kret + ptr * ptr) :=
  let* ts := tty_read t in
  let* r := rfcomm_dev_get (tty_index ts) in
  match r with
  | None => ret (inl (Err ENODEV))
  | Some p =>
      let* _ := dev_modify p (set_port (set_count (fun n => n + 1))) in
      let* dev := dev_read p in
      if count (port dev) >? 1 then ret (inl (Val 0)) else
      let* c := deref (dlc dev) in
      let* _ := tty_modify t (set_tty_driver_data (Some p)) in
      let* _ := dev_modify p (set_port (set_tty (Some t))) in
      let* _ := dev_modify p (set_flags (set_bit RFCOMM_TTY_ATTACHED)) in
      let* _ := emit (EvDlcOpen c (src dev) (dst dev) (channel dev)) in
      if open_err <? 0 then ret (inl (Err (Eraw open_err)))
      else ret (inr (p, c))
  end.

(** One turn of the wait loop of [rfcomm_tty_open]: answers the value of
    [err] when the loop ends, and nothing when the caller sleeps.  [e] is the
    value [err] has on entry, which is what [rfcomm_dlc_open] answered: the
    loop leaves it as it is when it finds the channel connected. *)
Definition rfcomm_tty_open_check (p c : ptr) (e : Z) (signal_pending : bool)
    : M (option kret) :=
  let* d := dlc_read c in
  match dlc_state d with
  | BT_CLOSED => let* dev := dev_read p in ret (Some (neg_err (err dev)))
  | BT_CONNECTED => ret (Some (Val e))
  | _ => if signal_pending then ret (Some (Err EINTR)) else ret None
  end.

(** [rfcomm_tty_open] after the wait.  [has_conn] says whether
    [rfcomm_get_device] finds the connection of the remote device. *)
Definition rfcomm_tty_open_finish (p : ptr) (e : kret) (has_conn : bool)
    : M kret :=
  let* _ := (match e with
             | Val 0 =>
                 let* _ := emit (EvDeviceMove p has_conn) in
                 dev_modify p (set_tty_dev_parent has_conn)
             | _ => ret tt
             end) in
  let* _ := rfcomm_tty_copy_pending p in
  let* dev := dev_read p in
  let* c := deref (dlc dev) in
  let* _ := emit (EvDlcUnthrottle c) in
  ret e.

(** The wait loop of [rfcomm_tty_open].  While the caller sleeps in
    [schedule] other contexts run: [env] gives, for each sleep, what they
    do and whether a signal is pending at the next turn.  The answer is
    nothing when the caller is still asleep at the end of [env]. *)
Fixpoint rfcomm_tty_open_wait (env : list (M unit * bool)) (p c : ptr)
    (e : Z) (signal_pending : bool) : M (option kret) :=
  let* r := rfcomm_tty_open_check p c e signal_pending in
  match r with
  | Some r' => ret (Some r')
  | None =>
      match env with
      | [] => ret None
      | (others, sig) :: env' =>
          let* _ := others in
          rfcomm_tty_open_wait env' p c e sig
      end
  end.

(** [rfcomm_tty_open]. *)
Definition rfcomm_tty_open (t : ptr) (open_err : Z) (signal_pending : bool)
    (env : list (M unit * bool)) (has_conn : bool) : M (option kret) :=
  let* a := rfcomm_tty_open_attach t open_err in
  match a with
  | inl r => ret (Some r)
  | inr (p, c) =>
      let* w := rfcomm_tty_open_wait env p c open_err signal_pending in
      match w with
      | None => ret None
      | Some e =>
          let* r := rfcomm_tty_open_finish p e has_conn in
          ret (Some r)
      end
  end.

(** [rfcomm_tty_close].  [sync] is passed on to [rfcomm_dlc_close]. *)
Definition rfcomm_tty_close (t : ptr) (sync : option Z) : M unit :=
  let* ts := tty_read t in
  match tty_driver_data ts with
  | None => ret tt
  | Some p =>
      let* _ := dev_modify p (set_port (set_count (fun n => n - 1))) in
      let* dev := dev_read p in
      let* _ :=
        (if count (port dev) =? 0 then
           let* _ := (if tty_dev_parent dev
                      then let* _ := emit (EvDeviceMove p false) in
                           dev_modify p (set_tty_dev_parent false)
                      else ret tt) in
           let* c := deref (dlc dev) in
           let* _ := rfcomm_dlc_close c sync in
           let* _ := dev_modify p (set_flags (clear_bit RFCOMM_TTY_ATTACHED)) in
           let* _ := tty_modify t (set_tty_driver_data None) in
           let* _ := dev_modify p (set_port (set_tty None)) in
           let* dev := dev_read p in
           if test_bit RFCOMM_TTY_RELEASED (flags dev) then
             let* _ := list_del p in
             tty_port_put p
           else ret tt
         else ret tt) in
      tty_port_put p
  end.

(** [rfcomm_dlc_send] belongs to the RFCOMM core: it answers [send_ret] and,
    unless that is an error, has put the buffer on the transmit queue. *)
Definition rfcomm_dlc_send (c : ptr) (skb : sk_buff) (send_ret : Z) : M Z :=
  let* _ := emit (EvDlcSend c skb) in
  let* _ := (if send_ret <? 0 then ret tt
             else dlc_modify c (set_dlc_tx_queue (fun q => q ++ [skb]))) in
  ret send_ret.

(** The loop of [rfcomm_tty_write].  [world i] is what the allocator and
    the channel answer at turn [i]; [fuel] bounds the number of turns, and
    the answer is nothing when it does not suffice. The state of the loop
    is ([err], [sent], [count]). *)
Fixpoint tty_write_loop (fuel : nat) (world : nat -> option Z * Z) (i : nat)
    (p c : ptr) (buf : list byte) (e sent cnt : Z) : M (option (Z * Z)) :=
  if cnt =? 0 then ret (Some (e, sent)) else
  match fuel with
  | O => ret None
  | S fuel' =>
      let* d := dlc_read c in
      let size := to_int (Z.min (to_uint cnt) (to_uint (dlc_mtu d))) in
      let* o := rfcomm_wmalloc p (size + RFCOMM_SKB_RESERVE) (fst (world i)) in
      match o with
      | None => ret (Some (e, sent))
      | Some skb =>
          let skb' := {| skb_data := take (Z.to_nat size) (drop (Z.to_nat sent) buf);
                         skb_truesize := skb_truesize skb;
                         skb_sk := skb_sk skb |} in
          let* e' := rfcomm_dlc_send c skb' (snd (world i)) in
          if e' <? 0 then
            let* _ := kfree_skb skb' in
            ret (Some (e', sent))
          else
            tty_write_loop fuel' world (S i) p c buf e' (sent + size) (cnt - size)
      end
  end.

(** [rfcomm_tty_write]: the value returned, [sent ? sent : err]. *)
Definition rfcomm_tty_write (t : ptr) (buf : list byte) (cnt : Z)
    (world : nat -> option Z * Z) (fuel : nat) : M (option Z) :=
  let* ts := tty_read t in
  let* p := deref (tty_driver_data ts) in
  let* dev := dev_read p in
  let* c := deref (dlc dev) in
  let* r := tty_write_loop fuel world 0 p c buf 0 0 cnt in
  match r with
  | None => ret None
  | Some (e, sent) => ret (Some (if sent =? 0 then e else sent))
  end.

(** The value computed by [rfcomm_tty_write_room]: the difference is taken
    in [unsigned int] and stored in an [int]. *)
Definition write_room_of (d : rfcomm_dlc) (wmem : Z) : Z :=
  let room := to_int (rfcomm_room d - wmem) in
  if room <? 0 then 0 else room.

(** [rfcomm_tty_write_room]. *)
Definition rfcomm_tty_write_room (t : ptr) : M Z :=
  let* ts := tty_read t in
  match tty_driver_data ts with
  | None => ret 0
  | Some p =>
      let* dev := dev_read p in
      match dlc dev with
      | None => ret 0
      | Some c =>
          let* d := dlc_read c in
          ret (write_room_of d (wmem_alloc dev))
      end
  end.

(** Conversion to [u8] and [u16]. *)
Definition to_u8 (x : Z) : Z := x mod 2 ^ 8.
Definition to_u16 (x : Z) : Z := x mod 2 ^ 16.

(** [tty_termios_baud_rate] belongs to the TTY layer. *)
Variable tty_termios_baud_rate : ktermios -> Z.

(** The parameters of a remote port negotiation, as [rfcomm_send_rpn] takes
    them. *)
Record rpn := {
  rpn_baud : Z;
  rpn_data_bits : Z;
  rpn_stop_bits : Z;
  rpn_parity : Z;
  rpn_flow : Z;
  rpn_x_on : Z;
  rpn_x_off : Z;
  rpn_changes : Z
}.

Definition cc (t : ktermios) (i : nat) : Z := nth i (c_cc t) 0.

(** The translation made by [rfcomm_tty_set_termios], in the order of the
    source: each block sets one parameter and may add to [changes]. *)
Definition termios_to_rpn (old new : ktermios) : rpn :=
  let old_baud_rate := tty_termios_baud_rate old in
  let new_baud_rate := tty_termios_baud_rate new in
  let changes := 0 in
  (* Parity on/off and when on, odd/even *)
  let changes :=
    if negb (Z.land (c_cflag old) PARENB =? Z.land (c_cflag new) PARENB)
       || negb (Z.land (c_cflag old) PARODD =? Z.land (c_cflag new) PARODD)
    then to_u16 (Z.lor changes RFCOMM_RPN_PM_PARITY) else changes in
  let parity :=
    if negb (Z.land (c_cflag new) PARENB =? 0) then
      if negb (Z.land (c_cflag new) PARODD =? 0)
      then to_u8 RFCOMM_RPN_PARITY_ODD
      else to_u8 RFCOMM_RPN_PARITY_EVEN
    else to_u8 RFCOMM_RPN_PARITY_NONE in
  (* Setting the x_on / x_off characters *)
  let '(x_on, changes) :=
    if negb (cc old VSTOP =? cc new VSTOP)
    then (to_u8 (cc new VSTOP), to_u16 (Z.lor changes RFCOMM_RPN_PM_XON))
    else (to_u8 RFCOMM_RPN_XON_CHAR, changes) in
  let '(x_off, changes) :=
    if negb (cc old VSTART =? cc new VSTART)
    then (to_u8 (cc new VSTART), to_u16 (Z.lor changes RFCOMM_RPN_PM_XOFF))
    else (to_u8 RFCOMM_RPN_XOFF_CHAR, changes) in
  (* Handle setting of stop bits *)
  let changes :=
    if negb (Z.land (c_cflag old) CSTOPB =? Z.land (c_cflag new) CSTOPB)
    then to_u16 (Z.lor changes RFCOMM_RPN_PM_STOP) else changes in
  let stop_bits :=
    if negb (Z.land (c_cflag new) CSTOPB =? 0)
    then to_u8 RFCOMM_RPN_STOP_15 else to_u8 RFCOMM_RPN_STOP_1 in
  (* Handle number of data bits [5-8] *)
  let changes :=
    if negb (Z.land (c_cflag old) CSIZE =? Z.land (c_cflag new) CSIZE)
    then to_u16 (Z.lor changes RFCOMM_RPN_PM_DATA) else changes in
  let csize := Z.land (c_cflag new) CSIZE in
  let data_bits :=
    if csize =? CS5 then to_u8 RFCOMM_RPN_DATA_5
    else if csize =? CS6 then to_u8 RFCOMM_RPN_DATA_6
    else if csize =? CS7 then to_u8 RFCOMM_RPN_DATA_7
    else if csize =? CS8 then to_u8 RFCOMM_RPN_DATA_8
    else to_u8 RFCOMM_RPN_DATA_8 in
  (* Handle baudrate settings *)
  let changes :=
    if negb (old_baud_rate =? new_baud_rate)
    then to_u16 (Z.lor changes RFCOMM_RPN_PM_BITRATE) else changes in
  let baud :=
    if new_baud_rate =? 2400 then to_u8 RFCOMM_RPN_BR_2400
    else if new_baud_rate =? 4800 then to_u8 RFCOMM_RPN_BR_4800
    else if new_baud_rate =? 7200 then to_u8 RFCOMM_RPN_BR_7200
    else if new_baud_rate =? 9600 then to_u8 RFCOMM_RPN_BR_9600
    else if new_baud_rate =? 19200 then to_u8 RFCOMM_RPN_BR_19200
    else if new_baud_rate =? 38400 then to_u8 RFCOMM_RPN_BR_38400
    else if new_baud_rate =? 57600 then to_u8 RFCOMM_RPN_BR_57600
    else if new_baud_rate =? 115200 then to_u8 RFCOMM_RPN_BR_115200
    else if new_baud_rate =? 230400 then to_u8 RFCOMM_RPN_BR_230400
    else to_u8 RFCOMM_RPN_BR_9600 in
  {| rpn_baud := baud; rpn_data_bits := data_bits; rpn_stop_bits := stop_bits;
     rpn_parity := parity; rpn_flow := to_u8 RFCOMM_RPN_FLOW_NONE;
     rpn_x_on := x_on; rpn_x_off := x_off; rpn_changes := changes |}.

(** [rfcomm_send_rpn] belongs to the RFCOMM core. *)
Definition rfcomm_send_rpn (session : ptr) (cr dlci : Z) (r : rpn) : M unit :=
  emit (EvSendRpn session cr dlci (rpn_baud r) (rpn_data_bits r)
          (rpn_stop_bits r) (rpn_parity r) (rpn_flow r) (rpn_x_on r)
          (rpn_x_off r) (rpn_changes r)).

(** [rfcomm_tty_set_termios]: the new settings are those of the tty. *)
Definition rfcomm_tty_set_termios (t : ptr) (old : ktermios) : M unit :=
  let* ts := tty_read t in
  let new := tty_termios ts in
  match tty_driver_data ts with
  | None => ret tt
  | Some p =>
      let* dev := dev_read p in
      match dlc dev with
      | None => ret tt
      | Some c =>
          let* d := dlc_read c in
          match dlc_session d with
          | None => ret tt
          | Some session =>
              let r := termios_to_rpn old new in
              if negb (rpn_changes r =? 0)
              then rfcomm_send_rpn session 1 (dlc_dlci d) r
              else ret tt
          end
      end
  end.

(** [skb_dequeue(&dlc->tx_queue)]. *)
Definition skb_dequeue_tx (c : ptr) : M (option sk_buff) :=
  let* d := dlc_read c in
  match dlc_tx_queue d with
  | [] => ret None
  | skb :: q =>
      let* _ := dlc_modify c (set_dlc_tx_queue (fun _ => q)) in
      ret (Some skb)
  end.

(** [skb_queue_purge(&dlc->tx_queue)]; [n] bounds the number of buffers. *)
Fixpoint skb_queue_purge_tx (n : nat) (c : ptr) : M unit :=
  let* o := skb_dequeue_tx c in
  match o with
  | None => ret tt
  | Some skb =>
      match n with
      | O => fault
      | S n' => let* _ := kfree_skb skb in skb_queue_purge_tx n' c
      end
  end.

(** [rfcomm_tty_flush_buffer]. *)
Definition rfcomm_tty_flush_buffer (t : ptr) : M unit :=
  let* ts := tty_read t in
  match tty_driver_data ts with
  | None => ret tt
  | Some p =>
      let* dev := dev_read p in
      match dlc dev with
      | None => ret tt
      | Some c =>
          let* d := dlc_read c in
          let* _ := skb_queue_purge_tx (length (dlc_tx_queue d)) c in
          tty_wakeup t
      end
  end.

(** [rfcomm_tty_chars_in_buffer]. *)
Definition rfcomm_tty_chars_in_buffer (t : ptr) : M Z :=
  let* ts := tty_read t in
  match tty_driver_data ts with
  | None => ret 0
  | Some p =>
      let* dev := dev_read p in
      match dlc dev with
      | None => ret 0
      | Some c =>
          let* d := dlc_read c in
          if negb (bool_decide (dlc_tx_queue d = []))
          then ret (to_int (dlc_mtu d)) else ret 0
      end
  end.

(** [rfcomm_tty_hangup]. *)
Definition rfcomm_tty_hangup (t : ptr) : M unit :=
  let* ts := tty_read t in
  match tty_driver_data ts with
  | None => ret tt
  | Some p =>
      let* _ := rfcomm_tty_flush_buffer t in
      let* dev := dev_read p in
      if test_bit RFCOMM_RELEASE_ONHUP (flags dev) then
        let* r := rfcomm_dev_get (dev_id dev) in
        match r with
        | None => ret tt
        | Some _ =>
            let* _ := rfcomm_dev_del p in
            tty_port_put p
        end
      else ret tt
  end.

(** [tty_vhangup] belongs to the TTY layer: it hangs the tty up at once,
    which calls the hangup operation of the driver, [rfcomm_tty_hangup]. *)
Definition tty_vhangup (t : ptr) : M unit := rfcomm_tty_hangup t.

(** [rfcomm_tty_throttle] and [rfcomm_tty_unthrottle]. *)
Definition rfcomm_tty_throttle (t : ptr) : M unit :=
  let* ts := tty_read t in
  let* p := deref (tty_driver_data ts) in
  let* dev := dev_read p in
  let* c := deref (dlc dev) in
  emit (EvDlcThrottle c).

Definition rfcomm_tty_unthrottle (t : ptr) : M unit :=
  let* ts := tty_read t in
  let* p := deref (tty_driver_data ts) in
  let* dev := dev_read p in
  let* c := deref (dlc dev) in
  emit (EvDlcUnthrottle c).

(** [rfcomm_tty_tiocmget]. *)
Definition rfcomm_tty_tiocmget (t : ptr) : M Z :=
  let* ts := tty_read t in
  let* p := deref (tty_driver_data ts) in
  let* dev := dev_read p in
  ret (modem_status dev).

(** ** Device ioctls *)

(** [NOCAP_FLAGS]. *)
Definition NOCAP_FLAGS : Z :=
  Z.lor (BIT RFCOMM_REUSE_DLC) (BIT RFCOMM_RELEASE_ONHUP).

(** [rfcomm_create_dev].  [req] is what [copy_from_user] reads, if the
    address is good; [capable] is [capable(CAP_NET_ADMIN)]; [fresh] is the
    channel [rfcomm_dlc_alloc] gives, if any. *)
Definition rfcomm_create_dev (sk : ptr) (req : option rfcomm_dev_req)
    (capable : bool) (fresh : option rfcomm_dlc)
    (kzalloc_ok : bool) (register_err : option Z) : M kret :=
  match req with
  | None => ret (Err EFAULT)
  | Some req =>
      if negb (req_flags req =? NOCAP_FLAGS) && negb capable
      then ret (Err EPERM) else
      let reuse := negb (Z.land (req_flags req) (BIT RFCOMM_REUSE_DLC) =? 0) in
      let* oc :=
        (if reuse then
           let* k := sock_read sk in
           match sk_state k with
           | BT_CONNECTED =>
               let* _ := emit (EvDlcHold (sk_dlc k)) in
               ret (inl (sk_dlc k))
           | _ => ret (inr EBADFD)
           end
         else
           match fresh with
           | None => ret (inr ENOMEM)
           | Some d =>
               fun s => Done (inl (length (dlcs s)))
                             (set_dlcs (fun h => h ++ [d]) s)
           end) in
      match oc with
      | inr e => ret (Err e)
      | inl c =>
          let* r := rfcomm_dev_add req c kzalloc_ok register_err in
          match r with
          | Err e => let* _ := emit (EvDlcPut c) in ret (Err e)
          | Val id =>
              let* _ := (if reuse then sock_modify sk (set_sk_state BT_CLOSED)
                         else ret tt) in
              ret (Val id)
          end
      end
  end.

(** [rfcomm_release_dev].  [sync] is passed on to [rfcomm_dlc_close]. *)
Definition rfcomm_release_dev (req : option rfcomm_dev_req) (capable : bool)
    (sync : option Z) : M kret :=
  match req with
  | None => ret (Err EFAULT)
  | Some req =>
      let* r := rfcomm_dev_get (req_dev_id req) in
      match r with
      | None => ret (Err ENODEV)
      | Some p =>
          let* dev := dev_read p in
          if negb (flags dev =? NOCAP_FLAGS) && negb capable then
            let* _ := tty_port_put p in ret (Err EPERM)
          else
          let* _ := (if negb (Z.land (req_flags req) (BIT RFCOMM_HANGUP_NOW) =? 0)
                     then let* c := deref (dlc dev) in rfcomm_dlc_close c sync
                     else ret tt) in
          let* dev := dev_read p in
          let* _ := (match tty (port dev) with
                     | Some t => tty_vhangup t
                     | None => ret tt
                     end) in
          let* dev := dev_read p in
          let* _ := (if negb (test_bit RFCOMM_RELEASE_ONHUP (flags dev))
                     then rfcomm_dev_del p else ret tt) in
          let* _ := tty_port_put p in
          ret (Val 0)
      end
  end.

(** The summary of a device copied out by the two query ioctls. *)
Definition dev_info_of (dev : rfcomm_dev) (st : option bt_state) : rfcomm_dev_info :=
  {| di_id := dev_id dev; di_flags := flags dev; di_state := st;
     di_src := src dev; di_dst := dst dev; di_channel := channel dev |}.

Definition dev_dlc_state (dev : rfcomm_dev) : M bt_state :=
  let* c := deref (dlc dev) in
  let* d := dlc_read c in
  ret (dlc_state d).

(** The loop of [rfcomm_get_dev_list] over the registry: [acc] is what has
    been written to [di] so far, in order. *)
Fixpoint dev_list_collect (l : list ptr) (dev_num : Z)
    (acc : list rfcomm_dev_info) : M (list rfcomm_dev_info) :=
  match l with
  | [] => ret acc
  | p :: l' =>
      let* dev := dev_read p in
      if test_bit RFCOMM_TTY_RELEASED (flags dev)
      then dev_list_collect l' dev_num acc
      else
        let* st := dev_dlc_state dev in
        let acc' := acc ++ [dev_info_of dev (Some st)] in
        if Z.of_nat (length acc') >=? dev_num then ret acc'
        else dev_list_collect l' dev_num acc'
  end.

(** The bound of [rfcomm_get_dev_list] on the number of entries asked for,
    [(PAGE_SIZE * 4) / sizeof(struct rfcomm_dev_info)]. *)
Variable DEV_LIST_MAX : Z.

(** [rfcomm_get_dev_list].  [dev_num] is what [get_user] reads, if the
    address is good; [copy_ok] says whether [copy_to_user] succeeds.  The
    list is what is copied out. *)
Definition rfcomm_get_dev_list (dev_num : option Z) (kzalloc_ok copy_ok : bool)
    : M (kret * list rfcomm_dev_info) :=
  match dev_num with
  | None => ret (Err EFAULT, [])
  | Some dev_num =>
      if (dev_num =? 0) || (dev_num >? DEV_LIST_MAX) then ret (Err EINVAL, [])
      else if negb kzalloc_ok then ret (Err ENOMEM, [])
      else
        let* s := get_state in
        let* dl := dev_list_collect (rfcomm_dev_list s) dev_num [] in
        if copy_ok then ret (Val 0, dl) else ret (Err EFAULT, [])
  end.

(** [rfcomm_get_dev_info].  [di] is what [copy_from_user] reads. *)
Definition rfcomm_get_dev_info (di : option rfcomm_dev_info) (copy_ok : bool)
    : M (kret * option rfcomm_dev_info) :=
  match di with
  | None => ret (Err EFAULT, None)
  | Some di =>
      let* r := rfcomm_dev_get (di_id di) in
      match r with
      | None => ret (Err ENODEV, None)
      | Some p =>
          let* dev := dev_read p in
          let* st := dev_dlc_state dev in
          let di' := {| di_id := di_id di; di_flags := flags dev;
                        di_state := Some st; di_src := src dev;
                        di_dst := dst dev; di_channel := channel dev |} in
          let* _ := tty_port_put p in
          if copy_ok then ret (Val 0, Some di') else ret (Err EFAULT, None)
      end
  end.

(** ** Modem control lines *)

(** The signals [rfcomm_tty_tiocmset] hands to [rfcomm_dlc_set_modem_status]:
    [v24_sig] is the [u8] that [rfcomm_dlc_get_modem_status] has filled in. *)
Definition tiocmset_v24_sig (set clear : Z) (v24_sig : Z) : Z :=
  let v := to_u8 v24_sig in
  let v := if negb (Z.land set TIOCM_DSR =? 0) || negb (Z.land set TIOCM_DTR =? 0)
           then to_u8 (Z.lor v RFCOMM_V24_RTC) else v in
  let v := if negb (Z.land set TIOCM_RTS =? 0) || negb (Z.land set TIOCM_CTS =? 0)
           then to_u8 (Z.lor v RFCOMM_V24_RTR) else v in
  let v := if negb (Z.land set TIOCM_RI =? 0)
           then to_u8 (Z.lor v RFCOMM_V24_IC) else v in
  let v := if negb (Z.land set TIOCM_CD =? 0)
           then to_u8 (Z.lor v RFCOMM_V24_DV) else v in
  let v := if negb (Z.land clear TIOCM_DSR =? 0) || negb (Z.land clear TIOCM_DTR =? 0)
           then to_u8 (Z.land v (Z.lnot RFCOMM_V24_RTC)) else v in
  let v := if negb (Z.land clear TIOCM_RTS =? 0) || negb (Z.land clear TIOCM_CTS =? 0)
           then to_u8 (Z.land v (Z.lnot RFCOMM_V24_RTR)) else v in
  let v := if negb (Z.land clear TIOCM_RI =? 0)
           then to_u8 (Z.land v (Z.lnot RFCOMM_V24_IC)) else v in
  let v := if negb (Z.land clear TIOCM_CD =? 0)
           then to_u8 (Z.land v (Z.lnot RFCOMM_V24_DV)) else v in
  v.

(** [rfcomm_tty_tiocmset].  [v24_sig] is what [rfcomm_dlc_get_modem_status]
    reads from the channel. *)
Definition rfcomm_tty_tiocmset (t : ptr) (set clear : Z) (v24_sig : Z) : M Z :=
  let* ts := tty_read t in
  let* p := deref (tty_driver_data ts) in
  let* dev := dev_read p in
  let* c := deref (dlc dev) in
  let* _ := emit (EvSetModemStatus c (tiocmset_v24_sig set clear v24_sig)) in
  ret 0.

(** The V.24 signals that a mask of modem lines names, by the tests of
    [rfcomm_tty_tiocmset]: DSR or DTR name RTC, RTS or CTS name RTR, RI names
    IC and CD names DV. *)
Definition tiocm_v24 (m : Z) : Z :=
  Z.lor (Z.lor (Z.lor
    (if negb (Z.land m TIOCM_DSR =? 0) || negb (Z.land m TIOCM_DTR =? 0)
     then RFCOMM_V24_RTC else 0)
    (if negb (Z.land m TIOCM_RTS =? 0) || negb (Z.land m TIOCM_CTS =? 0)
     then RFCOMM_V24_RTR else 0))
    (if negb (Z.land m TIOCM_RI =? 0) then RFCOMM_V24_IC else 0))
    (if negb (Z.land m TIOCM_CD =? 0) then RFCOMM_V24_DV else 0).

End Tty.

(** ** Running the model *)

(** The state after a call, and its result; a call that ends in a fatal
    assertion or a fault leaves no state. *)
Definition state_after {A} (m : M A) (s : kstate) : option kstate :=
  match m s with
  | Done _ s' => Some s'
  | _ => None
  end.

Definition result_of {A} (m : M A) (s : kstate) : option A :=
  match m s with
  | Done a _ => Some a
  | _ => None
  end.

(** Run a call from a state that may already be lost. *)
Definition then_run {A} (o : option kstate) (m : M A) : option kstate :=
  match o with
  | Some s => state_after m s
  | None => None
  end.

(** ** Example states *)

Module Ex.
Section Ex.
Local Existing Instance linux_rfcomm_h.
Local Existing Instance linux_termios_h.

(** Baud rate of the examples: the CBAUD bits of c_cflag, as the TTY layer
    reads them (B2400 .. B38400 and B57600 .. B230400). *)
Definition baud_rate (t : ktermios) : Z :=
  let cbaud := Z.land (c_cflag t) 0x100f in
  if cbaud =? 0xb then 2400 else if cbaud =? 0xc then 4800
  else if cbaud =? 0xd then 9600 else if cbaud =? 0xe then 19200
  else if cbaud =? 0xf then 38400 else if cbaud =? 0x1001 then 57600
  else if cbaud =? 0x1002 then 115200 else if cbaud =? 0x1003 then 230400
  else 0.

(** B9600 | CS8 | CREAD | HUPCL | CLOCAL, and the standard characters. *)
Definition std_termios : ktermios :=
  {| c_cflag := 0xcbd;
     c_cc := [3; 28; 127; 21; 4; 0; 1; 0; 17; 19; 26; 0; 18; 15; 23; 22; 0] |}.

Definition new_tty (index : Z) : tty_struct :=
  {| tty_index := index; tty_driver_data := None; tty_termios := std_termios |}.

Definition new_dlc (mtu credits : Z) : rfcomm_dlc :=
  {| dlc_state := BT_OPEN; dlc_mtu := mtu; dlc_tx_credits := credits;
     dlc_owner_of := OwnerNull; dlc_session := Some 0%nat; dlc_dlci := 2;
     dlc_remote_v24_sig := 0; dlc_tx_queue := []; dlc_cb := CallbacksOther |}.

Definition chunk (b : byte) : sk_buff :=
  {| skb_data := [b]; skb_truesize := 256; skb_sk := None |}.

Definition chunk_A := chunk "A"%byte.
Definition chunk_B := chunk "B"%byte.
Definition chunk_C := chunk "C"%byte.
Definition chunk_D := chunk "D"%byte.

(** Boot: no device, four ttys (one per minor 0..3), and a connected
    socket whose channel has received A, B. *)
Definition boot : kstate :=
  {| devs := []; rfcomm_dev_list := [];
     dlcs := [ {| dlc_state := BT_CONNECTED; dlc_mtu := 127; dlc_tx_credits := 7;
                  dlc_owner_of := OwnerSock 0%nat; dlc_session := Some 0%nat;
                  dlc_dlci := 4; dlc_remote_v24_sig := 0; dlc_tx_queue := [];
                  dlc_cb := CallbacksOther |} ];
     ttys := [new_tty 0; new_tty 1; new_tty 2; new_tty 3];
     socks := [ {| sk_state := BT_CONNECTED;
                   sk_receive_queue := [chunk_A; chunk_B];
                   sk_rmem_alloc := 512; sk_dlc := 0%nat |} ];
     module_refs := 1; log := [] |}.

Definition req_any (fl : Z) : rfcomm_dev_req :=
  {| req_dev_id := -1; req_flags := fl; req_src := 0; req_dst := 0xAABBCC;
     req_channel := 1 |}.

Definition req_id (id fl : Z) : rfcomm_dev_req :=
  {| req_dev_id := id; req_flags := fl; req_src := 0; req_dst := 0xAABBCC;
     req_channel := 1 |}.

(** create with a fresh channel of the given MTU and credits *)
Definition create (r : rfcomm_dev_req) (mtu credits : Z) : M kret :=
  rfcomm_create_dev 0%nat (Some r) true (Some (new_dlc mtu credits)) true None.

(** open on tty [t] that returns without waiting or finds the channel
    connected at the first look *)
Definition open (t : ptr) : M (option kret) :=
  rfcomm_tty_open t 0 false [] true.

(** the channel layer reports a new state of channel [c] *)
Definition dlc_event (c : ptr) (st : bt_state) (e : Z) : M unit :=
  let* _ := dlc_modify c (set_dlc_state st) in
  rfcomm_dev_state_change c e.

(** A channel of MTU 1024 with 2^22 credits, its device open on tty 0. *)
Definition wide : option kstate :=
  then_run (then_run (state_after (create (req_any 0) 1024 4194304) boot)
                     (dlc_modify 1%nat (set_dlc_state BT_CONNECTED)))
           (open 0%nat).





(** The state a run reaches; [boot] stands for a run that was lost. *)
Definition reached (o : option kstate) : kstate :=
  match o with
  | Some s => s
  | None => boot
  end.

(** Three devices, ids 0, 1, 2, none of them open. *)
Definition three : kstate :=
  Eval vm_compute in
    reached (then_run (then_run (state_after (create (req_any 0) 127 7) boot)
                                (create (req_any 0) 127 7))
                      (create (req_any 0) 127 7)).

(** One device, id 0, on a connected channel of MTU 127, open on tty 0. *)
Definition one_open : kstate :=
  Eval vm_compute in
    reached (then_run (then_run (state_after (create (req_any 0) 127 7) boot)
                                (dlc_modify 1%nat (set_dlc_state BT_CONNECTED)))
                      (open 0%nat)).



(** The channel of the connected socket handed over to a new device
    ("reuse channel"): the chunks A, B the socket had received are pending. *)
Definition handoff : kstate :=
  Eval vm_compute in
    reached (state_after
               (rfcomm_create_dev 0%nat (Some (req_any 1)) true None true None)
               boot).

(** release of device [id], without "hang up now" *)
Definition release (id : Z) : M kret :=
  rfcomm_release_dev (Some (req_id id 0)) true None.

(** The same after device 1 has been released: ids 0, 2. *)
Definition three_less_1 : kstate :=
  Eval vm_compute in reached (state_after (release 1) three).

End Ex.
End Ex.

(** ** The registry as the ioctls see it *)

(** The live record behind a pointer. *)
Definition dev_at (s : kstate) (p : ptr) : option rfcomm_dev :=
  match devs s !! p with
  | Some (Some d) => Some d
  | _ => None
  end.

Definition id_of (s : kstate) (p : ptr) : option Z :=
  match dev_at s p with
  | Some d => Some (dev_id d)
  | None => None
  end.

(** The ids of the registry, in list order; nothing when an entry of the
    registry is not a live record. *)
Definition registry_ids (s : kstate) : option (list Z) :=
  mapM (id_of s) (rfcomm_dev_list s).

(** The registry is well formed with ids [ids]: every entry is a live
    record, and the ids are in strictly ascending order and in
    [0, RFCOMM_MAX_DEV). *)
Definition registry_ok `{rfcomm_h} (s : kstate) (ids : list Z) : Prop :=
  registry_ids s = Some ids /\
  StronglySorted Z.lt ids /\
  Forall (fun i => 0 <= i < RFCOMM_MAX_DEV) ids.

(** The bytes of a queue of buffers. *)
Definition sum_len (q : list sk_buff) : Z :=
  fold_right (fun skb n => skb_len skb + n) 0 q.



(** The record [rfcomm_dev_add] makes for request [req] with id [id] on
    channel [c], when the channel had signals [v24_sig] and [q] is what the
    reused socket had received. *)
Definition added_dev `{rfcomm_h} `{termios_h} (req : rfcomm_dev_req) (id : Z)
    (c : ptr) (v24_sig : Z) (q : list sk_buff) : rfcomm_dev :=
  {| port := {| count := 0; tty := None; kref := 1; flip_buf := [];
                flip_pushes := 0 |};
     dev_id := id;
     flags := Z.land (req_flags req)
                (Z.lor (BIT RFCOMM_RELEASE_ONHUP) (BIT RFCOMM_REUSE_DLC));
     err := 0; src := req_src req; dst := req_dst req;
     channel := req_channel req; modem_status := v24_to_tiocm v24_sig;
     dlc := Some c; tty_dev_parent := false; wmem_alloc := 0;
     pending := map skb_orphan q |}.

(** Whether a request asks to reuse the channel of the socket. *)
Definition req_reuse `{rfcomm_h} (req : rfcomm_dev_req) : bool :=
  negb (Z.land (req_flags req) (BIT RFCOMM_REUSE_DLC) =? 0).

(** A socket after [rfcomm_dev_add] has taken its receive queue. *)
Definition drained (sk : sock) : sock :=
  {| sk_state := sk_state sk; sk_receive_queue := [];
     sk_rmem_alloc := sk_rmem_alloc sk - sum_len (sk_receive_queue sk);
     sk_dlc := sk_dlc sk |}.

(** What a request can take over from the owner of the channel [d]: with
    "reuse" the owner is a socket, whose receive queue [q] is taken; without
    it nothing is taken. [socks'] are the sockets afterwards. *)
Definition add_takes `{rfcomm_h} (req : rfcomm_dev_req) (d : rfcomm_dlc)
    (s : kstate) (q : list sk_buff) (socks' : list sock) : Prop :=
  if req_reuse req then
    exists k sk, dlc_owner_of d = OwnerSock k /\ socks s !! k = Some sk /\
                 q = sk_receive_queue sk /\ socks' = <[k := drained sk]> (socks s)
  else q = [] /\ socks' = socks s.

(** [s'] has the registry and every live record of [s], unchanged, and the
    same channels, ttys and sockets. *)
Definition untouched (s s' : kstate) : Prop :=
  rfcomm_dev_list s' = rfcomm_dev_list s /\
  (forall p d, dev_at s p = Some d -> dev_at s' p = Some d) /\
  (forall p d, dev_at s' p = Some d -> dev_at s p = Some d) /\
  dlcs s' = dlcs s /\ ttys s' = ttys s /\ socks s' = socks s.

(** The constants of Linux with room for three devices only, to reach a
    full registry in the examples. *)
Definition three_dev_rfcomm_h : rfcomm_h := {|
  RFCOMM_MAX_DEV := 3;
  RFCOMM_SKB_RESERVE := 21;
  RFCOMM_REUSE_DLC := 0;
  RFCOMM_RELEASE_ONHUP := 1;
  RFCOMM_HANGUP_NOW := 2;
  RFCOMM_TTY_ATTACHED := 3;
  RFCOMM_TTY_RELEASED := 4;
  RFCOMM_V24_RTC := 0x04;
  RFCOMM_V24_RTR := 0x08;
  RFCOMM_V24_IC := 0x40;
  RFCOMM_V24_DV := 0x80;
  RFCOMM_RPN_BR_2400 := 0;
  RFCOMM_RPN_BR_4800 := 1;
  RFCOMM_RPN_BR_7200 := 2;
  RFCOMM_RPN_BR_9600 := 3;
  RFCOMM_RPN_BR_19200 := 4;
  RFCOMM_RPN_BR_38400 := 5;
  RFCOMM_RPN_BR_57600 := 6;
  RFCOMM_RPN_BR_115200 := 7;
  RFCOMM_RPN_BR_230400 := 8;
  RFCOMM_RPN_DATA_5 := 0;
  RFCOMM_RPN_DATA_6 := 1;
  RFCOMM_RPN_DATA_7 := 2;
  RFCOMM_RPN_DATA_8 := 3;
  RFCOMM_RPN_STOP_1 := 0;
  RFCOMM_RPN_STOP_15 := 1;
  RFCOMM_RPN_PARITY_NONE := 0;
  RFCOMM_RPN_PARITY_ODD := 1;
  RFCOMM_RPN_PARITY_EVEN := 3;
  RFCOMM_RPN_FLOW_NONE := 0;
  RFCOMM_RPN_XON_CHAR := 0x11;
  RFCOMM_RPN_XOFF_CHAR := 0x13;
  RFCOMM_RPN_PM_BITRATE := 0x0001;
  RFCOMM_RPN_PM_DATA := 0x0002;
  RFCOMM_RPN_PM_STOP := 0x0004;
  RFCOMM_RPN_PM_PARITY := 0x0008;
  RFCOMM_RPN_PM_XON := 0x0020;
  RFCOMM_RPN_PM_XOFF := 0x0040
|}.

(** ** The line settings, as the specification words them *)

Section SettingsSpec.
Context {RH : rfcomm_h} {TH : termios_h}.
Variable tty_termios_baud_rate : ktermios -> Z.





(** The two settings differ in the stop-bit flag and in nothing else that
    the translator looks at. *)
Definition only_stop_changed (old new : ktermios) : Prop :=
  Z.land (c_cflag old) PARENB = Z.land (c_cflag new) PARENB /\
  Z.land (c_cflag old) PARODD = Z.land (c_cflag new) PARODD /\
  Z.land (c_cflag old) CSIZE = Z.land (c_cflag new) CSIZE /\
  cc old VSTOP = cc new VSTOP /\
  cc old VSTART = cc new VSTART /\
  tty_termios_baud_rate old = tty_termios_baud_rate new /\
  Z.land (c_cflag old) CSTOPB <> Z.land (c_cflag new) CSTOPB.






End SettingsSpec.

(** ** Inbound delivery of several chunks *)

Section Inbound.
Context {RH : rfcomm_h} {TH : termios_h}.

(** The channel hands the chunks [cs] to [rfcomm_dev_data_ready], one call
    per chunk, in order. *)
Fixpoint data_ready_all (c : ptr) (cs : list sk_buff) : M unit :=
  match cs with
  | [] => ret tt
  | skb :: cs' =>
      let* _ := rfcomm_dev_data_ready c skb in
      data_ready_all c cs'
  end.

End Inbound.

(** An inbound chunk: it has no write-side owner and no destructor. *)
Definition inbound (skb : sk_buff) : Prop := skb_sk skb = None.

(** ** Reference counting *)

(** The transmit buffers of a queue that hold a reference on device [p]. *)
Definition skb_refs (p : ptr) (q : list sk_buff) : Z :=
  Z.of_nat (length (filter (fun k => skb_sk k = Some p) q)).

(** The transmit buffers of all channels that hold a reference on [p]. *)
Definition tx_refs (s : kstate) (p : ptr) : Z :=
  fold_right (fun d n => skb_refs p (dlc_tx_queue d) + n) 0 (dlcs s).

(** The transmit queues of the channels. *)
Definition tx_queues (s : kstate) : list (list sk_buff) :=
  map dlc_tx_queue (dlcs s).

Section Invariant.
Context {RH : rfcomm_h}.

(** What holds of a live record [dev] at [p] while the running call holds
    [held] references of its own on it: what is pending are inbound chunks;
    and while the record is on the list of the registry its reference
    count covers the reference of the registry, one per open, one per
    transmit buffer and those of the call, and its open count is not
    negative. *)
Definition dev_ok (s : kstate) (p : ptr) (dev : rfcomm_dev) (held : Z) : Prop :=
  Forall inbound (pending dev) /\
  (p ∈ rfcomm_dev_list s ->
   1 + count (port dev) + tx_refs s p + held <= kref (port dev) /\
   0 <= count (port dev)).

(** The invariant of the kernel state, for a call that holds [held p]
    references on each [p]; [closing] is the device [rfcomm_tty_close] has
    taken the last open from and not yet detached, if any. *)
Definition inv (s : kstate) (held : ptr -> Z) (closing : option ptr) : Prop :=
  (exists ids, registry_ok s ids) /\
  (forall p, 0 <= held p) /\
  (forall p dev, devs s !! p = Some (Some dev) -> dev_ok s p dev (held p)) /\
  (forall t ts p dev, ttys s !! t = Some ts -> tty_driver_data ts = Some p ->
     p ∈ rfcomm_dev_list s -> devs s !! p = Some (Some dev) ->
     1 <= count (port dev) \/ closing = Some p) /\
  (forall t1 t2 ts1 ts2 p,
     ttys s !! t1 = Some ts1 -> ttys s !! t2 = Some ts2 ->
     tty_driver_data ts1 = Some p -> tty_driver_data ts2 = Some p ->
     p ∈ rfcomm_dev_list s -> t1 = t2) /\
  (forall c d skb p, dlcs s !! c = Some d -> skb ∈ dlc_tx_queue d ->
     skb_sk skb = Some p -> (p < length (devs s))%nat) /\
  (forall p, closing = Some p -> 1 <= held p) /\
  (forall t ts p, ttys s !! t = Some ts -> tty_driver_data ts = Some p ->
     (p < length (devs s))%nat).

(** No reference is held between calls. *)
Definition no_refs : ptr -> Z := fun _ => 0.

(** One more (or less) reference held on [p]. *)
Definition hold (held : ptr -> Z) (p : ptr) (k : Z) : ptr -> Z :=
  fun q => if bool_decide (q = p) then held q + k else held q.

(** The constants that name the bits of the flags are distinct bits. *)
Definition flag_bits_ok : Prop :=
  0 <= RFCOMM_TTY_ATTACHED /\ 0 <= RFCOMM_TTY_RELEASED /\
  0 <= RFCOMM_RELEASE_ONHUP /\ 0 <= RFCOMM_REUSE_DLC /\
  RFCOMM_TTY_ATTACHED <> RFCOMM_TTY_RELEASED /\
  RFCOMM_RELEASE_ONHUP <> RFCOMM_TTY_RELEASED /\
  RFCOMM_REUSE_DLC <> RFCOMM_TTY_RELEASED /\
  RFCOMM_RELEASE_ONHUP <> RFCOMM_TTY_ATTACHED /\
  RFCOMM_REUSE_DLC <> RFCOMM_TTY_ATTACHED.

(** A call is safe from [s] when it does not trip the assertion of the
    destructor, and [Q] holds of its result when it returns. *)
Definition safe {A} (m : M A) (s : kstate) (Q : A -> kstate -> Prop) : Prop :=
  match m s with
  | Done a s' => Q a s'
  | Bug b => b <> BUG_destruct_on_list
  | Fault => True
  end.

End Invariant.

(** A call that changes no tty and puts nothing on the list of the
    registry. *)
Definition keeps {A} (m : M A) : Prop :=
  forall s a s', m s = Done a s' ->
    ttys s' = ttys s /\
    (forall q, q ∈ rfcomm_dev_list s' -> q ∈ rfcomm_dev_list s).

(** A call that at most adds to the log: it trips no assertion and leaves
    the records, the registry, the channels and the ttys as they are. *)
Definition quiet {A} (m : M A) : Prop :=
  forall s, match m s with
            | Done _ s' => devs s' = devs s /\
                           rfcomm_dev_list s' = rfcomm_dev_list s /\
                           ttys s' = ttys s /\ dlcs s' = dlcs s
            | Bug _ => False
            | Fault => True
            end.

(** ** Sequences of calls *)

Section Calls.
Context {RH : rfcomm_h} {TH : termios_h}.
Variable tty_termios_baud_rate : ktermios -> Z.
Variable DEV_LIST_MAX : Z.

(** The entry points of the driver: the device ioctls, the callbacks of
    the channel, the operations of the tty, and two steps of the RFCOMM
    core, which frees a buffer it has sent and moves a channel to a new
    state.  Each carries its arguments and the answers of the world around
    the driver.  An open sleeps while it waits for the channel: it carries
    the calls made by others during each sleep. *)
#[warnings="-register-all"]
Inductive call : Type :=
  | CCreate (sk : ptr) (req : option rfcomm_dev_req) (capable : bool)
      (fresh : option rfcomm_dlc) (kzalloc_ok : bool) (register_err : option Z)
  | CRelease (req : option rfcomm_dev_req) (capable : bool) (sync : option Z)
  | CGetList (dev_num : option Z) (kzalloc_ok copy_ok : bool)
  | CGetInfo (di : option rfcomm_dev_info) (copy_ok : bool)
  | CDataReady (c : ptr) (skb : sk_buff)
  | CStateChange (c : ptr) (e : Z)
  | CModemStatus (c : ptr) (v24_sig : Z)
  | CTxDone (c : ptr)
  | COpen (t : ptr) (open_err : Z) (signal_pending : bool)
      (env : list (list call * bool)) (has_conn : bool)
  | CClose (t : ptr) (sync : option Z)
  | CWrite (t : ptr) (buf : list byte) (cnt : Z) (world : nat -> option Z * Z)
      (fuel : nat)
  | CWriteRoom (t : ptr)
  | CSetTermios (t : ptr) (old : ktermios)
  | CFlushBuffer (t : ptr)
  | CCharsInBuffer (t : ptr)
  | CHangup (t : ptr)
  | CThrottle (t : ptr)
  | CUnthrottle (t : ptr)
  | CTiocmget (t : ptr)
  | CDlcState (c : ptr) (st : bt_state).

(** The RFCOMM core takes the first buffer off the transmit queue of a
    channel, sends it and frees it. *)
Definition tx_done (c : ptr) : M unit :=
  let* o := skb_dequeue_tx c in
  match o with
  | Some skb => kfree_skb skb
  | None => ret tt
  end.

(** Running a call; its result is dropped. *)
Fixpoint run_call (c : call) : M unit :=
  match c with
  | CCreate sk req capable fresh kz reg =>
      let* _ := rfcomm_create_dev sk req capable fresh kz reg in ret tt
  | CRelease req capable sync =>
      let* _ := rfcomm_release_dev req capable sync in ret tt
  | CGetList dev_num kz copy_ok =>
      let* _ := rfcomm_get_dev_list DEV_LIST_MAX dev_num kz copy_ok in ret tt
  | CGetInfo di copy_ok =>
      let* _ := rfcomm_get_dev_info di copy_ok in ret tt
  | CDataReady c skb => rfcomm_dev_data_ready c skb
  | CStateChange c e => rfcomm_dev_state_change c e
  | CModemStatus c v => rfcomm_dev_modem_status c v
  | CTxDone c => tx_done c
  | COpen t open_err sig env has_conn =>
      let run_all :=
        fix run_all (cs : list call) : M unit :=
          match cs with
          | [] => ret tt
          | c' :: cs' => let* _ := run_call c' in run_all cs'
          end in
      let* _ := rfcomm_tty_open t open_err sig
                  (map (fun e => (run_all (fst e), snd e)) env) has_conn in
      ret tt
  | CClose t sync => rfcomm_tty_close t sync
  | CWrite t buf cnt world fuel =>
      let* _ := rfcomm_tty_write t buf cnt world fuel in ret tt
  | CWriteRoom t => let* _ := rfcomm_tty_write_room t in ret tt
  | CSetTermios t old => rfcomm_tty_set_termios tty_termios_baud_rate t old
  | CFlushBuffer t => rfcomm_tty_flush_buffer t
  | CCharsInBuffer t => let* _ := rfcomm_tty_chars_in_buffer t in ret tt
  | CHangup t => rfcomm_tty_hangup t
  | CThrottle t => rfcomm_tty_throttle t
  | CUnthrottle t => rfcomm_tty_unthrottle t
  | CTiocmget t => let* _ := rfcomm_tty_tiocmget t in ret tt
  | CDlcState c st => dlc_modify c (set_dlc_state st)
  end.

(** Running calls one after the other. *)
Fixpoint run_calls (cs : list call) : M unit :=
  match cs with
  | [] => ret tt
  | c :: cs' => let* _ := run_call c in run_calls cs'
  end.

(** What the world around the driver keeps to: a chunk handed in by the
    channel has no write-side owner, and a channel just allocated has
    nothing to transmit. *)
Fixpoint call_ok (c : call) : Prop :=
  match c with
  | CCreate _ _ _ fresh _ _ =>
      match fresh with Some d => dlc_tx_queue d = [] | None => True end
  | CDataReady _ skb => inbound skb
  | COpen _ _ _ env _ =>
      let all_ok :=
        fix all_ok (cs : list call) : Prop :=
          match cs with
          | [] => True
          | c' :: cs' => call_ok c' /\ all_ok cs'
          end in
      fold_right (fun e P => all_ok (fst e) /\ P) True env
  | _ => True
  end.

Fixpoint calls_ok (cs : list call) : Prop :=
  match cs with
  | [] => True
  | c :: cs' => call_ok c /\ calls_ok cs'
  end.

End Calls.

(** ** The initial state, and calls on the example states *)

(** The state the driver starts from: no device, no tty attached, nothing
    to transmit. *)
Definition initial (s : kstate) : Prop :=
  devs s = [] /\ rfcomm_dev_list s = [] /\
  Forall (fun ts => tty_driver_data ts = None) (ttys s) /\
  Forall (fun d => dlc_tx_queue d = []) (dlcs s).

Module ExCalls.
Section ExCalls.
Local Existing Instance linux_rfcomm_h.
Local Existing Instance linux_termios_h.

(** A device is created, its channel connects, it is opened on tty 0,
    released while open, and closed. *)
Definition teardown : list call :=
  [ CCreate 0%nat (Some (Ex.req_any 0)) true (Some (Ex.new_dlc 127 7)) true None;
    CDlcState 1%nat BT_CONNECTED;
    COpen 0%nat 0 false [] true;
    CRelease (Some (Ex.req_id 0 0)) true None;
    CClose 0%nat None ].

(** The calls that lead from [Ex.boot] to [Ex.one_open]. *)
Definition setup : list call :=
  [ CCreate 0%nat (Some (Ex.req_any 0)) true (Some (Ex.new_dlc 127 7)) true None;
    CDlcState 1%nat BT_CONNECTED;
    COpen 0%nat 0 false [] true ].

(** The record, the tty and the channel of the device of [Ex.one_open]. *)
Definition open_dev : rfcomm_dev :=
  Eval vm_compute in default zero_dev (dev_at Ex.one_open 0%nat).

Definition open_tty : tty_struct :=
  Eval vm_compute in default (Ex.new_tty 0) (ttys Ex.one_open !! 0%nat).

Definition open_dlc : rfcomm_dlc :=
  Eval vm_compute in default (Ex.new_dlc 0 0) (dlcs Ex.one_open !! 1%nat).


(** [Ex.one_open] once its device has been released, without "hang up
    now", while it is open. *)
Definition one_open_released : kstate :=
  Eval vm_compute in Ex.reached (state_after (Ex.release 0) Ex.one_open).

(** The record of the device in that state. *)
Definition released_dev : rfcomm_dev :=
  Eval vm_compute in default zero_dev (dev_at one_open_released 0%nat).

(** The record of device 0 of [Ex.three], which is not open. *)
Definition closed_dev : rfcomm_dev :=
  Eval vm_compute in default zero_dev (dev_at Ex.three 0%nat).



End ExCalls.
End ExCalls.

(** ** Relations between states *)

(** Two records that differ at most in the reference count and in the
    bytes accounted. *)
Definition same_but_refs (dev dev' : rfcomm_dev) : Prop :=
  set_wmem_alloc (fun _ => 0) (set_port (set_kref (fun _ => 0)) dev')
  = set_wmem_alloc (fun _ => 0) (set_port (set_kref (fun _ => 0)) dev).

(** [s'] is [s] but for the record at [p], the channel [c], the sockets,
    the module count and the log. *)
Definition updated (s s' : kstate) (p : ptr) (dev' : rfcomm_dev) (c : ptr)
    (d' : rfcomm_dlc) : Prop :=
  devs s' = <[p := Some dev']> (devs s) /\
  dlcs s' = <[c := d']> (dlcs s) /\
  rfcomm_dev_list s' = rfcomm_dev_list s /\
  ttys s' = ttys s.

(** ** What the list ioctl shows *)

(** The entry [rfcomm_get_dev_list] writes for the record at [p]: none for a
    record marked released. *)
Definition info_at `{rfcomm_h} (s : kstate) (p : ptr) : option rfcomm_dev_info :=
  match dev_at s p with
  | Some dev =>
      if test_bit RFCOMM_TTY_RELEASED (flags dev) then None
      else match dlc dev with
           | Some c =>
               match dlcs s !! c with
               | Some d => Some (dev_info_of dev (Some (dlc_state d)))
               | None => None
               end
           | None => None
           end
  | None => None
  end.

(** The entries of the whole registry, in list order. *)
Definition visible_infos `{rfcomm_h} (s : kstate) : list rfcomm_dev_info :=
  omap (info_at s) (rfcomm_dev_list s).

(** Every record of the registry is live and has its channel. *)
Definition registry_linked (s : kstate) : Prop :=
  Forall (fun p => exists dev c d, devs s !! p = Some (Some dev) /\
                                   dlc dev = Some c /\ dlcs s !! c = Some d)
         (rfcomm_dev_list s).

(** ** Further example states *)

Module ExMore.
Section ExMore.
Local Existing Instance linux_rfcomm_h.
Local Existing Instance linux_termios_h.

(** One device, id 0, "release on hang-up", not open. *)
Definition onhup : kstate :=
  Eval vm_compute in
    Ex.reached (state_after (Ex.create (Ex.req_any 2) 127 7) Ex.boot).

Definition onhup_dev : rfcomm_dev :=
  Eval vm_compute in default zero_dev (dev_at onhup 0%nat).

(** [Ex.one_open] after a second open of tty 0. *)
Definition twice_open : kstate :=
  Eval vm_compute in Ex.reached (state_after (Ex.open 0%nat) Ex.one_open).

Definition twice_open_dev : rfcomm_dev :=
  Eval vm_compute in default zero_dev (dev_at twice_open 0%nat).

(** [Ex.one_open] after a write of 300 bytes, of which two buffers of 127
    bytes are queued on the channel. *)
Definition written : kstate :=
  Eval vm_compute in
    Ex.reached (state_after
                  (rfcomm_tty_write 0%nat (repeat "x"%byte 300) 300
                     (fun _ => (Some 512, 0)) 300)
                  Ex.one_open).

Definition written_dev : rfcomm_dev :=
  Eval vm_compute in default zero_dev (dev_at written 0%nat).

Definition written_dlc : rfcomm_dlc :=
  Eval vm_compute in default (Ex.new_dlc 0 0) (dlcs written !! 1%nat).

(** [onhup] once the channel of the device is closed. *)
Definition onhup_closed : kstate :=
  Eval vm_compute in
    Ex.reached (state_after (dlc_modify 1%nat (set_dlc_state BT_CLOSED)) onhup).

Definition onhup_closed_dlc : rfcomm_dlc :=
  Eval vm_compute in default (Ex.new_dlc 0 0) (dlcs onhup_closed !! 1%nat).

(** The socket and the channel of [Ex.boot]. *)
Definition boot_sock : sock :=
  Eval vm_compute in
    default {| sk_state := BT_CLOSED; sk_receive_queue := [];
               sk_rmem_alloc := 0; sk_dlc := 0%nat |} (socks Ex.boot !! 0%nat).

Definition boot_dlc : rfcomm_dlc :=
  Eval vm_compute in default (Ex.new_dlc 0 0) (dlcs Ex.boot !! 0%nat).

(** A "release on hang-up" device, id 0, on a connected channel, open on
    tty 0. *)
Definition onhup_open : kstate :=
  Eval vm_compute in
    Ex.reached (then_run (then_run (state_after (Ex.create (Ex.req_any 2) 127 7) Ex.boot)
                                   (dlc_modify 1%nat (set_dlc_state BT_CONNECTED)))
                         (Ex.open 0%nat)).

Definition onhup_open_dev : rfcomm_dev :=
  Eval vm_compute in default zero_dev (dev_at onhup_open 0%nat).

Definition onhup_open_dlc : rfcomm_dlc :=
  Eval vm_compute in default (Ex.new_dlc 0 0) (dlcs onhup_open !! 1%nat).

Definition onhup_open_tty : tty_struct :=
  Eval vm_compute in default (Ex.new_tty 0) (ttys onhup_open !! 0%nat).

(** The record and the channel of the device of [Ex.handoff]. *)
Definition handoff_dev : rfcomm_dev :=
  Eval vm_compute in default zero_dev (dev_at Ex.handoff 0%nat).

Definition handoff_dlc : rfcomm_dlc :=
  Eval vm_compute in default (Ex.new_dlc 0 0) (dlcs Ex.handoff !! 0%nat).

End ExMore.
End ExMore.

(** * Properties *)

(** ** Arithmetic of the machine integers *)

Lemma to_uint_small (x : Z) : 0 <= x < 2 ^ 32 -> to_uint x = x.
Proof. intros Hx. unfold to_uint. apply Z.mod_small. exact Hx. Qed.

Lemma to_int_small (x : Z) : - 2 ^ 31 <= x < 2 ^ 31 -> to_int x = x.
Proof.
  intros Hx. unfold to_int.
  rewrite Z.mod_small; lia.
Qed.

Lemma tx_credits_or_1 (c : Z) :
  0 <= c -> (if c =? 0 then 1 else c) = Z.max c 1.
Proof. intros Hc. destruct (Z.eqb_spec c 0); lia. Qed.

(** ** Outbound room *)

Section Room.

Lemma write_room_of_exact (d : rfcomm_dlc) (wmem : Z) :
  0 <= dlc_tx_credits d ->
  0 <= dlc_mtu d * Z.max (dlc_tx_credits d) 1 < 2 ^ 32 ->
  - 2 ^ 31 <= dlc_mtu d * Z.max (dlc_tx_credits d) 1 - wmem < 2 ^ 31 ->
  write_room_of d wmem
  = Z.max 0 (dlc_mtu d * Z.max (dlc_tx_credits d) 1 - wmem).
Proof.
  intros Hc Hprod Hdiff. unfold write_room_of, rfcomm_room.
  rewrite tx_credits_or_1 by exact Hc.
  rewrite to_uint_small by exact Hprod.
  rewrite to_int_small by exact Hdiff.
  destruct (Z.ltb_spec (dlc_mtu d * Z.max (dlc_tx_credits d) 1 - wmem) 0); lia.
Qed.

End Room.

Section RoomClaims.

(** C2 (amended): when the product mtu * max(tx_credits, 1) fits an
    unsigned 32-bit integer and its difference with the outstanding
    accounted bytes fits a signed one, the room [rfcomm_tty_write_room]
    reports is mtu * max(tx_credits, 1) minus the outstanding bytes, clamped
    below at 0; with no outstanding bytes it is at least mtu, also when
    tx_credits is 0. *)
Theorem C2_write_room (s : kstate) (t p c : ptr) (ts : tty_struct)
    (dev : rfcomm_dev) (d : rfcomm_dlc) :
  ttys s !! t = Some ts ->
  tty_driver_data ts = Some p ->
  devs s !! p = Some (Some dev) ->
  dlc dev = Some c ->
  dlcs s !! c = Some d ->
  0 <= dlc_mtu d ->
  0 <= dlc_tx_credits d ->
  dlc_mtu d * Z.max (dlc_tx_credits d) 1 < 2 ^ 32 ->
  - 2 ^ 31 <= dlc_mtu d * Z.max (dlc_tx_credits d) 1 - wmem_alloc dev < 2 ^ 31 ->
  rfcomm_tty_write_room t s
  = Done (Z.max 0 (dlc_mtu d * Z.max (dlc_tx_credits d) 1 - wmem_alloc dev)) s
  /\ (wmem_alloc dev = 0 ->
      dlc_mtu d <= Z.max 0 (dlc_mtu d * Z.max (dlc_tx_credits d) 1 - wmem_alloc dev)).
Proof.
  intros Ht Hdd Hp Hc Hd Hmtu Hcr Hprod Hdiff. split.
  - unfold rfcomm_tty_write_room, bind, tty_read, dev_read, dlc_read, ret.
    rewrite Ht, Hdd, Hp, Hc, Hd.
    rewrite write_room_of_exact; [reflexivity | lia | nia | lia].
  - intros Hw. rewrite Hw. nia.
Qed.

End RoomClaims.

Lemma C2_write_room_witness :
  rfcomm_tty_write_room 0%nat
    {| devs := [Some (set_dlc (Some 0%nat) zero_dev)]; rfcomm_dev_list := [0%nat];
       dlcs := [Ex.new_dlc 127 0];
       ttys := [set_tty_driver_data (Some 0%nat) (Ex.new_tty 0)];
       socks := []; module_refs := 1; log := [] |}
  = Done 127
      {| devs := [Some (set_dlc (Some 0%nat) zero_dev)]; rfcomm_dev_list := [0%nat];
         dlcs := [Ex.new_dlc 127 0];
         ttys := [set_tty_driver_data (Some 0%nat) (Ex.new_tty 0)];
         socks := []; module_refs := 1; log := [] |}.
Proof.
  apply (C2_write_room _ 0%nat 0%nat 0%nat
           (set_tty_driver_data (Some 0%nat) (Ex.new_tty 0))
           (set_dlc (Some 0%nat) zero_dev) (Ex.new_dlc 127 0));
    try reflexivity; simpl; lia.
Defined.

(** C2, as stated, fails when the product wraps around: a channel of MTU
    1024 with 2^22 transmit credits and nothing outstanding reports room 0,
    not 2^32, and 0 is below the MTU. *)
Lemma C2_counterexample :
  exists s d,
    Ex.wide = Some s /\ dlcs s !! 1%nat = Some d /\
    dlc_mtu d = 1024 /\ dlc_tx_credits d = 4194304 /\
    rfcomm_tty_write_room 0%nat s = Done 0 s /\
    0 <> Z.max 0 (dlc_mtu d * Z.max (dlc_tx_credits d) 1 - 0) /\
    ~ dlc_mtu d <= 0.
Proof.
  eexists. eexists.
  split; [vm_compute; reflexivity|].
  split; [reflexivity|].
  repeat split; try reflexivity; simpl; lia.
Qed.

(** ** Stepping through the monad *)

Lemma bind_Done {A B} (m : M A) (k : A -> M B) (s s' : kstate) (a : A) :
  m s = Done a s' -> bind m k s = k a s'.
Proof. intros H. unfold bind. rewrite H. reflexivity. Qed.

Lemma bind_Bug {A B} (m : M A) (k : A -> M B) (s : kstate) (b : bug) :
  m s = Bug b -> bind m k s = Bug b.
Proof. intros H. unfold bind. rewrite H. reflexivity. Qed.

Lemma bind_Fault {A B} (m : M A) (k : A -> M B) (s : kstate) :
  m s = Fault -> bind m k s = Fault.
Proof. intros H. unfold bind. rewrite H. reflexivity. Qed.

Lemma bind_inv {A B} (m : M A) (k : A -> M B) (s s' : kstate) (b : B) :
  bind m k s = Done b s' ->
  exists a s1, m s = Done a s1 /\ k a s1 = Done b s'.
Proof.
  unfold bind. destruct (m s) as [a s1| |]; intros H; try discriminate.
  exists a, s1. split; [reflexivity | exact H].
Qed.

Lemma bind_assoc {A B C} (m : M A) (k1 : A -> M B) (k2 : B -> M C)
    (s : kstate) :
  bind (bind m k1) k2 s = bind m (fun a => bind (k1 a) k2) s.
Proof. unfold bind. destruct (m s); reflexivity. Qed.

(** [mstep lem tac]: run the first call of the goal with the lemma [lem],
    whose side conditions [tac] proves. *)
Ltac mstep lem tac :=
  lazymatch goal with
  | |- bind ?m ?k ?s = _ =>
      let H := fresh "Hstep" in
      eassert (H : m s = Done _ _) by (eapply lem; tac);
      rewrite (bind_Done _ _ _ _ _ H); clear H
  end.

Lemma dev_read_Done (p : ptr) (s : kstate) (d : rfcomm_dev) :
  devs s !! p = Some (Some d) -> dev_read p s = Done d s.
Proof. intros H. unfold dev_read. rewrite H. reflexivity. Qed.


Lemma dev_modify_Done (p : ptr) (f : rfcomm_dev -> rfcomm_dev) (s : kstate)
    (d : rfcomm_dev) :
  devs s !! p = Some (Some d) ->
  dev_modify p f s = Done tt (set_devs (fun h => <[p := Some (f d)]> h) s).
Proof. intros H. unfold dev_modify. rewrite H. reflexivity. Qed.


Lemma dlc_read_Done (c : ptr) (s : kstate) (d : rfcomm_dlc) :
  dlcs s !! c = Some d -> dlc_read c s = Done d s.
Proof. intros H. unfold dlc_read. rewrite H. reflexivity. Qed.

Lemma dlc_modify_Done (c : ptr) (f : rfcomm_dlc -> rfcomm_dlc) (s : kstate)
    (d : rfcomm_dlc) :
  dlcs s !! c = Some d ->
  dlc_modify c f s = Done tt (set_dlcs (fun h => <[c := f d]> h) s).
Proof. intros H. unfold dlc_modify. rewrite H. reflexivity. Qed.

Lemma tty_read_Done (t : ptr) (s : kstate) (x : tty_struct) :
  ttys s !! t = Some x -> tty_read t s = Done x s.
Proof. intros H. unfold tty_read. rewrite H. reflexivity. Qed.

Lemma sock_read_Done (k : ptr) (s : kstate) (x : sock) :
  socks s !! k = Some x -> sock_read k s = Done x s.
Proof. intros H. unfold sock_read. rewrite H. reflexivity. Qed.

Lemma sock_modify_Done (k : ptr) (f : sock -> sock) (s : kstate) (x : sock) :
  socks s !! k = Some x ->
  sock_modify k f s = Done tt (set_socks (fun h => <[k := f x]> h) s).
Proof. intros H. unfold sock_modify. rewrite H. reflexivity. Qed.

Lemma insert_snoc {A} (l : list A) (x y : A) :
  <[length l := x]> (l ++ [y]) = l ++ [x].
Proof.
  induction l as [|a l IH]; simpl; [reflexivity|].
  f_equal. exact IH.
Qed.

Lemma lookup_snoc {A} (l : list A) (x : A) :
  (l ++ [x]) !! length l = Some x.
Proof. induction l as [|a l IH]; simpl; [reflexivity | exact IH]. Qed.

(** ** Scanning the registry *)

Lemma dev_at_Some (s : kstate) (p : ptr) (d : rfcomm_dev) :
  dev_at s p = Some d <-> devs s !! p = Some (Some d).
Proof.
  unfold dev_at. destruct (devs s !! p) as [[x|]|]; split; intros H;
    inversion H; reflexivity.
Qed.

Lemma id_of_Some (s : kstate) (p : ptr) (i : Z) :
  id_of s p = Some i <->
  exists d, devs s !! p = Some (Some d) /\ dev_id d = i.
Proof.
  unfold id_of. destruct (dev_at s p) as [d|] eqn:E.
  - apply dev_at_Some in E. split.
    + intros H. inversion H. eauto.
    + intros (d' & Hd & Hi). rewrite E in Hd. inversion Hd. subst. reflexivity.
  - split; [discriminate|]. intros (d' & Hd & _).
    apply dev_at_Some in Hd. congruence.
Qed.

Section Scan.
Context {RH : rfcomm_h}.

(** Walking a sorted registry from [id]: the walk passes the [n] entries
    whose ids are id, id+1, ..., and stops before an id that is larger. *)
Lemma dev_add_scan_any_ok (s : kstate) (l : list ptr) (ids : list Z) :
  Forall2 (fun p i => id_of s p = Some i) l ids ->
  StronglySorted Z.lt ids ->
  forall (id : Z) (head : nat),
    Forall (fun i => id <= i) ids ->
    exists n : nat,
      dev_add_scan_any l id head s = Done (id + Z.of_nat n, (head + n)%nat) s /\
      (n <= length ids)%nat /\
      take n ids = seqZ id (Z.of_nat n) /\
      Forall (fun i => id + Z.of_nat n < i) (drop n ids).
Proof.
  induction 1 as [|p i l ids Hp Hl IH]; intros Hs id head Hge.
  - exists 0%nat. simpl. unfold ret. rewrite Z.add_0_r, Nat.add_0_r.
    repeat split; auto.
  - apply id_of_Some in Hp. destruct Hp as (d & Hd & Hi).
    inversion Hs as [|? ? Hs' Hlt]; subst.
    inversion Hge as [|? ? Hi0 Hge']; subst.
    simpl. rewrite (bind_Done _ _ _ _ _ (dev_read_Done _ _ _ Hd)).
    destruct (Z.eqb_spec (dev_id d) id) as [E|E]; simpl.
    + destruct (IH Hs' (id + 1) (S head)) as (n & Hrun & Hn & Htake & Hdrop).
      { eapply Forall_impl; [exact Hlt|]. simpl. intros; lia. }
      exists (S n). rewrite Hrun.
      replace (id + 1 + Z.of_nat n) with (id + Z.of_nat (S n)) by lia.
      replace (S head + n)%nat with (head + S n)%nat by lia.
      split; [reflexivity|]. split; [simpl; lia|]. split.
      * change (take (S n) (dev_id d :: ids)) with (dev_id d :: take n ids).
        rewrite Htake, Nat2Z.inj_succ, (seqZ_cons id) by lia.
        rewrite Z.pred_succ, E. reflexivity.
      * simpl. eapply Forall_impl; [exact Hdrop|]. simpl. intros; lia.
    + exists 0%nat. unfold ret. rewrite Z.add_0_r, Nat.add_0_r.
      split; [reflexivity|]. split; [lia|]. split; [reflexivity|].
      simpl. constructor; [lia|].
      eapply Forall_impl; [exact Hlt|]. simpl. intros; lia.
Qed.

(** Walking a sorted registry for a requested id: a taken id is found,
    and a free one gets the place that keeps the order. *)
Lemma dev_add_scan_id_ok (s : kstate) (l : list ptr) (ids : list Z) (id : Z) :
  Forall2 (fun p i => id_of s p = Some i) l ids ->
  StronglySorted Z.lt ids ->
  forall head : nat,
    (id ∈ ids -> dev_add_scan_id l id head s = Done None s) /\
    (id ∉ ids ->
     exists n : nat,
       dev_add_scan_id l id head s = Done (Some (head + n)%nat) s /\
       (n <= length ids)%nat /\
       Forall (fun i => i < id) (take n ids) /\
       Forall (fun i => id < i) (drop n ids)).
Proof.
  induction 1 as [|p i l ids Hp Hl IH]; intros Hs head.
  - split.
    + intros Hin. inversion Hin.
    + intros _. exists 0%nat. simpl. unfold ret. rewrite Nat.add_0_r.
      repeat split; auto.
  - apply id_of_Some in Hp. destruct Hp as (d & Hd & Hi).
    inversion Hs as [|? ? Hs' Hlt]; subst.
    simpl. rewrite (bind_Done _ _ _ _ _ (dev_read_Done _ _ _ Hd)).
    destruct (IH Hs' (S head)) as [IHin IHout].
    destruct (Z.eqb_spec (dev_id d) id) as [E|E].
    + split; [reflexivity|]. intros Hnot. exfalso. apply Hnot. subst.
      constructor.
    + destruct (Z.gtb_spec (dev_id d) (id - 1)) as [G|G].
      * assert (Hrest : Forall (fun i => id < i) ids).
        { eapply Forall_impl; [exact Hlt|]. simpl. intros; lia. }
        split.
        -- intros Hin. exfalso. inversion Hin as [|? ? ? Hin']; subst.
           ++ congruence.
           ++ rewrite Forall_forall in Hrest. specialize (Hrest _ Hin'). lia.
        -- intros _. exists 0%nat. unfold ret. rewrite Nat.add_0_r.
           split; [reflexivity|]. split; [lia|]. split; [constructor|].
           simpl. constructor; [lia | exact Hrest].
      * split.
        -- intros Hin. apply IHin. inversion Hin; subst; [congruence | assumption].
        -- intros Hnot. destruct IHout as (n & Hrun & Hn & Hlo & Hhi).
           { intros Hin. apply Hnot. constructor. exact Hin. }
           exists (S n). rewrite Hrun.
           replace (S head + n)%nat with (head + S n)%nat by lia.
           split; [reflexivity|]. split; [simpl; lia|]. split.
           ++ simpl. constructor; [lia | exact Hlo].
           ++ simpl. exact Hhi.
Qed.

(** Looking an id up in the registry: the scan does not change the state,
    and answers an entry with that id if there is one. *)
Lemma dev_list_find_ok (s : kstate) (l : list ptr) (ids : list Z) (id : Z) :
  Forall2 (fun p i => id_of s p = Some i) l ids ->
  exists r, dev_list_find l id s = Done r s /\
    match r with
    | Some p => p ∈ l /\ exists d, devs s !! p = Some (Some d) /\ dev_id d = id
    | None => id ∉ ids
    end.
Proof.
  induction 1 as [|p i l ids Hp Hl IH].
  - exists None. split; [reflexivity|]. intros Hin. inversion Hin.
  - apply id_of_Some in Hp. destruct Hp as (d & Hd & Hi).
    simpl. rewrite (bind_Done _ _ _ _ _ (dev_read_Done _ _ _ Hd)).
    destruct (Z.eqb_spec (dev_id d) id) as [E|E].
    + exists (Some p). split; [reflexivity|]. split; [constructor|].
      exists d. auto.
    + destruct IH as (r & Hrun & Hr). exists r. split; [exact Hrun|].
      destruct r as [q|].
      * destruct Hr as [Hq Hd']. split; [constructor; exact Hq | exact Hd'].
      * intros Hin. inversion Hin; subst; [congruence | contradiction].
Qed.

End Scan.

(** ** Creation *)

(** Two states are equal when their fields are. *)
Lemma kstate_eq (s1 s2 : kstate) :
  devs s1 = devs s2 -> rfcomm_dev_list s1 = rfcomm_dev_list s2 ->
  dlcs s1 = dlcs s2 -> ttys s1 = ttys s2 -> socks s1 = socks s2 ->
  module_refs s1 = module_refs s2 -> log s1 = log s2 -> s1 = s2.
Proof. destruct s1, s2; simpl; intros; subst; reflexivity. Qed.

(** The queue of the socket moves to the pending queue, in order. *)
Lemma dev_add_take_queue_ok (q : list sk_buff) (p k : ptr) :
  forall (s : kstate) (d : rfcomm_dev) (sk : sock),
    devs s !! p = Some (Some d) ->
    socks s !! k = Some sk ->
    sk_receive_queue sk = q ->
    exists s',
      dev_add_take_queue q p k s = Done tt s' /\
      devs s' = <[p := Some (set_pending (fun l => l ++ map skb_orphan q) d)]> (devs s) /\
      socks s' = <[k := {| sk_state := sk_state sk; sk_receive_queue := [];
                          sk_rmem_alloc := sk_rmem_alloc sk - sum_len q;
                          sk_dlc := sk_dlc sk |}]> (socks s) /\
      rfcomm_dev_list s' = rfcomm_dev_list s /\ dlcs s' = dlcs s /\
      ttys s' = ttys s /\ module_refs s' = module_refs s /\ log s' = log s.
Proof.
  induction q as [|skb q IH]; intros s d sk Hd Hk Hq.
  - exists s. simpl. split; [reflexivity|].
    split.
    { rewrite list_insert_id; [reflexivity|].
      replace (set_pending (fun l => l ++ []) d) with d; [exact Hd|].
      destruct d; unfold set_pending; simpl. rewrite app_nil_r. reflexivity. }
    split.
    { rewrite list_insert_id; [reflexivity|].
      etransitivity; [exact Hk|]. f_equal.
      destruct sk; simpl in *. subst. f_equal. lia. }
    repeat split.
  - assert (Hlen : (k < length (socks s))%nat) by (eapply lookup_lt_Some; eauto).
    assert (Hlenp : (p < length (devs s))%nat) by (eapply lookup_lt_Some; eauto).
    edestruct (IH (set_socks (fun h => <[k := {| sk_state := sk_state sk;
                     sk_receive_queue := q;
                     sk_rmem_alloc := sk_rmem_alloc sk - skb_len skb;
                     sk_dlc := sk_dlc sk |}]> h)
                    (set_devs (fun h => <[p := Some (set_pending
                       (fun l => l ++ [skb_orphan skb]) d)]> h) s))
                 (set_pending (fun l => l ++ [skb_orphan skb]) d))
      as (s' & Hrun & Hdevs & Hsocks & Hrest).
    { simpl. apply list_lookup_insert_eq. exact Hlenp. }
    { simpl. apply list_lookup_insert_eq. exact Hlen. }
    { reflexivity. }
    exists s'. split.
    { simpl. mstep sock_modify_Done ltac:(exact Hk).
      mstep dev_modify_Done ltac:(exact Hd).
      mstep sock_modify_Done
        ltac:(simpl; apply list_lookup_insert_eq; exact Hlen).
      rewrite <- Hrun. f_equal.
      apply kstate_eq; simpl; try reflexivity.
      rewrite list_insert_insert_eq. reflexivity. }
    split.
    { rewrite Hdevs. simpl. rewrite list_insert_insert_eq. f_equal. f_equal.
      destruct d; unfold set_pending; simpl. rewrite <- app_assoc. reflexivity. }
    split.
    { rewrite Hsocks. simpl. rewrite !list_insert_insert_eq. f_equal.
      f_equal. lia. }
    exact Hrest.
Qed.

Section Add.
Context {RH : rfcomm_h} {TH : termios_h}.

(** The modem status of a device with no tty attached is just stored. *)
Lemma rfcomm_dev_modem_status_detached (s : kstate) (c p : ptr)
    (d : rfcomm_dlc) (dev : rfcomm_dev) (v : Z) :
  dlcs s !! c = Some d -> dlc_owner_of d = OwnerDev p ->
  devs s !! p = Some (Some dev) -> tty (port dev) = None ->
  rfcomm_dev_modem_status c v s
  = Done tt (set_devs (fun h => <[p := Some (set_modem_status (v24_to_tiocm v) dev)]> h) s).
Proof.
  intros Hc Ho Hp Ht. unfold rfcomm_dev_modem_status.
  assert (Hown : dlc_owner_dev c s = Done (Some p) s).
  { unfold dlc_owner_dev. rewrite (bind_Done _ _ _ _ _ (dlc_read_Done _ _ _ Hc)).
    rewrite Ho. reflexivity. }
  rewrite (bind_Done _ _ _ _ _ Hown).
  rewrite (bind_Done _ _ _ _ _ (dev_read_Done _ _ _ Hp)).
  rewrite Ht.
  assert (Hnop : (if negb (Z.land (modem_status dev) TIOCM_CD =? 0)
                     && (Z.land v RFCOMM_V24_DV =? 0)
                  then ret tt else ret tt) s = Done tt s).
  { destruct (_ && _); reflexivity. }
  rewrite (bind_Done _ _ _ _ _ Hnop).
  apply dev_modify_Done. exact Hp.
Qed.

(** [rfcomm_dev_add] once the id and the place are chosen: the new record,
    the registry, the channel and the socket afterwards. *)
Lemma rfcomm_dev_add_at (s : kstate) (req : rfcomm_dev_req) (c : ptr)
    (reg : option Z) (id : Z) (head : nat) (d : rfcomm_dlc)
    (q : list sk_buff) (socks' : list sock) :
  dev_add_choose req (set_devs (fun h => h ++ [Some zero_dev]) s)
  = Done (inl (id, head)) (set_devs (fun h => h ++ [Some zero_dev]) s) ->
  dlcs s !! c = Some d ->
  add_takes req d s q socks' ->
  exists s',
    rfcomm_dev_add req c true reg s
    = Done (match reg with None => Val id | Some e => Err (Eraw e) end) s' /\
    devs s' = devs s ++ [match reg with
                         | None => Some (added_dev req id c (dlc_remote_v24_sig d) q)
                         | Some _ => None
                         end] /\
    rfcomm_dev_list s'
    = (let l := take head (rfcomm_dev_list s)
                ++ length (devs s) :: drop head (rfcomm_dev_list s) in
       match reg with
       | None => l
       | Some _ => filter (fun x => x <> length (devs s)) l
       end) /\
    dlcs s' = <[c := set_dlc_owner (OwnerDev (length (devs s)))
                       (set_dlc_cb CallbacksDev d)]> (dlcs s) /\
    ttys s' = ttys s /\
    socks s' = socks' /\
    module_refs s' = module_refs s + 1 /\
    log s' = log s ++ (if req_reuse req then [EvDlcThrottle c] else [])
                   ++ (match reg with None => [EvTtyRegister id] | Some _ => [] end).
Proof.
  intros Hch Hc Htk.
  assert (Hclen : (c < length (dlcs s))%nat) by (eapply lookup_lt_Some; eauto).
  set (p := length (devs s)).
  set (dinit := {| port := tty_port_init (port zero_dev); dev_id := id;
           flags := Z.land (req_flags req)
                      (Z.lor (BIT RFCOMM_RELEASE_ONHUP) (BIT RFCOMM_REUSE_DLC));
           err := 0; src := req_src req; dst := req_dst req;
           channel := req_channel req; modem_status := 0;
           dlc := None; tty_dev_parent := false;
           wmem_alloc := 0; pending := [] |}).
  (* the part that takes the queue of the socket *)
  assert (Htake : forall s1,
    devs s1 = devs s ++ [Some dinit] -> dlcs s1 = dlcs s -> socks s1 = socks s ->
    exists s2,
      (if negb (Z.land (req_flags req) (BIT RFCOMM_REUSE_DLC) =? 0) then
         match dlc_owner_of d with
         | OwnerNull => BUG BUG_add_no_sock
         | OwnerDev _ => fault
         | OwnerSock k =>
             let* _ := emit (EvDlcThrottle c) in
             let* sk := sock_read k in
             dev_add_take_queue (sk_receive_queue sk) p k
         end
       else ret tt) s1 = Done tt s2 /\
      devs s2 = devs s ++ [Some (set_pending (fun _ => map skb_orphan q) dinit)] /\
      socks s2 = socks' /\ dlcs s2 = dlcs s /\
      rfcomm_dev_list s2 = rfcomm_dev_list s1 /\ ttys s2 = ttys s1 /\
      module_refs s2 = module_refs s1 /\
      log s2 = log s1 ++ (if req_reuse req then [EvDlcThrottle c] else [])).
  { intros s1 Hd1 Hc1 Hk1. unfold add_takes, req_reuse in *.
    destruct (negb (Z.land (req_flags req) (BIT RFCOMM_REUSE_DLC) =? 0)).
    - destruct Htk as (k & sk & Ho & Hk & Hq & Hs'). rewrite Ho.
      edestruct (dev_add_take_queue_ok (sk_receive_queue sk) p k
                   {| devs := devs s1; rfcomm_dev_list := rfcomm_dev_list s1;
                      dlcs := dlcs s1; ttys := ttys s1; socks := socks s1;
                      module_refs := module_refs s1;
                      log := log s1 ++ [EvDlcThrottle c] |} dinit sk)
        as (s2 & Hrun & Hdv & Hsk & Hl & Hdl & Ht & Hm & Hlog);
        [ | | reflexivity | ].
      3: { exists s2. split.
           { assert (Hsr : socks s1 !! k = Some sk) by (rewrite Hk1; exact Hk).
             unfold emit at 1. unfold bind at 1.
             mstep sock_read_Done ltac:(exact Hsr). exact Hrun. }
           simpl in *. rewrite Hdv, Hsk, Hd1, Hk1, Hs', Hq.
           unfold p. rewrite insert_snoc.
           repeat split; auto. congruence. }
      + simpl. rewrite Hd1. apply lookup_snoc.
      + simpl. rewrite Hk1. exact Hk.
    - destruct Htk as [Hq Hs']. exists s1. subst q. simpl.
      rewrite app_nil_r. repeat split; auto; congruence. }
  destruct (Htake
    (set_devs (fun h => <[p := Some dinit]> h)
       (set_rfcomm_dev_list
          (fun l => take head l ++ p :: drop head l)
          (set_devs (fun h => h ++ [Some zero_dev]) s))))
    as (s2 & Hrun & Hd2 & Hk2 & Hc2 & Hl2 & Ht2 & Hm2 & Hlog2).
  { simpl. apply insert_snoc. }
  { reflexivity. }
  { reflexivity. }
  simpl in Hl2, Ht2, Hm2, Hlog2.
  assert (Hkz : kzalloc_dev s = Done p (set_devs (fun h => h ++ [Some zero_dev]) s))
    by reflexivity.
  assert (Hmain : exists s3,
    (let* _ := dlc_modify c (fun x => set_dlc_owner (OwnerDev p)
                                        (set_dlc_cb CallbacksDev x)) in
     let* _ := dev_modify p (set_dlc (Some c)) in
     let* _ := rfcomm_dev_modem_status c (dlc_remote_v24_sig d) in
     fun s => Done tt (set_module_refs (fun n => n + 1) s)) s2 = Done tt s3 /\
    devs s3 = devs s ++ [Some (added_dev req id c (dlc_remote_v24_sig d) q)] /\
    dlcs s3 = <[c := set_dlc_owner (OwnerDev p) (set_dlc_cb CallbacksDev d)]> (dlcs s) /\
    socks s3 = socks s2 /\ rfcomm_dev_list s3 = rfcomm_dev_list s2 /\
    ttys s3 = ttys s2 /\ module_refs s3 = module_refs s2 + 1 /\
    log s3 = log s2).
  { eexists. split.
    - mstep dlc_modify_Done ltac:(rewrite Hc2; exact Hc).
      mstep dev_modify_Done ltac:(simpl; rewrite Hd2; apply lookup_snoc).
      mstep (rfcomm_dev_modem_status_detached)
        ltac:(simpl;
              first [ rewrite Hc2; apply list_lookup_insert_eq; exact Hclen
                    | rewrite Hd2; unfold p; rewrite insert_snoc; apply lookup_snoc
                    | reflexivity ]).
      reflexivity.
    - simpl. rewrite Hd2, Hc2. unfold p. rewrite !insert_snoc.
      repeat split. }
  destruct Hmain as (s3 & Hrun3 & Hd3 & Hc3 & Hk3 & Hl3 & Ht3 & Hm3 & Hlog3).
  assert (Hprefix :
    rfcomm_dev_add req c true reg s
    = (let* _ := (fun s => Done tt s3) in
       match reg with
       | Some e =>
           let* _ := list_del p in
           let* _ := kfree_dev p in
           ret (Err (Eraw e))
       | None =>
           let* _ := emit (EvTtyRegister id) in
           ret (Val id)
       end) s).
  { unfold rfcomm_dev_add. cbn [negb].
    rewrite (bind_Done _ _ _ _ _ Hkz).
    rewrite (bind_Done _ _ _ _ _ Hch).
    unfold list_add at 1. unfold bind at 1.
    mstep dev_modify_Done ltac:(simpl; apply lookup_snoc).
    mstep dlc_read_Done ltac:(simpl; exact Hc).
    rewrite (bind_Done _ _ _ _ _ Hrun).
    revert Hrun3. unfold bind.
    destruct (dlc_modify c _ s2) as [[] s4| |]; try discriminate.
    destruct (dev_modify p _ s4) as [[] s5| |]; try discriminate.
    destruct (rfcomm_dev_modem_status c _ s5) as [[] s6| |]; try discriminate.
    intros Heq. inversion Heq. reflexivity. }
  rewrite Hprefix. unfold bind at 1.
  destruct reg as [e|].
  - eexists. split; [reflexivity|].
    simpl. rewrite Hd3, Hl3, Hk3, Hc3, Ht3, Hm3, Hlog3, Hl2, Hk2, Ht2, Hm2, Hlog2.
    unfold p. rewrite !insert_snoc, app_nil_r. repeat split.
  - eexists. split; [reflexivity|].
    simpl. rewrite Hd3, Hl3, Hk3, Hc3, Ht3, Hm3, Hlog3, Hl2, Hk2, Ht2, Hm2, Hlog2.
    rewrite <- app_assoc. repeat split.
Qed.

End Add.

(** ** Choice of the id *)

Lemma StronglySorted_insert (l1 l2 : list Z) (x : Z) :
  StronglySorted Z.lt (l1 ++ l2) ->
  Forall (fun i => i < x) l1 -> Forall (fun i => x < i) l2 ->
  StronglySorted Z.lt (l1 ++ x :: l2).
Proof.
  induction l1 as [|a l1 IH]; simpl; intros Hs H1 H2.
  - constructor; assumption.
  - inversion Hs as [|? ? Hs' Ha]; subst.
    inversion H1 as [|? ? Hax H1']; subst.
    constructor; [apply IH; assumption|].
    apply Forall_app in Ha. destruct Ha as [Ha1 Ha2].
    apply Forall_app. split; [exact Ha1|].
    constructor; [exact Hax | exact Ha2].
Qed.

Lemma id_of_alloc (s : kstate) (x : option rfcomm_dev) (p : ptr) (i : Z) :
  id_of s p = Some i ->
  id_of (set_devs (fun h => h ++ [x]) s) p = Some i.
Proof.
  intros H. apply id_of_Some in H. destruct H as (d & Hd & Hi).
  apply id_of_Some. exists d. split; [|exact Hi].
  simpl. apply lookup_app_l_Some. exact Hd.
Qed.

Lemma registry_ids_Forall2 (s : kstate) (ids : list Z) :
  registry_ids s = Some ids <->
  Forall2 (fun p i => id_of s p = Some i) (rfcomm_dev_list s) ids.
Proof. unfold registry_ids. apply mapM_Some. Qed.

Lemma seqZ_elem (n i : Z) : i ∈ seqZ 0 n <-> 0 <= i < n.
Proof. rewrite elem_of_seqZ. lia. Qed.

Section Choose.
Context {RH : rfcomm_h}.

(** With no id asked for, the choice is the smallest id that is free, put
    where the order is kept, or "too many devices" past the last minor. *)
Lemma dev_add_choose_any (s : kstate) (ids : list Z) (req : rfcomm_dev_req)
    (x : option rfcomm_dev) :
  registry_ok s ids ->
  req_dev_id req < 0 ->
  exists (n : nat),
    dev_add_choose req (set_devs (fun h => h ++ [x]) s)
    = Done (if Z.of_nat n <? RFCOMM_MAX_DEV then inl (Z.of_nat n, n)
            else inr ENFILE)
           (set_devs (fun h => h ++ [x]) s) /\
    (n <= length ids)%nat /\
    take n ids = seqZ 0 (Z.of_nat n) /\
    Forall (fun i => Z.of_nat n < i) (drop n ids).
Proof.
  intros (Hids & Hsorted & Hrange) Hneg.
  apply registry_ids_Forall2 in Hids.
  assert (Hids1 : Forall2 (fun p i => id_of (set_devs (fun h => h ++ [x]) s) p = Some i)
                    (rfcomm_dev_list s) ids).
  { eapply Forall2_impl; [exact Hids|]. intros p i. apply id_of_alloc. }
  destruct (dev_add_scan_any_ok _ _ _ Hids1 Hsorted 0 0%nat)
    as (n & Hrun & Hn & Htake & Hdrop).
  { eapply Forall_impl; [exact Hrange|]. simpl. intros; lia. }
  rewrite Z.add_0_l in Hrun, Hdrop. rewrite Nat.add_0_l in Hrun.
  exists n. split; [|auto].
  unfold dev_add_choose. unfold get_state at 1. unfold bind at 1.
  destruct (Z.ltb_spec (req_dev_id req) 0) as [_|]; [|lia].
  cbn [rfcomm_dev_list set_devs].
  rewrite (bind_Done _ _ _ _ _
             (bind_Done _ _ _ _ _ Hrun : bind _ (fun ih => ret (inl ih)) _ = _)).
  simpl.
  destruct (Z.ltb_spec (Z.of_nat n) 0) as [|_]; [lia|]. simpl.
  destruct (Z.gtb_spec (Z.of_nat n) (RFCOMM_MAX_DEV - 1));
    destruct (Z.ltb_spec (Z.of_nat n) RFCOMM_MAX_DEV); try lia; reflexivity.
Qed.

(** With an id asked for: "address in use" when it is in the registry,
    "too many devices" when it is past the last minor, and otherwise the
    place that keeps the order. *)
Lemma dev_add_choose_id (s : kstate) (ids : list Z) (req : rfcomm_dev_req)
    (x : option rfcomm_dev) :
  registry_ok s ids ->
  0 <= req_dev_id req ->
  (req_dev_id req ∈ ids ->
   dev_add_choose req (set_devs (fun h => h ++ [x]) s)
   = Done (inr EADDRINUSE) (set_devs (fun h => h ++ [x]) s)) /\
  (req_dev_id req ∉ ids ->
   exists n : nat,
     dev_add_choose req (set_devs (fun h => h ++ [x]) s)
     = Done (if req_dev_id req <? RFCOMM_MAX_DEV then inl (req_dev_id req, n)
             else inr ENFILE)
            (set_devs (fun h => h ++ [x]) s) /\
     (n <= length ids)%nat /\
     Forall (fun i => i < req_dev_id req) (take n ids) /\
     Forall (fun i => req_dev_id req < i) (drop n ids)).
Proof.
  intros (Hids & Hsorted & Hrange) Hpos.
  apply registry_ids_Forall2 in Hids.
  assert (Hids1 : Forall2 (fun p i => id_of (set_devs (fun h => h ++ [x]) s) p = Some i)
                    (rfcomm_dev_list s) ids).
  { eapply Forall2_impl; [exact Hids|]. intros p i. apply id_of_alloc. }
  destruct (dev_add_scan_id_ok _ _ _ (req_dev_id req) Hids1 Hsorted 0%nat)
    as [Hin Hout].
  assert (Hpre : forall r,
    dev_add_scan_id (rfcomm_dev_list s) (req_dev_id req) 0%nat
      (set_devs (fun h => h ++ [x]) s) = Done r (set_devs (fun h => h ++ [x]) s) ->
    dev_add_choose req (set_devs (fun h => h ++ [x]) s)
    = match r with
      | None => Done (inr EADDRINUSE) (set_devs (fun h => h ++ [x]) s)
      | Some h =>
          Done (if req_dev_id req <? RFCOMM_MAX_DEV
                then inl (req_dev_id req, h) else inr ENFILE)
               (set_devs (fun h => h ++ [x]) s)
      end).
  { intros r Hr. unfold dev_add_choose. unfold get_state at 1. unfold bind at 1.
    destruct (Z.ltb_spec (req_dev_id req) 0) as [|_]; [lia|].
    cbn [rfcomm_dev_list set_devs]. unfold bind at 1. unfold bind at 1.
    rewrite Hr. destruct r as [h|]; [|reflexivity].
    simpl.
    destruct (Z.ltb_spec (req_dev_id req) 0) as [|_]; [lia|]. simpl.
    destruct (Z.gtb_spec (req_dev_id req) (RFCOMM_MAX_DEV - 1));
      destruct (Z.ltb_spec (req_dev_id req) RFCOMM_MAX_DEV); try lia; reflexivity. }
  split.
  - intros Hi. rewrite (Hpre None (Hin Hi)). reflexivity.
  - intros Hi. destruct (Hout Hi) as (n & Hrun & Hn & Hlo & Hhi).
    exists n. rewrite (Hpre _ Hrun). auto.
Qed.

End Choose.

Section AddRegistry.
Context {RH : rfcomm_h} {TH : termios_h}.

(** Allocating or freeing the last record leaves the ids of the others. *)
Lemma registry_ids_snoc (s s' : kstate) (ids : list Z) (x : option rfcomm_dev) :
  registry_ids s = Some ids ->
  devs s' = devs s ++ [x] -> rfcomm_dev_list s' = rfcomm_dev_list s ->
  registry_ids s' = Some ids.
Proof.
  intros Hids Hd Hl. apply registry_ids_Forall2. rewrite Hl.
  apply registry_ids_Forall2 in Hids.
  eapply Forall2_impl; [exact Hids|]. intros p i Hp.
  apply id_of_Some in Hp. destruct Hp as (d & Hp & Hi).
  apply id_of_Some. exists d. split; [|exact Hi].
  rewrite Hd. apply lookup_app_l_Some. exact Hp.
Qed.

(** A record put at the chosen place keeps the registry well formed. *)
Lemma registry_ok_add (s s' : kstate) (ids : list Z) (nd : rfcomm_dev) (n : nat) :
  registry_ok s ids ->
  devs s' = devs s ++ [Some nd] ->
  rfcomm_dev_list s'
  = take n (rfcomm_dev_list s) ++ length (devs s) :: drop n (rfcomm_dev_list s) ->
  Forall (fun i => i < dev_id nd) (take n ids) ->
  Forall (fun i => dev_id nd < i) (drop n ids) ->
  0 <= dev_id nd < RFCOMM_MAX_DEV ->
  registry_ok s' (take n ids ++ dev_id nd :: drop n ids).
Proof.
  intros (Hids & Hsorted & Hrange) Hd Hl Hlo Hhi Hid.
  apply registry_ids_Forall2 in Hids.
  assert (Hold : Forall2 (fun p i => id_of s' p = Some i) (rfcomm_dev_list s) ids).
  { eapply Forall2_impl; [exact Hids|]. intros p i Hp.
    apply id_of_Some in Hp. destruct Hp as (d & Hp & Hi).
    apply id_of_Some. exists d. split; [|exact Hi].
    rewrite Hd. apply lookup_app_l_Some. exact Hp. }
  split; [|split].
  - apply registry_ids_Forall2. rewrite Hl.
    apply Forall2_app; [apply Forall2_take; exact Hold|].
    constructor; [|apply Forall2_drop; exact Hold].
    apply id_of_Some. exists nd. split; [|reflexivity].
    rewrite Hd. apply lookup_snoc.
  - apply StronglySorted_insert; [|exact Hlo|exact Hhi].
    rewrite take_drop. exact Hsorted.
  - rewrite <- (take_drop n ids) in Hrange.
    apply Forall_app in Hrange. destruct Hrange as [H1 H2].
    apply Forall_app. split; [exact H1|]. constructor; [exact Hid | exact H2].
Qed.

(** When no id can be chosen [rfcomm_dev_add] frees the record it had
    allocated and touches nothing else. *)
Lemma rfcomm_dev_add_refused (s : kstate) (req : rfcomm_dev_req) (c : ptr)
    (reg : option Z) (e : errno) :
  dev_add_choose req (set_devs (fun h => h ++ [Some zero_dev]) s)
  = Done (inr e) (set_devs (fun h => h ++ [Some zero_dev]) s) ->
  rfcomm_dev_add req c true reg s
  = Done (Err e) (set_devs (fun h => h ++ [None]) s).
Proof.
  intros Hch. unfold rfcomm_dev_add. cbn [negb].
  assert (Hkz : kzalloc_dev s
                = Done (length (devs s)) (set_devs (fun h => h ++ [Some zero_dev]) s))
    by reflexivity.
  rewrite (bind_Done _ _ _ _ _ Hkz).
  rewrite (bind_Done _ _ _ _ _ Hch).
  unfold kfree_dev, bind, ret. f_equal.
  apply kstate_eq; simpl; try reflexivity.
  apply insert_snoc.
Qed.

End AddRegistry.

Section RegistryClaims.
Context {RH : rfcomm_h} {TH : termios_h}.

(** The walk of "any id" ends at the smallest id that is free. *)
Lemma smallest_free (ids : list Z) (n : nat) :
  take n ids = seqZ 0 (Z.of_nat n) ->
  Forall (fun i => Z.of_nat n < i) (drop n ids) ->
  (Z.of_nat n ∉ ids) /\ (forall j, 0 <= j < Z.of_nat n -> j ∈ ids).
Proof.
  intros Htake Hdrop. split.
  - rewrite <- (take_drop n ids), Htake. intros Hin.
    apply elem_of_app in Hin. destruct Hin as [Hin|Hin].
    + apply seqZ_elem in Hin. lia.
    + rewrite Forall_forall in Hdrop. specialize (Hdrop _ Hin). lia.
  - intros j Hj. rewrite <- (take_drop n ids), Htake.
    apply elem_of_app. left. apply seqZ_elem. exact Hj.
Qed.

(** C4: on a well-formed registry in which some id below RFCOMM_MAX_DEV is
    free, a create request with dev_id < 0 succeeds with the smallest
    non-negative id that is not in the registry, and the registry stays
    sorted by id with exactly that id added; with ids 0,1,2 present the id
    is 3, and with 0,2 present (1 released) it is 1. *)
Theorem C4_create_any_smallest_free (s : kstate) (ids : list Z)
    (req : rfcomm_dev_req) (c : ptr) (d : rfcomm_dlc) (q : list sk_buff)
    (socks' : list sock) :
  registry_ok s ids ->
  req_dev_id req < 0 ->
  dlcs s !! c = Some d ->
  add_takes req d s q socks' ->
  (exists j, 0 <= j < RFCOMM_MAX_DEV /\ j ∉ ids) ->
  exists id s' ids',
    rfcomm_dev_add req c true None s = Done (Val id) s' /\
    0 <= id /\ (id ∉ ids) /\ (forall j, 0 <= j < id -> j ∈ ids) /\
    registry_ok s' ids' /\ Permutation ids' (id :: ids) /\
    (ids = [0; 1; 2] -> id = 3) /\ (ids = [0; 2] -> id = 1).
Proof.
  intros Hok Hneg Hc Htk (j & Hj & Hfree).
  destruct (dev_add_choose_any s ids req (Some zero_dev) Hok Hneg)
    as (n & Hch & Hn & Htake & Hdrop).
  destruct (smallest_free ids n Htake Hdrop) as [Hnot Hall].
  assert (Hlt : Z.of_nat n < RFCOMM_MAX_DEV).
  { destruct (Z.lt_ge_cases (Z.of_nat n) RFCOMM_MAX_DEV) as [|Hge]; [assumption|].
    exfalso. apply Hfree. apply Hall. lia. }
  destruct (Z.ltb_spec (Z.of_nat n) RFCOMM_MAX_DEV) as [_|]; [|lia].
  destruct (rfcomm_dev_add_at s req c None (Z.of_nat n) n d q socks' Hch Hc Htk)
    as (s' & Hrun & Hdevs & Hlist & _).
  exists (Z.of_nat n), s', (take n ids ++ Z.of_nat n :: drop n ids).
  split; [exact Hrun|]. split; [lia|]. split; [exact Hnot|].
  split; [exact Hall|]. split; [|split; [|split]].
  - apply (registry_ok_add s s' ids
             (added_dev req (Z.of_nat n) c (dlc_remote_v24_sig d) q) n Hok Hdevs Hlist).
    + rewrite Htake. apply Forall_forall. intros i Hi.
      apply seqZ_elem in Hi. simpl. lia.
    + exact Hdrop.
    + simpl. lia.
  - rewrite <- Permutation_middle, take_drop. reflexivity.
  - intros ->.
    assert (H3 : ~ Z.of_nat n < 3).
    { intros H. apply Hnot. rewrite !elem_of_cons. lia. }
    assert (H4 : ~ 3 < Z.of_nat n).
    { intros H. specialize (Hall 3 ltac:(lia)).
      rewrite !elem_of_cons, elem_of_nil in Hall. lia. }
    lia.
  - intros ->.
    assert (H0 : Z.of_nat n <> 0).
    { intros H. apply Hnot. rewrite !elem_of_cons. lia. }
    assert (H2 : ~ 1 < Z.of_nat n).
    { intros H. specialize (Hall 1 ltac:(lia)).
      rewrite !elem_of_cons, elem_of_nil in Hall. lia. }
    lia.
Qed.

End RegistryClaims.

Lemma three_registry_ok :
  registry_ok (H := linux_rfcomm_h) Ex.three [0; 1; 2].
Proof.
  split; [reflexivity|]. split.
  - repeat constructor.
  - repeat constructor; simpl; lia.
Qed.

Lemma three_less_1_registry_ok :
  registry_ok (H := linux_rfcomm_h) Ex.three_less_1 [0; 2].
Proof.
  split; [reflexivity|]. split.
  - repeat constructor.
  - repeat constructor; simpl; lia.
Qed.

Lemma C4_create_any_smallest_free_witness :
  exists id s',
    rfcomm_dev_add (RH := linux_rfcomm_h) (TH := linux_termios_h)
      (Ex.req_any 0) 0%nat true None Ex.three = Done (Val id) s' /\ id = 3.
Proof.
  edestruct (C4_create_any_smallest_free (RH := linux_rfcomm_h)
               (TH := linux_termios_h) Ex.three [0; 1; 2] (Ex.req_any 0) 0%nat
               (default (Ex.new_dlc 0 0) (dlcs Ex.three !! 0%nat))
               [] (socks Ex.three))
    as (id & s' & ids' & Hrun & _ & _ & _ & _ & _ & H3 & _).
  - split; [reflexivity|]. split; repeat constructor; simpl; lia.
  - simpl. lia.
  - reflexivity.
  - split; reflexivity.
  - exists 3. split; [simpl; lia|].
    rewrite !elem_of_cons, elem_of_nil. lia.
  - exists id, s'. split; [exact Hrun | apply H3; reflexivity].
Defined.

(** The example of the specification, run on the model: with devices 0, 1
    and 2 an "any" create gives 3, and once 1 is released it gives 1. *)
Example create_any_after_release :
  result_of (Ex.create (Ex.req_any 0) 127 7) Ex.three = Some (Val 3) /\
  registry_ids Ex.three_less_1 = Some [0; 2] /\
  result_of (Ex.create (Ex.req_any 0) 127 7) Ex.three_less_1 = Some (Val 1) /\
  then_run (Some Ex.three_less_1) (Ex.create (Ex.req_any 0) 127 7)
  ≫= registry_ids = Some [0; 1; 2].
Proof. vm_compute. repeat split. Qed.

Section RefusedClaims.
Context {RH : rfcomm_h} {TH : termios_h}.

Lemma untouched_freed_slot (s : kstate) :
  untouched s (set_devs (fun h => h ++ [None]) s).
Proof.
  split; [reflexivity|]. split; [|split; [|repeat split]].
  - intros p d Hd. apply dev_at_Some in Hd. apply dev_at_Some.
    simpl. apply lookup_app_l_Some. exact Hd.
  - intros p d Hd. apply dev_at_Some in Hd. apply dev_at_Some.
    simpl in Hd. apply lookup_app_Some in Hd.
    destruct Hd as [Hd|[_ Hd]]; [exact Hd|].
    destruct (p - length (devs s))%nat; simpl in Hd; discriminate.
Qed.

(** C9: on a well-formed registry, a create that asks for an id already in
    the registry fails with "address in use"; a create fails with "too many
    devices" when it asks for any id and every id in [0, RFCOMM_MAX_DEV) is
    taken, or when it asks for an id at or past RFCOMM_MAX_DEV.  In each case
    the registry, every existing record, the channels and the sockets are as
    before, and the registry is still well formed with the same ids. *)
Theorem C9_create_refused (s : kstate) (ids : list Z) (req : rfcomm_dev_req)
    (c : ptr) (reg : option Z) :
  registry_ok s ids ->
  (0 <= req_dev_id req -> req_dev_id req ∈ ids ->
   exists s', rfcomm_dev_add req c true reg s = Done (Err EADDRINUSE) s' /\
              untouched s s' /\ registry_ok s' ids) /\
  (req_dev_id req < 0 -> (forall j, 0 <= j < RFCOMM_MAX_DEV -> j ∈ ids) ->
   exists s', rfcomm_dev_add req c true reg s = Done (Err ENFILE) s' /\
              untouched s s' /\ registry_ok s' ids) /\
  (RFCOMM_MAX_DEV <= req_dev_id req -> 0 <= req_dev_id req ->
   exists s', rfcomm_dev_add req c true reg s = Done (Err ENFILE) s' /\
              untouched s s' /\ registry_ok s' ids).
Proof.
  intros Hok.
  assert (Hfin : forall e,
    dev_add_choose req (set_devs (fun h => h ++ [Some zero_dev]) s)
    = Done (inr e) (set_devs (fun h => h ++ [Some zero_dev]) s) ->
    exists s', rfcomm_dev_add req c true reg s = Done (Err e) s' /\
               untouched s s' /\ registry_ok s' ids).
  { intros e Hch. exists (set_devs (fun h => h ++ [None]) s).
    split; [apply rfcomm_dev_add_refused; exact Hch|].
    split; [apply untouched_freed_slot|].
    destruct Hok as (Hids & Hrest). split; [|exact Hrest].
    eapply registry_ids_snoc; [exact Hids| |]; reflexivity. }
  split; [|split].
  - intros Hpos Hin. apply Hfin.
    apply (proj1 (dev_add_choose_id s ids req (Some zero_dev) Hok Hpos) Hin).
  - intros Hneg Hfull. apply Hfin.
    destruct (dev_add_choose_any s ids req (Some zero_dev) Hok Hneg)
      as (n & Hch & Hn & Htake & Hdrop).
    destruct (smallest_free ids n Htake Hdrop) as [Hnot Hall].
    destruct (Z.ltb_spec (Z.of_nat n) RFCOMM_MAX_DEV) as [Hlt|_]; [|exact Hch].
    exfalso. apply Hnot. apply Hfull. lia.
  - intros Hbig Hpos. apply Hfin.
    assert (Hnot : req_dev_id req ∉ ids).
    { intros Hin. destruct Hok as (_ & _ & Hrange).
      rewrite Forall_forall in Hrange. specialize (Hrange _ Hin). lia. }
    destruct (proj2 (dev_add_choose_id s ids req (Some zero_dev) Hok Hpos) Hnot)
      as (n & Hch & _).
    destruct (Z.ltb_spec (req_dev_id req) RFCOMM_MAX_DEV) as [|_]; [lia|].
    exact Hch.
Qed.

End RefusedClaims.

Lemma C9_create_refused_witness :
  (exists s', rfcomm_dev_add (RH := linux_rfcomm_h) (TH := linux_termios_h)
                (Ex.req_id 1 0) 0%nat true None Ex.three
              = Done (Err EADDRINUSE) s' /\
              untouched Ex.three s' /\
              registry_ok (H := linux_rfcomm_h) s' [0; 1; 2]) /\
  (exists s', rfcomm_dev_add (RH := linux_rfcomm_h) (TH := linux_termios_h)
                (Ex.req_id 256 0) 0%nat true None Ex.three
              = Done (Err ENFILE) s' /\
              untouched Ex.three s' /\
              registry_ok (H := linux_rfcomm_h) s' [0; 1; 2]) /\
  (exists s', rfcomm_dev_add (RH := three_dev_rfcomm_h) (TH := linux_termios_h)
                (Ex.req_any 0) 0%nat true None Ex.three
              = Done (Err ENFILE) s' /\
              untouched Ex.three s' /\
              registry_ok (H := three_dev_rfcomm_h) s' [0; 1; 2]).
Proof.
  split; [|split].
  - apply (proj1 (C9_create_refused (RH := linux_rfcomm_h) (TH := linux_termios_h)
             Ex.three [0; 1; 2] (Ex.req_id 1 0) 0%nat None three_registry_ok)).
    + simpl. lia.
    + rewrite !elem_of_cons. simpl. lia.
  - apply (proj2 (proj2 (C9_create_refused (RH := linux_rfcomm_h)
             (TH := linux_termios_h) Ex.three [0; 1; 2] (Ex.req_id 256 0) 0%nat
             None three_registry_ok))).
    + simpl. lia.
    + simpl. lia.
  - apply (proj1 (proj2 (C9_create_refused (RH := three_dev_rfcomm_h)
             (TH := linux_termios_h) Ex.three [0; 1; 2] (Ex.req_any 0) 0%nat None
             ltac:(split; [reflexivity|]; split; repeat constructor; simpl; lia)))).
    + simpl. lia.
    + simpl. intros j Hj. rewrite !elem_of_cons. lia.
Defined.

(** ** Flags of a new device *)

Lemma testbit_1 (k : Z) : Z.testbit 1 k = (k =? 0).
Proof.
  destruct k as [|k|k]; reflexivity.
Qed.

Lemma BIT_testbit (n i : Z) : 0 <= i -> Z.testbit (BIT n) i = (i =? n).
Proof.
  intros Hi. unfold BIT. rewrite Z.shiftl_spec by exact Hi.
  rewrite testbit_1.
  destruct (Z.eqb_spec (i - n) 0); destruct (Z.eqb_spec i n); lia || reflexivity.
Qed.

Section FlagsClaims.
Context {RH : rfcomm_h} {TH : termios_h}.

(** On a well-formed registry the choice of the id always ends. *)
Lemma dev_add_choose_total (s : kstate) (ids : list Z) (req : rfcomm_dev_req)
    (x : option rfcomm_dev) :
  registry_ok s ids ->
  exists r, dev_add_choose req (set_devs (fun h => h ++ [x]) s)
            = Done r (set_devs (fun h => h ++ [x]) s).
Proof.
  intros Hok. destruct (Z.lt_ge_cases (req_dev_id req) 0) as [Hneg|Hpos].
  - destruct (dev_add_choose_any s ids req x Hok Hneg) as (n & Hch & _).
    eexists. exact Hch.
  - destruct (dev_add_choose_id s ids req x Hok Hpos) as [Hin Hout].
    destruct (decide (req_dev_id req ∈ ids)) as [Hi|Hi].
    + eexists. exact (Hin Hi).
    + destruct (Hout Hi) as (n & Hch & _). eexists. exact Hch.
Qed.

(** C10: a create on a well-formed registry returns, and when it returns an
    id the flags stored in the new record are the flags of the request
    masked with the "release on hang-up" and "reuse channel" bits: each of
    these two bits is as the caller gave it, and every other bit is clear. *)
Theorem C10_flags_masked (s : kstate) (ids : list Z) (req : rfcomm_dev_req)
    (c : ptr) (d : rfcomm_dlc) (q : list sk_buff) (socks' : list sock) :
  registry_ok s ids ->
  dlcs s !! c = Some d ->
  add_takes req d s q socks' ->
  0 <= RFCOMM_RELEASE_ONHUP -> 0 <= RFCOMM_REUSE_DLC ->
  exists r s',
    rfcomm_dev_add req c true None s = Done r s' /\
    forall id, r = Val id ->
      exists dev,
        dev_at s' (length (devs s)) = Some dev /\ dev_id dev = id /\
        flags dev = Z.land (req_flags req)
                      (Z.lor (BIT RFCOMM_RELEASE_ONHUP) (BIT RFCOMM_REUSE_DLC)) /\
        forall i, 0 <= i ->
          test_bit i (flags dev)
          = test_bit i (req_flags req)
            && ((i =? RFCOMM_RELEASE_ONHUP) || (i =? RFCOMM_REUSE_DLC)).
Proof.
  intros Hok Hc Htk Hb1 Hb2.
  destruct (dev_add_choose_total s ids req (Some zero_dev) Hok) as ([[id head]|e] & Hch).
  - destruct (rfcomm_dev_add_at s req c None id head d q socks' Hch Hc Htk)
      as (s' & Hrun & Hdevs & _).
    exists (Val id), s'. split; [exact Hrun|].
    intros id' Hid. inversion Hid; subst id'.
    exists (added_dev req id c (dlc_remote_v24_sig d) q).
    split; [apply dev_at_Some; rewrite Hdevs; apply lookup_snoc|].
    split; [reflexivity|]. split; [reflexivity|].
    intros i Hi. unfold test_bit. simpl.
    rewrite Z.land_spec, Z.lor_spec, !BIT_testbit by exact Hi. reflexivity.
  - exists (Err e), (set_devs (fun h => h ++ [None]) s).
    split; [apply rfcomm_dev_add_refused; exact Hch|].
    intros id Hid. discriminate.
Qed.

End FlagsClaims.

Lemma C10_flags_masked_witness :
  exists s' dev,
    rfcomm_dev_add (RH := linux_rfcomm_h) (TH := linux_termios_h)
      (Ex.req_any 0xff) 0%nat true None Ex.three = Done (Val 3) s' /\
    dev_at s' 3%nat = Some dev /\ flags dev = 3.
Proof.
  edestruct (C10_flags_masked (RH := linux_rfcomm_h) (TH := linux_termios_h)
               Ex.three [0; 1; 2] (Ex.req_any 0xff) 0%nat
               (default (Ex.new_dlc 0 0) (dlcs Ex.three !! 0%nat))
               (default [] (sk_receive_queue <$> socks Ex.three !! 0%nat))
               (<[0%nat := drained (default (Build_sock BT_CLOSED [] 0 0%nat)
                                      (socks Ex.three !! 0%nat))]> (socks Ex.three))
               three_registry_ok)
    as (r & s' & Hrun & Hflags).
  - reflexivity.
  - exists 0%nat. eexists. repeat split; reflexivity.
  - simpl; lia.
  - simpl; lia.
  - assert (Hr : r = Val 3).
    { revert Hrun. vm_compute. intros H. inversion H. reflexivity. }
    subst r. destruct (Hflags 3 eq_refl) as (dev & Hdev & _ & Hfl & _).
    exists s', dev. repeat split; [exact Hrun | exact Hdev | exact Hfl].
Defined.

(** ** Line settings *)

Section Settings.
Context {RH : rfcomm_h} {TH : termios_h}.
Variable tty_termios_baud_rate : ktermios -> Z.

Local Abbreviation to_rpn := (termios_to_rpn tty_termios_baud_rate).


(** Flow-control characters that did not change are sent as the defaults
    of the protocol. *)
Lemma termios_to_rpn_flow_chars (old new : ktermios) :
  (cc old VSTOP = cc new VSTOP ->
   rpn_x_on (to_rpn old new) = to_u8 RFCOMM_RPN_XON_CHAR) /\
  (cc old VSTART = cc new VSTART ->
   rpn_x_off (to_rpn old new) = to_u8 RFCOMM_RPN_XOFF_CHAR).
Proof.
  unfold termios_to_rpn. split; intros E; rewrite E, Z.eqb_refl; cbn [negb].
  - destruct (negb (cc old VSTART =? cc new VSTART)); reflexivity.
  - destruct (negb (cc old VSTOP =? cc new VSTOP)); reflexivity.
Qed.

(** When only the stop-bit flag differs the mask is the stop-bit mask. *)
Lemma termios_to_rpn_only_stop (old new : ktermios) :
  only_stop_changed tty_termios_baud_rate old new ->
  rpn_changes (to_rpn old new) = to_u16 RFCOMM_RPN_PM_STOP.
Proof.
  intros (E1 & E2 & E3 & E4 & E5 & E6 & N).
  unfold termios_to_rpn. rewrite E1, E2, E3, E4, E5, E6, !Z.eqb_refl.
  cbn [negb orb rpn_changes].
  destruct (Z.eqb_spec (Z.land (c_cflag old) CSTOPB) (Z.land (c_cflag new) CSTOPB));
    [contradiction|].
  reflexivity.
Qed.





(** [rfcomm_tty_set_termios] on a device whose channel has a session. *)
Lemma rfcomm_tty_set_termios_run (s : kstate) (t p c session : ptr)
    (ts : tty_struct) (dev : rfcomm_dev) (d : rfcomm_dlc) (old : ktermios) :
  ttys s !! t = Some ts ->
  tty_driver_data ts = Some p ->
  devs s !! p = Some (Some dev) ->
  dlc dev = Some c ->
  dlcs s !! c = Some d ->
  dlc_session d = Some session ->
  rfcomm_tty_set_termios tty_termios_baud_rate t old s
  = if rpn_changes (to_rpn old (tty_termios ts)) =? 0 then Done tt s
    else rfcomm_send_rpn session 1 (dlc_dlci d) (to_rpn old (tty_termios ts)) s.
Proof.
  intros Ht Hdd Hp Hc Hd Hs. unfold rfcomm_tty_set_termios.
  rewrite (bind_Done _ _ _ _ _ (tty_read_Done _ _ _ Ht)), Hdd.
  rewrite (bind_Done _ _ _ _ _ (dev_read_Done _ _ _ Hp)), Hc.
  rewrite (bind_Done _ _ _ _ _ (dlc_read_Done _ _ _ Hd)), Hs.
  destruct (rpn_changes _ =? 0); reflexivity.
Qed.

End Settings.

Section SettingsClaims.
Context {RH : rfcomm_h} {TH : termios_h}.
Variable tty_termios_baud_rate : ktermios -> Z.


End SettingsClaims.



(** ** Pending queue *)

Section Pending.
Context {RH : rfcomm_h} {TH : termios_h}.

Lemma kfree_skb_inbound (skb : sk_buff) (s : kstate) :
  inbound skb ->
  kfree_skb skb s
  = Done tt {| devs := devs s; rfcomm_dev_list := rfcomm_dev_list s;
               dlcs := dlcs s; ttys := ttys s; socks := socks s;
               module_refs := module_refs s;
               log := log s ++ [EvKfreeSkb skb] |}.
Proof. intros H. unfold kfree_skb. rewrite H. reflexivity. Qed.

(** The drain loop hands every queued chunk to the flip buffer, oldest
    first, frees each one once and leaves the queue empty. *)
Lemma copy_pending_loop_ok (p : ptr) (q : list sk_buff) :
  forall (n : nat) (s : kstate) (dev : rfcomm_dev) (inserted : Z),
    devs s !! p = Some (Some dev) ->
    pending dev = q ->
    Forall inbound q ->
    (length q <= n)%nat ->
    exists s',
      copy_pending_loop n p inserted s = Done (inserted + sum_len q) s' /\
      devs s' = <[p := Some (set_pending (fun _ => [])
                     (set_port (set_flip_buf (fun b => b ++ map skb_data q)) dev))]>
                  (devs s) /\
      log s' = log s ++ map EvKfreeSkb q /\
      rfcomm_dev_list s' = rfcomm_dev_list s /\ dlcs s' = dlcs s /\
      ttys s' = ttys s /\ socks s' = socks s /\
      module_refs s' = module_refs s.
Proof.
  induction q as [|skb q IH]; intros n s dev inserted Hp Hq Hin Hn.
  - exists s. split.
    { assert (Hdq : skb_dequeue_pending p s = Done None s).
      { unfold skb_dequeue_pending.
        rewrite (bind_Done _ _ _ _ _ (dev_read_Done _ _ _ Hp)), Hq.
        reflexivity. }
      destruct n; cbn [copy_pending_loop];
        rewrite (bind_Done _ _ _ _ _ Hdq); unfold ret, sum_len; simpl;
        rewrite Z.add_0_r; reflexivity. }
    split.
    { rewrite list_insert_id; [reflexivity|].
      etransitivity; [exact Hp|]. f_equal. f_equal.
      destruct dev as [pt ? ? ? ? ? ? ? ? ? ? ?]; destruct pt; simpl in *.
      subst. unfold set_pending, set_port, set_flip_buf; simpl.
      rewrite app_nil_r. reflexivity. }
    rewrite app_nil_r. repeat split.
  - destruct n as [|n]; [simpl in Hn; lia|].
    inversion Hin as [|? ? Hskb Hin']; subst.
    assert (Hlenp : (p < length (devs s))%nat) by (eapply lookup_lt_Some; eauto).
    set (dev1 := set_port (set_flip_buf (fun b => b ++ [skb_data skb]))
                   (set_pending (fun _ => q) dev)).
    edestruct (IH n
      {| devs := <[p := Some dev1]> (devs s);
         rfcomm_dev_list := rfcomm_dev_list s; dlcs := dlcs s; ttys := ttys s;
         socks := socks s; module_refs := module_refs s;
         log := log s ++ [EvKfreeSkb skb] |} dev1
      (inserted + skb_len skb))
      as (s' & Hrun & Hdevs & Hlog & Hrest).
    { simpl. apply list_lookup_insert_eq. exact Hlenp. }
    { reflexivity. }
    { exact Hin'. }
    { simpl in Hn. lia. }
    exists s'. split.
    { cbn [copy_pending_loop].
      assert (Hdq : skb_dequeue_pending p s
                    = Done (Some skb)
                        (set_devs (fun h => <[p := Some (set_pending (fun _ => q) dev)]> h) s)).
      { unfold skb_dequeue_pending.
        rewrite (bind_Done _ _ _ _ _ (dev_read_Done _ _ _ Hp)), Hq.
        rewrite (bind_Done _ _ _ _ _ (dev_modify_Done _ _ _ _ Hp)).
        reflexivity. }
      rewrite (bind_Done _ _ _ _ _ Hdq).
      assert (Hins : tty_insert_flip_string p (skb_data skb)
                       (set_devs (fun h => <[p := Some (set_pending (fun _ => q) dev)]> h) s)
                     = Done (skb_len skb)
                         (set_devs (fun h => <[p := Some dev1]> h) s)).
      { unfold tty_insert_flip_string.
        mstep dev_modify_Done ltac:(simpl; apply list_lookup_insert_eq; exact Hlenp).
        unfold ret. f_equal. apply kstate_eq; simpl; try reflexivity.
        apply list_insert_insert_eq. }
      rewrite (bind_Done _ _ _ _ _ Hins).
      rewrite (bind_Done _ _ _ _ _ (kfree_skb_inbound _ _ Hskb)).
      simpl. rewrite Hrun. f_equal. unfold sum_len. simpl. lia. }
    split.
    { rewrite Hdevs. simpl. rewrite list_insert_insert_eq. f_equal. f_equal.
      destruct dev as [pt ? ? ? ? ? ? ? ? ? ? ?]; destruct pt; simpl.
      unfold set_pending, set_port, set_flip_buf; simpl.
      rewrite <- app_assoc. reflexivity. }
    split.
    { rewrite Hlog. simpl. rewrite <- app_assoc. reflexivity. }
    exact Hrest.
Qed.

End Pending.

Section PendingClaims.
Context {RH : rfcomm_h} {TH : termios_h}.

(** A chunk that arrives while the pending queue is not empty goes to the
    tail of the queue; nothing is handed to the consumer. *)
Lemma rfcomm_dev_data_ready_queued (s : kstate) (c p : ptr) (d : rfcomm_dlc)
    (dev : rfcomm_dev) (skb : sk_buff) :
  dlcs s !! c = Some d -> dlc_owner_of d = OwnerDev p ->
  devs s !! p = Some (Some dev) -> pending dev <> [] ->
  rfcomm_dev_data_ready c skb s
  = Done tt (set_devs (fun h => <[p := Some (set_pending (fun q => q ++ [skb]) dev)]> h) s).
Proof.
  intros Hc Ho Hp Hne. unfold rfcomm_dev_data_ready.
  assert (Hown : dlc_owner_dev c s = Done (Some p) s).
  { unfold dlc_owner_dev. rewrite (bind_Done _ _ _ _ _ (dlc_read_Done _ _ _ Hc)).
    rewrite Ho. reflexivity. }
  rewrite (bind_Done _ _ _ _ _ Hown).
  rewrite (bind_Done _ _ _ _ _ (dev_read_Done _ _ _ Hp)).
  rewrite bool_decide_eq_false_2 by exact Hne. cbn [negb].
  apply dev_modify_Done. exact Hp.
Qed.

Lemma data_ready_all_queued (c p : ptr) (d : rfcomm_dlc) (cs : list sk_buff) :
  forall (s : kstate) (dev : rfcomm_dev),
    dlcs s !! c = Some d -> dlc_owner_of d = OwnerDev p ->
    devs s !! p = Some (Some dev) -> pending dev <> [] ->
    data_ready_all c cs s
    = Done tt (set_devs (fun h => <[p := Some (set_pending (fun q => q ++ cs) dev)]> h) s).
Proof.
  induction cs as [|skb cs IH]; intros s dev Hc Ho Hp Hne.
  - simpl. unfold ret. f_equal. apply kstate_eq; simpl; try reflexivity.
    symmetry. apply list_insert_id. etransitivity; [exact Hp|].
    f_equal. f_equal. destruct dev; unfold set_pending; simpl.
    rewrite app_nil_r. reflexivity.
  - cbn [data_ready_all].
    rewrite (bind_Done _ _ _ _ _
               (rfcomm_dev_data_ready_queued s c p d dev skb Hc Ho Hp Hne)).
    assert (Hlenp : (p < length (devs s))%nat) by (eapply lookup_lt_Some; eauto).
    rewrite (IH _ (set_pending (fun q => q ++ [skb]) dev)).
    + f_equal. apply kstate_eq; simpl; try reflexivity.
      rewrite list_insert_insert_eq. f_equal. f_equal.
      destruct dev; unfold set_pending; simpl. rewrite <- app_assoc. reflexivity.
    + exact Hc.
    + exact Ho.
    + simpl. apply list_lookup_insert_eq. exact Hlenp.
    + destruct dev; simpl in *. intros E. apply app_eq_nil in E.
      destruct E as [_ E]. discriminate.
Qed.

(** C1: while the pending queue of a device is not empty every inbound
    chunk the channel delivers is put at the tail of the queue and nothing
    reaches the consumer; the drain made after attachment then hands every
    queued chunk to the read buffer of the consumer in FIFO order, each one
    once, frees each one once and leaves the queue empty. *)
Theorem C1_pending_fifo (s : kstate) (c p : ptr) (d : rfcomm_dlc)
    (dev : rfcomm_dev) (cs : list sk_buff) :
  dlcs s !! c = Some d -> dlc_owner_of d = OwnerDev p ->
  devs s !! p = Some (Some dev) ->
  pending dev <> [] ->
  Forall inbound (pending dev ++ cs) ->
  (forall skb,
     rfcomm_dev_data_ready c skb s
     = Done tt (set_devs (fun h =>
                  <[p := Some (set_pending (fun q => q ++ [skb]) dev)]> h) s)) /\
  exists s1 s2 dev2,
    data_ready_all c cs s = Done tt s1 /\
    rfcomm_tty_copy_pending p s1 = Done tt s2 /\
    devs s2 !! p = Some (Some dev2) /\
    flip_buf (port dev2)
    = flip_buf (port dev) ++ map skb_data (pending dev ++ cs) /\
    pending dev2 = [] /\
    log s2 = log s ++ map EvKfreeSkb (pending dev ++ cs) /\
    flip_pushes (port dev2)
    = (if sum_len (pending dev ++ cs) >? 0 then S (flip_pushes (port dev))
       else flip_pushes (port dev)).
Proof.
  intros Hc Ho Hp Hne Hin. split.
  - intros skb. apply (rfcomm_dev_data_ready_queued s c p d dev skb Hc Ho Hp Hne).
  - assert (Hlenp : (p < length (devs s))%nat) by (eapply lookup_lt_Some; eauto).
    set (dev1 := set_pending (fun q => q ++ cs) dev).
    set (s1 := set_devs (fun h => <[p := Some dev1]> h) s).
    assert (Hp1 : devs s1 !! p = Some (Some dev1)).
    { simpl. apply list_lookup_insert_eq. exact Hlenp. }
    destruct (copy_pending_loop_ok p (pending dev ++ cs)
                (length (pending dev1)) s1 dev1 0 Hp1)
      as (s' & Hrun & Hdevs & Hlog & Hl & Hd & Ht & Hk & Hm).
    { destruct dev; reflexivity. }
    { exact Hin. }
    { destruct dev; simpl. lia. }
    set (dev' := set_pending (fun _ => [])
                   (set_port (set_flip_buf
                      (fun b => b ++ map skb_data (pending dev ++ cs))) dev1)).
    assert (Hp' : devs s' !! p = Some (Some dev')).
    { rewrite Hdevs. apply list_lookup_insert_eq. simpl.
      rewrite length_insert. exact Hlenp. }
    assert (Hrun' : rfcomm_tty_copy_pending p s1
                    = (if 0 + sum_len (pending dev ++ cs) >? 0
                       then tty_flip_buffer_push p else ret tt) s').
    { unfold rfcomm_tty_copy_pending.
      rewrite (bind_Done _ _ _ _ _ (dev_read_Done _ _ _ Hp1)).
      rewrite (bind_Done _ _ _ _ _ Hrun). reflexivity. }
    rewrite Z.add_0_l in Hrun'.
    destruct (sum_len (pending dev ++ cs) >? 0).
    + exists s1, (set_devs (fun h => <[p := Some (set_port (set_flip_pushes S) dev')]> h) s'),
        (set_port (set_flip_pushes S) dev').
      split; [apply (data_ready_all_queued c p d cs s dev Hc Ho Hp Hne)|].
      split; [rewrite Hrun'; apply dev_modify_Done; exact Hp'|].
      split.
      { simpl. apply list_lookup_insert_eq. rewrite Hdevs, length_insert.
        simpl. rewrite length_insert. exact Hlenp. }
      destruct dev as [pt ? ? ? ? ? ? ? ? ? ? ?]; destruct pt. simpl.
      repeat split. rewrite Hlog. reflexivity.
    + exists s1, s', dev'.
      split; [apply (data_ready_all_queued c p d cs s dev Hc Ho Hp Hne)|].
      split; [exact Hrun'|]. split; [exact Hp'|].
      destruct dev as [pt ? ? ? ? ? ? ? ? ? ? ?]; destruct pt. simpl.
      repeat split. rewrite Hlog. reflexivity.
Qed.

End PendingClaims.

Lemma C1_pending_fifo_witness :
  exists s1 s2 dev2,
    data_ready_all (RH := linux_rfcomm_h) 0%nat [Ex.chunk_C] Ex.handoff = Done tt s1 /\
    rfcomm_tty_copy_pending (RH := linux_rfcomm_h) 0%nat s1 = Done tt s2 /\
    devs s2 !! 0%nat = Some (Some dev2) /\
    flip_buf (port dev2) = [["A"%byte]; ["B"%byte]; ["C"%byte]] /\
    pending dev2 = [].
Proof.
  destruct (C1_pending_fifo (RH := linux_rfcomm_h) Ex.handoff 0%nat 0%nat
              (default (Ex.new_dlc 0 0) (dlcs Ex.handoff !! 0%nat))
              (default zero_dev (dev_at Ex.handoff 0%nat))
              [Ex.chunk_C])
    as (_ & s1 & s2 & dev2 & H1 & H2 & H3 & H4 & H5 & _).
  - reflexivity.
  - reflexivity.
  - reflexivity.
  - simpl. discriminate.
  - simpl. repeat constructor.
  - exists s1, s2, dev2. repeat split; assumption.
Defined.

(** The example of the specification, run on the model: A and B were
    received before the device existed, C arrives while it is detached; the
    open that attaches it delivers A, B, C, once each. *)
Example chunks_ABC_in_order :
  (dev_at Ex.handoff 0%nat ≫= fun dev => Some (pending dev, flip_buf (port dev)))
  = Some ([Ex.chunk_A; Ex.chunk_B], []) /\
  (then_run (state_after (rfcomm_dev_data_ready (RH := linux_rfcomm_h)
                            0%nat Ex.chunk_C) Ex.handoff)
            (Ex.open 0%nat)
   ≫= fun s => dev_at s 0%nat
   ≫= fun dev => Some (pending dev, flip_buf (port dev)))
  = Some ([], [["A"%byte]; ["B"%byte]; ["C"%byte]]).
Proof. vm_compute. split; reflexivity. Qed.

(** ** Outbound send *)

Section Send.
Context {RH : rfcomm_h} {TH : termios_h}.

(** An accounted allocation either fails and changes nothing, or takes a
    reference on the device and accounts the size of the buffer. *)
Lemma rfcomm_wmalloc_run (s : kstate) (p c : ptr) (dev : rfcomm_dev)
    (d : rfcomm_dlc) (size : Z) (alloc : option Z) :
  devs s !! p = Some (Some dev) -> dlc dev = Some c -> dlcs s !! c = Some d ->
  (rfcomm_wmalloc p size alloc s = Done None s /\
   (alloc = None \/ rfcomm_room d <= to_uint (wmem_alloc dev))) \/
  (exists ts,
     alloc = Some ts /\ to_uint (wmem_alloc dev) < rfcomm_room d /\
     rfcomm_wmalloc p size alloc s
     = Done (Some {| skb_data := []; skb_truesize := ts; skb_sk := Some p |})
         (set_devs (fun h =>
            <[p := Some (set_wmem_alloc (fun n => to_int (n + ts))
                           (set_port (set_kref (fun n => n + 1)) dev))]> h) s)).
Proof.
  intros Hp Hc Hd.
  assert (Hlenp : (p < length (devs s))%nat) by (eapply lookup_lt_Some; eauto).
  unfold rfcomm_wmalloc.
  rewrite (bind_Done _ _ _ _ _ (dev_read_Done _ _ _ Hp)), Hc.
  unfold deref. rewrite (bind_Done _ _ _ _ _ (eq_refl : ret c s = Done c s)).
  rewrite (bind_Done _ _ _ _ _ (dlc_read_Done _ _ _ Hd)).
  destruct (Z.ltb_spec (to_uint (wmem_alloc dev)) (rfcomm_room d)) as [Hlt|Hge].
  - destruct alloc as [ts|].
    + right. exists ts. split; [reflexivity|]. split; [exact Hlt|].
      assert (Hown : rfcomm_set_owner_w
                       {| skb_data := []; skb_truesize := ts; skb_sk := None |} p s
                     = Done {| skb_data := []; skb_truesize := ts; skb_sk := Some p |}
                         (set_devs (fun h =>
                            <[p := Some (set_wmem_alloc (fun n => to_int (n + ts))
                                   (set_port (set_kref (fun n => n + 1)) dev))]> h) s)).
      { unfold rfcomm_set_owner_w, tty_port_get.
        rewrite (bind_Done _ _ _ _ _ (dev_modify_Done _ _ _ _ Hp)).
        mstep dev_modify_Done ltac:(simpl; apply list_lookup_insert_eq; exact Hlenp).
        unfold ret. f_equal. apply kstate_eq; simpl; try reflexivity.
        apply list_insert_insert_eq. }
      rewrite (bind_Done _ _ _ _ _ Hown). reflexivity.
    + left. split; [reflexivity | left; reflexivity].
  - left. split; [reflexivity | right; exact Hge].
Qed.

(** Freeing an accounted buffer of a device that has another reference:
    the accounting and the reference of the buffer are given back. *)
Lemma kfree_skb_accounted (s : kstate) (p : ptr) (dev : rfcomm_dev)
    (skb : sk_buff) :
  devs s !! p = Some (Some dev) -> skb_sk skb = Some p ->
  1 < kref (port dev) ->
  exists s',
    kfree_skb skb s = Done tt s' /\
    devs s' = <[p := Some (set_port (set_kref (fun n => n - 1))
                             (set_wmem_alloc (fun n => to_int (n - skb_truesize skb)) dev))]>
                (devs s) /\
    dlcs s' = dlcs s /\ rfcomm_dev_list s' = rfcomm_dev_list s /\
    ttys s' = ttys s /\ socks s' = socks s /\ module_refs s' = module_refs s.
Proof.
  intros Hp Hsk Hk.
  assert (Hlenp : (p < length (devs s))%nat) by (eapply lookup_lt_Some; eauto).
  set (dev1 := set_wmem_alloc (fun n => to_int (n - skb_truesize skb)) dev).
  set (dev2 := set_port (set_kref (fun n => n - 1)) dev1).
  assert (Hwake : exists s1,
    (if test_bit RFCOMM_TTY_ATTACHED (flags dev)
     then match tty (port dev) with
          | Some t => tty_wakeup t
          | None => ret tt
          end
     else ret tt) (set_devs (fun h => <[p := Some dev1]> h) s) = Done tt s1 /\
    devs s1 = <[p := Some dev1]> (devs s) /\
    dlcs s1 = dlcs s /\ rfcomm_dev_list s1 = rfcomm_dev_list s /\
    ttys s1 = ttys s /\ socks s1 = socks s /\ module_refs s1 = module_refs s).
  { destruct (test_bit RFCOMM_TTY_ATTACHED (flags dev));
      [destruct (tty (port dev))|]; eexists; (split; [reflexivity|]);
      simpl; repeat split. }
  destruct Hwake as (s1 & Hw & Hd1 & Hrest1).
  assert (Hp1 : devs s1 !! p = Some (Some dev1)).
  { rewrite Hd1. apply list_lookup_insert_eq. exact Hlenp. }
  assert (Hput : tty_port_put p s1
                 = Done tt (set_devs (fun h => <[p := Some dev2]> h) s1)).
  { unfold tty_port_put.
    rewrite (bind_Done _ _ _ _ _ (dev_modify_Done _ _ _ _ Hp1)).
    mstep dev_read_Done ltac:(simpl; apply list_lookup_insert_eq;
                              rewrite Hd1, length_insert; exact Hlenp).
    destruct dev as [pt ? ? ? ? ? ? ? ? ? ? ?]; destruct pt; simpl in *.
    destruct (Z.eqb_spec (kref0 - 1) 0); [lia | reflexivity]. }
  assert (Hwfree : rfcomm_wfree skb s
                   = Done tt (set_devs (fun h => <[p := Some dev2]> h) s1)).
  { unfold rfcomm_wfree. rewrite Hsk. unfold deref.
    rewrite (bind_Done _ _ _ _ _ (eq_refl : ret p s = Done p s)).
    rewrite (bind_Done _ _ _ _ _ (dev_read_Done _ _ _ Hp)).
    rewrite (bind_Done _ _ _ _ _ (dev_modify_Done _ _ _ _ Hp)).
    rewrite (bind_Done _ _ _ _ _ Hw). exact Hput. }
  eexists. split.
  - unfold kfree_skb. rewrite Hsk.
    rewrite (bind_Done _ _ _ _ _ Hwfree). reflexivity.
  - simpl. rewrite Hd1. rewrite list_insert_insert_eq.
    destruct Hrest1 as (? & ? & ? & ? & ?). repeat split; assumption.
Qed.

Lemma rfcomm_dlc_send_refused (s : kstate) (c : ptr) (skb : sk_buff) (r : Z) :
  r < 0 ->
  rfcomm_dlc_send c skb r s
  = Done r {| devs := devs s; rfcomm_dev_list := rfcomm_dev_list s;
              dlcs := dlcs s; ttys := ttys s; socks := socks s;
              module_refs := module_refs s; log := log s ++ [EvDlcSend c skb] |}.
Proof.
  intros Hr. unfold rfcomm_dlc_send, emit, bind.
  destruct (Z.ltb_spec r 0); [reflexivity | lia].
Qed.








End Send.

Section SendClaims.
Context {RH : rfcomm_h} {TH : termios_h}.



End SendClaims.


(** ** Safety of calls *)

Section Safe.
Context {RH : rfcomm_h}.

Lemma safe_ret {A} (a : A) (s : kstate) (Q : A -> kstate -> Prop) :
  Q a s -> safe (ret a) s Q.
Proof. intros H. exact H. Qed.

Lemma safe_bind {A B} (m : M A) (k : A -> M B) (s : kstate)
    (Q : B -> kstate -> Prop) :
  safe m s (fun a s' => safe (k a) s' Q) -> safe (bind m k) s Q.
Proof.
  unfold safe, bind. destruct (m s) as [a s'| b |]; intros H; exact H.
Qed.

Lemma safe_mono {A} (m : M A) (s : kstate) (Q Q' : A -> kstate -> Prop) :
  safe m s Q -> (forall a s', Q a s' -> Q' a s') -> safe m s Q'.
Proof.
  unfold safe. destruct (m s) as [a s'| b |]; intros H HQ; auto.
Qed.

Lemma safe_Done {A} (m : M A) (s s' : kstate) (a : A)
    (Q : A -> kstate -> Prop) :
  m s = Done a s' -> Q a s' -> safe m s Q.
Proof. intros E H. unfold safe. rewrite E. exact H. Qed.

Lemma safe_Fault {A} (m : M A) (s : kstate) (Q : A -> kstate -> Prop) :
  m s = Fault -> safe m s Q.
Proof. intros E. unfold safe. rewrite E. exact I. Qed.

Lemma safe_inv {A} (m : M A) (s s' : kstate) (a : A)
    (Q : A -> kstate -> Prop) :
  safe m s Q -> m s = Done a s' -> Q a s'.
Proof. unfold safe. intros H E. rewrite E in H. exact H. Qed.


Lemma safe_get_state (s : kstate) (Q : kstate -> kstate -> Prop) :
  Q s s -> safe get_state s Q.
Proof. intros H. exact H. Qed.

Lemma safe_fault {A} (s : kstate) (Q : A -> kstate -> Prop) :
  safe fault s Q.
Proof. exact I. Qed.

Lemma safe_deref {A} (o : option A) (s : kstate) (Q : A -> kstate -> Prop) :
  (forall a, o = Some a -> Q a s) -> safe (deref o) s Q.
Proof. destruct o as [a|]; intros H; [apply H; reflexivity | exact I]. Qed.

Lemma safe_emit (e : event) (s : kstate) (Q : unit -> kstate -> Prop) :
  Q tt {| devs := devs s; rfcomm_dev_list := rfcomm_dev_list s;
          dlcs := dlcs s; ttys := ttys s; socks := socks s;
          module_refs := module_refs s; log := log s ++ [e] |} ->
  safe (emit e) s Q.
Proof. intros H. exact H. Qed.

Lemma safe_dev_read (p : ptr) (s : kstate) (Q : rfcomm_dev -> kstate -> Prop) :
  (forall dev, devs s !! p = Some (Some dev) -> Q dev s) ->
  safe (dev_read p) s Q.
Proof.
  intros H. unfold safe, dev_read.
  destruct (devs s !! p) as [[dev|]|]; [apply H; reflexivity | exact I | exact I].
Qed.

Lemma safe_dev_modify (p : ptr) (f : rfcomm_dev -> rfcomm_dev) (s : kstate)
    (Q : unit -> kstate -> Prop) :
  (forall dev, devs s !! p = Some (Some dev) ->
     Q tt (set_devs (fun h => <[p := Some (f dev)]> h) s)) ->
  safe (dev_modify p f) s Q.
Proof.
  intros H. unfold safe, dev_modify.
  destruct (devs s !! p) as [[dev|]|]; [apply H; reflexivity | exact I | exact I].
Qed.

Lemma safe_dlc_read (c : ptr) (s : kstate) (Q : rfcomm_dlc -> kstate -> Prop) :
  (forall d, dlcs s !! c = Some d -> Q d s) -> safe (dlc_read c) s Q.
Proof.
  intros H. unfold safe, dlc_read.
  destruct (dlcs s !! c) as [d|]; [apply H; reflexivity | exact I].
Qed.

Lemma safe_dlc_modify (c : ptr) (f : rfcomm_dlc -> rfcomm_dlc) (s : kstate)
    (Q : unit -> kstate -> Prop) :
  (forall d, dlcs s !! c = Some d ->
     Q tt (set_dlcs (fun h => <[c := f d]> h) s)) ->
  safe (dlc_modify c f) s Q.
Proof.
  intros H. unfold safe, dlc_modify.
  destruct (dlcs s !! c) as [d|]; [apply H; reflexivity | exact I].
Qed.

Lemma safe_tty_read (t : ptr) (s : kstate) (Q : tty_struct -> kstate -> Prop) :
  (forall ts, ttys s !! t = Some ts -> Q ts s) -> safe (tty_read t) s Q.
Proof.
  intros H. unfold safe, tty_read.
  destruct (ttys s !! t) as [ts|]; [apply H; reflexivity | exact I].
Qed.

Lemma safe_tty_modify (t : ptr) (f : tty_struct -> tty_struct) (s : kstate)
    (Q : unit -> kstate -> Prop) :
  (forall ts, ttys s !! t = Some ts ->
     Q tt (set_ttys (fun h => <[t := f ts]> h) s)) ->
  safe (tty_modify t f) s Q.
Proof.
  intros H. unfold safe, tty_modify.
  destruct (ttys s !! t) as [ts|]; [apply H; reflexivity | exact I].
Qed.

Lemma safe_sock_read (k : ptr) (s : kstate) (Q : sock -> kstate -> Prop) :
  (forall x, socks s !! k = Some x -> Q x s) -> safe (sock_read k) s Q.
Proof.
  intros H. unfold safe, sock_read.
  destruct (socks s !! k) as [x|]; [apply H; reflexivity | exact I].
Qed.

Lemma safe_sock_modify (k : ptr) (f : sock -> sock) (s : kstate)
    (Q : unit -> kstate -> Prop) :
  (forall x, socks s !! k = Some x ->
     Q tt (set_socks (fun h => <[k := f x]> h) s)) ->
  safe (sock_modify k f) s Q.
Proof.
  intros H. unfold safe, sock_modify.
  destruct (socks s !! k) as [x|]; [apply H; reflexivity | exact I].
Qed.

End Safe.

(** ** The invariant under updates of the state *)

Section InvUpdates.
Context {RH : rfcomm_h}.

Lemma tx_refs_queues (s : kstate) (p : ptr) :
  tx_refs s p = fold_right (fun q n => skb_refs p q + n) 0 (tx_queues s).
Proof.
  unfold tx_refs, tx_queues. induction (dlcs s) as [|d l IH]; simpl;
    [reflexivity | rewrite IH; reflexivity].
Qed.

Lemma skb_refs_nonneg (p : ptr) (q : list sk_buff) : 0 <= skb_refs p q.
Proof. unfold skb_refs. lia. Qed.

Lemma tx_refs_nonneg (s : kstate) (p : ptr) : 0 <= tx_refs s p.
Proof.
  unfold tx_refs. induction (dlcs s) as [|d l IH]; simpl; [lia|].
  pose proof (skb_refs_nonneg p (dlc_tx_queue d)). lia.
Qed.

(** [dev_ok] looks at the state through the registry list and the
    transmit queues only. *)
Lemma dev_ok_frame (s s' : kstate) (p : ptr) (dev : rfcomm_dev) (x : Z) :
  rfcomm_dev_list s' = rfcomm_dev_list s -> tx_queues s' = tx_queues s ->
  dev_ok s p dev x -> dev_ok s' p dev x.
Proof.
  intros Hl Hq (H1 & H2). unfold dev_ok.
  rewrite !tx_refs_queues in *. rewrite Hl, Hq. auto.
Qed.

Lemma registry_ok_frame (s s' : kstate) (ids : list Z) :
  devs s' = devs s -> rfcomm_dev_list s' = rfcomm_dev_list s ->
  registry_ok s ids -> registry_ok s' ids.
Proof.
  intros Hd Hl (H1 & H2). split; [|exact H2].
  unfold registry_ids, id_of, dev_at in *. rewrite Hd, Hl. exact H1.
Qed.

Lemma tx_queue_lookup (s : kstate) (c : ptr) (d : rfcomm_dlc) :
  dlcs s !! c = Some d -> tx_queues s !! c = Some (dlc_tx_queue d).
Proof. intros H. unfold tx_queues. rewrite list_lookup_fmap, H. reflexivity. Qed.

(** The invariant looks at the state through the records, the registry
    list, the ttys and the transmit queues only. *)
Lemma inv_frame (s s' : kstate) (h : ptr -> Z) (cl : option ptr) :
  devs s' = devs s -> rfcomm_dev_list s' = rfcomm_dev_list s ->
  ttys s' = ttys s -> tx_queues s' = tx_queues s ->
  inv s h cl -> inv s' h cl.
Proof.
  intros Hd Hl Ht Hq ((ids & Hok) & Hpos & Hdev & Htty & Huniq & Htx & Hcl & Hbound).
  split; [exists ids; eapply registry_ok_frame; eauto|].
  split; [exact Hpos|].
  split; [|split; [|split; [|split]]].
  - intros p dev Hp. rewrite Hd in Hp.
    eapply dev_ok_frame; eauto.
  - intros t ts p dev. rewrite Ht, Hd, Hl. apply Htty.
  - intros t1 t2 ts1 ts2 p. rewrite Ht, Hl. apply Huniq.
  - intros c d skb p Hc Hin Hsk. rewrite Hd.
    apply tx_queue_lookup in Hc. rewrite Hq in Hc.
    unfold tx_queues in Hc. rewrite list_lookup_fmap in Hc.
    destruct (dlcs s !! c) as [d0|] eqn:E; [|discriminate].
    simpl in Hc. inversion Hc as [Heq]. rewrite <- Heq in Hin.
    eapply Htx; eauto.
  - split; [exact Hcl|]. intros t ts p. rewrite Ht, Hd. apply Hbound.
Qed.

(** The held references may be restated pointwise. *)
Lemma inv_ext (s : kstate) (h h' : ptr -> Z) (cl : option ptr) :
  (forall p, h' p = h p) -> inv s h cl -> inv s h' cl.
Proof.
  intros He (Hok & Hpos & Hdev & Htty & Huniq & Htx & Hcl & Hbound).
  split; [exact Hok|].
  split; [intros p; rewrite He; apply Hpos|].
  split; [|split; [|split; [|split]]]; auto.
  - intros p dev Hp. rewrite He. apply Hdev. exact Hp.
  - split; [|exact Hbound]. intros p Hp. rewrite He. apply Hcl. exact Hp.
Qed.

(** A call may forget references it holds. *)
Lemma inv_drop (s : kstate) (h h' : ptr -> Z) (cl : option ptr) :
  (forall p, 0 <= h' p <= h p) -> (forall p, cl = Some p -> 1 <= h' p) ->
  inv s h cl -> inv s h' cl.
Proof.
  intros He Hc (Hok & Hpos & Hdev & Htty & Huniq & Htx & Hcl & Hbound).
  split; [exact Hok|].
  split; [intros p; apply He|].
  split; [|split; [|split; [|split]]]; auto.
  intros p dev Hp. destruct (Hdev p dev Hp) as (H1 & H2).
  split; [exact H1|]. intros Hin. specialize (H2 Hin). specialize (He p). lia.
Qed.

Lemma registry_ok_set_dev (s s' : kstate) (ids : list Z) (p : ptr)
    (dev dev' : rfcomm_dev) :
  registry_ok s ids -> devs s !! p = Some (Some dev) ->
  dev_id dev' = dev_id dev ->
  devs s' = <[p := Some dev']> (devs s) ->
  rfcomm_dev_list s' = rfcomm_dev_list s ->
  registry_ok s' ids.
Proof.
  intros (H1 & H2) Hp Hid Hd Hl. split; [|exact H2].
  apply registry_ids_Forall2. rewrite Hl.
  apply registry_ids_Forall2 in H1.
  eapply Forall2_impl; [exact H1|]. intros q i Hq.
  apply id_of_Some in Hq. destruct Hq as (dq & Hq & Hi).
  apply id_of_Some. rewrite Hd.
  destruct (decide (q = p)) as [->|Hne].
  - exists dev'. split.
    + apply list_lookup_insert_eq. eapply lookup_lt_Some; eauto.
    + rewrite Hp in Hq. inversion Hq; subst. exact Hid.
  - exists dq. split; [|exact Hi].
    rewrite list_lookup_insert_ne by auto. exact Hq.
Qed.

(** Writing a record back: what has to hold of the new record; the device
    that is closing may become, or cease to be, the one written. *)
Lemma inv_set_dev_cl (s : kstate) (h h' : ptr -> Z) (cl cl' : option ptr)
    (p : ptr) (dev dev' : rfcomm_dev) :
  inv s h cl -> devs s !! p = Some (Some dev) ->
  dev_id dev' = dev_id dev ->
  (forall q, q <> p -> h' q = h q) -> 0 <= h' p ->
  dev_ok s p dev' (h' p) ->
  (p ∈ rfcomm_dev_list s -> 1 <= count (port dev) \/ cl = Some p ->
   1 <= count (port dev') \/ cl' = Some p) ->
  (cl' = Some p -> 1 <= h' p) ->
  (forall q, q <> p -> cl = Some q <-> cl' = Some q) ->
  inv (set_devs (fun l => <[p := Some dev']> l) s) h' cl'.
Proof.
  intros ((ids & Hok) & Hpos & Hdev & Htty & Huniq & Htx & Hcl & Hbound)
    Hp Hid Hh Hhp Hnew Hcnt Hclp Hoth.
  assert (Hlen : (p < length (devs s))%nat) by (eapply lookup_lt_Some; eauto).
  split; [exists ids; eapply registry_ok_set_dev; eauto; reflexivity|].
  split; [intros q; destruct (decide (q = p)) as [->|Hne];
          [exact Hhp | rewrite Hh by exact Hne; apply Hpos]|].
  split; [|split; [|split; [|split]]].
  - intros q dq Hq. simpl in Hq.
    destruct (decide (q = p)) as [->|Hne].
    + rewrite list_lookup_insert_eq in Hq by exact Hlen.
      inversion Hq; subst dq.
      eapply dev_ok_frame; [| |exact Hnew]; reflexivity.
    + rewrite list_lookup_insert_ne in Hq by auto.
      rewrite Hh by exact Hne.
      eapply dev_ok_frame; [| |apply Hdev; exact Hq]; reflexivity.
  - intros t ts q dq Ht Hdd Hin Hq. simpl in Hq.
    change (q ∈ rfcomm_dev_list s) in Hin.
    destruct (decide (q = p)) as [->|Hne].
    + rewrite list_lookup_insert_eq in Hq by exact Hlen.
      inversion Hq; subst dq.
      apply Hcnt; [exact Hin|]. eapply Htty; eauto.
    + rewrite list_lookup_insert_ne in Hq by auto.
      destruct (Htty t ts q dq Ht Hdd Hin Hq) as [Hc|Hc]; [left; exact Hc|].
      right. apply (Hoth q Hne). exact Hc.
  - exact Huniq.
  - intros c d skb q Hc Hin Hsk. simpl. rewrite length_insert.
    eapply Htx; eauto.
  - split.
    + intros q Hq. destruct (decide (q = p)) as [->|Hne].
      * apply Hclp. exact Hq.
      * rewrite Hh by exact Hne. apply Hcl. apply (Hoth q Hne). exact Hq.
    + intros t ts q Ht Hq. simpl. rewrite length_insert. eapply Hbound; eauto.
Qed.

Lemma inv_set_dev (s : kstate) (h h' : ptr -> Z) (cl : option ptr) (p : ptr)
    (dev dev' : rfcomm_dev) :
  inv s h cl -> devs s !! p = Some (Some dev) ->
  dev_id dev' = dev_id dev ->
  (forall q, q <> p -> h' q = h q) -> 0 <= h' p ->
  dev_ok s p dev' (h' p) ->
  (p ∈ rfcomm_dev_list s -> 1 <= count (port dev) ->
   1 <= count (port dev') \/ cl = Some p) ->
  (cl = Some p -> 1 <= h' p) ->
  inv (set_devs (fun l => <[p := Some dev']> l) s) h' cl.
Proof.
  intros Hinv Hp Hid Hh Hhp Hnew Hcnt Hclp.
  apply (inv_set_dev_cl s h h' cl cl p dev dev' Hinv Hp Hid Hh Hhp Hnew);
    [|exact Hclp|tauto].
  intros Hin [Hc|Hc]; [apply Hcnt; assumption | right; exact Hc].
Qed.

(** A write that leaves the identity, the counts and the pending chunks of
    a record as they are. *)
Lemma inv_touch (s : kstate) (h : ptr -> Z) (cl : option ptr) (p : ptr)
    (dev dev' : rfcomm_dev) :
  inv s h cl -> devs s !! p = Some (Some dev) ->
  dev_id dev' = dev_id dev ->
  kref (port dev') = kref (port dev) ->
  count (port dev') = count (port dev) ->
  Forall inbound (pending dev') ->
  inv (set_devs (fun l => <[p := Some dev']> l) s) h cl.
Proof.
  intros Hinv Hp Hid Hk Hc Hpend.
  pose proof Hinv as (_ & Hpos & Hdev & _ & _ & _ & Hcl & Hbound).
  destruct (Hdev p dev Hp) as (H1 & H2).
  eapply inv_set_dev; eauto.
  - split; [exact Hpend|]. rewrite Hk, Hc. exact H2.
  - intros _ Hx. left. rewrite Hc. exact Hx.
Qed.

Lemma refs_sum_insert (p : ptr) (l : list (list sk_buff)) (c : nat)
    (q q' : list sk_buff) :
  l !! c = Some q ->
  fold_right (fun q n => skb_refs p q + n) 0 (<[c := q']> l)
  = fold_right (fun q n => skb_refs p q + n) 0 l - skb_refs p q + skb_refs p q'.
Proof.
  revert c. induction l as [|a l IH]; intros [|c] H; simpl in *; try discriminate.
  - inversion H; subst. lia.
  - rewrite (IH c H). lia.
Qed.

Lemma tx_refs_set_dlc (s : kstate) (c : ptr) (d d' : rfcomm_dlc) (p : ptr) :
  dlcs s !! c = Some d ->
  tx_refs (set_dlcs (fun l => <[c := d']> l) s) p
  = tx_refs s p - skb_refs p (dlc_tx_queue d) + skb_refs p (dlc_tx_queue d').
Proof.
  intros H. rewrite !tx_refs_queues. unfold tx_queues. simpl.
  rewrite list_fmap_insert. apply refs_sum_insert.
  rewrite list_lookup_fmap, H. reflexivity.
Qed.

Lemma skb_refs_snoc (p : ptr) (q : list sk_buff) (skb : sk_buff) :
  skb_refs p (q ++ [skb])
  = skb_refs p q + (if bool_decide (skb_sk skb = Some p) then 1 else 0).
Proof.
  unfold skb_refs. rewrite filter_app, length_app. simpl.
  rewrite filter_cons. destruct (decide (skb_sk skb = Some p)) as [E|E].
  - rewrite bool_decide_eq_true_2 by exact E. simpl. lia.
  - rewrite bool_decide_eq_false_2 by exact E. simpl. lia.
Qed.

Lemma skb_refs_cons (p : ptr) (q : list sk_buff) (skb : sk_buff) :
  skb_refs p (skb :: q)
  = skb_refs p q + (if bool_decide (skb_sk skb = Some p) then 1 else 0).
Proof.
  unfold skb_refs. rewrite filter_cons.
  destruct (decide (skb_sk skb = Some p)) as [E|E].
  - rewrite bool_decide_eq_true_2 by exact E. simpl. lia.
  - rewrite bool_decide_eq_false_2 by exact E. simpl. lia.
Qed.

(** A change of the transmit queue of one channel: the references of the
    queue move to or from those the call holds. *)
Lemma inv_set_tx_queue (s : kstate) (h h' : ptr -> Z) (cl : option ptr)
    (c : ptr) (d d' : rfcomm_dlc) :
  inv s h cl -> dlcs s !! c = Some d ->
  (forall p, h' p = h p + skb_refs p (dlc_tx_queue d)
                    - skb_refs p (dlc_tx_queue d')) ->
  (forall p, 0 <= h' p) ->
  (forall p, cl = Some p -> 1 <= h' p) ->
  (forall skb p, skb ∈ dlc_tx_queue d' -> skb_sk skb = Some p ->
                 (p < length (devs s))%nat) ->
  inv (set_dlcs (fun l => <[c := d']> l) s) h' cl.
Proof.
  intros ((ids & Hok) & Hpos0 & Hdev & Htty & Huniq & Htx & Hcl & Hbound)
    Hc Hh Hpos Hclp Hnew.
  split; [exists ids; eapply registry_ok_frame; eauto; reflexivity|].
  split; [exact Hpos|].
  split; [|split; [|split; [|split]]]; auto.
  - intros p dev Hp. destruct (Hdev p dev Hp) as (H1 & H2).
    split; [exact H1|]. intros Hin. specialize (H2 Hin).
    rewrite (tx_refs_set_dlc s c d d' p Hc). rewrite Hh. lia.
  - intros c0 d0 skb p Hc0 Hin Hsk. simpl in *.
    destruct (decide (c0 = c)) as [->|Hne].
    + rewrite list_lookup_insert_eq in Hc0 by (eapply lookup_lt_Some; eauto).
      inversion Hc0; subst d0. eapply Hnew; eauto.
    + rewrite list_lookup_insert_ne in Hc0 by auto. eapply Htx; eauto.
Qed.

Lemma Forall2_filter_sorted (R : ptr -> Z -> Prop) (Q : Z -> Prop) (x : ptr)
    (l : list ptr) (ids : list Z) :
  Forall2 R l ids -> StronglySorted Z.lt ids -> Forall Q ids ->
  exists ids',
    Forall2 R (filter (fun q => q <> x) l) ids' /\ StronglySorted Z.lt ids' /\
    Forall Q ids' /\ (forall i, i ∈ ids' -> i ∈ ids).
Proof.
  induction 1 as [|p i l ids Hp Hl IH]; intros Hs Hq.
  - exists []. repeat split; auto; constructor.
  - inversion Hs as [|? ? Hs' Hlt]; subst. inversion Hq as [|? ? Hqi Hq']; subst.
    destruct (IH Hs' Hq') as (ids' & H1 & H2 & H3 & H4).
    rewrite filter_cons. destruct (decide (p <> x)) as [Hne|He].
    + exists (i :: ids'). split; [constructor; assumption|].
      split.
      { constructor; [exact H2|]. apply Forall_forall. intros j Hj.
        rewrite Forall_forall in Hlt. apply Hlt. apply H4. exact Hj. }
      split; [constructor; assumption|].
      intros j Hj. apply elem_of_cons in Hj. destruct Hj as [->|Hj].
      * constructor.
      * apply elem_of_cons. right. apply H4. exact Hj.
    + exists ids'. repeat split; auto.
      intros j Hj. apply elem_of_cons. right. apply H4. exact Hj.
Qed.

Lemma registry_ok_list_del (s : kstate) (ids : list Z) (p : ptr) :
  registry_ok s ids ->
  exists ids', registry_ok (set_rfcomm_dev_list (filter (fun q => q <> p)) s) ids'.
Proof.
  intros (H1 & H2 & H3). apply registry_ids_Forall2 in H1.
  destruct (Forall2_filter_sorted _ _ p _ _ H1 H2 H3) as (ids' & F1 & F2 & F3 & _).
  exists ids'. split; [|split; assumption].
  apply registry_ids_Forall2. exact F1.
Qed.

(** Taking a record off the list: nothing is asked of a record that is
    off the list but that what is pending on it is inbound. *)
Lemma inv_list_del (s : kstate) (h : ptr -> Z) (cl : option ptr) (p : ptr) :
  inv s h cl ->
  inv (set_rfcomm_dev_list (filter (fun q => q <> p)) s) h cl.
Proof.
  intros ((ids & Hok) & Hpos & Hdev & Htty & Huniq & Htx & Hcl & Hbound).
  assert (Hsub : forall q, q ∈ filter (fun x => x <> p) (rfcomm_dev_list s) ->
                           q ∈ rfcomm_dev_list s).
  { intros q Hq. apply list_elem_of_filter in Hq. tauto. }
  split; [eapply registry_ok_list_del; eauto|].
  split; [exact Hpos|].
  split; [|split; [|split; [|split]]]; auto.
  - intros q dq Hq. change (devs s !! q = Some (Some dq)) in Hq.
    destruct (Hdev q dq Hq) as (H1 & H2).
    split; [exact H1|]. intros Hin. apply H2. apply Hsub. exact Hin.
  - intros t ts q dq Ht Hdd Hin Hq. eapply Htty; eauto.
  - intros t1 t2 ts1 ts2 q H1 H2 D1 D2 Hin. eapply Huniq; eauto.
Qed.

(** Freeing a record that is off the list. *)
Lemma inv_kfree (s : kstate) (h : ptr -> Z) (cl : option ptr) (p : ptr) :
  inv s h cl -> p ∉ rfcomm_dev_list s ->
  inv (set_devs (fun l => <[p := None]> l) s) h cl.
Proof.
  intros Hinv Hnin.
  destruct (decide (p < length (devs s))%nat) as [Hlen|Hge].
  2: { eapply inv_frame; [| | | |exact Hinv]; try reflexivity.
       simpl. apply list_insert_ge. lia. }
  destruct Hinv as ((ids & Hok) & Hpos & Hdev & Htty & Huniq & Htx & Hcl & Hbound).
  split.
  { exists ids. destruct Hok as (H1 & H2). split; [|exact H2].
    apply registry_ids_Forall2. apply registry_ids_Forall2 in H1. simpl.
    assert (Hall : Forall (fun q => q <> p) (rfcomm_dev_list s)).
    { apply Forall_forall. intros q Hq ->. contradiction. }
    clear -H1 Hall. induction H1 as [|q i l ids Hq Hl IH]; [constructor|].
    inversion Hall; subst. constructor; [|apply IH; assumption].
    apply id_of_Some in Hq. destruct Hq as (dq & Hq & Hi).
    apply id_of_Some. exists dq. split; [|exact Hi]. simpl.
    rewrite list_lookup_insert_ne by auto. exact Hq. }
  split; [exact Hpos|].
  split; [|split; [|split; [|split]]]; auto.
  - intros q dq Hq. simpl in Hq.
    destruct (decide (q = p)) as [->|Hne].
    + rewrite list_lookup_insert_eq in Hq by exact Hlen. discriminate.
    + rewrite list_lookup_insert_ne in Hq by auto.
      eapply dev_ok_frame; [| |apply Hdev; exact Hq]; reflexivity.
  - intros t ts q dq Ht Hdd Hin Hq. simpl in Hq.
    change (q ∈ rfcomm_dev_list s) in Hin.
    destruct (decide (q = p)) as [->|Hne]; [contradiction|].
    rewrite list_lookup_insert_ne in Hq by auto. eapply Htty; eauto.
  - intros c d skb q Hc Hin Hsk. simpl. rewrite length_insert.
    eapply Htx; eauto.
  - split; [exact Hcl|].
    intros t ts q Ht Hq. simpl. rewrite length_insert. eapply Hbound; eauto.
Qed.

(** A change of one tty, and of the device that is closing. *)
Lemma inv_set_tty_cl (s : kstate) (h : ptr -> Z) (cl cl' : option ptr) (t : ptr)
    (ts ts' : tty_struct) :
  inv s h cl -> ttys s !! t = Some ts ->
  (forall q, cl' = Some q -> 1 <= h q) ->
  (forall p, tty_driver_data ts' = Some p -> p ∈ rfcomm_dev_list s ->
     (forall dev, devs s !! p = Some (Some dev) ->
                  1 <= count (port dev) \/ cl' = Some p) /\
     (forall t2 ts2, ttys s !! t2 = Some ts2 ->
                     tty_driver_data ts2 = Some p -> t2 = t)) ->
  (forall t2 ts2 q dev, t2 <> t -> ttys s !! t2 = Some ts2 ->
     tty_driver_data ts2 = Some q -> q ∈ rfcomm_dev_list s ->
     devs s !! q = Some (Some dev) -> cl = Some q -> cl' <> Some q ->
     1 <= count (port dev)) ->
  (forall p, tty_driver_data ts' = Some p -> (p < length (devs s))%nat) ->
  inv (set_ttys (fun l => <[t := ts']> l) s) h cl'.
Proof.
  intros (Hok & Hpos & Hdev & Htty & Huniq & Htx & Hcl & Hbound)
    Ht Hcl' Hnew Hoth Hnb.
  assert (Hlen : (t < length (ttys s))%nat) by (eapply lookup_lt_Some; eauto).
  destruct Hok as (ids & Hok).
  split; [exists ids; eapply registry_ok_frame; eauto; reflexivity|].
  split; [exact Hpos|].
  split; [|split; [|split; [|split; [|split]]]]; [| | |exact Htx|exact Hcl'|].
  - intros p dev Hp. eapply dev_ok_frame; [| |apply Hdev; exact Hp]; reflexivity.
  - intros t0 ts0 p dev Ht0 Hdd Hin Hp. simpl in Ht0.
    change (p ∈ rfcomm_dev_list s) in Hin.
    change (devs s !! p = Some (Some dev)) in Hp.
    destruct (decide (t0 = t)) as [->|Hne].
    + rewrite list_lookup_insert_eq in Ht0 by exact Hlen.
      inversion Ht0; subst ts0. apply (proj1 (Hnew p Hdd Hin) dev Hp).
    + rewrite list_lookup_insert_ne in Ht0 by auto.
      destruct (Htty t0 ts0 p dev Ht0 Hdd Hin Hp) as [Hc|Hc]; [left; exact Hc|].
      destruct (decide (cl' = Some p)) as [E|E]; [right; exact E|].
      left. eapply Hoth; eauto.
  - intros t1 t2 ts1 ts2 p H1 H2 D1 D2 Hin. simpl in H1, H2.
    change (p ∈ rfcomm_dev_list s) in Hin.
    destruct (decide (t1 = t)) as [->|N1]; destruct (decide (t2 = t)) as [->|N2];
      auto.
    + rewrite list_lookup_insert_eq in H1 by exact Hlen.
      rewrite list_lookup_insert_ne in H2 by auto.
      inversion H1; subst ts1. symmetry.
      apply (proj2 (Hnew p D1 Hin) t2 ts2 H2 D2).
    + rewrite list_lookup_insert_ne in H1 by auto.
      rewrite list_lookup_insert_eq in H2 by exact Hlen.
      inversion H2; subst ts2.
      apply (proj2 (Hnew p D2 Hin) t1 ts1 H1 D1).
    + rewrite list_lookup_insert_ne in H1 by auto.
      rewrite list_lookup_insert_ne in H2 by auto.
      eapply Huniq; eauto.
  - intros t0 ts0 p Ht0 Hdd. simpl in Ht0.
    change (p < length (devs s))%nat.
    destruct (decide (t0 = t)) as [->|Hne].
    + rewrite list_lookup_insert_eq in Ht0 by exact Hlen.
      inversion Ht0; subst ts0. apply Hnb. exact Hdd.
    + rewrite list_lookup_insert_ne in Ht0 by auto. eapply Hbound; eauto.
Qed.

Lemma inv_set_tty (s : kstate) (h : ptr -> Z) (cl : option ptr) (t : ptr)
    (ts ts' : tty_struct) :
  inv s h cl -> ttys s !! t = Some ts ->
  (forall p, tty_driver_data ts' = Some p -> p ∈ rfcomm_dev_list s ->
     (forall dev, devs s !! p = Some (Some dev) ->
                  1 <= count (port dev) \/ cl = Some p) /\
     (forall t2 ts2, ttys s !! t2 = Some ts2 ->
                     tty_driver_data ts2 = Some p -> t2 = t)) ->
  (forall p, tty_driver_data ts' = Some p -> (p < length (devs s))%nat) ->
  inv (set_ttys (fun l => <[t := ts']> l) s) h cl.
Proof.
  intros Hinv Ht Hnew Hnb. eapply inv_set_tty_cl; eauto.
  - destruct Hinv as (_ & _ & _ & _ & _ & _ & Hcl & _). exact Hcl.
  - intros t2 ts2 q dev _ _ _ _ _ E N. contradiction.
Qed.

Lemma hold_same (h : ptr -> Z) (p : ptr) (k : Z) : hold h p k p = h p + k.
Proof. unfold hold. rewrite bool_decide_eq_true_2 by reflexivity. reflexivity. Qed.

Lemma hold_other (h : ptr -> Z) (p q : ptr) (k : Z) :
  q <> p -> hold h p k q = h q.
Proof. intros H. unfold hold. rewrite bool_decide_eq_false_2 by exact H. reflexivity. Qed.

Lemma hold_hold (h : ptr -> Z) (p : ptr) (k : Z) (q : ptr) :
  hold (hold h p k) p (- k) q = h q.
Proof.
  unfold hold. destruct (bool_decide (q = p)); lia.
Qed.

End InvUpdates.

(** *** What the calls below an entry point leave alone *)

Lemma keeps_ret {A} (a : A) : keeps (ret a).
Proof. intros s b s' H. inversion H; subst. auto. Qed.

Lemma keeps_bind {A B} (m : M A) (k : A -> M B) :
  keeps m -> (forall a, keeps (k a)) -> keeps (bind m k).
Proof.
  intros Hm Hk s b s' H. apply bind_inv in H. destruct H as (a & s1 & H1 & H2).
  destruct (Hm _ _ _ H1) as [T1 L1]. destruct (Hk a _ _ _ H2) as [T2 L2].
  split; [congruence | auto].
Qed.

Lemma keeps_BUG {A} (b : bug) : keeps (BUG (A := A) b).
Proof. intros s a s' H. discriminate. Qed.

Lemma keeps_fault {A} : keeps (fault (A := A)).
Proof. intros s a s' H. discriminate. Qed.

Lemma keeps_get_state : keeps get_state.
Proof. intros s a s' H. inversion H; subst. auto. Qed.

Lemma keeps_emit (e : event) : keeps (emit e).
Proof. intros s a s' H. inversion H; subst. auto. Qed.

Lemma keeps_deref {A} (o : option A) : keeps (deref o).
Proof. destruct o; [apply keeps_ret | apply keeps_fault]. Qed.

Lemma keeps_dev_read (p : ptr) : keeps (dev_read p).
Proof.
  intros s a s' H. unfold dev_read in H.
  destruct (devs s !! p) as [[d|]|]; inversion H; subst. auto.
Qed.

Lemma keeps_dev_modify (p : ptr) (f : rfcomm_dev -> rfcomm_dev) :
  keeps (dev_modify p f).
Proof.
  intros s a s' H. unfold dev_modify in H.
  destruct (devs s !! p) as [[d|]|]; inversion H; subst. auto.
Qed.

Lemma keeps_dlc_read (c : ptr) : keeps (dlc_read c).
Proof.
  intros s a s' H. unfold dlc_read in H.
  destruct (dlcs s !! c); inversion H; subst. auto.
Qed.

Lemma keeps_dlc_modify (c : ptr) (f : rfcomm_dlc -> rfcomm_dlc) :
  keeps (dlc_modify c f).
Proof.
  intros s a s' H. unfold dlc_modify in H.
  destruct (dlcs s !! c); inversion H; subst. auto.
Qed.

Lemma keeps_tty_read (t : ptr) : keeps (tty_read t).
Proof.
  intros s a s' H. unfold tty_read in H.
  destruct (ttys s !! t); inversion H; subst. auto.
Qed.

Lemma keeps_kfree_dev (p : ptr) : keeps (kfree_dev p).
Proof. intros s a s' H. inversion H; subst. auto. Qed.

Lemma keeps_list_del (p : ptr) : keeps (list_del p).
Proof.
  intros s a s' H. inversion H; subst. split; [reflexivity|].
  intros q Hq. simpl in Hq. apply list_elem_of_filter in Hq. tauto.
Qed.

Create HintDb keeps.
#[export] Hint Resolve keeps_ret keeps_BUG keeps_fault keeps_get_state keeps_emit
  keeps_deref keeps_dev_read keeps_dev_modify keeps_dlc_read keeps_dlc_modify
  keeps_tty_read keeps_kfree_dev keeps_list_del : keeps.

Ltac keeps_tac :=
  repeat first
    [ solve [auto with keeps]
    | apply keeps_bind; [|intros ?]
    | match goal with
      | |- keeps (match ?x with _ => _ end) => destruct x
      end ].

(** A safe call that [keeps]. *)
Lemma safe_keeps {A} (m : M A) (s : kstate) (Q : A -> kstate -> Prop) :
  keeps m -> safe m s Q ->
  safe m s (fun a s' => Q a s' /\ ttys s' = ttys s /\
                        forall q, q ∈ rfcomm_dev_list s' -> q ∈ rfcomm_dev_list s).
Proof.
  intros Hk Hs. unfold safe in *. destruct (m s) as [a s'| |] eqn:E; auto.
  split; [exact Hs|]. exact (Hk _ _ _ E).
Qed.

(** *** Calls that only read and log *)

Lemma quiet_ret {A} (a : A) : quiet (ret a).
Proof. intros s. simpl. auto. Qed.

Lemma quiet_bind {A B} (m : M A) (k : A -> M B) :
  quiet m -> (forall a, quiet (k a)) -> quiet (bind m k).
Proof.
  intros Hm Hk s. unfold bind. specialize (Hm s).
  destruct (m s) as [a s1| |]; auto.
  specialize (Hk a s1). destruct (k a s1) as [b s2| |]; auto.
  destruct Hm as (A1 & A2 & A3 & A4). destruct Hk as (B1 & B2 & B3 & B4).
  repeat split; congruence.
Qed.

Lemma quiet_fault {A} : quiet (fault (A := A)).
Proof. intros s. exact I. Qed.

Lemma quiet_get_state : quiet get_state.
Proof. intros s. simpl. auto. Qed.

Lemma quiet_emit (e : event) : quiet (emit e).
Proof. intros s. simpl. auto. Qed.

Lemma quiet_deref {A} (o : option A) : quiet (deref o).
Proof. destruct o; [apply quiet_ret | apply quiet_fault]. Qed.

Lemma quiet_dev_read (p : ptr) : quiet (dev_read p).
Proof. intros s. unfold dev_read. destruct (devs s !! p) as [[d|]|]; simpl; auto. Qed.

Lemma quiet_dlc_read (c : ptr) : quiet (dlc_read c).
Proof. intros s. unfold dlc_read. destruct (dlcs s !! c); simpl; auto. Qed.

Lemma quiet_tty_read (t : ptr) : quiet (tty_read t).
Proof. intros s. unfold tty_read. destruct (ttys s !! t); simpl; auto. Qed.

Lemma quiet_sock_read (k : ptr) : quiet (sock_read k).
Proof. intros s. unfold sock_read. destruct (socks s !! k); simpl; auto. Qed.

Create HintDb quiet.
#[export] Hint Resolve quiet_ret quiet_fault quiet_get_state quiet_emit
  quiet_deref quiet_dev_read quiet_dlc_read quiet_tty_read quiet_sock_read : quiet.

Ltac quiet_tac :=
  repeat first
    [ solve [auto with quiet]
    | apply quiet_bind; [|intros ?]
    | match goal with
      | |- quiet (match ?x with _ => _ end) => destruct x
      end ].

Lemma quiet_Done {A} (m : M A) (s s' : kstate) (a : A) :
  quiet m -> m s = Done a s' ->
  devs s' = devs s /\ rfcomm_dev_list s' = rfcomm_dev_list s /\
  ttys s' = ttys s /\ dlcs s' = dlcs s.
Proof. intros Hq H. specialize (Hq s). rewrite H in Hq. exact Hq. Qed.

(** ** The functions keep the invariant *)

Section Lifecycle.
Context {RH : rfcomm_h} {TH : termios_h}.

Lemma tx_queues_set_same (s : kstate) (c : ptr) (d d' : rfcomm_dlc) :
  dlcs s !! c = Some d -> dlc_tx_queue d' = dlc_tx_queue d ->
  tx_queues (set_dlcs (fun l => <[c := d']> l) s) = tx_queues s.
Proof.
  intros Hc Hq. unfold tx_queues. simpl. rewrite list_fmap_insert, Hq.
  apply list_insert_id. rewrite list_lookup_fmap, Hc. reflexivity.
Qed.

(** A record on the list is referenced. *)
Lemma listed_kref_pos (s : kstate) (h : ptr -> Z) (cl : option ptr) (p : ptr)
    (dev : rfcomm_dev) :
  inv s h cl -> devs s !! p = Some (Some dev) -> p ∈ rfcomm_dev_list s ->
  1 <= kref (port dev).
Proof.
  intros (_ & Hpos & Hdev & _) Hp Hin.
  destruct (Hdev p dev Hp) as (_ & H2). specialize (H2 Hin).
  pose proof (tx_refs_nonneg s p). specialize (Hpos p). lia.
Qed.

Lemma tty_port_get_safe (p : ptr) (s : kstate) (h : ptr -> Z) (cl : option ptr) :
  inv s h cl ->
  safe (tty_port_get p) s (fun _ s' =>
    inv s' (hold h p 1) cl /\
    exists dev, devs s !! p = Some (Some dev) /\
      s' = set_devs (fun l => <[p := Some (set_port (set_kref (fun n => n + 1)) dev)]> l) s).
Proof.
  intros Hinv. unfold tty_port_get. apply safe_dev_modify. intros dev Hp.
  split; [|exists dev; auto].
  pose proof Hinv as (_ & Hpos & Hdev & _ & _ & _ & Hcl & Hbound).
  destruct (Hdev p dev Hp) as (H1 & H2).
  eapply inv_set_dev; [exact Hinv | exact Hp | | | | | |].
  - destruct dev; reflexivity.
  - intros q Hq. apply hold_other. exact Hq.
  - rewrite hold_same. specialize (Hpos p). lia.
  - rewrite hold_same. destruct dev as [[? ? ? ? ?] ? ? ? ? ? ? ? ? ? ? ?].
    split; [exact H1|]. intros Hin. specialize (H2 Hin). simpl in *. lia.
  - intros _ Hc. left. destruct dev as [[? ? ? ? ?] ? ? ? ? ? ? ? ? ? ? ?]. exact Hc.
  - intros Hc. rewrite hold_same. specialize (Hcl p Hc). lia.
Qed.

(** The destructor runs on a record that is off the list. *)
Lemma rfcomm_dev_destruct_safe (p : ptr) (s : kstate) (h : ptr -> Z)
    (cl : option ptr) :
  inv s h cl -> p ∉ rfcomm_dev_list s ->
  safe (rfcomm_dev_destruct p) s (fun _ s' => inv s' h cl).
Proof.
  intros Hinv Hoff.
  unfold rfcomm_dev_destruct.
  apply safe_bind. apply safe_dev_read. intros dev Hp.
  apply safe_bind. apply safe_deref. intros c Hc.
  apply safe_bind. apply safe_get_state.
  unfold on_dev_list. rewrite bool_decide_eq_false_2 by exact Hoff.
  apply safe_bind. apply safe_dlc_read. intros d Hd.
  assert (Hown : safe
    (match dlc_owner_of d with
     | OwnerDev q => if bool_decide (q = p)
                     then dlc_modify c (set_dlc_owner OwnerNull) else ret tt
     | _ => ret tt
     end) s (fun _ s1 => inv s1 h cl /\ devs s1 = devs s /\
                          rfcomm_dev_list s1 = rfcomm_dev_list s)).
  { destruct (dlc_owner_of d) as [|k|q]; try (apply safe_ret; auto).
    destruct (bool_decide (q = p)); [|apply safe_ret; auto].
    apply safe_dlc_modify. intros d0 Hd0. split; [|split; reflexivity].
    eapply inv_frame; [| | | |exact Hinv]; try reflexivity.
    eapply tx_queues_set_same; [exact Hd0|]. destruct d0; reflexivity. }
  apply safe_bind. eapply safe_mono; [exact Hown|].
  intros u s1 (Hinv1 & Hd1 & Hl1). cbv beta.
  apply safe_bind. apply safe_emit.
  apply safe_bind. apply safe_emit.
  apply safe_bind. unfold kfree_dev, safe.
  eapply inv_frame with (s := set_devs (fun l => <[p := None]> l) s1);
    try reflexivity.
  eapply inv_kfree; [exact Hinv1 | rewrite Hl1; exact Hoff].
Qed.

Lemma tty_port_put_safe (p : ptr) (s : kstate) (h : ptr -> Z) (cl : option ptr) :
  inv s h cl -> 1 <= h p -> (cl = Some p -> 2 <= h p) ->
  safe (tty_port_put p) s (fun _ s' => inv s' (hold h p (-1)) cl).
Proof.
  intros Hinv Hh Hclp.
  pose proof Hinv as (_ & Hpos & Hdev & _).
  unfold tty_port_put.
  apply safe_bind. apply safe_dev_modify. intros dev Hp.
  destruct (Hdev p dev Hp) as (H1 & H2).
  assert (Hlen : (p < length (devs s))%nat) by (eapply lookup_lt_Some; eauto).
  assert (Hinv1 : inv (set_devs (fun l =>
                    <[p := Some (set_port (set_kref (fun n => n - 1)) dev)]> l) s)
                    (hold h p (-1)) cl).
  { eapply inv_set_dev; [exact Hinv | exact Hp | | | | | |].
    - destruct dev; reflexivity.
    - intros q Hq. apply hold_other. exact Hq.
    - rewrite hold_same. lia.
    - rewrite hold_same. destruct dev as [[? ? ? ? ?] ? ? ? ? ? ? ? ? ? ? ?].
      split; [exact H1|]. intros Hin. specialize (H2 Hin). simpl in *. lia.
    - intros _ Hc. left. destruct dev as [[? ? ? ? ?] ? ? ? ? ? ? ? ? ? ? ?].
      exact Hc.
    - intros Hc. rewrite hold_same. specialize (Hclp Hc). lia. }
  apply safe_bind. apply safe_dev_read. intros dev1 Hp1.
  destruct (Z.eqb_spec (kref (port dev1)) 0) as [E|E].
  - apply rfcomm_dev_destruct_safe; [exact Hinv1|].
    intros Hin. pose proof (listed_kref_pos _ _ _ _ _ Hinv1 Hp1 Hin). lia.
  - apply safe_ret. exact Hinv1.
Qed.

(** Dropping a reference on a record that is off the list. *)
Lemma tty_port_put_unlisted (p : ptr) (s : kstate) (h : ptr -> Z)
    (cl : option ptr) :
  inv s h cl -> p ∉ rfcomm_dev_list s ->
  safe (tty_port_put p) s (fun _ s' => inv s' h cl).
Proof.
  intros Hinv Hoff.
  pose proof Hinv as (_ & Hpos & Hdev & _ & _ & _ & Hcl & Hbound).
  unfold tty_port_put.
  apply safe_bind. apply safe_dev_modify. intros dev Hp.
  destruct (Hdev p dev Hp) as (H1 & H2).
  assert (Hinv1 : inv (set_devs (fun l =>
                    <[p := Some (set_port (set_kref (fun n => n - 1)) dev)]> l) s)
                    h cl).
  { eapply inv_set_dev; [exact Hinv | exact Hp | | | | | |].
    - destruct dev; reflexivity.
    - reflexivity.
    - apply Hpos.
    - split; [destruct dev; exact H1|]. intros Hin. contradiction.
    - intros Hin. contradiction.
    - apply Hcl. }
  apply safe_bind. apply safe_dev_read. intros dev1 Hp1.
  destruct (Z.eqb_spec (kref (port dev1)) 0) as [E|E].
  - apply rfcomm_dev_destruct_safe; [exact Hinv1 | exact Hoff].
  - apply safe_ret. exact Hinv1.
Qed.

Lemma dev_list_find_safe (id : Z) (l : list ptr) (s : kstate)
    (Q : option ptr -> kstate -> Prop) :
  (forall r,
     match r with
     | Some p => p ∈ l /\ exists dev, devs s !! p = Some (Some dev) /\ dev_id dev = id
     | None => True
     end -> Q r s) ->
  safe (dev_list_find l id) s Q.
Proof.
  revert Q. induction l as [|p l IH]; intros Q HQ.
  - apply safe_ret. apply HQ. exact I.
  - cbn [dev_list_find]. apply safe_bind. apply safe_dev_read. intros dev Hp.
    destruct (Z.eqb_spec (dev_id dev) id) as [E|E].
    + apply safe_ret. apply HQ. split; [constructor|]. exists dev. auto.
    + apply IH. intros [q|] Hr; apply HQ; [|exact I].
      destruct Hr as [Hq Hd]. split; [constructor; exact Hq | exact Hd].
Qed.

Lemma rfcomm_dev_get_safe (id : Z) (s : kstate) (h : ptr -> Z) (cl : option ptr) :
  inv s h cl ->
  safe (rfcomm_dev_get id) s (fun r s' =>
    match r with
    | None => s' = s
    | Some p =>
        exists dev, devs s !! p = Some (Some dev) /\ dev_id dev = id /\
          p ∈ rfcomm_dev_list s /\
          test_bit RFCOMM_TTY_RELEASED (flags dev) = false /\
          s' = set_devs (fun l =>
                 <[p := Some (set_port (set_kref (fun n => n + 1)) dev)]> l) s /\
          inv s' (hold h p 1) cl
    end).
Proof.
  intros Hinv. unfold rfcomm_dev_get, __rfcomm_dev_get.
  apply safe_bind. apply safe_bind. apply safe_get_state.
  apply dev_list_find_safe. intros [p|] Hr; [|apply safe_ret; reflexivity].
  destruct Hr as (Hin & dev & Hp & Hid).
  apply safe_bind. apply safe_dev_read. intros dev0 Hp0.
  rewrite Hp in Hp0. inversion Hp0; subst dev0.
  destruct (test_bit RFCOMM_TTY_RELEASED (flags dev)) eqn:Hrel;
    [apply safe_ret; reflexivity|].
  apply safe_bind. eapply safe_mono; [apply (tty_port_get_safe p s h cl Hinv)|].
  intros _ s' (Hinv' & dev1 & Hp1 & Hs'). cbv beta. apply safe_ret.
  rewrite Hp in Hp1. inversion Hp1; subst dev1. subst s'.
  exists dev. split; [exact Hp|]. split; [exact Hid|]. split; [exact Hin|].
  split; [exact Hrel|]. split; [reflexivity | exact Hinv'].
Qed.

Lemma test_bit_set_bit_same (n w : Z) : 0 <= n -> test_bit n (set_bit n w) = true.
Proof. intros H. unfold test_bit, set_bit. apply Z.setbit_eq. exact H. Qed.


Lemma test_bit_clear_bit_other (n m w : Z) :
  n <> m -> test_bit n (clear_bit m w) = test_bit n w.
Proof. intros H. unfold test_bit, clear_bit. apply Z.clearbit_neq; auto. Qed.

Lemma rfcomm_dev_del_safe (p : ptr) (s : kstate) (h : ptr -> Z) (cl : option ptr) :
  inv s h cl ->
  safe (rfcomm_dev_del p) s (fun _ s' => inv s' h cl).
Proof.
  intros Hinv. pose proof Hinv as (_ & _ & Hdev & _).
  unfold rfcomm_dev_del.
  apply safe_bind. apply safe_dev_read. intros dev Hp.
  destruct (test_bit RFCOMM_TTY_RELEASED (flags dev)) eqn:Hrel;
    [unfold safe, BUG; discriminate|].
  destruct (Hdev p dev Hp) as (H1 & H2).
  assert (Hlen : (p < length (devs s))%nat) by (eapply lookup_lt_Some; eauto).
  set (dev1 := set_flags (set_bit RFCOMM_TTY_RELEASED) dev).
  assert (Hinv1 : inv (set_devs (fun l => <[p := Some dev1]> l) s) h cl).
  { eapply inv_touch; [exact Hinv | exact Hp | | | |]; destruct dev; auto. }
  apply safe_bind. apply safe_dev_modify. intros dev0 Hp0.
  rewrite Hp in Hp0. inversion Hp0; subst dev0. fold dev1.
  apply safe_bind. apply safe_dev_read. intros dev2 Hp2.
  destruct (Z.gtb_spec (count (port dev2)) 0) as [G|G];
    [apply safe_ret; exact Hinv1|].
  apply safe_bind. unfold list_del, safe.
  apply tty_port_put_unlisted.
  - apply inv_list_del. exact Hinv1.
  - cbn [rfcomm_dev_list set_rfcomm_dev_list]. rewrite list_elem_of_filter.
    intros [Hx _]. apply Hx. reflexivity.
Qed.

Lemma rfcomm_wfree_safe (skb : sk_buff) (p : ptr) (s : kstate) (h : ptr -> Z)
    (cl : option ptr) :
  inv s h cl -> skb_sk skb = Some p -> 1 <= h p -> (cl = Some p -> 2 <= h p) ->
  safe (rfcomm_wfree skb) s (fun _ s' => inv s' (hold h p (-1)) cl).
Proof.
  intros Hinv Hsk Hh Hclp. unfold rfcomm_wfree. rewrite Hsk.
  apply safe_bind. apply safe_deref. intros p0 E. inversion E; subst p0.
  apply safe_bind. apply safe_dev_read. intros dev Hp.
  apply safe_bind. apply safe_dev_modify. intros dev0 Hp0.
  rewrite Hp in Hp0. inversion Hp0; subst dev0.
  pose proof Hinv as (_ & _ & Hdev & _).
  destruct (Hdev p dev Hp) as (H5 & _).
  assert (Hinv1 : inv (set_devs (fun l => <[p := Some
                    (set_wmem_alloc (fun n => to_int (n - skb_truesize skb)) dev)]> l) s)
                    h cl).
  { eapply inv_touch; [exact Hinv | exact Hp | | | |]; destruct dev; auto. }
  apply safe_bind.
  assert (Hw : safe
    (if test_bit RFCOMM_TTY_ATTACHED (flags dev)
     then match tty (port dev) with
          | Some t => tty_wakeup t
          | None => ret tt
          end
     else ret tt)
    (set_devs (fun l => <[p := Some
       (set_wmem_alloc (fun n => to_int (n - skb_truesize skb)) dev)]> l) s)
    (fun _ s1 => inv s1 h cl)).
  { destruct (test_bit RFCOMM_TTY_ATTACHED (flags dev));
      [destruct (tty (port dev))|]; try (apply safe_ret; exact Hinv1).
    apply safe_emit. eapply inv_frame; [| | | |exact Hinv1]; reflexivity. }
  eapply safe_mono; [exact Hw|]. intros u s1 Hinv2. cbv beta.
  apply tty_port_put_safe; assumption.
Qed.

Lemma kfree_skb_safe (skb : sk_buff) (s : kstate) (h : ptr -> Z)
    (cl : option ptr) :
  inv s h cl ->
  (forall p, skb_sk skb = Some p -> 1 <= h p /\ (cl = Some p -> 2 <= h p)) ->
  safe (kfree_skb skb) s (fun _ s' =>
    inv s' (match skb_sk skb with Some p => hold h p (-1) | None => h end) cl).
Proof.
  intros Hinv Hh. unfold kfree_skb.
  apply safe_bind. destruct (skb_sk skb) as [p|] eqn:Hsk.
  - destruct (Hh p eq_refl) as [H1 H2].
    eapply safe_mono; [apply (rfcomm_wfree_safe skb p s h cl); assumption|].
    intros u s1 Hinv1. cbv beta. apply safe_emit.
    eapply inv_frame; [| | | |exact Hinv1]; reflexivity.
  - apply safe_ret. apply safe_emit.
    eapply inv_frame; [| | | |exact Hinv]; reflexivity.
Qed.

Lemma rfcomm_wmalloc_safe (p : ptr) (size : Z) (alloc : option Z) (s : kstate)
    (h : ptr -> Z) (cl : option ptr) :
  inv s h cl ->
  safe (rfcomm_wmalloc p size alloc) s (fun r s' =>
    match r with
    | None => s' = s
    | Some skb => skb_sk skb = Some p /\ skb_data skb = [] /\
                  inv s' (hold h p 1) cl /\ dlcs s' = dlcs s /\
                  ttys s' = ttys s /\ (p < length (devs s'))%nat /\
                  length (devs s') = length (devs s)
    end).
Proof.
  intros Hinv. unfold rfcomm_wmalloc.
  apply safe_bind. apply safe_dev_read. intros dev Hp.
  apply safe_bind. apply safe_deref. intros c Hc.
  apply safe_bind. apply safe_dlc_read. intros d Hd.
  destruct (to_uint (wmem_alloc dev) <? rfcomm_room d); [|apply safe_ret; reflexivity].
  destruct alloc as [ts|]; [|apply safe_ret; reflexivity].
  apply safe_bind. unfold rfcomm_set_owner_w.
  apply safe_bind. eapply safe_mono; [apply (tty_port_get_safe p s h cl Hinv)|].
  intros u s1 (Hinv1 & dev1 & Hp1 & Hs1). cbv beta.
  rewrite Hp in Hp1. inversion Hp1; subst dev1.
  assert (Hlen : (p < length (devs s))%nat) by (eapply lookup_lt_Some; eauto).
  apply safe_bind. apply safe_dev_modify. intros dev2 Hp2.
  apply safe_ret. apply safe_ret. cbn [skb_sk skb_data].
  split; [reflexivity|]. split; [reflexivity|]. split.
  - pose proof Hinv1 as (_ & _ & Hdev1 & _).
    destruct (Hdev1 p _ Hp2) as (H5 & _).
    eapply inv_touch; [exact Hinv1 | exact Hp2 | | | |]; destruct dev2; auto.
  - subst s1. simpl. rewrite !length_insert. auto.
Qed.

(** No two records on the list have the same id. *)
Lemma registry_unique (s : kstate) (ids : list Z) (p q : ptr)
    (dp dq : rfcomm_dev) :
  registry_ok s ids ->
  p ∈ rfcomm_dev_list s -> q ∈ rfcomm_dev_list s ->
  devs s !! p = Some (Some dp) -> devs s !! q = Some (Some dq) ->
  dev_id dp = dev_id dq -> p = q.
Proof.
  intros (H1 & H2 & _) Hp Hq Dp Dq Hid.
  apply registry_ids_Forall2 in H1.
  assert (Ip : id_of s p = Some (dev_id dp)) by (apply id_of_Some; eauto).
  assert (Iq : id_of s q = Some (dev_id dp)).
  { apply id_of_Some. exists dq. auto. }
  clear Dp Dq Hid. revert H2 Hp Hq Ip Iq. generalize (dev_id dp).
  induction H1 as [|x i l ids Hx Hl IH]; intros j Hs Hp Hq Ip Iq.
  - inversion Hp.
  - inversion Hs as [|? ? Hs' Hlt]; subst.
    assert (Hmem : forall y, y ∈ l -> id_of s y = Some j -> j ∈ ids).
    { intros y Hy Iy. clear -Hl Hy Iy. induction Hl as [|a b l ids Hab Hl IHl].
      - inversion Hy.
      - apply elem_of_cons in Hy. destruct Hy as [->|Hy].
        + rewrite Hab in Iy. inversion Iy. constructor.
        + apply elem_of_cons. right. apply IHl. exact Hy. }
    rewrite Forall_forall in Hlt.
    apply elem_of_cons in Hp. apply elem_of_cons in Hq.
    destruct Hp as [->|Hp]; destruct Hq as [->|Hq]; auto.
    + rewrite Hx in Ip. inversion Ip; subst j.
      specialize (Hlt _ (Hmem q Hq Iq)). lia.
    + rewrite Hx in Iq. inversion Iq; subst j.
      specialize (Hlt _ (Hmem p Hp Ip)). lia.
    + eapply IH; eauto.
Qed.

Lemma dlc_owner_dev_safe (c : ptr) (s : kstate)
    (Q : option ptr -> kstate -> Prop) :
  (forall r, Q r s) -> safe (dlc_owner_dev c) s Q.
Proof.
  intros HQ. unfold dlc_owner_dev. apply safe_bind. apply safe_dlc_read.
  intros d Hd. destruct (dlc_owner_of d); try (apply safe_ret; apply HQ).
  apply safe_fault.
Qed.

Lemma keeps_tty_port_get (p : ptr) : keeps (tty_port_get p).
Proof. unfold tty_port_get. keeps_tac. Qed.

Lemma keeps_rfcomm_dev_destruct (p : ptr) : keeps (rfcomm_dev_destruct p).
Proof.
  unfold rfcomm_dev_destruct. keeps_tac.
  intros s0 r s' H. inversion H; subst. auto.
Qed.

Lemma keeps_tty_port_put (p : ptr) : keeps (tty_port_put p).
Proof.
  unfold tty_port_put. pose proof (keeps_rfcomm_dev_destruct p). keeps_tac.
Qed.

Lemma keeps_dev_list_find (l : list ptr) (id : Z) : keeps (dev_list_find l id).
Proof. induction l as [|p l IH]; cbn [dev_list_find]; keeps_tac. Qed.

Lemma keeps_rfcomm_dev_get (id : Z) : keeps (rfcomm_dev_get id).
Proof.
  unfold rfcomm_dev_get, __rfcomm_dev_get.
  pose proof keeps_dev_list_find. pose proof keeps_tty_port_get. keeps_tac.
Qed.

Lemma keeps_rfcomm_dev_del (p : ptr) : keeps (rfcomm_dev_del p).
Proof. unfold rfcomm_dev_del. pose proof keeps_tty_port_put. keeps_tac. Qed.

Lemma keeps_dlc_owner_dev (c : ptr) : keeps (dlc_owner_dev c).
Proof. unfold dlc_owner_dev. keeps_tac. Qed.

Lemma keeps_rfcomm_dev_state_change (c : ptr) (e : Z) :
  keeps (rfcomm_dev_state_change c e).
Proof.
  unfold rfcomm_dev_state_change.
  pose proof keeps_dlc_owner_dev. pose proof keeps_rfcomm_dev_get.
  pose proof keeps_rfcomm_dev_del. pose proof keeps_tty_port_put. keeps_tac.
Qed.

Lemma keeps_rfcomm_dlc_close (c : ptr) (sync : option Z) :
  keeps (rfcomm_dlc_close c sync).
Proof.
  unfold rfcomm_dlc_close. pose proof keeps_rfcomm_dev_state_change. keeps_tac.
Qed.

Lemma pending_inbound (s : kstate) (h : ptr -> Z) (cl : option ptr) (p : ptr)
    (dev : rfcomm_dev) :
  inv s h cl -> devs s !! p = Some (Some dev) -> Forall inbound (pending dev).
Proof. intros (_ & _ & Hdev & _) Hp. apply (Hdev p dev Hp). Qed.

Lemma rfcomm_dev_modem_status_safe (c : ptr) (v : Z) (s : kstate)
    (h : ptr -> Z) (cl : option ptr) :
  inv s h cl ->
  safe (rfcomm_dev_modem_status c v) s (fun _ s' => inv s' h cl).
Proof.
  intros Hinv. unfold rfcomm_dev_modem_status.
  apply safe_bind. apply dlc_owner_dev_safe. intros [p|]; [|apply safe_ret; exact Hinv].
  apply safe_bind. apply safe_dev_read. intros dev Hp.
  apply safe_bind.
  assert (Hhang : safe
    (if negb (Z.land (modem_status dev) TIOCM_CD =? 0)
        && (Z.land v RFCOMM_V24_DV =? 0)
     then match tty (port dev) with
          | Some t => let* ts := tty_read t in
                      if negb (C_CLOCAL ts) then emit (EvTtyHangup t) else ret tt
          | None => ret tt
          end
     else ret tt) s
    (fun _ s1 => inv s1 h cl /\ devs s1 = devs s)).
  { destruct (_ && _); [|apply safe_ret; auto].
    destruct (tty (port dev)) as [t|]; [|apply safe_ret; auto].
    apply safe_bind. apply safe_tty_read. intros ts Ht.
    destruct (negb (C_CLOCAL ts)); [|apply safe_ret; auto].
    apply safe_emit. split; [|reflexivity].
    eapply inv_frame; [| | | |exact Hinv]; reflexivity. }
  eapply safe_mono; [exact Hhang|]. intros u s1 (Hinv1 & Hd1). cbv beta.
  apply safe_dev_modify. intros dev1 Hp1.
  pose proof (pending_inbound _ _ _ _ _ Hinv1 Hp1) as H5.
  eapply inv_touch; [exact Hinv1 | exact Hp1 | | | |]; destruct dev1; auto.
Qed.

Lemma rfcomm_dev_data_ready_safe (c : ptr) (skb : sk_buff) (s : kstate)
    (h : ptr -> Z) (cl : option ptr) :
  inv s h cl -> inbound skb ->
  safe (rfcomm_dev_data_ready c skb) s (fun _ s' => inv s' h cl).
Proof.
  intros Hinv Hin. unfold rfcomm_dev_data_ready.
  assert (Hfree : forall s1, inv s1 h cl ->
            safe (kfree_skb skb) s1 (fun _ s' => inv s' h cl)).
  { intros s1 Hinv1.
    eapply safe_mono; [apply (kfree_skb_safe skb s1 h cl Hinv1)|].
    - intros p Hp. unfold inbound in Hin. congruence.
    - intros u s' H. unfold inbound in Hin. rewrite Hin in H. exact H. }
  apply safe_bind. apply dlc_owner_dev_safe. intros [p|]; [|apply Hfree; exact Hinv].
  apply safe_bind. apply safe_dev_read. intros dev Hp.
  pose proof (pending_inbound _ _ _ _ _ Hinv Hp) as H5.
  destruct (negb (bool_decide (pending dev = []))).
  - apply safe_dev_modify. intros dev0 Hp0.
    rewrite Hp in Hp0. inversion Hp0; subst dev0.
    eapply inv_touch; [exact Hinv | exact Hp | | | |]; destruct dev; auto.
    simpl in *. apply Forall_app. split; [exact H5|]. constructor; [exact Hin|constructor].
  - apply safe_bind. unfold tty_insert_flip_string.
    apply safe_bind. apply safe_dev_modify. intros dev0 Hp0.
    rewrite Hp in Hp0. inversion Hp0; subst dev0.
    apply safe_ret.
    apply safe_bind. unfold tty_flip_buffer_push.
    apply safe_dev_modify. intros dev1 Hp1.
    apply Hfree.
    assert (Hlen : (p < length (devs s))%nat) by (eapply lookup_lt_Some; eauto).
    simpl in Hp1. rewrite list_lookup_insert_eq in Hp1 by exact Hlen.
    inversion Hp1; subst dev1.
    eapply inv_touch.
    + eapply inv_touch; [exact Hinv | exact Hp | | | |];
        [| | |exact H5]; destruct dev as [[? ? ? ? ?] ? ? ? ? ? ? ? ? ? ? ?]; auto.
    + simpl. apply list_lookup_insert_eq. exact Hlen.
    + destruct dev as [[? ? ? ? ?] ? ? ? ? ? ? ? ? ? ? ?]; reflexivity.
    + destruct dev as [[? ? ? ? ?] ? ? ? ? ? ? ? ? ? ? ?]; reflexivity.
    + destruct dev as [[? ? ? ? ?] ? ? ? ? ? ? ? ? ? ? ?]; reflexivity.
    + destruct dev as [[? ? ? ? ?] ? ? ? ? ? ? ? ? ? ? ?]; exact H5.
Qed.

(** The tear-down both [rfcomm_dev_state_change] and [rfcomm_tty_hangup]
    make for a "release on hang-up" device: look the id up, and when a
    record is found remove [p] and drop the reference of the look-up. When
    the record found is another one, [p] is off the list, and the reference
    of the look-up is never given back. *)
Lemma get_del_put_safe (p : ptr) (s : kstate) (h : ptr -> Z) (cl : option ptr)
    (dev : rfcomm_dev) :
  inv s h cl -> devs s !! p = Some (Some dev) ->
  safe (let* r := rfcomm_dev_get (dev_id dev) in
        match r with
        | None => ret tt
        | Some _ => let* _ := rfcomm_dev_del p in tty_port_put p
        end) s (fun _ s' => inv s' h cl).
Proof.
  intros Hinv Hp.
  pose proof Hinv as ((ids & Hok) & Hpos & Hdev & _ & _ & _ & Hcl & Hbound).
  apply safe_bind.
  eapply safe_mono; [apply (rfcomm_dev_get_safe (dev_id dev) s h cl Hinv)|].
  intros [q|] s2; cbv beta; [|intros ->; apply safe_ret; exact Hinv].
  intros (dq & Hq & Hid & Hin & Hrel & Hs2 & Hinv2).
  destruct (decide (q = p)) as [->|Hne].
  - apply safe_bind.
    eapply safe_mono; [apply (rfcomm_dev_del_safe p s2 _ cl Hinv2)|].
    intros u s3 Hinv3. cbv beta.
    eapply safe_mono.
    + apply (tty_port_put_safe p s3 _ cl Hinv3).
      * rewrite hold_same. specialize (Hpos p). lia.
      * intros Hc. rewrite hold_same. specialize (Hcl p Hc). lia.
    + intros u' s4 Hinv4. eapply inv_ext; [|exact Hinv4].
      intros x. symmetry. apply (hold_hold h p 1 x).
  - assert (Hnin : p ∉ rfcomm_dev_list s).
    { intros Hpin. apply Hne. symmetry.
      eapply (registry_unique s ids p q); eauto. }
    assert (Hinv2' : inv s2 h cl).
    { eapply inv_drop; [| |exact Hinv2].
      - intros x. unfold hold. specialize (Hpos x).
        destruct (bool_decide (x = q)); lia.
      - exact Hcl. }
    assert (Hl2 : rfcomm_dev_list s2 = rfcomm_dev_list s) by (subst s2; reflexivity).
    apply safe_bind.
    eapply safe_mono;
      [apply safe_keeps; [apply keeps_rfcomm_dev_del
                         | apply (rfcomm_dev_del_safe p s2 h cl Hinv2')]|].
    intros u s3 (Hinv3 & _ & Hl3). cbv beta.
    apply tty_port_put_unlisted; [exact Hinv3|].
    intros Hx. apply Hnin. rewrite <- Hl2. apply Hl3. exact Hx.
Qed.

Lemma rfcomm_dev_state_change_safe (c : ptr) (e : Z) (s : kstate)
    (h : ptr -> Z) (cl : option ptr) :
  inv s h cl ->
  safe (rfcomm_dev_state_change c e) s (fun _ s' => inv s' h cl).
Proof.
  intros Hinv. unfold rfcomm_dev_state_change.
  apply safe_bind. apply dlc_owner_dev_safe. intros [p|]; [|apply safe_ret; exact Hinv].
  apply safe_bind. apply safe_dev_modify. intros dev Hp.
  assert (Hlen : (p < length (devs s))%nat) by (eapply lookup_lt_Some; eauto).
  pose proof (pending_inbound _ _ _ _ _ Hinv Hp) as H5.
  assert (Hinv1 : inv (set_devs (fun l => <[p := Some (set_err e dev)]> l) s) h cl).
  { eapply inv_touch; [exact Hinv | exact Hp | | | |]; destruct dev; auto. }
  apply safe_bind. apply safe_emit.
  match goal with |- safe _ ?s1 _ =>
    assert (Hinv2 : inv s1 h cl)
      by (eapply inv_frame; [| | | |exact Hinv1]; reflexivity)
  end.
  apply safe_bind. apply safe_dlc_read. intros d Hd.
  destruct (dlc_state d); try (apply safe_ret; exact Hinv2).
  apply safe_bind. apply safe_dev_read. intros dev1 Hp1.
  destruct (tty (port dev1)) as [t|].
  - apply safe_emit. eapply inv_frame; [| | | |exact Hinv2]; reflexivity.
  - destruct (test_bit RFCOMM_RELEASE_ONHUP (flags dev1));
      [|apply safe_ret; exact Hinv2].
    eapply get_del_put_safe; [exact Hinv2 | exact Hp1].
Qed.

Lemma rfcomm_dlc_close_safe (c : ptr) (sync : option Z) (s : kstate)
    (h : ptr -> Z) (cl : option ptr) :
  inv s h cl ->
  safe (rfcomm_dlc_close c sync) s (fun _ s' => inv s' h cl).
Proof.
  intros Hinv. unfold rfcomm_dlc_close.
  apply safe_bind. apply safe_emit.
  match goal with |- safe _ ?s1 _ =>
    assert (Hinv1 : inv s1 h cl)
      by (eapply inv_frame; [| | | |exact Hinv]; reflexivity)
  end.
  destruct sync as [e|]; [|apply safe_ret; exact Hinv1].
  apply safe_bind. apply safe_dlc_read. intros d Hd.
  apply safe_bind. apply safe_dlc_modify. intros d0 Hd0.
  match goal with |- safe _ ?s2 _ =>
    assert (Hinv2 : inv s2 h cl)
  end.
  { eapply inv_frame; [| | | |exact Hinv1]; try reflexivity.
    eapply tx_queues_set_same; [exact Hd0|]. destruct d0; reflexivity. }
  destruct (dlc_cb d); [apply safe_ret; exact Hinv2|].
  apply rfcomm_dev_state_change_safe. exact Hinv2.
Qed.

Lemma copy_pending_loop_safe (p : ptr) (n : nat) :
  forall (s : kstate) (inserted : Z) (h : ptr -> Z) (cl : option ptr),
    inv s h cl ->
    safe (copy_pending_loop n p inserted) s (fun _ s' => inv s' h cl).
Proof.
  assert (Hdq : forall s h cl, inv s h cl ->
    safe (skb_dequeue_pending p) s (fun o s' =>
      inv s' h cl /\ match o with Some skb => inbound skb | None => True end)).
  { intros s h cl Hinv. unfold skb_dequeue_pending.
    apply safe_bind. apply safe_dev_read. intros dev Hp.
    pose proof (pending_inbound _ _ _ _ _ Hinv Hp) as H5.
    destruct (pending dev) as [|skb q] eqn:Hq; [apply safe_ret; auto|].
    apply safe_bind. apply safe_dev_modify. intros dev0 Hp0.
    rewrite Hp in Hp0. inversion Hp0; subst dev0.
    apply safe_ret. inversion H5 as [|? ? Hskb Hrest]; subst.
    split; [|exact Hskb].
    eapply inv_touch; [exact Hinv | exact Hp | | | |]; destruct dev; auto. }
  induction n as [|n IH]; intros s inserted h cl Hinv; cbn [copy_pending_loop].
  - apply safe_bind. eapply safe_mono; [apply (Hdq s h cl Hinv)|].
    intros [skb|] s1 [Hinv1 _]; cbv beta; [apply safe_fault | apply safe_ret; exact Hinv1].
  - apply safe_bind. eapply safe_mono; [apply (Hdq s h cl Hinv)|].
    intros [skb|] s1 [Hinv1 Hin]; cbv beta; [|apply safe_ret; exact Hinv1].
    apply safe_bind. unfold tty_insert_flip_string.
    apply safe_bind. apply safe_dev_modify. intros dev Hp.
    apply safe_ret.
    match goal with |- safe _ ?s2 _ => assert (Hinv2 : inv s2 h cl) end.
    { pose proof (pending_inbound _ _ _ _ _ Hinv1 Hp) as H5.
      eapply inv_touch; [exact Hinv1 | exact Hp | | | |];
        destruct dev as [pt ? ? ? ? ? ? ? ? ? ? ?]; destruct pt; auto. }
    apply safe_bind.
    eapply safe_mono; [apply (kfree_skb_safe skb _ h cl Hinv2)|].
    + intros q Hq. unfold inbound in Hin. congruence.
    + intros u s3 Hinv3. cbv beta. unfold inbound in Hin. rewrite Hin in Hinv3.
      apply IH. exact Hinv3.
Qed.

Lemma rfcomm_tty_copy_pending_safe (p : ptr) (s : kstate) (h : ptr -> Z)
    (cl : option ptr) :
  inv s h cl ->
  safe (rfcomm_tty_copy_pending p) s (fun _ s' => inv s' h cl).
Proof.
  intros Hinv. unfold rfcomm_tty_copy_pending.
  apply safe_bind. apply safe_dev_read. intros dev Hp.
  apply safe_bind.
  eapply safe_mono; [apply (copy_pending_loop_safe p _ s 0 h cl Hinv)|].
  intros n s1 Hinv1. cbv beta.
  destruct (n >? 0); [|apply safe_ret; exact Hinv1].
  unfold tty_flip_buffer_push. apply safe_dev_modify. intros dev1 Hp1.
  pose proof (pending_inbound _ _ _ _ _ Hinv1 Hp1) as H5.
  eapply inv_touch; [exact Hinv1 | exact Hp1 | | | |];
    destruct dev1 as [pt ? ? ? ? ? ? ? ? ? ? ?]; destruct pt; auto.
Qed.

Lemma rfcomm_tty_open_attach_safe (t : ptr) (open_err : Z) (s : kstate)
    (h : ptr -> Z) :
  inv s h None ->
  safe (rfcomm_tty_open_attach t open_err) s (fun _ s' => inv s' h None).
Proof.
  intros Hinv. unfold rfcomm_tty_open_attach.
  pose proof Hinv as (_ & Hpos & Hdev & Htty & _).
  apply safe_bind. apply safe_tty_read. intros ts Ht.
  apply safe_bind.
  eapply safe_mono; [apply (rfcomm_dev_get_safe (tty_index ts) s h None Hinv)|].
  intros [p|] s2; cbv beta; [|intros ->; apply safe_ret; exact Hinv].
  intros (dev & Hp & Hid & Hin & Hrel & Hs2 & Hinv2).
  assert (Hlen : (p < length (devs s))%nat) by (eapply lookup_lt_Some; eauto).
  destruct (Hdev p dev Hp) as (H5 & H2). specialize (H2 Hin).
  apply safe_bind. apply safe_dev_modify. intros dev2 Hp2.
  assert (E2 : dev2 = set_port (set_kref (fun n => n + 1)) dev).
  { subst s2. simpl in Hp2. rewrite list_lookup_insert_eq in Hp2 by exact Hlen.
    inversion Hp2. reflexivity. }
  set (dev3 := set_port (set_count (fun n => n + 1)) dev2).
  assert (Hinv3 : inv (set_devs (fun l => <[p := Some dev3]> l) s2) h None).
  { eapply inv_set_dev; [exact Hinv2 | exact Hp2 | | | | | |].
    - destruct dev2; reflexivity.
    - intros q Hq. symmetry. apply hold_other. exact Hq.
    - apply Hpos.
    - subst dev3 dev2. destruct dev as [[? ? ? ? ?] ? ? ? ? ? ? ? ? ? ? ?].
      split; [exact H5|]. intros _. subst s2. simpl in *.
      change (tx_refs (set_devs _ s) p) with (tx_refs s p). lia.
    - intros _ Hc. left. subst dev3.
      destruct dev2 as [[? ? ? ? ?] ? ? ? ? ? ? ? ? ? ? ?]. simpl in *. lia.
    - discriminate. }
  assert (Hlen2 : (p < length (devs s2))%nat) by (eapply lookup_lt_Some; eauto).
  apply safe_bind. apply safe_dev_read. intros dev3' Hp3.
  simpl in Hp3. rewrite list_lookup_insert_eq in Hp3 by exact Hlen2.
  inversion Hp3; subst dev3'. clear Hp3.
  assert (Hc3 : count (port dev3) = count (port dev) + 1).
  { subst dev3 dev2. destruct dev as [[? ? ? ? ?] ? ? ? ? ? ? ? ? ? ? ?]. reflexivity. }
  destruct (Z.gtb_spec (count (port dev3)) 1) as [G|G];
    [apply safe_ret; exact Hinv3|].
  apply safe_bind. apply safe_deref. intros c Hc.
  apply safe_bind. apply safe_tty_modify. intros ts0 Ht0.
  match goal with |- safe _ ?s4 _ => assert (Hinv4 : inv s4 h None) end.
  { eapply inv_set_tty; [exact Hinv3 | exact Ht0 | |].
    - intros q Hq Hqin. destruct ts0; simpl in Hq. inversion Hq; subst q. split.
      + intros d Hd. simpl in Hd. rewrite list_lookup_insert_eq in Hd by exact Hlen2.
        inversion Hd; subst d. left. lia.
      + intros t2 ts2 Ht2 Hdd. subst s2. simpl in Ht2.
        destruct (Htty t2 ts2 p dev Ht2 Hdd Hin Hp) as [Hx|Hx]; [lia|discriminate].
    - intros q Hq. destruct ts0; simpl in Hq. inversion Hq; subst q.
      simpl. rewrite length_insert. exact Hlen2. }
  apply safe_bind. apply safe_dev_modify. intros dev4 Hp4.
  match goal with |- safe _ ?s5 _ => assert (Hinv5 : inv s5 h None) end.
  { pose proof (pending_inbound _ _ _ _ _ Hinv4 Hp4) as P4.
    eapply inv_touch; [exact Hinv4 | exact Hp4 | | | |];
      destruct dev4 as [[? ? ? ? ?] ? ? ? ? ? ? ? ? ? ? ?]; auto. }
  apply safe_bind. apply safe_dev_modify. intros dev5 Hp5.
  match goal with |- safe _ ?s6 _ => assert (Hinv6 : inv s6 h None) end.
  { pose proof (pending_inbound _ _ _ _ _ Hinv5 Hp5) as P5.
    eapply inv_touch; [exact Hinv5 | exact Hp5 | | | |];
      destruct dev5 as [[? ? ? ? ?] ? ? ? ? ? ? ? ? ? ? ?]; auto. }
  apply safe_bind. apply safe_emit.
  match goal with |- safe _ ?s7 _ => assert (Hinv7 : inv s7 h None) end.
  { eapply inv_frame; [| | | |exact Hinv6]; reflexivity. }
  destruct (open_err <? 0); apply safe_ret; exact Hinv7.
Qed.

Lemma rfcomm_tty_open_check_safe (p c : ptr) (e0 : Z) (sig : bool) (s : kstate)
    (Q : option kret -> kstate -> Prop) :
  (forall r, Q r s) -> safe (rfcomm_tty_open_check p c e0 sig) s Q.
Proof.
  intros HQ. unfold rfcomm_tty_open_check.
  apply safe_bind. apply safe_dlc_read. intros d Hd.
  destruct (dlc_state d); try (destruct sig; apply safe_ret; apply HQ);
    try (apply safe_ret; apply HQ).
  apply safe_bind. apply safe_dev_read. intros dev Hp. apply safe_ret. apply HQ.
Qed.

Lemma rfcomm_tty_open_finish_safe (p : ptr) (e : kret) (hc : bool) (s : kstate)
    (h : ptr -> Z) (cl : option ptr) :
  inv s h cl ->
  safe (rfcomm_tty_open_finish p e hc) s (fun _ s' => inv s' h cl).
Proof.
  intros Hinv. unfold rfcomm_tty_open_finish.
  assert (Hmove : safe (let* _ := emit (EvDeviceMove p hc) in
                        dev_modify p (set_tty_dev_parent hc)) s
                    (fun _ s' => inv s' h cl)).
  { apply safe_bind. apply safe_emit. apply safe_dev_modify. intros dev Hp.
    pose proof (pending_inbound _ _ _ _ _ Hinv Hp) as P.
    eapply inv_touch with (dev := dev);
      [eapply inv_frame; [| | | |exact Hinv]; reflexivity | exact Hp | | | |];
      destruct dev; auto. }
  apply safe_bind.
  eapply safe_mono with (Q := fun _ s' => inv s' h cl).
  { destruct e as [v|]; [|apply safe_ret; exact Hinv].
    destruct v; try (apply safe_ret; exact Hinv). exact Hmove. }
  intros u s1 Hinv1. cbv beta.
  apply safe_bind.
  eapply safe_mono; [apply (rfcomm_tty_copy_pending_safe p s1 h cl Hinv1)|].
  intros u' s2 Hinv2. cbv beta.
  apply safe_bind. apply safe_dev_read. intros dev Hp.
  apply safe_bind. apply safe_deref. intros c Hc.
  apply safe_bind. apply safe_emit. apply safe_ret.
  eapply inv_frame; [| | | |exact Hinv2]; reflexivity.
Qed.

Lemma rfcomm_tty_close_safe (t : ptr) (sync : option Z) (s : kstate)
    (h : ptr -> Z) :
  inv s h None ->
  safe (rfcomm_tty_close t sync) s (fun _ s' => inv s' h None).
Proof.
  intros Hinv. unfold rfcomm_tty_close.
  pose proof Hinv as (_ & Hpos & Hdev & Htty & _).
  apply safe_bind. apply safe_tty_read. intros ts Ht.
  destruct (tty_driver_data ts) as [p|] eqn:Hdd; [|apply safe_ret; exact Hinv].
  apply safe_bind. apply safe_dev_modify. intros dev Hp.
  assert (Hlen : (p < length (devs s))%nat) by (eapply lookup_lt_Some; eauto).
  destruct (Hdev p dev Hp) as (H5 & H2).
  set (dev1 := set_port (set_count (fun n => n - 1)) dev).
  assert (Hc1 : count (port dev1) = count (port dev) - 1).
  { subst dev1. destruct dev as [[? ? ? ? ?] ? ? ? ? ? ? ? ? ? ? ?]. reflexivity. }
  assert (Hk1 : kref (port dev1) = kref (port dev)).
  { subst dev1. destruct dev as [[? ? ? ? ?] ? ? ? ? ? ? ? ? ? ? ?]. reflexivity. }
  assert (Hopen : p ∈ rfcomm_dev_list s -> 1 <= count (port dev)).
  { intros Hin. destruct (Htty t ts p dev Ht Hdd Hin Hp) as [Hx|Hx];
      [exact Hx | discriminate]. }
  apply safe_bind. apply safe_dev_read. intros dev1' Hp1.
  simpl in Hp1. rewrite list_lookup_insert_eq in Hp1 by exact Hlen.
  inversion Hp1; subst dev1'. clear Hp1.
  apply safe_bind.
  eapply safe_mono with (Q := fun _ s' => inv s' (hold h p 1) None).
  2: { intros u s' H. cbv beta.
       eapply safe_mono; [apply (tty_port_put_safe p s' _ None H)|].
       - rewrite hold_same. specialize (Hpos p). lia.
       - discriminate.
       - intros u' s'' H'. eapply inv_ext; [|exact H'].
         intros x. symmetry. apply (hold_hold h p 1 x). }
  destruct (Z.eqb_spec (count (port dev1)) 0) as [E|E].
  - (* the last close *)
    assert (Hinv1 : inv (set_devs (fun l => <[p := Some dev1]> l) s)
                        (hold h p 1) (Some p)).
    { eapply inv_set_dev_cl; [exact Hinv | exact Hp | | | | | | |].
      - subst dev1. destruct dev; reflexivity.
      - intros q Hq. apply hold_other. exact Hq.
      - rewrite hold_same. specialize (Hpos p). lia.
      - rewrite hold_same. split; [subst dev1; destruct dev; exact H5|].
        intros Hin. specialize (H2 Hin). rewrite Hc1, Hk1.
        change (tx_refs (set_devs _ s) p) with (tx_refs s p). lia.
      - intros _ _. right. reflexivity.
      - intros _. rewrite hold_same. specialize (Hpos p). lia.
      - intros q Hq. split; [discriminate|]. intros Hx. inversion Hx. congruence. }
    apply safe_bind.
    eapply safe_mono with (Q := fun _ s2 => inv s2 (hold h p 1) (Some p) /\
                                            ttys s2 = ttys s).
    { destruct (tty_dev_parent dev1); [|apply safe_ret; auto].
      apply safe_bind. apply safe_emit. apply safe_dev_modify. intros d Hd.
      split; [|reflexivity].
      pose proof (pending_inbound _ _ _ _ _ Hinv1 Hd) as P.
      eapply inv_touch with (dev := d);
        [eapply inv_frame; [| | | |exact Hinv1]; reflexivity | exact Hd | | | |];
        destruct d; auto. }
    intros u s2 (Hinv2 & Ht2). cbv beta.
    apply safe_bind. apply safe_deref. intros c Hc.
    apply safe_bind.
    eapply safe_mono;
      [apply safe_keeps; [apply keeps_rfcomm_dlc_close
                         | apply (rfcomm_dlc_close_safe c sync s2 _ _ Hinv2)]|].
    intros u3 s3 (Hinv3 & Ht3 & _). cbv beta.
    apply safe_bind. apply safe_dev_modify. intros d3 Hd3.
    match goal with |- safe _ ?s4 _ =>
      assert (Hinv4 : inv s4 (hold h p 1) (Some p)) end.
    { pose proof (pending_inbound _ _ _ _ _ Hinv3 Hd3) as P.
      eapply inv_touch; [exact Hinv3 | exact Hd3 | | | |]; destruct d3; auto. }
    apply safe_bind. apply safe_tty_modify. intros ts0 Ht0.
    cbn [ttys set_devs] in Ht0. rewrite Ht3, Ht2, Ht in Ht0.
    inversion Ht0; subst ts0. clear Ht0.
    match goal with |- safe _ ?s5 _ =>
      assert (Hinv5 : inv s5 (hold h p 1) None) end.
    { eapply inv_set_tty_cl with (ts := ts); [exact Hinv4 | | | | |].
      - cbn [ttys set_devs]. rewrite Ht3, Ht2. exact Ht.
      - discriminate.
      - intros q Hq. destruct ts; discriminate.
      - intros t2 ts2 q dq Hne Ht2' Hdd2 Hqin Hq Hcl _. exfalso. apply Hne.
        inversion Hcl; subst q.
        destruct Hinv4 as (_ & _ & _ & _ & Huniq & _).
        eapply (Huniq t2 t ts2 ts p); eauto.
        cbn [ttys set_devs]. rewrite Ht3, Ht2. exact Ht.
      - intros q Hq. destruct ts; discriminate. }
    apply safe_bind. apply safe_dev_modify. intros d5 Hd5.
    match goal with |- safe _ ?s6 _ =>
      assert (Hinv6 : inv s6 (hold h p 1) None) end.
    { pose proof (pending_inbound _ _ _ _ _ Hinv5 Hd5) as P.
      eapply inv_touch; [exact Hinv5 | exact Hd5 | | | |];
        destruct d5 as [[? ? ? ? ?] ? ? ? ? ? ? ? ? ? ? ?]; auto. }
    apply safe_bind. apply safe_dev_read. intros d6 Hd6.
    destruct (test_bit RFCOMM_TTY_RELEASED (flags d6));
      [|apply safe_ret; exact Hinv6].
    apply safe_bind. unfold list_del, safe.
    apply tty_port_put_unlisted.
    + apply inv_list_del. exact Hinv6.
    + cbn [rfcomm_dev_list set_rfcomm_dev_list]. rewrite list_elem_of_filter.
      intros [Hx _]. apply Hx. reflexivity.
  - apply safe_ret.
    eapply inv_set_dev; [exact Hinv | exact Hp | | | | | |].
    + subst dev1. destruct dev; reflexivity.
    + intros q Hq. apply hold_other. exact Hq.
    + rewrite hold_same. specialize (Hpos p). lia.
    + rewrite hold_same. split; [subst dev1; destruct dev; exact H5|].
      intros Hin. specialize (H2 Hin). specialize (Hopen Hin). rewrite Hc1, Hk1.
      change (tx_refs (set_devs _ s) p) with (tx_refs s p). lia.
    + intros Hin _. left. specialize (Hopen Hin). lia.
    + discriminate.
Qed.

Lemma rfcomm_dlc_send_safe (c p : ptr) (skb : sk_buff) (r : Z) (s : kstate)
    (h : ptr -> Z) (cl : option ptr) :
  inv s (hold h p 1) cl -> skb_sk skb = Some p -> (p < length (devs s))%nat ->
  (forall x, 0 <= h x) -> (forall x, cl = Some x -> 1 <= h x) ->
  safe (rfcomm_dlc_send c skb r) s (fun e s' =>
    e = r /\ if r <? 0 then inv s' (hold h p 1) cl else inv s' h cl).
Proof.
  intros Hinv Hsk Hlen Hpos Hcl. unfold rfcomm_dlc_send.
  apply safe_bind. apply safe_emit.
  match goal with |- safe _ ?s1 _ =>
    assert (Hinv1 : inv s1 (hold h p 1) cl)
      by (eapply inv_frame; [| | | |exact Hinv]; reflexivity)
  end.
  apply safe_bind. destruct (r <? 0).
  - apply safe_ret. apply safe_ret. auto.
  - apply safe_dlc_modify. intros d Hd. apply safe_ret. split; [reflexivity|].
    eapply inv_set_tx_queue; [exact Hinv1 | exact Hd | | exact Hpos | exact Hcl |].
    + intros x. destruct d; cbn [set_dlc_tx_queue dlc_tx_queue].
      rewrite skb_refs_snoc, Hsk. unfold hold.
      destruct (decide (x = p)) as [->|Hne].
      * rewrite !bool_decide_eq_true_2 by reflexivity. lia.
      * rewrite (bool_decide_eq_false_2 (x = p)) by exact Hne.
        rewrite bool_decide_eq_false_2 by congruence. lia.
    + intros k q Hk Hq. destruct d; cbn [set_dlc_tx_queue dlc_tx_queue] in Hk.
      apply elem_of_app in Hk. destruct Hk as [Hk|Hk].
      * destruct Hinv1 as (_ & _ & _ & _ & _ & Htx & _).
        eapply (Htx c); eauto.
      * apply list_elem_of_singleton in Hk. subst k.
        rewrite Hsk in Hq. inversion Hq; subst q. exact Hlen.
Qed.

Lemma tty_write_loop_safe (world : nat -> option Z * Z) (p c : ptr)
    (buf : list byte) (fuel : nat) :
  forall (i : nat) (e sent cnt : Z) (s : kstate) (h : ptr -> Z) (cl : option ptr),
    inv s h cl ->
    safe (tty_write_loop fuel world i p c buf e sent cnt) s
         (fun _ s' => inv s' h cl).
Proof.
  induction fuel as [|fuel IH]; intros i e sent cnt s h cl Hinv;
    cbn [tty_write_loop].
  - destruct (cnt =? 0); apply safe_ret; exact Hinv.
  - destruct (cnt =? 0); [apply safe_ret; exact Hinv|].
    pose proof Hinv as (_ & Hpos & _ & _ & _ & _ & Hcl & Hbound).
    apply safe_bind. apply safe_dlc_read. intros d Hd.
    apply safe_bind.
    eapply safe_mono; [apply (rfcomm_wmalloc_safe p _ _ s h cl Hinv)|].
    intros [skb|] s1; cbv beta; [|intros ->; apply safe_ret; exact Hinv].
    intros (Hsk & _ & Hinv1 & _ & _ & Hlen & _).
    apply safe_bind.
    eapply safe_mono.
    { apply (rfcomm_dlc_send_safe c p _ (snd (world i)) s1 h cl Hinv1);
        [exact Hsk | exact Hlen | exact Hpos | exact Hcl]. }
    intros e' s2 (-> & Hinv2). cbv beta.
    destruct (snd (world i) <? 0).
    + apply safe_bind.
      eapply safe_mono; [apply (kfree_skb_safe _ s2 _ cl Hinv2)|].
      * cbn [skb_sk]. intros q Hq. rewrite Hsk in Hq. inversion Hq; subst q.
        rewrite hold_same. split; [specialize (Hpos p); lia|].
        intros Hc. specialize (Hcl p Hc). lia.
      * intros u s3 Hinv3. cbv beta. cbn [skb_sk] in Hinv3. rewrite Hsk in Hinv3.
        apply safe_ret. eapply inv_ext; [|exact Hinv3].
        intros x. symmetry. apply (hold_hold h p 1 x).
    + apply IH. exact Hinv2.
Qed.

Lemma rfcomm_tty_write_safe (t : ptr) (buf : list byte) (cnt : Z)
    (world : nat -> option Z * Z) (fuel : nat) (s : kstate) (h : ptr -> Z)
    (cl : option ptr) :
  inv s h cl ->
  safe (rfcomm_tty_write t buf cnt world fuel) s (fun _ s' => inv s' h cl).
Proof.
  intros Hinv. unfold rfcomm_tty_write.
  apply safe_bind. apply safe_tty_read. intros ts Ht.
  apply safe_bind. apply safe_deref. intros p Hp.
  apply safe_bind. apply safe_dev_read. intros dev Hd.
  apply safe_bind. apply safe_deref. intros c Hc.
  apply safe_bind.
  eapply safe_mono; [apply (tty_write_loop_safe world p c buf fuel _ _ _ _ s h cl Hinv)|].
  intros [[e sent]|] s1 Hinv1; cbv beta; apply safe_ret; exact Hinv1.
Qed.

(** One buffer leaves the transmit queue and is freed: what
    [skb_queue_purge] does for each buffer, and what the RFCOMM core does
    once it has sent one. *)
Lemma skb_dequeue_tx_safe (c : ptr) (s : kstate) (h : ptr -> Z) (cl : option ptr) :
  inv s h cl ->
  safe (skb_dequeue_tx c) s (fun o s' =>
    match o with
    | None => inv s' h cl
    | Some skb =>
        inv s' (match skb_sk skb with Some p => hold h p 1 | None => h end) cl
    end).
Proof.
  intros Hinv. unfold skb_dequeue_tx.
  pose proof Hinv as (_ & Hpos & _ & _ & _ & Htx & Hcl & Hbound).
  apply safe_bind. apply safe_dlc_read. intros d Hd.
  destruct (dlc_tx_queue d) as [|skb q] eqn:Hq; [apply safe_ret; exact Hinv|].
  apply safe_bind. apply safe_dlc_modify. intros d0 Hd0.
  rewrite Hd in Hd0. inversion Hd0; subst d0. apply safe_ret.
  eapply inv_set_tx_queue; [exact Hinv | exact Hd | | | |].
  - intros x. destruct d; cbn [set_dlc_tx_queue dlc_tx_queue] in *. subst.
    rewrite skb_refs_cons. destruct (skb_sk skb) as [p|] eqn:Hsk.
    + unfold hold. destruct (decide (x = p)) as [->|Hne].
      * rewrite !bool_decide_eq_true_2 by reflexivity. lia.
      * rewrite (bool_decide_eq_false_2 (x = p)) by exact Hne.
        rewrite bool_decide_eq_false_2 by congruence. lia.
    + rewrite bool_decide_eq_false_2 by discriminate. lia.
  - intros x. specialize (Hpos x). destruct (skb_sk skb) as [p|]; [|exact Hpos].
    unfold hold. destruct (bool_decide (x = p)); lia.
  - intros x Hx. specialize (Hcl x Hx). destruct (skb_sk skb) as [p|]; [|exact Hcl].
    unfold hold. destruct (bool_decide (x = p)); lia.
  - intros k x Hk Hx. destruct d; cbn [set_dlc_tx_queue dlc_tx_queue] in *. subst.
    eapply (Htx c); eauto. apply elem_of_cons. right. exact Hk.
Qed.

Lemma dequeued_kfree_skb_safe (skb : sk_buff) (s : kstate) (h : ptr -> Z)
    (cl : option ptr) :
  (forall x, 0 <= h x) -> (forall x, cl = Some x -> 1 <= h x) ->
  inv s (match skb_sk skb with Some p => hold h p 1 | None => h end) cl ->
  safe (kfree_skb skb) s (fun _ s' => inv s' h cl).
Proof.
  intros Hpos Hcl Hinv.
  eapply safe_mono; [apply (kfree_skb_safe skb s _ cl Hinv)|].
  - intros p Hp. rewrite Hp. rewrite hold_same.
    split; [specialize (Hpos p); lia|]. intros Hc. specialize (Hcl p Hc). lia.
  - intros u s' H. cbv beta in H. destruct (skb_sk skb) as [p|]; [|exact H].
    eapply inv_ext; [|exact H]. intros x. symmetry. apply (hold_hold h p 1 x).
Qed.

(** A quiet call keeps the invariant. *)
Lemma safe_quiet {A} (m : M A) (s : kstate) (h : ptr -> Z) (cl : option ptr) :
  quiet m -> inv s h cl -> safe m s (fun _ s' => inv s' h cl).
Proof.
  intros Hq Hinv. unfold safe. specialize (Hq s).
  destruct (m s) as [a s'|b|]; [|contradiction|exact I].
  destruct Hq as (H1 & H2 & H3 & H4).
  eapply inv_frame; [exact H1 | exact H2 | exact H3 | | exact Hinv].
  unfold tx_queues. rewrite H4. reflexivity.
Qed.

Lemma quiet_rfcomm_tty_open_check (p c : ptr) (e0 : Z) (sig : bool) :
  quiet (rfcomm_tty_open_check p c e0 sig).
Proof. unfold rfcomm_tty_open_check. quiet_tac. Qed.

Lemma quiet_rfcomm_tty_write_room (t : ptr) : quiet (rfcomm_tty_write_room t).
Proof. unfold rfcomm_tty_write_room. quiet_tac. Qed.

Lemma quiet_rfcomm_tty_set_termios (baud : ktermios -> Z) (t : ptr)
    (old : ktermios) :
  quiet (rfcomm_tty_set_termios baud t old).
Proof. unfold rfcomm_tty_set_termios, rfcomm_send_rpn. quiet_tac. Qed.

Lemma quiet_rfcomm_tty_chars_in_buffer (t : ptr) :
  quiet (rfcomm_tty_chars_in_buffer t).
Proof. unfold rfcomm_tty_chars_in_buffer. quiet_tac. Qed.

Lemma quiet_rfcomm_tty_throttle (t : ptr) : quiet (rfcomm_tty_throttle t).
Proof. unfold rfcomm_tty_throttle. quiet_tac. Qed.

Lemma quiet_rfcomm_tty_unthrottle (t : ptr) : quiet (rfcomm_tty_unthrottle t).
Proof. unfold rfcomm_tty_unthrottle. quiet_tac. Qed.

Lemma quiet_rfcomm_tty_tiocmget (t : ptr) : quiet (rfcomm_tty_tiocmget t).
Proof. unfold rfcomm_tty_tiocmget. quiet_tac. Qed.

Lemma skb_queue_purge_tx_safe (c : ptr) (n : nat) :
  forall (s : kstate) (h : ptr -> Z) (cl : option ptr),
    inv s h cl ->
    safe (skb_queue_purge_tx n c) s (fun _ s' => inv s' h cl).
Proof.
  induction n as [|n IH]; intros s h cl Hinv; cbn [skb_queue_purge_tx];
    pose proof Hinv as (_ & Hpos & _ & _ & _ & _ & Hcl & _);
    apply safe_bind;
    (eapply safe_mono; [apply (skb_dequeue_tx_safe c s h cl Hinv)|]);
    intros [skb|] s1 Hinv1; cbv beta; try (apply safe_ret; exact Hinv1).
  - apply safe_fault.
  - apply safe_bind.
    eapply safe_mono;
      [apply (dequeued_kfree_skb_safe skb s1 h cl Hpos Hcl Hinv1)|].
    intros u s2 Hinv2. cbv beta. apply IH. exact Hinv2.
Qed.

Lemma rfcomm_tty_flush_buffer_safe (t : ptr) (s : kstate) (h : ptr -> Z)
    (cl : option ptr) :
  inv s h cl ->
  safe (rfcomm_tty_flush_buffer t) s (fun _ s' => inv s' h cl).
Proof.
  intros Hinv. unfold rfcomm_tty_flush_buffer.
  apply safe_bind. apply safe_tty_read. intros ts Ht.
  destruct (tty_driver_data ts) as [p|]; [|apply safe_ret; exact Hinv].
  apply safe_bind. apply safe_dev_read. intros dev Hp.
  destruct (dlc dev) as [c|]; [|apply safe_ret; exact Hinv].
  apply safe_bind. apply safe_dlc_read. intros d Hd.
  apply safe_bind.
  eapply safe_mono; [apply (skb_queue_purge_tx_safe c _ s h cl Hinv)|].
  intros u s1 Hinv1. cbv beta. unfold tty_wakeup. apply safe_emit.
  eapply inv_frame; [| | | |exact Hinv1]; reflexivity.
Qed.

Lemma rfcomm_tty_hangup_safe (t : ptr) (s : kstate) (h : ptr -> Z)
    (cl : option ptr) :
  inv s h cl ->
  safe (rfcomm_tty_hangup t) s (fun _ s' => inv s' h cl).
Proof.
  intros Hinv. unfold rfcomm_tty_hangup.
  apply safe_bind. apply safe_tty_read. intros ts Ht.
  destruct (tty_driver_data ts) as [p|]; [|apply safe_ret; exact Hinv].
  apply safe_bind.
  eapply safe_mono; [apply (rfcomm_tty_flush_buffer_safe t s h cl Hinv)|].
  intros u s1 Hinv1. cbv beta.
  apply safe_bind. apply safe_dev_read. intros dev Hp.
  destruct (test_bit RFCOMM_RELEASE_ONHUP (flags dev));
    [|apply safe_ret; exact Hinv1].
  eapply get_del_put_safe; [exact Hinv1 | exact Hp].
Qed.

(** The RFCOMM core has sent the first buffer of the transmit queue of a
    channel and frees it. *)
Lemma tx_done_safe (c : ptr) (s : kstate) (h : ptr -> Z) (cl : option ptr) :
  inv s h cl ->
  safe (let* o := skb_dequeue_tx c in
        match o with
        | Some skb => kfree_skb skb
        | None => ret tt
        end) s (fun _ s' => inv s' h cl).
Proof.
  intros Hinv. pose proof Hinv as (_ & Hpos & _ & _ & _ & _ & Hcl & _).
  apply safe_bind.
  eapply safe_mono; [apply (skb_dequeue_tx_safe c s h cl Hinv)|].
  intros [skb|] s1 Hinv1; cbv beta; [|apply safe_ret; exact Hinv1].
  apply (dequeued_kfree_skb_safe skb s1 h cl Hpos Hcl Hinv1).
Qed.

(** Where [rfcomm_dev_add] puts a new device keeps the order of the ids. *)
Lemma dev_add_choose_place (s : kstate) (ids : list Z) (req : rfcomm_dev_req)
    (x : option rfcomm_dev) :
  registry_ok s ids ->
  exists r,
    dev_add_choose req (set_devs (fun h => h ++ [x]) s)
    = Done r (set_devs (fun h => h ++ [x]) s) /\
    match r with
    | inl (id, n) =>
        0 <= id < RFCOMM_MAX_DEV /\
        Forall (fun i => i < id) (take n ids) /\
        Forall (fun i => id < i) (drop n ids)
    | inr _ => True
    end.
Proof.
  intros Hok. destruct (Z.lt_ge_cases (req_dev_id req) 0) as [Hneg|Hpos].
  - destruct (dev_add_choose_any s ids req x Hok Hneg) as (n & Hrun & _ & Ht & Hd).
    eexists. split; [exact Hrun|].
    destruct (Z.ltb_spec (Z.of_nat n) RFCOMM_MAX_DEV) as [Hlt|]; [|exact I].
    split; [lia|]. split; [|exact Hd].
    rewrite Ht. apply Forall_forall. intros i Hi. apply seqZ_elem in Hi. lia.
  - destruct (dev_add_choose_id s ids req x Hok Hpos) as [Hin Hnin].
    destruct (decide (req_dev_id req ∈ ids)) as [E|E].
    + eexists. split; [apply Hin; exact E | exact I].
    + destruct (Hnin E) as (n & Hrun & _ & Ht & Hd).
      eexists. split; [exact Hrun|].
      destruct (Z.ltb_spec (req_dev_id req) RFCOMM_MAX_DEV) as [Hlt|]; [|exact I].
      split; [lia|]. split; assumption.
Qed.

Lemma listed_live (s : kstate) (ids : list Z) (p : ptr) :
  registry_ok s ids -> p ∈ rfcomm_dev_list s ->
  exists d, devs s !! p = Some (Some d).
Proof.
  intros (H1 & _) Hin. apply registry_ids_Forall2 in H1.
  induction H1 as [|q i l ids' Hq Hl IH]; [inversion Hin|].
  apply elem_of_cons in Hin. destruct Hin as [->|Hin]; [|apply IH; exact Hin].
  apply id_of_Some in Hq. destruct Hq as (d & Hd & _). exists d. exact Hd.
Qed.

Lemma tx_refs_fresh (s : kstate) (p : ptr) :
  (forall c d skb q, dlcs s !! c = Some d -> skb ∈ dlc_tx_queue d ->
     skb_sk skb = Some q -> q <> p) ->
  tx_refs s p = 0.
Proof.
  unfold tx_refs. intros H.
  assert (Hall : Forall (fun d => forall skb q, skb ∈ dlc_tx_queue d ->
                           skb_sk skb = Some q -> q <> p) (dlcs s)).
  { apply Forall_forall. intros d Hd skb q Hin Hsk.
    apply list_elem_of_lookup in Hd. destruct Hd as [c Hc]. eapply H; eauto. }
  clear H. induction Hall as [|d l Hd Hl IH]; simpl; [reflexivity|].
  rewrite IH, Z.add_0_r. clear IH Hl. revert Hd.
  generalize (dlc_tx_queue d). intros q.
  induction q as [|k q IHq]; intros Hd; [reflexivity|].
  rewrite skb_refs_cons. rewrite bool_decide_eq_false_2.
  - rewrite Z.add_0_r. apply IHq. intros skb x Hin. apply Hd.
    apply elem_of_cons. right. exact Hin.
  - intros E. apply (Hd k p); [constructor | exact E | reflexivity].
Qed.

(** The record [kzalloc] gives is at a place no pointer of the state
    refers to. *)
Lemma inv_alloc (s : kstate) (h : ptr -> Z) (cl : option ptr) (x : rfcomm_dev) :
  inv s h cl -> pending x = [] ->
  inv (set_devs (fun l => l ++ [Some x]) s) h cl.
Proof.
  intros ((ids & Hok) & Hpos & Hdev & Htty & Huniq & Htx & Hcl & Hbound) Hx.
  assert (Hold : forall q d, q ∈ rfcomm_dev_list s ->
            (devs s ++ [Some x]) !! q = Some (Some d) ->
            devs s !! q = Some (Some d)).
  { intros q d Hin Hq. destruct (listed_live s ids q Hok Hin) as (d0 & Hd0).
    rewrite lookup_app_l in Hq by (eapply lookup_lt_Some; eauto). exact Hq. }
  split.
  { exists ids. destruct Hok as (H1 & H2). split; [|exact H2].
    eapply registry_ids_snoc; [exact H1| |]; reflexivity. }
  split; [exact Hpos|].
  split; [|split; [|split; [|split; [|split]]]].
  - intros q d Hq. simpl in Hq.
    destruct (decide (q < length (devs s))%nat) as [Hlt|Hge].
    + rewrite lookup_app_l in Hq by exact Hlt.
      eapply dev_ok_frame; [| |apply Hdev; exact Hq]; reflexivity.
    + split.
      * apply lookup_lt_Some in Hq as Hl. rewrite length_app in Hl. simpl in Hl.
        assert (q = length (devs s)) as -> by lia.
        rewrite lookup_snoc in Hq. inversion Hq; subst d. rewrite Hx. constructor.
      * intros Hin. change (q ∈ rfcomm_dev_list s) in Hin.
        destruct (listed_live s ids q Hok Hin) as (d0 & Hd0).
        apply lookup_lt_Some in Hd0. contradiction.
  - intros t ts q d Ht Hdd Hin Hq. eapply Htty; eauto.
  - exact Huniq.
  - intros c d skb q Hc Hin Hsk. simpl. rewrite length_app. simpl.
    pose proof (Htx c d skb q Hc Hin Hsk). lia.
  - exact Hcl.
  - intros t ts q Ht Hdd. simpl. rewrite length_app. simpl.
    pose proof (Hbound t ts q Ht Hdd). lia.
Qed.

(** The new device on the list: it holds the reference of the registry. *)
Lemma inv_dev_add (s : kstate) (h : ptr -> Z) (cl : option ptr) (ids : list Z)
    (nd : rfcomm_dev) (n : nat) :
  inv s h cl -> registry_ok s ids ->
  Forall (fun i => i < dev_id nd) (take n ids) ->
  Forall (fun i => dev_id nd < i) (drop n ids) ->
  0 <= dev_id nd < RFCOMM_MAX_DEV ->
  kref (port nd) = 1 -> count (port nd) = 0 -> pending nd = [] ->
  h (length (devs s)) = 0 ->
  inv (set_devs (fun l => <[length (devs s) := Some nd]> l)
         (set_rfcomm_dev_list
            (fun l => take n l ++ length (devs s) :: drop n l)
            (set_devs (fun l => l ++ [Some zero_dev]) s))) h cl.
Proof.
  intros Hinv Hok Ht Hd Hid Hk Hc Hpend Hh.
  pose proof Hinv as (_ & Hpos & Hdev & Htty & Huniq & Htx & Hcl & Hbound).
  set (p := length (devs s)).
  assert (Hdevs : <[p := Some nd]> (devs s ++ [Some zero_dev]) = devs s ++ [Some nd])
    by apply insert_snoc.
  assert (Hlist : forall q, q ∈ take n (rfcomm_dev_list s) ++ p :: drop n (rfcomm_dev_list s)
                            -> q = p \/ q ∈ rfcomm_dev_list s).
  { intros q Hq. apply elem_of_app in Hq. destruct Hq as [Hq|Hq].
    - right. exact (subseteq_take n _ q Hq).
    - apply elem_of_cons in Hq. destruct Hq as [Hq|Hq]; [left; exact Hq|].
      right. exact (subseteq_drop n _ q Hq). }
  assert (Hlive : forall q d, (devs s ++ [Some nd]) !! q = Some (Some d) ->
            (q = p /\ d = nd) \/ (q <> p /\ devs s !! q = Some (Some d))).
  { intros q d Hq. destruct (decide (q < p)%nat) as [Hlt|Hge].
    - right. rewrite lookup_app_l in Hq by exact Hlt. split; [lia | exact Hq].
    - left. apply lookup_lt_Some in Hq as Hl. rewrite length_app in Hl. simpl in Hl.
      assert (q = p) as -> by (unfold p in *; lia).
      unfold p in Hq. rewrite lookup_snoc in Hq. inversion Hq. auto. }
  assert (Htxp : tx_refs s p = 0).
  { apply tx_refs_fresh. intros c d skb q Hc0 Hin Hsk.
    pose proof (Htx c d skb q Hc0 Hin Hsk). unfold p. lia. }
  assert (Hnop : forall t ts q, ttys s !! t = Some ts ->
                   tty_driver_data ts = Some q -> q <> p).
  { intros t ts q Ht0 Hdd. pose proof (Hbound t ts q Ht0 Hdd). unfold p. lia. }
  split.
  { eexists. eapply (registry_ok_add s _ ids nd n Hok); eauto. }
  split; [exact Hpos|].
  split; [|split; [|split; [|split; [|split]]]].
  - intros q d Hq. cbn [devs set_devs set_rfcomm_dev_list] in Hq.
    rewrite Hdevs in Hq. destruct (Hlive q d Hq) as [[-> ->]|[Hne Hq']].
    + split; [rewrite Hpend; constructor|]. intros _.
      change (tx_refs _ p) with (tx_refs s p). fold p in Hh. lia.
    + destruct (Hdev q d Hq') as (P1 & P2). split; [exact P1|].
      intros Hin. cbn [rfcomm_dev_list set_devs set_rfcomm_dev_list] in Hin.
      destruct (Hlist q Hin) as [E|Hin']; [contradiction|].
      change (tx_refs _ q) with (tx_refs s q). apply P2. exact Hin'.
  - intros t ts q d Ht0 Hdd Hin Hq.
    cbn [devs rfcomm_dev_list ttys set_devs set_rfcomm_dev_list] in *.
    rewrite Hdevs in Hq. pose proof (Hnop t ts q Ht0 Hdd) as Hne.
    destruct (Hlive q d Hq) as [[-> _]|[_ Hq']]; [contradiction|].
    destruct (Hlist q Hin) as [E|Hin']; [contradiction|].
    eapply Htty; eauto.
  - intros t1 t2 ts1 ts2 q H1 H2 D1 D2 Hin.
    cbn [devs rfcomm_dev_list ttys set_devs set_rfcomm_dev_list] in *.
    pose proof (Hnop t1 ts1 q H1 D1) as Hne.
    destruct (Hlist q Hin) as [E|Hin']; [contradiction|].
    eapply Huniq; eauto.
  - intros c d skb q Hc0 Hin Hsk. cbn [devs set_devs set_rfcomm_dev_list].
    rewrite length_insert, length_app. simpl.
    pose proof (Htx c d skb q Hc0 Hin Hsk). lia.
  - exact Hcl.
  - intros t ts q Ht0 Hdd. cbn [devs set_devs set_rfcomm_dev_list].
    rewrite length_insert, length_app. simpl.
    pose proof (Hbound t ts q Ht0 Hdd). lia.
Qed.

Lemma dev_add_take_queue_safe (p k : ptr) (q : list sk_buff) :
  forall (s : kstate) (h : ptr -> Z) (cl : option ptr),
    inv s h cl ->
    safe (dev_add_take_queue q p k) s (fun _ s' => inv s' h cl).
Proof.
  induction q as [|skb q IH]; intros s h cl Hinv; cbn [dev_add_take_queue].
  - apply safe_ret. exact Hinv.
  - apply safe_bind. apply safe_sock_modify. intros x Hx.
    match goal with |- safe _ ?s1 _ =>
      assert (Hinv1 : inv s1 h cl)
        by (eapply inv_frame; [| | | |exact Hinv]; reflexivity)
    end.
    apply safe_bind. apply safe_dev_modify. intros dev Hp.
    match goal with |- safe _ ?s2 _ => assert (Hinv2 : inv s2 h cl) end.
    { pose proof (pending_inbound _ _ _ _ _ Hinv1 Hp) as P.
      eapply inv_touch; [exact Hinv1 | exact Hp | | | |]; destruct dev; auto.
      simpl in *. apply Forall_app. split; [exact P|].
      constructor; [reflexivity | constructor]. }
    apply safe_bind. apply safe_sock_modify. intros x' Hx'.
    apply IH. eapply inv_frame; [| | | |exact Hinv2]; reflexivity.
Qed.

Lemma rfcomm_dev_add_safe (req : rfcomm_dev_req) (c : ptr) (kz : bool)
    (reg : option Z) (s : kstate) (h : ptr -> Z) (cl : option ptr) :
  inv s h cl -> h (length (devs s)) = 0 ->
  safe (rfcomm_dev_add req c kz reg) s (fun _ s' => inv s' h cl).
Proof.
  intros Hinv Hh. unfold rfcomm_dev_add.
  destruct kz; cbn [negb]; [|apply safe_ret; exact Hinv].
  pose proof Hinv as ((ids & Hok) & _).
  set (p := length (devs s)).
  set (s1 := set_devs (fun l => l ++ [Some zero_dev]) s).
  assert (Hinv1 : inv s1 h cl) by (apply inv_alloc; [exact Hinv | reflexivity]).
  assert (Hnot : p ∉ rfcomm_dev_list s).
  { intros Hin. destruct (listed_live s ids p Hok Hin) as (d & Hd).
    apply lookup_lt_Some in Hd. unfold p in Hd. lia. }
  apply safe_bind. apply (safe_Done kzalloc_dev s s1 p); [reflexivity|].
  destruct (dev_add_choose_place s ids req (Some zero_dev) Hok) as (r & Hrun & Hr).
  apply safe_bind. apply (safe_Done _ s1 s1 r); [exact Hrun|].
  destruct r as [[id n]|e].
  - destruct Hr as (Hid & Ht & Hd).
    apply safe_bind.
    apply (safe_Done (list_add p n) s1
             (set_rfcomm_dev_list (fun l => take n l ++ p :: drop n l) s1) tt);
      [reflexivity|].
    apply safe_bind. apply safe_dev_modify. intros d0 Hp0.
    assert (E0 : d0 = zero_dev).
    { cbn [devs s1 set_devs set_rfcomm_dev_list] in Hp0. unfold p in Hp0.
      rewrite lookup_snoc in Hp0. inversion Hp0. reflexivity. }
    subst d0.
    match goal with |- safe _ ?s2 _ => assert (Hinv2 : inv s2 h cl) end.
    { apply (inv_dev_add s h cl ids _ n Hinv Hok); auto. }
    apply safe_bind. apply safe_dlc_read. intros d Hdl.
    apply safe_bind.
    match goal with |- safe _ ?s2 _ =>
      eapply safe_mono with (Q := fun _ s3 => inv s3 h cl)
    end.
    { destruct (negb _); [|apply safe_ret; exact Hinv2].
      destruct (dlc_owner_of d) as [|k|q].
      - unfold safe, BUG. discriminate.
      - apply safe_bind. apply safe_emit.
        apply safe_bind. apply safe_sock_read. intros sk Hsk.
        apply dev_add_take_queue_safe.
        eapply inv_frame; [| | | |exact Hinv2]; reflexivity.
      - apply safe_fault. }
    intros u s3 Hinv3. cbv beta.
    apply safe_bind. apply safe_dlc_modify. intros d3 Hd3.
    match goal with |- safe _ ?s4 _ => assert (Hinv4 : inv s4 h cl) end.
    { eapply inv_frame; [| | | |exact Hinv3]; try reflexivity.
      eapply tx_queues_set_same; [exact Hd3|]. destruct d3; reflexivity. }
    apply safe_bind. apply safe_dev_modify. intros d4 Hp4.
    match goal with |- safe _ ?s5 _ => assert (Hinv5 : inv s5 h cl) end.
    { pose proof (pending_inbound _ _ _ _ _ Hinv4 Hp4) as P.
      eapply inv_touch; [exact Hinv4 | exact Hp4 | | | |]; destruct d4; auto. }
    apply safe_bind.
    eapply safe_mono; [apply (rfcomm_dev_modem_status_safe c _ _ h cl Hinv5)|].
    intros u' s6 Hinv6. cbv beta.
    apply safe_bind.
    match goal with |- safe ?m s6 _ =>
      apply (safe_Done m s6 (set_module_refs (fun n => n + 1) s6) tt);
        [reflexivity|]
    end.
    assert (Hinv7 : inv (set_module_refs (fun n => n + 1) s6) h cl)
      by (eapply inv_frame; [| | | |exact Hinv6]; reflexivity).
    destruct reg as [e|].
    + apply safe_bind. unfold list_del at 1.
      match goal with |- safe ?m ?s7 _ =>
        apply (safe_Done m s7 (set_rfcomm_dev_list (filter (fun q => q <> p)) s7) tt);
          [reflexivity|]
      end.
      apply safe_bind. unfold kfree_dev, safe.
      eapply inv_frame with
        (s := set_devs (fun l => <[p := None]> l)
                (set_rfcomm_dev_list (filter (fun q => q <> p))
                   (set_module_refs (fun n => n + 1) s6)));
        try reflexivity.
      eapply inv_kfree; [apply inv_list_del; exact Hinv7 |].
      cbn [rfcomm_dev_list set_rfcomm_dev_list]. rewrite list_elem_of_filter.
      intros [Hx _]. apply Hx. reflexivity.
    + apply safe_bind. apply safe_emit. apply safe_ret.
      eapply inv_frame; [| | | |exact Hinv7]; reflexivity.
  - apply safe_bind. unfold kfree_dev, safe.
    eapply inv_frame with (s := set_devs (fun l => <[p := None]> l) s1);
      try reflexivity.
    eapply inv_kfree; [exact Hinv1 | exact Hnot].
Qed.

(** A new channel, with nothing to transmit yet. *)
Lemma inv_dlc_alloc (s : kstate) (h : ptr -> Z) (cl : option ptr) (d : rfcomm_dlc) :
  inv s h cl -> dlc_tx_queue d = [] ->
  inv (set_dlcs (fun l => l ++ [d]) s) h cl.
Proof.
  intros ((ids & Hok) & Hpos & Hdev & Htty & Huniq & Htx & Hcl & Hbound) Hq.
  assert (Hrefs : forall p, tx_refs (set_dlcs (fun l => l ++ [d]) s) p = tx_refs s p).
  { intros p. unfold tx_refs. simpl. rewrite fold_right_app. simpl.
    rewrite Hq. reflexivity. }
  split; [exists ids; eapply registry_ok_frame; eauto; reflexivity|].
  split; [exact Hpos|].
  split; [|split; [|split; [|split; [|split]]]]; auto.
  - intros p dev Hp. destruct (Hdev p dev Hp) as (H1 & H2).
    split; [exact H1|]. rewrite Hrefs. exact H2.
  - intros c d0 skb p Hc Hin Hsk. simpl in Hc.
    destruct (decide (c < length (dlcs s))%nat) as [Hlt|Hge].
    + rewrite lookup_app_l in Hc by exact Hlt. eapply Htx; eauto.
    + apply lookup_lt_Some in Hc as Hl. rewrite length_app in Hl. simpl in Hl.
      assert (c = length (dlcs s)) as -> by lia.
      rewrite lookup_snoc in Hc. inversion Hc; subst d0.
      rewrite Hq in Hin. inversion Hin.
Qed.

Lemma rfcomm_create_dev_safe (sk : ptr) (req : option rfcomm_dev_req)
    (capable : bool) (fresh : option rfcomm_dlc) (kz : bool) (reg : option Z)
    (s : kstate) (h : ptr -> Z) (cl : option ptr) :
  inv s h cl -> h (length (devs s)) = 0 ->
  (forall d, fresh = Some d -> dlc_tx_queue d = []) ->
  safe (rfcomm_create_dev sk req capable fresh kz reg) s
       (fun _ s' => inv s' h cl).
Proof.
  intros Hinv Hh Hfresh. unfold rfcomm_create_dev.
  destruct req as [req|]; [|apply safe_ret; exact Hinv].
  destruct (_ && _); [apply safe_ret; exact Hinv|].
  apply safe_bind.
  eapply safe_mono with
    (Q := fun (_ : ptr + errno) s1 => inv s1 h cl /\ devs s1 = devs s).
  { destruct (negb _).
    - apply safe_bind. apply safe_sock_read. intros k Hk.
      destruct (sk_state k); try (apply safe_ret; auto).
      apply safe_bind. apply safe_emit. apply safe_ret. split; [|reflexivity].
      eapply inv_frame; [| | | |exact Hinv]; reflexivity.
    - destruct fresh as [d|]; [|apply safe_ret; auto].
      unfold safe. split; [|reflexivity].
      apply inv_dlc_alloc; [exact Hinv | apply Hfresh; reflexivity]. }
  intros [c|e] s1 (Hinv1 & Hd1); cbv beta; [|apply safe_ret; exact Hinv1].
  apply safe_bind.
  eapply safe_mono.
  { apply (rfcomm_dev_add_safe req c kz reg s1 h cl Hinv1). rewrite Hd1. exact Hh. }
  intros [id|e] s2 Hinv2; cbv beta.
  - apply safe_bind.
    eapply safe_mono with (Q := fun _ s3 => inv s3 h cl).
    { destruct (negb _); [|apply safe_ret; exact Hinv2].
      apply safe_sock_modify. intros x Hx.
      eapply inv_frame; [| | | |exact Hinv2]; reflexivity. }
    intros u s3 Hinv3. apply safe_ret. exact Hinv3.
  - apply safe_bind. apply safe_emit. apply safe_ret.
    eapply inv_frame; [| | | |exact Hinv2]; reflexivity.
Qed.

Lemma rfcomm_release_dev_safe (req : option rfcomm_dev_req) (capable : bool)
    (sync : option Z) (s : kstate) (h : ptr -> Z) (cl : option ptr) :
  inv s h cl ->
  safe (rfcomm_release_dev req capable sync) s (fun _ s' => inv s' h cl).
Proof.
  intros Hinv. unfold rfcomm_release_dev.
  pose proof Hinv as (_ & Hpos & _ & _ & _ & _ & Hcl & _).
  destruct req as [req|]; [|apply safe_ret; exact Hinv].
  apply safe_bind.
  eapply safe_mono; [apply (rfcomm_dev_get_safe (req_dev_id req) s h cl Hinv)|].
  intros [p|] s2; cbv beta; [|intros ->; apply safe_ret; exact Hinv].
  intros (dev & Hp & Hid & Hin & Hrel & Hs2 & Hinv2).
  assert (Hput : forall s3, inv s3 (hold h p 1) cl ->
            safe (tty_port_put p) s3 (fun _ s' => inv s' h cl)).
  { intros s3 H3.
    eapply safe_mono; [apply (tty_port_put_safe p s3 _ cl H3)|].
    - rewrite hold_same. specialize (Hpos p). lia.
    - intros Hc. rewrite hold_same. specialize (Hcl p Hc). lia.
    - intros u s' H'. eapply inv_ext; [|exact H'].
      intros x. symmetry. apply (hold_hold h p 1 x). }
  apply safe_bind. apply safe_dev_read. intros dev2 Hp2.
  destruct (_ && _).
  { apply safe_bind. eapply safe_mono; [apply Hput; exact Hinv2|].
    intros u s3 H3. apply safe_ret. exact H3. }
  apply safe_bind.
  eapply safe_mono with (Q := fun _ s3 => inv s3 (hold h p 1) cl).
  { destruct (negb _); [|apply safe_ret; exact Hinv2].
    apply safe_bind. apply safe_deref. intros c Hc.
    apply rfcomm_dlc_close_safe. exact Hinv2. }
  intros u s3 Hinv3. cbv beta.
  apply safe_bind. apply safe_dev_read. intros dev3 Hp3.
  apply safe_bind.
  eapply safe_mono with (Q := fun _ s4 => inv s4 (hold h p 1) cl).
  { destruct (tty (port dev3)) as [t|]; [|apply safe_ret; exact Hinv3].
    unfold tty_vhangup. apply rfcomm_tty_hangup_safe. exact Hinv3. }
  intros u4 s4 Hinv4. cbv beta.
  apply safe_bind. apply safe_dev_read. intros dev4 Hp4.
  apply safe_bind.
  eapply safe_mono with (Q := fun _ s5 => inv s5 (hold h p 1) cl).
  { destruct (negb _); [|apply safe_ret; exact Hinv4].
    apply rfcomm_dev_del_safe. exact Hinv4. }
  intros u5 s5 Hinv5. cbv beta.
  apply safe_bind. eapply safe_mono; [apply Hput; exact Hinv5|].
  intros u6 s6 H6. apply safe_ret. exact H6.
Qed.

Lemma quiet_dev_dlc_state (dev : rfcomm_dev) : quiet (dev_dlc_state dev).
Proof. unfold dev_dlc_state. quiet_tac. Qed.

Lemma quiet_dev_list_collect (l : list ptr) (dev_num : Z) :
  forall acc, quiet (dev_list_collect l dev_num acc).
Proof.
  pose proof quiet_dev_dlc_state.
  induction l as [|p l IH]; intros acc; cbn [dev_list_collect]; quiet_tac.
Qed.

Lemma quiet_rfcomm_get_dev_list (lmax : Z) (dev_num : option Z)
    (kz copy_ok : bool) :
  quiet (rfcomm_get_dev_list lmax dev_num kz copy_ok).
Proof.
  unfold rfcomm_get_dev_list. pose proof quiet_dev_list_collect. quiet_tac.
Qed.

Lemma rfcomm_get_dev_info_safe (di : option rfcomm_dev_info) (copy_ok : bool)
    (s : kstate) (h : ptr -> Z) (cl : option ptr) :
  inv s h cl ->
  safe (rfcomm_get_dev_info di copy_ok) s (fun _ s' => inv s' h cl).
Proof.
  intros Hinv. unfold rfcomm_get_dev_info.
  pose proof Hinv as (_ & Hpos & _ & _ & _ & _ & Hcl & _).
  destruct di as [di|]; [|apply safe_ret; exact Hinv].
  apply safe_bind.
  eapply safe_mono; [apply (rfcomm_dev_get_safe (di_id di) s h cl Hinv)|].
  intros [p|] s2; cbv beta; [|intros ->; apply safe_ret; exact Hinv].
  intros (dev & Hp & Hid & Hin & Hrel & Hs2 & Hinv2).
  apply safe_bind. apply safe_dev_read. intros dev2 Hp2.
  apply safe_bind.
  eapply safe_mono;
    [apply (safe_quiet _ s2 _ cl (quiet_dev_dlc_state dev2) Hinv2)|].
  intros st s3 Hinv3. cbv beta.
  apply safe_bind.
  eapply safe_mono; [apply (tty_port_put_safe p s3 _ cl Hinv3)|].
  - rewrite hold_same. specialize (Hpos p). lia.
  - intros Hc. rewrite hold_same. specialize (Hcl p Hc). lia.
  - intros u s4 H4. cbv beta.
    assert (inv s4 h cl).
    { eapply inv_ext; [|exact H4]. intros x. symmetry. apply (hold_hold h p 1 x). }
    destruct copy_ok; apply safe_ret; assumption.
Qed.

End Lifecycle.

(** ** Sequences of calls keep the invariant *)

Section CallsSafe.
Context {RH : rfcomm_h} {TH : termios_h}.
Variable tty_termios_baud_rate : ktermios -> Z.
Variable DEV_LIST_MAX : Z.

(** A call made between the calls of others: it holds no reference when it
    begins and none when it ends. *)
Local Abbreviation steady m :=
  (forall s, inv s no_refs None -> safe m s (fun _ s' => inv s' no_refs None)).

Lemma rfcomm_tty_open_wait_safe (p c : ptr) (e0 : Z)
    (env : list (M unit * bool)) :
  Forall (fun e => steady (fst e)) env ->
  forall sig s, inv s no_refs None ->
    safe (rfcomm_tty_open_wait env p c e0 sig) s
         (fun _ s' => inv s' no_refs None).
Proof.
  induction 1 as [|[m b] env Hm Henv IH]; intros sig s Hinv;
    cbn [rfcomm_tty_open_wait]; apply safe_bind;
    (eapply safe_mono;
       [apply (safe_quiet _ s _ _ (quiet_rfcomm_tty_open_check p c e0 sig) Hinv)|]);
    intros [e|] s1 Hinv1; cbv beta; try (apply safe_ret; exact Hinv1).
  apply safe_bind. eapply safe_mono; [apply (Hm s1 Hinv1)|].
  intros u s2 Hinv2. cbv beta. apply IH. exact Hinv2.
Qed.

Lemma rfcomm_tty_open_safe (t : ptr) (open_err : Z) (sig : bool)
    (env : list (M unit * bool)) (hc : bool) (s : kstate) :
  Forall (fun e => steady (fst e)) env ->
  inv s no_refs None ->
  safe (rfcomm_tty_open t open_err sig env hc) s
       (fun _ s' => inv s' no_refs None).
Proof.
  intros Henv Hinv. unfold rfcomm_tty_open.
  apply safe_bind.
  eapply safe_mono; [apply (rfcomm_tty_open_attach_safe t open_err s _ Hinv)|].
  intros [r|[p c]] s1 Hinv1; cbv beta; [apply safe_ret; exact Hinv1|].
  apply safe_bind.
  eapply safe_mono; [apply (rfcomm_tty_open_wait_safe p c open_err env Henv sig s1 Hinv1)|].
  intros [e|] s2 Hinv2; cbv beta; [|apply safe_ret; exact Hinv2].
  apply safe_bind.
  eapply safe_mono; [apply (rfcomm_tty_open_finish_safe p e hc s2 _ _ Hinv2)|].
  intros r s3 Hinv3. apply safe_ret. exact Hinv3.
Qed.

Local Abbreviation run_call' := (run_call tty_termios_baud_rate DEV_LIST_MAX).
Local Abbreviation run_calls' := (run_calls tty_termios_baud_rate DEV_LIST_MAX).

Lemma safe_drop_result {A} (m : M A) (s : kstate) (Q : kstate -> Prop) :
  safe m s (fun _ s' => Q s') ->
  safe (let* _ := m in ret tt) s (fun _ s' => Q s').
Proof.
  intros H. apply safe_bind. eapply safe_mono; [exact H|].
  intros a s' HQ. apply safe_ret. exact HQ.
Qed.

(** Every call keeps the invariant. *)
Lemma run_call_safe :
  forall c, call_ok c -> steady (run_call' c).
Proof.
  fix IH 1. intros c Hok s Hinv.
  destruct c; cbn [run_call].
  - apply safe_drop_result with (Q := fun s' => inv s' no_refs None).
    apply rfcomm_create_dev_safe; [exact Hinv | reflexivity |].
    intros d ->. exact Hok.
  - apply safe_drop_result with (Q := fun s' => inv s' no_refs None).
    apply rfcomm_release_dev_safe. exact Hinv.
  - apply safe_drop_result with (Q := fun s' => inv s' no_refs None).
    apply safe_quiet; [apply quiet_rfcomm_get_dev_list | exact Hinv].
  - apply safe_drop_result with (Q := fun s' => inv s' no_refs None).
    apply rfcomm_get_dev_info_safe. exact Hinv.
  - apply rfcomm_dev_data_ready_safe; [exact Hinv | exact Hok].
  - apply rfcomm_dev_state_change_safe. exact Hinv.
  - apply rfcomm_dev_modem_status_safe. exact Hinv.
  - apply tx_done_safe. exact Hinv.
  - apply safe_drop_result with (Q := fun s' => inv s' no_refs None).
    apply rfcomm_tty_open_safe; [|exact Hinv].
    cbn [call_ok] in Hok. clear s Hinv. revert Hok.
    induction env as [|[cs b] env IHenv]; intros Hok; [constructor|].
    cbn [fold_right fst] in Hok. destruct Hok as [Hcs Henv].
    cbn [map]. constructor; [|apply IHenv; exact Henv].
    cbn [fst]. clear IHenv Henv. revert Hcs.
    induction cs as [|c' cs IHcs]; intros Hcs s Hinv.
    + apply safe_ret. exact Hinv.
    + destruct Hcs as [Hc' Hcs]. apply safe_bind.
      eapply safe_mono; [apply (IH c' Hc' s Hinv)|].
      intros u s1 Hinv1. cbv beta. apply IHcs; assumption.
  - apply rfcomm_tty_close_safe. exact Hinv.
  - apply safe_drop_result with (Q := fun s' => inv s' no_refs None).
    apply rfcomm_tty_write_safe. exact Hinv.
  - apply safe_drop_result with (Q := fun s' => inv s' no_refs None).
    apply safe_quiet; [apply quiet_rfcomm_tty_write_room | exact Hinv].
  - apply safe_quiet; [apply quiet_rfcomm_tty_set_termios | exact Hinv].
  - apply rfcomm_tty_flush_buffer_safe. exact Hinv.
  - apply safe_drop_result with (Q := fun s' => inv s' no_refs None).
    apply safe_quiet; [apply quiet_rfcomm_tty_chars_in_buffer | exact Hinv].
  - apply rfcomm_tty_hangup_safe. exact Hinv.
  - apply safe_quiet; [apply quiet_rfcomm_tty_throttle | exact Hinv].
  - apply safe_quiet; [apply quiet_rfcomm_tty_unthrottle | exact Hinv].
  - apply safe_drop_result with (Q := fun s' => inv s' no_refs None).
    apply safe_quiet; [apply quiet_rfcomm_tty_tiocmget | exact Hinv].
  - apply safe_dlc_modify. intros d Hd.
    eapply inv_frame; [| | | |exact Hinv]; try reflexivity.
    eapply tx_queues_set_same; [exact Hd|]. destruct d; reflexivity.
Qed.

Lemma run_calls_safe (cs : list call) :
  calls_ok cs -> steady (run_calls' cs).
Proof.
  induction cs as [|c cs IH]; intros Hok s Hinv; cbn [run_calls].
  - apply safe_ret. exact Hinv.
  - destruct Hok as [Hc Hcs]. apply safe_bind.
    eapply safe_mono; [apply (run_call_safe c Hc s Hinv)|].
    intros u s1 Hinv1. cbv beta. apply IH; assumption.
Qed.

End CallsSafe.

(** ** The two assertions of the life cycle *)

Section Assertions.
Context {RH : rfcomm_h} {TH : termios_h}.

Lemma inv_initial (s : kstate) : initial s -> inv s no_refs None.
Proof.
  intros (Hd & Hl & Ht & Hq).
  split.
  { exists []. split; [|split; constructor].
    unfold registry_ids. rewrite Hl. reflexivity. }
  split; [intros p; unfold no_refs; lia|].
  split; [intros p dev Hp; rewrite Hd in Hp; discriminate|].
  rewrite Forall_forall in Ht. rewrite Forall_forall in Hq.
  assert (Hno : forall t ts p, ttys s !! t = Some ts ->
                               tty_driver_data ts = Some p -> False).
  { intros t ts p Hts Hdd. rewrite (Ht ts) in Hdd; [discriminate|].
    eapply list_elem_of_lookup_2; eauto. }
  split; [intros t ts p dev Hts Hdd; exfalso; eauto|].
  split; [intros t1 t2 ts1 ts2 p Hts; intros; exfalso; eauto|].
  split.
  { intros c d skb p Hc Hin. rewrite (Hq d) in Hin; [inversion Hin|].
    eapply list_elem_of_lookup_2; eauto. }
  split; [discriminate|].
  intros t ts p Hts Hdd. exfalso. eauto.
Qed.



End Assertions.



(** The run of the example ends with the record of the device freed, after
    the last close, and the registry empty. *)
Example teardown_frees_after_close :
  exists s', run_calls (RH := linux_rfcomm_h) (TH := linux_termios_h)
               Ex.baud_rate 128 ExCalls.teardown Ex.boot = Done tt s' /\
             devs s' = [None] /\ rfcomm_dev_list s' = [].
Proof. eexists. split; [vm_compute; reflexivity|]. split; reflexivity. Qed.

(** ** Looking a device up *)

Section Lookup.
Context {RH : rfcomm_h} {TH : termios_h}.

Lemma listed_id (s : kstate) (ids : list Z) (p : ptr) (dev : rfcomm_dev) :
  registry_ok s ids -> p ∈ rfcomm_dev_list s ->
  devs s !! p = Some (Some dev) -> dev_id dev ∈ ids.
Proof.
  intros (H1 & _) Hin Hp. apply registry_ids_Forall2 in H1.
  apply list_elem_of_lookup in Hin. destruct Hin as [i Hi].
  destruct (Forall2_lookup_l _ _ _ _ _ H1 Hi) as (j & Hj & Hid).
  apply id_of_Some in Hid. destruct Hid as (d & Hd & <-).
  rewrite Hp in Hd. inversion Hd; subst d.
  eapply list_elem_of_lookup_2; eauto.
Qed.

(** The walk over the registry finds the record that has the id. *)
Lemma dev_list_find_listed (s : kstate) (ids : list Z) (p : ptr)
    (dev : rfcomm_dev) :
  registry_ok s ids -> p ∈ rfcomm_dev_list s ->
  devs s !! p = Some (Some dev) ->
  dev_list_find (rfcomm_dev_list s) (dev_id dev) s = Done (Some p) s.
Proof.
  intros Hok Hin Hp. pose proof Hok as (H1 & _).
  apply registry_ids_Forall2 in H1.
  destruct (dev_list_find_ok s _ ids (dev_id dev) H1) as ([q|] & Hrun & Hr).
  - destruct Hr as (Hq & dq & Hdq & Hid).
    assert (q = p) as -> by (eapply (registry_unique s ids q p); eauto).
    exact Hrun.
  - exfalso. apply Hr. eapply listed_id; eauto.
Qed.

Lemma dev_list_find_absent (s : kstate) (ids : list Z) (id : Z) :
  registry_ok s ids ->
  (forall q dq, q ∈ rfcomm_dev_list s -> devs s !! q = Some (Some dq) ->
                dev_id dq <> id) ->
  dev_list_find (rfcomm_dev_list s) id s = Done None s.
Proof.
  intros Hok Hno. pose proof Hok as (H1 & _).
  apply registry_ids_Forall2 in H1.
  destruct (dev_list_find_ok s _ ids id H1) as ([q|] & Hrun & Hr); [|exact Hrun].
  destruct Hr as (Hq & dq & Hdq & Hid). exfalso. eapply Hno; eauto.
Qed.

(** [rfcomm_dev_get] on the id of a listed record that is not marked
    released takes a reference on it. *)
Lemma rfcomm_dev_get_found (s : kstate) (ids : list Z) (p : ptr)
    (dev : rfcomm_dev) :
  registry_ok s ids -> p ∈ rfcomm_dev_list s ->
  devs s !! p = Some (Some dev) ->
  test_bit RFCOMM_TTY_RELEASED (flags dev) = false ->
  rfcomm_dev_get (dev_id dev) s
  = Done (Some p)
      (set_devs (fun l => <[p := Some (set_port (set_kref (fun n => n + 1)) dev)]> l) s).
Proof.
  intros Hok Hin Hp Hrel. unfold rfcomm_dev_get, __rfcomm_dev_get.
  assert (H1 : bind get_state (fun s0 => dev_list_find (rfcomm_dev_list s0) (dev_id dev)) s
               = Done (Some p) s).
  { unfold bind, get_state. eapply dev_list_find_listed; eauto. }
  rewrite (bind_Done _ _ _ _ _ H1).
  rewrite (bind_Done _ _ _ _ _ (dev_read_Done _ _ _ Hp)). rewrite Hrel.
  unfold tty_port_get.
  rewrite (bind_Done _ _ _ _ _ (dev_modify_Done _ _ _ _ Hp)). reflexivity.
Qed.

(** On the id of a listed record that is marked released it answers
    NULL. *)
Lemma rfcomm_dev_get_released (s : kstate) (ids : list Z) (p : ptr)
    (dev : rfcomm_dev) :
  registry_ok s ids -> p ∈ rfcomm_dev_list s ->
  devs s !! p = Some (Some dev) ->
  test_bit RFCOMM_TTY_RELEASED (flags dev) = true ->
  rfcomm_dev_get (dev_id dev) s = Done None s.
Proof.
  intros Hok Hin Hp Hrel. unfold rfcomm_dev_get, __rfcomm_dev_get.
  assert (H1 : bind get_state (fun s0 => dev_list_find (rfcomm_dev_list s0) (dev_id dev)) s
               = Done (Some p) s).
  { unfold bind, get_state. eapply dev_list_find_listed; eauto. }
  rewrite (bind_Done _ _ _ _ _ H1).
  rewrite (bind_Done _ _ _ _ _ (dev_read_Done _ _ _ Hp)). rewrite Hrel.
  reflexivity.
Qed.

(** And on an id no listed record has. *)
Lemma rfcomm_dev_get_absent (s : kstate) (ids : list Z) (id : Z) :
  registry_ok s ids ->
  (forall q dq, q ∈ rfcomm_dev_list s -> devs s !! q = Some (Some dq) ->
                dev_id dq <> id) ->
  rfcomm_dev_get id s = Done None s.
Proof.
  intros Hok Hno. unfold rfcomm_dev_get, __rfcomm_dev_get.
  assert (H1 : bind get_state (fun s0 => dev_list_find (rfcomm_dev_list s0) id) s
               = Done None s).
  { unfold bind, get_state. eapply dev_list_find_absent; eauto. }
  rewrite (bind_Done _ _ _ _ _ H1). reflexivity.
Qed.


End Lookup.

(** ** Release of an open device *)

Section Release.
Context {RH : rfcomm_h} {TH : termios_h}.

Lemma same_but_refs_refl (dev : rfcomm_dev) : same_but_refs dev dev.
Proof. reflexivity. Qed.

Lemma same_but_refs_trans (a b c : rfcomm_dev) :
  same_but_refs a b -> same_but_refs b c -> same_but_refs a c.
Proof. unfold same_but_refs. congruence. Qed.

Lemma same_but_refs_fields (dev dev' : rfcomm_dev) :
  same_but_refs dev dev' ->
  dev_id dev' = dev_id dev /\ flags dev' = flags dev /\
  count (port dev') = count (port dev) /\ tty (port dev') = tty (port dev) /\
  dlc dev' = dlc dev /\ tty_dev_parent dev' = tty_dev_parent dev.
Proof.
  unfold same_but_refs.
  destruct dev as [[? ? ? ? ?] ? ? ? ? ? ? ? ? ? ? ?],
           dev' as [[? ? ? ? ?] ? ? ? ? ? ? ? ? ? ? ?].
  cbn. intros H. inversion H. repeat split; reflexivity.
Qed.

(** A removal while the device is open only marks the record. *)
Lemma rfcomm_dev_del_deferred (s : kstate) (p : ptr) (dev : rfcomm_dev) :
  devs s !! p = Some (Some dev) ->
  test_bit RFCOMM_TTY_RELEASED (flags dev) = false ->
  0 < count (port dev) ->
  rfcomm_dev_del p s
  = Done tt (set_devs (fun l =>
               <[p := Some (set_flags (set_bit RFCOMM_TTY_RELEASED) dev)]> l) s).
Proof.
  intros Hp Hrel Hc. unfold rfcomm_dev_del.
  rewrite (bind_Done _ _ _ _ _ (dev_read_Done _ _ _ Hp)). rewrite Hrel.
  rewrite (bind_Done _ _ _ _ _ (dev_modify_Done _ _ _ _ Hp)).
  assert (Hp1 : devs (set_devs (fun l =>
                  <[p := Some (set_flags (set_bit RFCOMM_TTY_RELEASED) dev)]> l) s) !! p
                = Some (Some (set_flags (set_bit RFCOMM_TTY_RELEASED) dev))).
  { simpl. apply list_lookup_insert_eq. eapply lookup_lt_Some; eauto. }
  rewrite (bind_Done _ _ _ _ _ (dev_read_Done _ _ _ Hp1)).
  destruct dev as [[? ? ? ? ?] ? ? ? ? ? ? ? ? ? ? ?]. cbn in *.
  destruct (Z.gtb_spec count0 0); [reflexivity | lia].
Qed.

(** Dropping a reference that is not the last one. *)
Lemma tty_port_put_keeps (s : kstate) (p : ptr) (dev : rfcomm_dev) :
  devs s !! p = Some (Some dev) -> kref (port dev) <> 1 ->
  tty_port_put p s
  = Done tt (set_devs (fun l =>
               <[p := Some (set_port (set_kref (fun n => n - 1)) dev)]> l) s).
Proof.
  intros Hp Hk. unfold tty_port_put.
  rewrite (bind_Done _ _ _ _ _ (dev_modify_Done _ _ _ _ Hp)).
  assert (Hp1 : devs (set_devs (fun l =>
                  <[p := Some (set_port (set_kref (fun n => n - 1)) dev)]> l) s) !! p
                = Some (Some (set_port (set_kref (fun n => n - 1)) dev))).
  { simpl. apply list_lookup_insert_eq. eapply lookup_lt_Some; eauto. }
  rewrite (bind_Done _ _ _ _ _ (dev_read_Done _ _ _ Hp1)).
  destruct dev as [[? ? ? ? ?] ? ? ? ? ? ? ? ? ? ? ?]. cbn in *.
  destruct (Z.eqb_spec (kref0 - 1) 0); [lia | reflexivity].
Qed.

Lemma updated_refl (s : kstate) (p c : ptr) (dev : rfcomm_dev) (d : rfcomm_dlc) :
  devs s !! p = Some (Some dev) -> dlcs s !! c = Some d -> updated s s p dev c d.
Proof.
  intros Hp Hc. unfold updated.
  rewrite !list_insert_id by assumption. auto.
Qed.

(** Purging a transmit queue whose buffers are all accounted to the
    device, which has more references than the queue has buffers. *)
Lemma skb_queue_purge_tx_owned (p c : ptr) (q : list sk_buff) :
  forall (s : kstate) (dev : rfcomm_dev) (d : rfcomm_dlc) (n : nat),
    devs s !! p = Some (Some dev) -> dlcs s !! c = Some d ->
    dlc_tx_queue d = q ->
    Forall (fun k => skb_sk k = Some p) q ->
    Z.of_nat (length q) < kref (port dev) ->
    (length q <= n)%nat ->
    exists s' dev',
      skb_queue_purge_tx n c s = Done tt s' /\
      updated s s' p dev' c (set_dlc_tx_queue (fun _ => []) d) /\
      same_but_refs dev dev' /\
      kref (port dev') = kref (port dev) - Z.of_nat (length q).
Proof.
  induction q as [|skb q IH]; intros s dev d n Hp Hc Hq Hown Hk Hn.
  - exists s, dev.
    assert (Hrun : skb_queue_purge_tx n c s = Done tt s).
    { assert (Hdq : skb_dequeue_tx c s = Done None s).
      { unfold skb_dequeue_tx.
        rewrite (bind_Done _ _ _ _ _ (dlc_read_Done _ _ _ Hc)). rewrite Hq.
        reflexivity. }
      destruct n; cbn [skb_queue_purge_tx];
        rewrite (bind_Done _ _ _ _ _ Hdq); reflexivity. }
    split; [exact Hrun|]. split; [|split; [reflexivity | simpl; lia]].
    assert (E : set_dlc_tx_queue (fun _ => []) d = d)
      by (destruct d; simpl in *; subst; reflexivity).
    rewrite E. apply updated_refl; assumption.
  - destruct n as [|n]; [simpl in Hn; lia|].
    inversion Hown as [|? ? Hsk Hown']; subst.
    set (d1 := set_dlc_tx_queue (fun _ => q) d).
    set (s1 := set_dlcs (fun l => <[c := d1]> l) s).
    assert (Hdq : skb_dequeue_tx c s = Done (Some skb) s1).
    { unfold skb_dequeue_tx.
      rewrite (bind_Done _ _ _ _ _ (dlc_read_Done _ _ _ Hc)). rewrite Hq.
      rewrite (bind_Done _ _ _ _ _ (dlc_modify_Done _ _ _ _ Hc)). reflexivity. }
    assert (Hc1 : dlcs s1 !! c = Some d1).
    { simpl. apply list_lookup_insert_eq. eapply lookup_lt_Some; eauto. }
    simpl length in Hk, Hn.
    destruct (kfree_skb_accounted s1 p dev skb Hp Hsk ltac:(lia))
      as (s2 & Hfree & Hd2 & Hl2 & Hr2 & Ht2 & _).
    set (dev2 := set_port (set_kref (fun n => n - 1))
                   (set_wmem_alloc (fun n => to_int (n - skb_truesize skb)) dev)) in *.
    assert (Hlenp : (p < length (devs s))%nat) by (eapply lookup_lt_Some; eauto).
    assert (Hp2 : devs s2 !! p = Some (Some dev2)).
    { rewrite Hd2. apply list_lookup_insert_eq. exact Hlenp. }
    assert (Hc2 : dlcs s2 !! c = Some d1) by (rewrite Hl2; exact Hc1).
    assert (Hk2 : kref (port dev2) = kref (port dev) - 1).
    { subst dev2. destruct dev as [[? ? ? ? ?] ? ? ? ? ? ? ? ? ? ? ?]. reflexivity. }
    destruct (IH s2 dev2 d1 n Hp2 Hc2) as (s' & dev' & Hrun & Hup & Hsame & Hk').
    { subst d1. destruct d; reflexivity. }
    { exact Hown'. }
    { lia. }
    { lia. }
    exists s', dev'. split.
    { cbn [skb_queue_purge_tx].
      rewrite (bind_Done _ _ _ _ _ Hdq). rewrite (bind_Done _ _ _ _ _ Hfree).
      exact Hrun. }
    destruct Hup as (U1 & U2 & U3 & U4).
    split.
    { unfold updated. rewrite U1, U2, U3, U4, Hd2, Hl2, Hr2, Ht2.
      cbn [devs dlcs rfcomm_dev_list ttys s1 set_dlcs].
      rewrite !list_insert_insert_eq.
      assert (E : set_dlc_tx_queue (fun _ => []) d1 = set_dlc_tx_queue (fun _ => []) d)
        by (subst d1; destruct d; reflexivity).
      rewrite E. auto. }
    split.
    { eapply same_but_refs_trans; [|exact Hsame].
      subst dev2. destruct dev as [[? ? ? ? ?] ? ? ? ? ? ? ? ? ? ? ?]. reflexivity. }
    rewrite Hk', Hk2. simpl length. lia.
Qed.

(** [rfcomm_tty_flush_buffer] on the tty of such a device. *)
Lemma rfcomm_tty_flush_buffer_owned (s : kstate) (t p c : ptr)
    (ts : tty_struct) (dev : rfcomm_dev) (d : rfcomm_dlc) :
  ttys s !! t = Some ts -> tty_driver_data ts = Some p ->
  devs s !! p = Some (Some dev) -> dlc dev = Some c -> dlcs s !! c = Some d ->
  Forall (fun k => skb_sk k = Some p) (dlc_tx_queue d) ->
  Z.of_nat (length (dlc_tx_queue d)) < kref (port dev) ->
  exists s' dev',
    rfcomm_tty_flush_buffer t s = Done tt s' /\
    updated s s' p dev' c (set_dlc_tx_queue (fun _ => []) d) /\
    same_but_refs dev dev' /\
    kref (port dev') = kref (port dev) - Z.of_nat (length (dlc_tx_queue d)).
Proof.
  intros Ht Hdd Hp Hdl Hc Hown Hk.
  destruct (skb_queue_purge_tx_owned p c _ s dev d (length (dlc_tx_queue d))
              Hp Hc eq_refl Hown Hk (le_n _))
    as (s1 & dev' & Hrun & Hup & Hsame & Hk').
  eexists _, dev'. split.
  { unfold rfcomm_tty_flush_buffer.
    rewrite (bind_Done _ _ _ _ _ (tty_read_Done _ _ _ Ht)). rewrite Hdd.
    rewrite (bind_Done _ _ _ _ _ (dev_read_Done _ _ _ Hp)). rewrite Hdl.
    rewrite (bind_Done _ _ _ _ _ (dlc_read_Done _ _ _ Hc)).
    rewrite (bind_Done _ _ _ _ _ Hrun). reflexivity. }
  split; [|split; assumption].
  destruct Hup as (U1 & U2 & U3 & U4). unfold updated. simpl. auto.
Qed.

Lemma updated_dev (s s' : kstate) (p c : ptr) (dev dev' : rfcomm_dev)
    (d' : rfcomm_dlc) :
  updated s s' p dev' c d' -> devs s !! p = Some (Some dev) ->
  devs s' !! p = Some (Some dev').
Proof.
  intros (U1 & _) Hp. rewrite U1. apply list_lookup_insert_eq.
  eapply lookup_lt_Some; eauto.
Qed.

Lemma updated_registry_ok (s s' : kstate) (ids : list Z) (p c : ptr)
    (dev dev' : rfcomm_dev) (d' : rfcomm_dlc) :
  updated s s' p dev' c d' -> registry_ok s ids ->
  devs s !! p = Some (Some dev) -> dev_id dev' = dev_id dev ->
  registry_ok s' ids.
Proof.
  intros (U1 & _ & U3 & _) Hok Hp Hid.
  eapply registry_ok_set_dev; eauto.
Qed.

(** Writing the record at [p] once more. *)
Lemma updated_set_dev (s s' : kstate) (p c : ptr) (dev' dev'' : rfcomm_dev)
    (d' : rfcomm_dlc) :
  updated s s' p dev' c d' ->
  updated s (set_devs (fun l => <[p := Some dev'']> l) s') p dev'' c d'.
Proof.
  intros (U1 & U2 & U3 & U4). unfold updated. simpl.
  rewrite U1, list_insert_insert_eq. auto.
Qed.

Lemma test_released_set (w : Z) :
  0 <= RFCOMM_TTY_RELEASED ->
  test_bit RFCOMM_TTY_RELEASED (set_bit RFCOMM_TTY_RELEASED w) = true.
Proof. apply test_bit_set_bit_same. Qed.

(** [rfcomm_tty_hangup] on the tty of an open device: the transmit queue
    is purged, and a "release on hang-up" device is marked released; the
    record stays where it is. *)
Lemma rfcomm_tty_hangup_open (s : kstate) (ids : list Z) (t p c : ptr)
    (ts : tty_struct) (dev : rfcomm_dev) (d : rfcomm_dlc) :
  flag_bits_ok ->
  registry_ok s ids -> p ∈ rfcomm_dev_list s ->
  ttys s !! t = Some ts -> tty_driver_data ts = Some p ->
  devs s !! p = Some (Some dev) -> dlc dev = Some c -> dlcs s !! c = Some d ->
  test_bit RFCOMM_TTY_RELEASED (flags dev) = false ->
  0 < count (port dev) ->
  Forall (fun k => skb_sk k = Some p) (dlc_tx_queue d) ->
  Z.of_nat (length (dlc_tx_queue d)) < kref (port dev) ->
  exists s' dev',
    rfcomm_tty_hangup t s = Done tt s' /\
    updated s s' p dev' c (set_dlc_tx_queue (fun _ => []) d) /\
    same_but_refs
      (if test_bit RFCOMM_RELEASE_ONHUP (flags dev)
       then set_flags (set_bit RFCOMM_TTY_RELEASED) dev else dev) dev' /\
    kref (port dev') = kref (port dev) - Z.of_nat (length (dlc_tx_queue d)).
Proof.
  intros Hbits Hok Hin Ht Hdd Hp Hdl Hc Hrel Hcnt Hown Hk.
  destruct (rfcomm_tty_flush_buffer_owned s t p c ts dev d Ht Hdd Hp Hdl Hc Hown Hk)
    as (sf & devf & Hflush & Hup & Hsame & Hkf).
  destruct (same_but_refs_fields _ _ Hsame) as (Fid & Ffl & Fct & Ftty & Fdlc & _).
  pose proof (updated_dev _ _ _ _ _ _ _ Hup Hp) as Hpf.
  assert (Hprefix : forall k,
            rfcomm_tty_hangup t s
            = (let* dev0 := dev_read p in k dev0) sf ->
            rfcomm_tty_hangup t s = k devf sf).
  { intros k E. rewrite E. rewrite (bind_Done _ _ _ _ _ (dev_read_Done _ _ _ Hpf)).
    reflexivity. }
  assert (Hrun0 : rfcomm_tty_hangup t s
            = (if test_bit RFCOMM_RELEASE_ONHUP (flags devf) then
                 let* r := rfcomm_dev_get (dev_id devf) in
                 match r with
                 | None => ret tt
                 | Some _ => let* _ := rfcomm_dev_del p in tty_port_put p
                 end
               else ret tt) sf).
  { apply (Hprefix (fun dev0 =>
             if test_bit RFCOMM_RELEASE_ONHUP (flags dev0) then
               let* r := rfcomm_dev_get (dev_id dev0) in
               match r with
               | None => ret tt
               | Some _ => let* _ := rfcomm_dev_del p in tty_port_put p
               end
             else ret tt)).
    unfold rfcomm_tty_hangup.
    rewrite (bind_Done _ _ _ _ _ (tty_read_Done _ _ _ Ht)). rewrite Hdd.
    rewrite (bind_Done _ _ _ _ _ Hflush). reflexivity. }
  rewrite Hrun0, Ffl. clear Hrun0 Hprefix.
  destruct (test_bit RFCOMM_RELEASE_ONHUP (flags dev)) eqn:Honhup.
  2: { exists sf, devf. auto. }
  assert (Hokf : registry_ok sf ids)
    by (eapply updated_registry_ok; eauto).
  assert (Hinf : p ∈ rfcomm_dev_list sf).
  { destruct Hup as (_ & _ & U3 & _). rewrite U3. exact Hin. }
  assert (Hrelf : test_bit RFCOMM_TTY_RELEASED (flags devf) = false)
    by (rewrite Ffl; exact Hrel).
  rewrite (bind_Done _ _ _ _ _ (rfcomm_dev_get_found sf ids p devf Hokf Hinf Hpf Hrelf)).
  set (dev1 := set_port (set_kref (fun n => n + 1)) devf).
  set (s1 := set_devs (fun l => <[p := Some dev1]> l) sf).
  assert (Hlenf : (p < length (devs sf))%nat) by (eapply lookup_lt_Some; eauto).
  assert (Hp1 : devs s1 !! p = Some (Some dev1))
    by (simpl; apply list_lookup_insert_eq; exact Hlenf).
  assert (Hdel : rfcomm_dev_del p s1
                 = Done tt (set_devs (fun l => <[p := Some
                     (set_flags (set_bit RFCOMM_TTY_RELEASED) dev1)]> l) s1)).
  { apply rfcomm_dev_del_deferred; [exact Hp1 | |].
    - subst dev1. destruct devf; exact Hrelf.
    - subst dev1. destruct devf as [[? ? ? ? ?] ? ? ? ? ? ? ? ? ? ? ?].
      simpl in *. lia. }
  rewrite (bind_Done _ _ _ _ _ Hdel).
  set (dev2 := set_flags (set_bit RFCOMM_TTY_RELEASED) dev1) in *.
  set (s2 := set_devs (fun l => <[p := Some dev2]> l) s1) in *.
  assert (Hp2 : devs s2 !! p = Some (Some dev2)).
  { simpl. apply list_lookup_insert_eq. rewrite length_insert. exact Hlenf. }
  assert (Hk2 : kref (port dev2) = kref (port devf) + 1).
  { subst dev2 dev1. destruct devf as [[? ? ? ? ?] ? ? ? ? ? ? ? ? ? ? ?]. reflexivity. }
  rewrite (tty_port_put_keeps s2 p dev2 Hp2) by lia.
  eexists _, _. split; [reflexivity|].
  split.
  { apply updated_set_dev with (dev' := dev2).
    apply updated_set_dev with (dev' := dev1).
    apply updated_set_dev with (dev' := devf). exact Hup. }
  split.
  { subst dev2 dev1. unfold same_but_refs in *.
    destruct dev as [[? ? ? ? ?] ? ? ? ? ? ? ? ? ? ? ?],
             devf as [[? ? ? ? ?] ? ? ? ? ? ? ? ? ? ? ?].
    cbn in *. inversion Hsame. reflexivity. }
  subst dev2 dev1. destruct devf as [[? ? ? ? ?] ? ? ? ? ? ? ? ? ? ? ?].
  cbn in *. lia.
Qed.


Lemma tty_modify_Done (t : ptr) (f : tty_struct -> tty_struct) (s : kstate)
    (ts : tty_struct) :
  ttys s !! t = Some ts ->
  tty_modify t f s = Done tt (set_ttys (fun l => <[t := f ts]> l) s).
Proof. intros H. unfold tty_modify. rewrite H. reflexivity. Qed.

(** The destructor on a record that is off the list. *)
Lemma rfcomm_dev_destruct_run (s : kstate) (p c : ptr) (dev : rfcomm_dev)
    (d : rfcomm_dlc) :
  devs s !! p = Some (Some dev) -> dlc dev = Some c ->
  p ∉ rfcomm_dev_list s -> dlcs s !! c = Some d ->
  exists s',
    rfcomm_dev_destruct p s = Done tt s' /\
    devs s' = <[p := None]> (devs s) /\
    rfcomm_dev_list s' = rfcomm_dev_list s /\ ttys s' = ttys s.
Proof.
  intros Hp Hdl Hoff Hc. unfold rfcomm_dev_destruct.
  rewrite (bind_Done _ _ _ _ _ (dev_read_Done _ _ _ Hp)). rewrite Hdl.
  rewrite (bind_Done _ _ _ _ _ (eq_refl : deref (Some c) s = Done c s)).
  rewrite (bind_Done _ _ _ _ _ (eq_refl : get_state s = Done s s)).
  unfold on_dev_list. rewrite bool_decide_eq_false_2 by exact Hoff.
  rewrite (bind_Done _ _ _ _ _ (dlc_read_Done _ _ _ Hc)).
  assert (Hown : exists s1,
    (match dlc_owner_of d with
     | OwnerDev q => if bool_decide (q = p)
                     then dlc_modify c (set_dlc_owner OwnerNull) else ret tt
     | _ => ret tt
     end) s = Done tt s1 /\ devs s1 = devs s /\
    rfcomm_dev_list s1 = rfcomm_dev_list s /\ ttys s1 = ttys s).
  { destruct (dlc_owner_of d) as [|k|q].
    - exists s. auto.
    - exists s. auto.
    - destruct (bool_decide (q = p)).
      + eexists. split; [apply dlc_modify_Done; exact Hc|]. auto.
      + exists s. auto. }
  destruct Hown as (s1 & Hrun & D1 & L1 & T1).
  rewrite (bind_Done _ _ _ _ _ Hrun).
  eexists. split; [reflexivity|]. simpl. rewrite D1, L1, T1. auto.
Qed.

(** Dropping a reference on a record that is off the list. *)
Lemma tty_port_put_unlisted_run (s : kstate) (p c : ptr) (dev : rfcomm_dev)
    (d : rfcomm_dlc) :
  devs s !! p = Some (Some dev) -> dlc dev = Some c ->
  p ∉ rfcomm_dev_list s -> dlcs s !! c = Some d ->
  exists s',
    tty_port_put p s = Done tt s' /\
    (forall q, q <> p -> devs s' !! q = devs s !! q) /\
    rfcomm_dev_list s' = rfcomm_dev_list s /\ ttys s' = ttys s.
Proof.
  intros Hp Hdl Hoff Hc.
  assert (Hlen : (p < length (devs s))%nat) by (eapply lookup_lt_Some; eauto).
  destruct (Z.eq_dec (kref (port dev)) 1) as [E|E].
  - set (dev1 := set_port (set_kref (fun n => n - 1)) dev).
    set (s1 := set_devs (fun l => <[p := Some dev1]> l) s).
    assert (Hp1 : devs s1 !! p = Some (Some dev1))
      by (simpl; apply list_lookup_insert_eq; exact Hlen).
    destruct (rfcomm_dev_destruct_run s1 p c dev1 d Hp1) as (s' & Hrun & D & L & T).
    { subst dev1. destruct dev; exact Hdl. }
    { exact Hoff. }
    { exact Hc. }
    exists s'. split.
    { unfold tty_port_put.
      rewrite (bind_Done _ _ _ _ _ (dev_modify_Done _ _ _ _ Hp)).
      rewrite (bind_Done _ _ _ _ _ (dev_read_Done _ _ _ Hp1)).
      assert (K : (kref (port dev1) =? 0) = true).
      { subst dev1. destruct dev as [[? ? ? ? ?] ? ? ? ? ? ? ? ? ? ? ?].
        cbn in *. apply Z.eqb_eq. lia. }
      rewrite K. exact Hrun. }
    split; [|auto].
    intros q Hq. rewrite D. simpl. rewrite !list_lookup_insert_ne by auto.
    reflexivity.
  - eexists. split; [apply tty_port_put_keeps; eauto|].
    split; [|auto]. intros q Hq. simpl.
    rewrite list_lookup_insert_ne by auto. reflexivity.
Qed.







(** [rfcomm_get_dev_info] answers "no such device" when the look-up
    fails. *)
Lemma rfcomm_get_dev_info_none (s : kstate) (di : rfcomm_dev_info)
    (copy_ok : bool) :
  rfcomm_dev_get (di_id di) s = Done None s ->
  rfcomm_get_dev_info (Some di) copy_ok s = Done (Err ENODEV, None) s.
Proof.
  intros H. unfold rfcomm_get_dev_info.
  rewrite (bind_Done _ _ _ _ _ H). reflexivity.
Qed.


End Release.




(** ** A further open *)

(** C8 (as the code has it). A device is on the registry and its id is the
    index of the tty.  While it is not marked released: when it is open
    already, [rfcomm_tty_open] answers 0 at once, whatever the channel and
    the others do: it adds one to the open count (and takes the reference
    that goes with it), attaches no tty, logs no request to the RFCOMM core
    and does not wait; when it is not open, the call attaches the tty and
    asks the RFCOMM core to open the channel before it waits.  Once it is
    marked released, as after a release while open, every open is refused
    with "no such device", whatever its open count, and changes nothing. *)
Theorem C8_further_open {RH : rfcomm_h}
    (s : kstate) (ids : list Z) (t p : ptr) (ts : tty_struct)
    (dev : rfcomm_dev) (open_err : Z) (sig : bool)
    (env : list (M unit * bool)) (hc : bool) :
  registry_ok s ids ->
  ttys s !! t = Some ts ->
  p ∈ rfcomm_dev_list s -> devs s !! p = Some (Some dev) ->
  dev_id dev = tty_index ts ->
  (test_bit RFCOMM_TTY_RELEASED (flags dev) = false ->
   1 <= count (port dev) ->
   rfcomm_tty_open t open_err sig env hc s
   = Done (Some (Val 0))
       {| devs := <[p := Some (set_port (set_count (fun n => n + 1))
                              (set_port (set_kref (fun n => n + 1)) dev))]> (devs s);
          rfcomm_dev_list := rfcomm_dev_list s; dlcs := dlcs s; ttys := ttys s;
          socks := socks s; module_refs := module_refs s; log := log s |}) /\
  (test_bit RFCOMM_TTY_RELEASED (flags dev) = false ->
   count (port dev) = 0 ->
   forall c, dlc dev = Some c ->
   exists r s',
     rfcomm_tty_open_attach t open_err s = Done r s' /\
     log s' = log s ++ [EvDlcOpen c (src dev) (dst dev) (channel dev)] /\
     (exists ts', ttys s' !! t = Some ts' /\ tty_driver_data ts' = Some p) /\
     (exists dev', devs s' !! p = Some (Some dev') /\
                   count (port dev') = 1 /\ tty (port dev') = Some t)) /\
  (test_bit RFCOMM_TTY_RELEASED (flags dev) = true ->
   rfcomm_tty_open t open_err sig env hc s = Done (Some (Err ENODEV)) s).
Proof.
  intros Hok Ht Hin Hp Hid.
  destruct (test_bit RFCOMM_TTY_RELEASED (flags dev)) eqn:Hrel.
  { split; [intros H; discriminate|]. split; [intros H; discriminate|].
    intros _. unfold rfcomm_tty_open, rfcomm_tty_open_attach.
    rewrite ?bind_assoc, (bind_Done _ _ _ _ _ (tty_read_Done _ _ _ Ht)).
    rewrite <- Hid.
    rewrite ?bind_assoc,
      (bind_Done _ _ _ _ _ (rfcomm_dev_get_released s ids p dev Hok Hin Hp Hrel)).
    reflexivity. }
  assert (Hlen : (p < length (devs s))%nat) by (eapply lookup_lt_Some; eauto).
  assert (Hlent : (t < length (ttys s))%nat) by (eapply lookup_lt_Some; eauto).
  pose proof (rfcomm_dev_get_found s ids p dev Hok Hin Hp Hrel) as Hget.
  rewrite Hid in Hget.
  set (devg := set_port (set_kref (fun n => n + 1)) dev) in *.
  set (sg := set_devs (fun l => <[p := Some devg]> l) s) in *.
  assert (Hpg : devs sg !! p = Some (Some devg))
    by (simpl; apply list_lookup_insert_eq; exact Hlen).
  set (devc := set_port (set_count (fun n => n + 1)) devg).
  set (sc := set_devs (fun l => <[p := Some devc]> l) sg).
  assert (Hpc : devs sc !! p = Some (Some devc)).
  { simpl. apply list_lookup_insert_eq. rewrite length_insert. exact Hlen. }
  assert (Hcc : count (port devc) = count (port dev) + 1).
  { subst devc devg. destruct dev as [[? ? ? ? ?] ? ? ? ? ? ? ? ? ? ? ?]. reflexivity. }
  split; [intros _ | split; [intros _ | intros H; discriminate]].
  - intros Hopen. unfold rfcomm_tty_open, rfcomm_tty_open_attach.
    rewrite !bind_assoc, (bind_Done _ _ _ _ _ (tty_read_Done _ _ _ Ht)).
    rewrite !bind_assoc, (bind_Done _ _ _ _ _ Hget).
    rewrite !bind_assoc, (bind_Done _ _ _ _ _ (dev_modify_Done _ _ _ _ Hpg)).
    rewrite !bind_assoc, (bind_Done _ _ _ _ _ (dev_read_Done _ _ _ Hpc)).
    destruct (Z.gtb_spec (count (port devc)) 1) as [_|]; [|lia].
    unfold bind, ret. f_equal.
    subst sc sg. unfold set_devs.
    cbn [devs rfcomm_dev_list dlcs ttys socks module_refs log].
    rewrite list_insert_insert_eq. reflexivity.
  - intros Hzero c Hdl. unfold rfcomm_tty_open_attach.
    rewrite (bind_Done _ _ _ _ _ (tty_read_Done _ _ _ Ht)).
    rewrite (bind_Done _ _ _ _ _ Hget).
    rewrite (bind_Done _ _ _ _ _ (dev_modify_Done _ _ _ _ Hpg)).
    rewrite (bind_Done _ _ _ _ _ (dev_read_Done _ _ _ Hpc)).
    destruct (Z.gtb_spec (count (port devc)) 1) as [|_]; [lia|].
    assert (Hdlc : dlc devc = Some c).
    { subst devc devg. destruct dev as [[? ? ? ? ?] ? ? ? ? ? ? ? ? ? ? ?]. exact Hdl. }
    rewrite Hdlc.
    rewrite (bind_Done _ _ _ _ _ (eq_refl : deref (Some c) sc = Done c sc)).
    rewrite (bind_Done _ _ _ _ _ (tty_modify_Done t _ sc ts Ht)).
    set (st := set_ttys (fun l => <[t := set_tty_driver_data (Some p) ts]> l) sc).
    rewrite (bind_Done _ _ _ _ _ (dev_modify_Done p _ st devc Hpc)).
    set (devt := set_port (set_tty (Some t)) devc).
    set (s5 := set_devs (fun l => <[p := Some devt]> l) st).
    assert (Hp5 : devs s5 !! p = Some (Some devt)).
    { simpl. apply list_lookup_insert_eq. rewrite !length_insert. exact Hlen. }
    rewrite (bind_Done _ _ _ _ _ (dev_modify_Done p _ s5 devt Hp5)).
    set (deva := set_flags (set_bit RFCOMM_TTY_ATTACHED) devt).
    set (s6 := set_devs (fun l => <[p := Some deva]> l) s5).
    unfold emit at 1. unfold bind at 1.
    destruct (open_err <? 0); (eexists _, _; split; [reflexivity|]); simpl.
    + split.
      { subst devc devg. destruct dev as [[? ? ? ? ?] ? ? ? ? ? ? ? ? ? ? ?].
        reflexivity. }
      split.
      { eexists. split; [apply list_lookup_insert_eq; exact Hlent|].
        destruct ts; reflexivity. }
      exists deva. split; [apply list_lookup_insert_eq; rewrite !length_insert; exact Hlen|].
      subst deva devt devc devg. destruct dev as [[? ? ? ? ?] ? ? ? ? ? ? ? ? ? ? ?].
      cbn in *. split; [lia | reflexivity].
    + split.
      { subst devc devg. destruct dev as [[? ? ? ? ?] ? ? ? ? ? ? ? ? ? ? ?].
        reflexivity. }
      split.
      { eexists. split; [apply list_lookup_insert_eq; exact Hlent|].
        destruct ts; reflexivity. }
      exists deva. split; [apply list_lookup_insert_eq; rewrite !length_insert; exact Hlen|].
      subst deva devt devc devg. destruct dev as [[? ? ? ? ?] ? ? ? ? ? ? ? ? ? ? ?].
      cbn in *. split; [lia | reflexivity].
Qed.

Lemma C8_further_open_witness :
  1 <= count (port ExCalls.open_dev) /\
  rfcomm_tty_open (RH := linux_rfcomm_h)
    0%nat 0 false [] true Ex.one_open
  = Done (Some (Val 0))
      {| devs := <[0%nat := Some (set_port (set_count (fun n => n + 1))
                                (set_port (set_kref (fun n => n + 1))
                                   ExCalls.open_dev))]> (devs Ex.one_open);
         rfcomm_dev_list := rfcomm_dev_list Ex.one_open;
         dlcs := dlcs Ex.one_open; ttys := ttys Ex.one_open;
         socks := socks Ex.one_open; module_refs := module_refs Ex.one_open;
         log := log Ex.one_open |}.
Proof.
  split; [simpl; lia|].
  refine (proj1 (C8_further_open (RH := linux_rfcomm_h)
                   Ex.one_open [0] 0%nat 0%nat ExCalls.open_tty ExCalls.open_dev
                   0 false [] true _ eq_refl _ eq_refl eq_refl) eq_refl _).
  - split; [reflexivity|].
    split; [repeat constructor | repeat constructor; simpl; lia].
  - apply list_elem_of_here.
  - simpl. lia.
Defined.

(** C8, the sentence as written: "for every device whose open-count is
    already at least 1".  Device 0 is open once on tty 0 and has been
    released: a further open of tty 0 answers "no such device" and leaves
    the open count at 1. *)
Lemma C8_counterexample :
  devs ExCalls.one_open_released !! 0%nat = Some (Some ExCalls.released_dev) /\
  count (port ExCalls.released_dev) = 1 /\
  rfcomm_tty_open (RH := linux_rfcomm_h)
    0%nat 0 false [] true ExCalls.one_open_released
  = Done (Some (Err ENODEV)) ExCalls.one_open_released.
Proof. split; [reflexivity|]. split; [reflexivity|]. vm_compute. reflexivity. Qed.

(** The first open of device 0 of [Ex.three] asks for its channel. *)
Example first_open_connects :
  exists r s',
    rfcomm_tty_open_attach (RH := linux_rfcomm_h) 0%nat 0 Ex.three = Done r s' /\
    log s' = log Ex.three ++ [EvDlcOpen 1%nat 0 0xAABBCC 1] /\
    (exists ts', ttys s' !! 0%nat = Some ts' /\ tty_driver_data ts' = Some 0%nat).
Proof.
  eexists _, _. split; [vm_compute; reflexivity|].
  split; [reflexivity|]. eexists. split; reflexivity.
Qed.

(** * Further properties of the code *)

(** ** The query ioctls *)

Section Queries.
Context {RH : rfcomm_h} {TH : termios_h}.

Lemma set_devs_same (s : kstate) (p : ptr) (dev : rfcomm_dev) :
  devs s !! p = Some (Some dev) ->
  set_devs (fun l => <[p := Some dev]> l) s = s.
Proof.
  intros Hp. destruct s; unfold set_devs; cbn in *. f_equal.
  apply list_insert_id. exact Hp.
Qed.

(** Taking a reference with [tty_port_get] and dropping it again gives the
    record back. *)
Lemma kref_up_down (dev : rfcomm_dev) :
  set_port (set_kref (fun n => n - 1)) (set_port (set_kref (fun n => n + 1)) dev)
  = dev.
Proof.
  destruct dev as [[? ? ? ? ?] ? ? ? ? ? ? ? ? ? ? ?].
  unfold set_port, set_kref; cbn. do 2 f_equal. lia.
Qed.

(** [rfcomm_dev_get] followed by [tty_port_put] leaves the state as it
    was. *)
Lemma get_put_same (s : kstate) (ids : list Z) (p : ptr) (dev : rfcomm_dev) :
  registry_ok s ids -> p ∈ rfcomm_dev_list s ->
  devs s !! p = Some (Some dev) ->
  test_bit RFCOMM_TTY_RELEASED (flags dev) = false ->
  kref (port dev) <> 0 ->
  exists s1,
    rfcomm_dev_get (dev_id dev) s = Done (Some p) s1 /\
    devs s1 !! p = Some (Some (set_port (set_kref (fun n => n + 1)) dev)) /\
    dlcs s1 = dlcs s /\
    tty_port_put p s1 = Done tt s.
Proof.
  intros Hok Hin Hp Hrel Hk. eexists. split.
  { eapply rfcomm_dev_get_found; eauto. }
  assert (Hlt : (p < length (devs s))%nat) by (eapply lookup_lt_Some; eauto).
  split. { cbn. apply list_lookup_insert_eq. exact Hlt. }
  split; [reflexivity|].
  erewrite tty_port_put_keeps.
  2:{ cbn. apply list_lookup_insert_eq. exact Hlt. }
  2:{ cbn. lia. }
  f_equal. rewrite kref_up_down.
  unfold set_devs; cbn. rewrite list_insert_insert_eq.
  destruct s; cbn in *. f_equal. apply list_insert_id. exact Hp.
Qed.

(** The run of [rfcomm_get_dev_info] on a device it finds. *)
Lemma rfcomm_get_dev_info_run (s : kstate) (ids : list Z) (p c : ptr)
    (dev : rfcomm_dev) (d : rfcomm_dlc) (di : rfcomm_dev_info) (copy_ok : bool) :
  registry_ok s ids -> p ∈ rfcomm_dev_list s ->
  devs s !! p = Some (Some dev) ->
  test_bit RFCOMM_TTY_RELEASED (flags dev) = false ->
  kref (port dev) <> 0 ->
  dlc dev = Some c -> dlcs s !! c = Some d ->
  di_id di = dev_id dev ->
  rfcomm_get_dev_info (Some di) copy_ok s
  = Done (if copy_ok then (Val 0, Some (dev_info_of dev (Some (dlc_state d))))
          else (Err EFAULT, None)) s.
Proof.
  intros Hok Hin Hp Hrel Hk Hc Hd Hid.
  destruct (get_put_same s ids p dev Hok Hin Hp Hrel Hk) as (s1 & Hg & Hp1 & Hd1 & Hput).
  unfold rfcomm_get_dev_info. rewrite Hid.
  rewrite (bind_Done _ _ _ _ _ Hg).
  rewrite (bind_Done _ _ _ _ _ (dev_read_Done _ _ _ Hp1)).
  assert (Hst : dev_dlc_state (set_port (set_kref (fun n => n + 1)) dev) s1
                = Done (dlc_state d) s1).
  { unfold dev_dlc_state. cbn [dlc set_port]. rewrite Hc.
    unfold deref. unfold bind at 1. unfold ret at 1.
    rewrite <- Hd1 in Hd.
    rewrite (bind_Done _ _ _ _ _ (dlc_read_Done _ _ _ Hd)). reflexivity. }
  rewrite (bind_Done _ _ _ _ _ Hst).
  rewrite (bind_Done _ _ _ _ _ Hput).
  destruct copy_ok; reflexivity.
Qed.

(** X1.  RFCOMMGETDEVINFO on the id of a registered device that is not marked
    released copies out its id, flags, addresses and channel with the state
    of its channel, and leaves the kernel state as it was: the reference it
    takes is dropped again.  When the copy to the caller fails the answer is
    EFAULT, with the state unchanged as well. *)
Theorem X1_get_dev_info_found (s : kstate) (ids : list Z) (p c : ptr)
    (dev : rfcomm_dev) (d : rfcomm_dlc) (di : rfcomm_dev_info) (copy_ok : bool) :
  registry_ok s ids -> p ∈ rfcomm_dev_list s ->
  devs s !! p = Some (Some dev) ->
  test_bit RFCOMM_TTY_RELEASED (flags dev) = false ->
  kref (port dev) <> 0 ->
  dlc dev = Some c -> dlcs s !! c = Some d ->
  di_id di = dev_id dev ->
  rfcomm_get_dev_info (Some di) copy_ok s
  = Done (if copy_ok then (Val 0, Some (dev_info_of dev (Some (dlc_state d))))
          else (Err EFAULT, None)) s.
Proof. apply rfcomm_get_dev_info_run. Qed.

End Queries.

Lemma X1_get_dev_info_found_witness :
  rfcomm_get_dev_info (RH := linux_rfcomm_h)
    (Some {| di_id := 0; di_flags := 0; di_state := None; di_src := 0;
             di_dst := 0; di_channel := 0 |}) true Ex.one_open
  = Done (Val 0, Some (dev_info_of ExCalls.open_dev (Some BT_CONNECTED)))
         Ex.one_open.
Proof.
  apply (X1_get_dev_info_found (RH := linux_rfcomm_h) Ex.one_open [0] 0%nat 1%nat
           ExCalls.open_dev ExCalls.open_dlc _ true).
  - split; [reflexivity|].
    split; [repeat constructor | repeat constructor; simpl; lia].
  - apply list_elem_of_here.
  - reflexivity.
  - reflexivity.
  - vm_compute. discriminate.
  - reflexivity.
  - reflexivity.
  - reflexivity.
Defined.

Section ListQuery.
Context {RH : rfcomm_h}.
Variable DEV_LIST_MAX : Z.

Lemma dev_list_collect_take (s : kstate) (n : Z) (l : list ptr) :
  Forall (fun p => exists dev c d, devs s !! p = Some (Some dev) /\
                                   dlc dev = Some c /\ dlcs s !! c = Some d) l ->
  forall acc, Z.of_nat (length acc) < n ->
    dev_list_collect l n acc s
    = Done (take (Z.to_nat n) (acc ++ omap (info_at s) l)) s.
Proof.
  induction 1 as [|p l (dev & c & d & Hp & Hc & Hd) Hl IH]; intros acc Hacc.
  - cbn. rewrite app_nil_r. rewrite take_ge by lia. reflexivity.
  - cbn [dev_list_collect omap list_omap].
    rewrite (bind_Done _ _ _ _ _ (dev_read_Done _ _ _ Hp)).
    unfold info_at at 1, dev_at. rewrite Hp.
    destruct (test_bit RFCOMM_TTY_RELEASED (flags dev)) eqn:Hrel.
    + apply IH. exact Hacc.
    + rewrite Hc, Hd.
      assert (Hst : dev_dlc_state dev s = Done (dlc_state d) s).
      { unfold dev_dlc_state. rewrite Hc. unfold deref.
        unfold bind at 1. unfold ret at 1.
        rewrite (bind_Done _ _ _ _ _ (dlc_read_Done _ _ _ Hd)). reflexivity. }
      rewrite (bind_Done _ _ _ _ _ Hst).
      rewrite length_app. cbn [length].
      destruct (Z.of_nat (length acc + 1) >=? n) eqn:Hge.
      * apply Z.geb_le in Hge. unfold ret. f_equal.
        replace (acc ++ dev_info_of dev (Some (dlc_state d)) :: omap (info_at s) l)
          with ((acc ++ [dev_info_of dev (Some (dlc_state d))]) ++ omap (info_at s) l)
          by (rewrite <- app_assoc; reflexivity).
        rewrite take_app_length'; [reflexivity|].
        rewrite length_app. cbn [length]. lia.
      * rewrite IH.
        2:{ rewrite length_app. cbn [length].
            rewrite Z.geb_leb in Hge. apply Z.leb_gt in Hge. lia. }
        rewrite <- app_assoc. reflexivity.
Qed.

(** X2.  RFCOMMGETDEVLIST, asked for [n] entries with [0 < n] up to the bound,
    copies out the entries of the registered devices that are not marked
    released, in the order of the registry, cut after the first [n]; the
    kernel state is as before.  When the copy to the caller fails the answer
    is EFAULT. *)
Theorem X2_get_dev_list_entries (s : kstate) (n : Z) (copy_ok : bool) :
  registry_linked s -> 0 < n <= DEV_LIST_MAX ->
  rfcomm_get_dev_list DEV_LIST_MAX (Some n) true copy_ok s
  = Done (if copy_ok then (Val 0, take (Z.to_nat n) (visible_infos s))
          else (Err EFAULT, [])) s.
Proof.
  intros Hl [Hn0 Hn]. unfold rfcomm_get_dev_list.
  replace (n =? 0) with false by (symmetry; apply Z.eqb_neq; lia).
  replace (n >? DEV_LIST_MAX) with false
    by (symmetry; rewrite Z.gtb_ltb; apply Z.ltb_ge; lia).
  cbn [orb negb].
  unfold bind at 1. unfold get_state.
  rewrite (bind_Done _ _ _ _ _ (dev_list_collect_take s n _ Hl [] ltac:(cbn; lia))).
  destruct copy_ok; reflexivity.
Qed.

End ListQuery.

Lemma X2_get_dev_list_entries_witness :
  rfcomm_get_dev_list (RH := linux_rfcomm_h) 128 (Some 2) true true Ex.three
  = Done (Val 0, take 2 (visible_infos (H := linux_rfcomm_h) Ex.three)) Ex.three.
Proof.
  apply (X2_get_dev_list_entries (RH := linux_rfcomm_h) 128 Ex.three 2 true).
  - repeat (constructor; [eexists _, _, _; repeat split; reflexivity|]).
    constructor.
  - lia.
Defined.

(** ** Creation through the ioctl *)

Section CreateIoctl.
Context {RH : rfcomm_h} {TH : termios_h}.

(** The run of [rfcomm_create_dev] for a caller with the capability that
    asks for a channel of its own and an id that is free. *)
Lemma rfcomm_create_dev_fresh (s : kstate) (ids : list Z) (sk : ptr)
    (req : rfcomm_dev_req) (d : rfcomm_dlc) :
  registry_ok s ids ->
  req_reuse req = false ->
  0 <= req_dev_id req < RFCOMM_MAX_DEV -> req_dev_id req ∉ ids ->
  exists s' n,
    rfcomm_create_dev sk (Some req) true (Some d) true None s
    = Done (Val (req_dev_id req)) s' /\
    devs s' = devs s ++ [Some (added_dev req (req_dev_id req) (length (dlcs s))
                                 (dlc_remote_v24_sig d) [])] /\
    rfcomm_dev_list s'
    = take n (rfcomm_dev_list s) ++ length (devs s) :: drop n (rfcomm_dev_list s) /\
    dlcs s' = dlcs s ++ [set_dlc_owner (OwnerDev (length (devs s)))
                           (set_dlc_cb CallbacksDev d)] /\
    ttys s' = ttys s /\ socks s' = socks s /\
    registry_ok s' (take n ids ++ req_dev_id req :: drop n ids).
Proof.
  intros Hok Hre [Hid0 Hid1] Hfree.
  set (s0 := set_dlcs (fun h => h ++ [d]) s).
  assert (Hok0 : registry_ok s0 ids) by exact Hok.
  destruct (dev_add_choose_id s0 ids req (Some zero_dev) Hok0 Hid0) as [_ Hch].
  destruct (Hch Hfree) as (n & Hrun & Hn & Hlo & Hhi).
  destruct (Z.ltb_spec (req_dev_id req) RFCOMM_MAX_DEV) as [_|]; [|lia].
  assert (Hc : dlcs s0 !! length (dlcs s) = Some d) by apply lookup_snoc.
  assert (Htk : add_takes req d s0 [] (socks s0)).
  { unfold add_takes. rewrite Hre. split; reflexivity. }
  destruct (rfcomm_dev_add_at s0 req (length (dlcs s)) None (req_dev_id req) n d []
              (socks s0) Hrun Hc Htk)
    as (s' & Hadd & Hdevs & Hlist & Hdlcs & Httys & Hsocks & _).
  exists s', n. split.
  { unfold rfcomm_create_dev. cbn [negb andb].
    rewrite Bool.andb_false_r.
    unfold req_reuse in Hre. rewrite Hre.
    unfold bind at 1. fold s0.
    rewrite (bind_Done _ _ _ _ _ Hadd). reflexivity. }
  split; [exact Hdevs|]. split; [exact Hlist|].
  split. { rewrite Hdlcs. cbn. apply insert_snoc. }
  split; [exact Httys|]. split; [exact Hsocks|].
  eapply (registry_ok_add s0 s' ids _ n Hok0 Hdevs Hlist); cbn; auto.
Qed.

(** X3.  A device created through RFCOMMCREATEDEV can be looked up at once: for
    a caller with the capability that asks for a channel of its own and a
    free id in range, the create returns that id, and RFCOMMGETDEVINFO on the
    id then copies out the addresses and the channel number of the request,
    the flags of the request masked to the two flags a device keeps, and
    the state of the new channel, without changing the state further. *)
Theorem X3_create_then_info (s : kstate) (ids : list Z) (sk : ptr)
    (req : rfcomm_dev_req) (d : rfcomm_dlc) (di : rfcomm_dev_info) :
  registry_ok s ids -> flag_bits_ok ->
  req_reuse req = false ->
  0 <= req_dev_id req < RFCOMM_MAX_DEV -> req_dev_id req ∉ ids ->
  di_id di = req_dev_id req ->
  exists s',
    rfcomm_create_dev sk (Some req) true (Some d) true None s
    = Done (Val (req_dev_id req)) s' /\
    rfcomm_get_dev_info (Some di) true s'
    = Done (Val 0,
            Some {| di_id := req_dev_id req;
                    di_flags := Z.land (req_flags req)
                                  (Z.lor (BIT RFCOMM_RELEASE_ONHUP)
                                         (BIT RFCOMM_REUSE_DLC));
                    di_state := Some (dlc_state d);
                    di_src := req_src req; di_dst := req_dst req;
                    di_channel := req_channel req |}) s'.
Proof.
  intros Hok Hbits Hre Hid Hfree Hdi.
  destruct (rfcomm_create_dev_fresh s ids sk req d Hok Hre Hid Hfree)
    as (s' & n & Hrun & Hdevs & Hlist & Hdlcs & _ & _ & Hok').
  exists s'. split; [exact Hrun|].
  destruct Hbits as (_ & Hr0 & _ & _ & _ & Hn1 & Hn2 & _).
  apply (rfcomm_get_dev_info_run s' _ (length (devs s)) (length (dlcs s))
           (added_dev req (req_dev_id req) (length (dlcs s))
              (dlc_remote_v24_sig d) [])
           (set_dlc_owner (OwnerDev (length (devs s))) (set_dlc_cb CallbacksDev d))
           di true Hok').
  - rewrite Hlist. apply elem_of_app. right. apply list_elem_of_here.
  - rewrite Hdevs. apply lookup_snoc.
  - unfold test_bit. cbn [flags added_dev].
    rewrite Z.land_spec, Z.lor_spec, !BIT_testbit by exact Hr0.
    destruct (Z.eqb_spec RFCOMM_TTY_RELEASED RFCOMM_RELEASE_ONHUP); [congruence|].
    destruct (Z.eqb_spec RFCOMM_TTY_RELEASED RFCOMM_REUSE_DLC); [congruence|].
    apply Bool.andb_false_r.
  - cbn. lia.
  - reflexivity.
  - rewrite Hdlcs. apply lookup_snoc.
  - exact Hdi.
Qed.

End CreateIoctl.

Lemma X3_create_then_info_witness :
  exists s',
    rfcomm_create_dev (RH := linux_rfcomm_h) (TH := linux_termios_h)
      0%nat (Some (Ex.req_id 5 2)) true (Some (Ex.new_dlc 127 7)) true None Ex.three
    = Done (Val 5) s' /\
    rfcomm_get_dev_info (RH := linux_rfcomm_h)
      (Some {| di_id := 5; di_flags := 0; di_state := None; di_src := 0;
               di_dst := 0; di_channel := 0 |}) true s'
    = Done (Val 0,
            Some {| di_id := 5; di_flags := 2; di_state := Some BT_OPEN;
                    di_src := 0; di_dst := 0xAABBCC; di_channel := 1 |}) s'.
Proof.
  apply (X3_create_then_info (RH := linux_rfcomm_h) (TH := linux_termios_h)
           Ex.three [0; 1; 2] 0%nat (Ex.req_id 5 2) (Ex.new_dlc 127 7)
           {| di_id := 5; di_flags := 0; di_state := None; di_src := 0;
              di_dst := 0; di_channel := 0 |}).
  - split; [reflexivity|].
    split; [repeat constructor | repeat constructor; simpl; lia].
  - unfold flag_bits_ok. cbn. lia.
  - reflexivity.
  - cbn. lia.
  - cbn. rewrite !elem_of_cons, elem_of_nil. lia.
  - reflexivity.
Defined.

(** ** Release of a device that is not open *)

Section ReleaseClosed.
Context {RH : rfcomm_h} {TH : termios_h}.

(** Dropping the last reference on a record that is off the list frees
    it. *)
Lemma tty_port_put_last (s : kstate) (p c : ptr) (dev : rfcomm_dev)
    (d : rfcomm_dlc) :
  devs s !! p = Some (Some dev) -> kref (port dev) = 1 ->
  dlc dev = Some c -> p ∉ rfcomm_dev_list s -> dlcs s !! c = Some d ->
  exists s',
    tty_port_put p s = Done tt s' /\
    devs s' = <[p := None]> (devs s) /\
    rfcomm_dev_list s' = rfcomm_dev_list s /\ ttys s' = ttys s.
Proof.
  intros Hp Hk Hc Hoff Hd. unfold tty_port_put.
  assert (Hlt : (p < length (devs s))%nat) by (eapply lookup_lt_Some; eauto).
  rewrite (bind_Done _ _ _ _ _ (dev_modify_Done _ _ _ _ Hp)).
  set (s1 := set_devs _ s).
  assert (Hp1 : devs s1 !! p = Some (Some (set_port (set_kref (fun n => n - 1)) dev))).
  { subst s1. cbn. apply list_lookup_insert_eq. exact Hlt. }
  rewrite (bind_Done _ _ _ _ _ (dev_read_Done _ _ _ Hp1)).
  cbn [kref port set_port set_kref]. rewrite Hk. cbn [Z.sub Z.eqb Z.add Z.opp Z.pos_sub].
  destruct (rfcomm_dev_destruct_run s1 p c _ d Hp1 Hc Hoff Hd)
    as (s' & Hrun & Hdevs & Hlist & Httys).
  exists s'. split; [exact Hrun|]. rewrite Hdevs, Hlist, Httys.
  subst s1. cbn. rewrite list_insert_insert_eq. auto.
Qed.

(** [rfcomm_dev_del] on a device that is not open: the record is marked,
    taken off the registry, and loses the reference of the registry. *)
Lemma rfcomm_dev_del_closed (s : kstate) (p : ptr) (dev : rfcomm_dev) :
  devs s !! p = Some (Some dev) ->
  test_bit RFCOMM_TTY_RELEASED (flags dev) = false ->
  count (port dev) <= 0 -> kref (port dev) <> 1 ->
  exists s',
    rfcomm_dev_del p s = Done tt s' /\
    devs s' = <[p := Some (set_port (set_kref (fun n => n - 1))
                             (set_flags (set_bit RFCOMM_TTY_RELEASED) dev))]> (devs s) /\
    rfcomm_dev_list s' = filter (fun q => q <> p) (rfcomm_dev_list s) /\
    dlcs s' = dlcs s /\ ttys s' = ttys s.
Proof.
  intros Hp Hrel Hcnt Hk. unfold rfcomm_dev_del.
  assert (Hlt : (p < length (devs s))%nat) by (eapply lookup_lt_Some; eauto).
  rewrite (bind_Done _ _ _ _ _ (dev_read_Done _ _ _ Hp)). rewrite Hrel.
  rewrite (bind_Done _ _ _ _ _ (dev_modify_Done _ _ _ _ Hp)).
  set (s1 := set_devs _ s).
  assert (Hp1 : devs s1 !! p = Some (Some (set_flags (set_bit RFCOMM_TTY_RELEASED) dev))).
  { subst s1. cbn. apply list_lookup_insert_eq. exact Hlt. }
  rewrite (bind_Done _ _ _ _ _ (dev_read_Done _ _ _ Hp1)).
  cbn [count port set_flags].
  replace (count (port dev) >? 0) with false
    by (symmetry; rewrite Z.gtb_ltb; apply Z.ltb_ge; lia).
  unfold list_del at 1. unfold bind at 1.
  set (s2 := set_rfcomm_dev_list _ s1).
  assert (Hp2 : devs s2 !! p = Some (Some (set_flags (set_bit RFCOMM_TTY_RELEASED) dev)))
    by exact Hp1.
  rewrite (tty_port_put_keeps s2 p _ Hp2 Hk).
  eexists. split; [reflexivity|]. subst s2 s1. cbn.
  rewrite list_insert_insert_eq. auto.
Qed.

(** The registry stays well formed when records off the registry change. *)
Lemma registry_ok_off_list (s s' : kstate) (ids : list Z) :
  registry_ok s ids ->
  rfcomm_dev_list s' = rfcomm_dev_list s ->
  (forall q, q ∈ rfcomm_dev_list s -> devs s' !! q = devs s !! q) ->
  registry_ok s' ids.
Proof.
  intros (H1 & H2 & H3) Hl Hd. split; [|split; assumption].
  rewrite <- H1. unfold registry_ids. rewrite Hl.
  apply Forall_mapM_ext. apply Forall_forall. intros q Hq.
  unfold id_of, dev_at. rewrite (Hd q Hq). reflexivity.
Qed.

(** The run of [rfcomm_release_dev] on a device that is not open and is
    not "release on hang-up". *)
Lemma rfcomm_release_dev_closed_run (s : kstate) (ids : list Z) (p c : ptr)
    (dev : rfcomm_dev) (d : rfcomm_dlc) (req : rfcomm_dev_req)
    (sync : option Z) :
  registry_ok s ids -> p ∈ rfcomm_dev_list s ->
  devs s !! p = Some (Some dev) ->
  test_bit RFCOMM_TTY_RELEASED (flags dev) = false ->
  test_bit RFCOMM_RELEASE_ONHUP (flags dev) = false ->
  count (port dev) = 0 -> tty (port dev) = None -> kref (port dev) = 1 ->
  dlc dev = Some c -> dlcs s !! c = Some d ->
  req_dev_id req = dev_id dev ->
  Z.land (req_flags req) (BIT RFCOMM_HANGUP_NOW) = 0 ->
  exists s',
    rfcomm_release_dev (Some req) true sync s = Done (Val 0) s' /\
    devs s' = <[p := None]> (devs s) /\
    rfcomm_dev_list s' = filter (fun q => q <> p) (rfcomm_dev_list s) /\
    ttys s' = ttys s.
Proof.
  intros Hok Hin Hp Hrel Honhup Hcnt Htty Hk Hc Hd Hid Hhn.
  assert (Hlt : (p < length (devs s))%nat) by (eapply lookup_lt_Some; eauto).
  unfold rfcomm_release_dev. rewrite Hid.
  rewrite (bind_Done _ _ _ _ _ (rfcomm_dev_get_found s ids p dev Hok Hin Hp Hrel)).
  set (dev1 := set_port (set_kref (fun n => n + 1)) dev).
  set (s1 := set_devs _ s).
  assert (Hp1 : devs s1 !! p = Some (Some dev1)).
  { subst s1. cbn. apply list_lookup_insert_eq. exact Hlt. }
  rewrite (bind_Done _ _ _ _ _ (dev_read_Done _ _ _ Hp1)).
  cbn [negb]. rewrite Bool.andb_false_r. rewrite Hhn. cbn [Z.eqb negb].
  rewrite (bind_Done _ _ _ _ _ (eq_refl : ret tt s1 = Done tt s1)).
  rewrite (bind_Done _ _ _ _ _ (dev_read_Done _ _ _ Hp1)).
  replace (tty (port dev1)) with (@None ptr) by (symmetry; exact Htty).
  rewrite (bind_Done _ _ _ _ _ (eq_refl : ret tt s1 = Done tt s1)).
  rewrite (bind_Done _ _ _ _ _ (dev_read_Done _ _ _ Hp1)).
  replace (test_bit RFCOMM_RELEASE_ONHUP (flags dev1)) with false
    by (symmetry; exact Honhup).
  cbn [negb].
  destruct (rfcomm_dev_del_closed s1 p dev1 Hp1 Hrel) as (s2 & Hdel & D2 & L2 & C2 & T2).
  { subst dev1. cbn. lia. }
  { subst dev1. cbn. lia. }
  rewrite (bind_Done _ _ _ _ _ Hdel).
  assert (Hp2 : devs s2 !! p
                = Some (Some (set_port (set_kref (fun n => n - 1))
                                (set_flags (set_bit RFCOMM_TTY_RELEASED) dev1)))).
  { rewrite D2. apply list_lookup_insert_eq. subst s1. cbn.
    rewrite length_insert. exact Hlt. }
  destruct (tty_port_put_last s2 p c _ d Hp2) as (s3 & Hput & D3 & L3 & T3).
  { subst dev1. cbn. lia. }
  { exact Hc. }
  { rewrite L2. intros H. apply list_elem_of_filter in H. destruct H as [H _].
    apply H. reflexivity. }
  { rewrite C2. exact Hd. }
  rewrite (bind_Done _ _ _ _ _ Hput).
  exists s3. split; [reflexivity|].
  rewrite D3, L3, T3, D2, L2, T2. subst s1. cbn.
  rewrite !list_insert_insert_eq. auto.
Qed.

(** Once a record is freed and off the registry, the registry is well
    formed without its id. *)
Lemma registry_ok_removed (s s' : kstate) (ids : list Z) (p : ptr)
    (dev : rfcomm_dev) :
  registry_ok s ids -> p ∈ rfcomm_dev_list s ->
  devs s !! p = Some (Some dev) ->
  devs s' = <[p := None]> (devs s) ->
  rfcomm_dev_list s' = filter (fun q => q <> p) (rfcomm_dev_list s) ->
  exists ids', registry_ok s' ids' /\ (dev_id dev ∉ ids').
Proof.
  intros Hok Hin Hp Hd Hl.
  destruct (registry_ok_list_del s ids p Hok) as [ids' Hok1].
  assert (Hok' : registry_ok s' ids').
  { apply (registry_ok_off_list _ s' ids' Hok1).
    - exact Hl.
    - intros q Hq. cbn in Hq. apply list_elem_of_filter in Hq. destruct Hq as [Hne _].
      rewrite Hd. cbn. apply list_lookup_insert_ne. congruence. }
  exists ids'. split; [exact Hok'|].
  intros Hi. destruct Hok' as (H1 & _). apply registry_ids_Forall2 in H1.
  apply list_elem_of_lookup in Hi. destruct Hi as [j Hj].
  destruct (Forall2_lookup_r _ _ _ _ _ H1 Hj) as (q & Hq & Hidq).
  apply list_elem_of_lookup_2 in Hq. rewrite Hl in Hq.
  apply list_elem_of_filter in Hq. destruct Hq as [Hne Hq].
  apply id_of_Some in Hidq. destruct Hidq as (dq & Hdq & Hid).
  rewrite Hd, list_lookup_insert_ne in Hdq by congruence.
  apply Hne. eapply (registry_unique s ids q p); eauto.
Qed.

(** X4.  RFCOMMRELEASEDEV by a privileged caller, without "hang up now", on
    a registered device that is not open, holds no other reference and is
    not "release on hang-up" succeeds and destroys the device at once: its
    record is freed and taken off the registry, the other records and the
    ttys are untouched, the registry stays well formed without the id, and
    a query for the id answers "no such device". *)
Theorem X4_release_closed_destroys (s : kstate) (ids : list Z) (p c : ptr)
    (dev : rfcomm_dev) (d : rfcomm_dlc) (req : rfcomm_dev_req)
    (sync : option Z) (di : rfcomm_dev_info) (copy_ok : bool) :
  registry_ok s ids -> p ∈ rfcomm_dev_list s ->
  devs s !! p = Some (Some dev) ->
  test_bit RFCOMM_TTY_RELEASED (flags dev) = false ->
  test_bit RFCOMM_RELEASE_ONHUP (flags dev) = false ->
  count (port dev) = 0 -> tty (port dev) = None -> kref (port dev) = 1 ->
  dlc dev = Some c -> dlcs s !! c = Some d ->
  req_dev_id req = dev_id dev ->
  Z.land (req_flags req) (BIT RFCOMM_HANGUP_NOW) = 0 ->
  di_id di = dev_id dev ->
  exists s' ids',
    rfcomm_release_dev (Some req) true sync s = Done (Val 0) s' /\
    devs s' = <[p := None]> (devs s) /\
    rfcomm_dev_list s' = filter (fun q => q <> p) (rfcomm_dev_list s) /\
    ttys s' = ttys s /\
    registry_ok s' ids' /\ (dev_id dev ∉ ids') /\
    rfcomm_get_dev_info (Some di) copy_ok s' = Done (Err ENODEV, None) s'.
Proof.
  intros Hok Hin Hp Hrel Honhup Hcnt Htty Hk Hc Hd Hid Hhn Hdi.
  destruct (rfcomm_release_dev_closed_run s ids p c dev d req sync
              Hok Hin Hp Hrel Honhup Hcnt Htty Hk Hc Hd Hid Hhn)
    as (s' & Hrun & D & L & T).
  destruct (registry_ok_removed s s' ids p dev Hok Hin Hp D L) as (ids' & Hok' & Hout).
  exists s', ids'. repeat (split; [assumption|]).
  apply rfcomm_get_dev_info_none. rewrite Hdi.
  apply (rfcomm_dev_get_absent s' ids' _ Hok').
  intros q dq Hq Hdq Heq. apply Hout. rewrite <- Heq.
  eapply listed_id; eauto.
Qed.

End ReleaseClosed.

Lemma X4_release_closed_destroys_witness :
  exists s' ids',
    rfcomm_release_dev (RH := linux_rfcomm_h) (Some (Ex.req_id 0 0)) true None Ex.three
    = Done (Val 0) s' /\
    devs s' = <[0%nat := None]> (devs Ex.three) /\
    rfcomm_dev_list s' = filter (fun q => q <> 0%nat) (rfcomm_dev_list Ex.three) /\
    ttys s' = ttys Ex.three /\
    registry_ok (H := linux_rfcomm_h) s' ids' /\ (0 ∉ ids') /\
    rfcomm_get_dev_info (RH := linux_rfcomm_h)
      (Some {| di_id := 0; di_flags := 0; di_state := None; di_src := 0;
               di_dst := 0; di_channel := 0 |}) true s'
    = Done (Err ENODEV, None) s'.
Proof.
  apply (X4_release_closed_destroys (RH := linux_rfcomm_h) Ex.three [0; 1; 2]
           0%nat 1%nat ExCalls.closed_dev
           (default (Ex.new_dlc 0 0) (dlcs Ex.three !! 1%nat))
           (Ex.req_id 0 0) None
           {| di_id := 0; di_flags := 0; di_state := None; di_src := 0;
              di_dst := 0; di_channel := 0 |} true).
  - split; [reflexivity|].
    split; [repeat constructor | repeat constructor; simpl; lia].
  - apply list_elem_of_here.
  - reflexivity.
  - reflexivity.
  - reflexivity.
  - reflexivity.
  - reflexivity.
  - reflexivity.
  - reflexivity.
  - reflexivity.
  - reflexivity.
  - reflexivity.
  - reflexivity.
Defined.

Section ReleaseNothing.
Context {RH : rfcomm_h} {TH : termios_h}.

(** X5.  RFCOMMRELEASEDEV without "hang up now" on a registered "release on
    hang-up" device that has no tty answers 0 and changes nothing: the
    device stays registered, and is removed only by a hang-up. *)
Theorem X5_release_onhup_closed_noop (s : kstate) (ids : list Z) (p : ptr)
    (dev : rfcomm_dev) (req : rfcomm_dev_req) (capable : bool)
    (sync : option Z) :
  registry_ok s ids -> p ∈ rfcomm_dev_list s ->
  devs s !! p = Some (Some dev) ->
  test_bit RFCOMM_TTY_RELEASED (flags dev) = false ->
  test_bit RFCOMM_RELEASE_ONHUP (flags dev) = true ->
  tty (port dev) = None -> kref (port dev) <> 0 ->
  req_dev_id req = dev_id dev ->
  Z.land (req_flags req) (BIT RFCOMM_HANGUP_NOW) = 0 ->
  flags dev = NOCAP_FLAGS \/ capable = true ->
  rfcomm_release_dev (Some req) capable sync s = Done (Val 0) s.
Proof.
  intros Hok Hin Hp Hrel Honhup Htty Hk Hid Hhn Hcap.
  destruct (get_put_same s ids p dev Hok Hin Hp Hrel Hk) as (s1 & Hg & Hp1 & _ & Hput).
  unfold rfcomm_release_dev. rewrite Hid.
  rewrite (bind_Done _ _ _ _ _ Hg).
  rewrite (bind_Done _ _ _ _ _ (dev_read_Done _ _ _ Hp1)).
  replace (negb (flags (set_port (set_kref (fun n => n + 1)) dev) =? NOCAP_FLAGS)
           && negb capable) with false.
  2:{ symmetry. cbn [flags set_port]. destruct Hcap as [-> | ->].
      - rewrite Z.eqb_refl. reflexivity.
      - apply Bool.andb_false_r. }
  rewrite Hhn. cbn [Z.eqb negb].
  rewrite (bind_Done _ _ _ _ _ (eq_refl : ret tt s1 = Done tt s1)).
  rewrite (bind_Done _ _ _ _ _ (dev_read_Done _ _ _ Hp1)).
  replace (tty (port (set_port (set_kref (fun n => n + 1)) dev))) with (@None ptr)
    by (symmetry; exact Htty).
  rewrite (bind_Done _ _ _ _ _ (eq_refl : ret tt s1 = Done tt s1)).
  rewrite (bind_Done _ _ _ _ _ (dev_read_Done _ _ _ Hp1)).
  replace (test_bit RFCOMM_RELEASE_ONHUP (flags (set_port (set_kref (fun n => n + 1)) dev)))
    with true by (symmetry; exact Honhup).
  cbn [negb].
  rewrite (bind_Done _ _ _ _ _ (eq_refl : ret tt s1 = Done tt s1)).
  rewrite (bind_Done _ _ _ _ _ Hput). reflexivity.
Qed.

(** X6.  RFCOMMRELEASEDEV by a caller without the capability on a registered
    device whose flags are not exactly "reuse channel" and "release on
    hang-up" answers EPERM and changes nothing, whatever the request asks
    for: the reference taken for the look-up is dropped again. *)
Theorem X6_release_not_permitted (s : kstate) (ids : list Z) (p : ptr)
    (dev : rfcomm_dev) (req : rfcomm_dev_req) (sync : option Z) :
  registry_ok s ids -> p ∈ rfcomm_dev_list s ->
  devs s !! p = Some (Some dev) ->
  test_bit RFCOMM_TTY_RELEASED (flags dev) = false ->
  kref (port dev) <> 0 ->
  req_dev_id req = dev_id dev ->
  flags dev <> NOCAP_FLAGS ->
  rfcomm_release_dev (Some req) false sync s = Done (Err EPERM) s.
Proof.
  intros Hok Hin Hp Hrel Hk Hid Hfl.
  destruct (get_put_same s ids p dev Hok Hin Hp Hrel Hk) as (s1 & Hg & Hp1 & _ & Hput).
  unfold rfcomm_release_dev. rewrite Hid.
  rewrite (bind_Done _ _ _ _ _ Hg).
  rewrite (bind_Done _ _ _ _ _ (dev_read_Done _ _ _ Hp1)).
  cbn [flags set_port].
  replace (flags dev =? NOCAP_FLAGS) with false
    by (symmetry; apply Z.eqb_neq; exact Hfl).
  cbn [negb andb].
  rewrite (bind_Done _ _ _ _ _ Hput). reflexivity.
Qed.

End ReleaseNothing.

Lemma X5_release_onhup_closed_noop_witness :
  rfcomm_release_dev (RH := linux_rfcomm_h) (Some (Ex.req_id 0 0)) true None
    ExMore.onhup
  = Done (Val 0) ExMore.onhup.
Proof.
  apply (X5_release_onhup_closed_noop (RH := linux_rfcomm_h) ExMore.onhup [0]
           0%nat ExMore.onhup_dev (Ex.req_id 0 0) true None).
  - split; [reflexivity|].
    split; [repeat constructor | repeat constructor; simpl; lia].
  - apply list_elem_of_here.
  - reflexivity.
  - reflexivity.
  - reflexivity.
  - reflexivity.
  - vm_compute. discriminate.
  - reflexivity.
  - reflexivity.
  - right. reflexivity.
Defined.

Lemma X6_release_not_permitted_witness :
  rfcomm_release_dev (RH := linux_rfcomm_h) (Some (Ex.req_id 0 0)) false None
    Ex.three
  = Done (Err EPERM) Ex.three.
Proof.
  apply (X6_release_not_permitted (RH := linux_rfcomm_h) Ex.three [0; 1; 2]
           0%nat ExCalls.closed_dev (Ex.req_id 0 0) None).
  - split; [reflexivity|].
    split; [repeat constructor | repeat constructor; simpl; lia].
  - apply list_elem_of_here.
  - reflexivity.
  - reflexivity.
  - vm_compute. discriminate.
  - reflexivity.
  - vm_compute. discriminate.
Defined.

(** ** Open and close *)

Section OpenClose.
Context {RH : rfcomm_h} {TH : termios_h}.

(** The run of [rfcomm_tty_open] on a device that is open already. *)
Lemma rfcomm_tty_open_further_run (s : kstate) (ids : list Z) (t p : ptr)
    (ts : tty_struct) (dev : rfcomm_dev) (open_err : Z) (sig : bool)
    (env : list (M unit * bool)) (hc : bool) :
  registry_ok s ids -> ttys s !! t = Some ts ->
  p ∈ rfcomm_dev_list s -> devs s !! p = Some (Some dev) ->
  dev_id dev = tty_index ts ->
  test_bit RFCOMM_TTY_RELEASED (flags dev) = false ->
  1 <= count (port dev) ->
  rfcomm_tty_open t open_err sig env hc s
  = Done (Some (Val 0))
      (set_devs (fun l => <[p := Some (set_port (set_count (fun n => n + 1))
                                  (set_port (set_kref (fun n => n + 1)) dev))]> l) s).
Proof.
  intros Hok Ht Hin Hp Hid Hrel Hopen.
  assert (Hlen : (p < length (devs s))%nat) by (eapply lookup_lt_Some; eauto).
  pose proof (rfcomm_dev_get_found s ids p dev Hok Hin Hp Hrel) as Hget.
  rewrite Hid in Hget.
  set (devg := set_port (set_kref (fun n => n + 1)) dev) in *.
  set (sg := set_devs (fun l => <[p := Some devg]> l) s) in *.
  assert (Hpg : devs sg !! p = Some (Some devg))
    by (simpl; apply list_lookup_insert_eq; exact Hlen).
  set (devc := set_port (set_count (fun n => n + 1)) devg).
  set (sc := set_devs (fun l => <[p := Some devc]> l) sg).
  assert (Hpc : devs sc !! p = Some (Some devc)).
  { simpl. apply list_lookup_insert_eq. rewrite length_insert. exact Hlen. }
  assert (Hcc : count (port devc) = count (port dev) + 1) by reflexivity.
  unfold rfcomm_tty_open, rfcomm_tty_open_attach.
  rewrite !bind_assoc, (bind_Done _ _ _ _ _ (tty_read_Done _ _ _ Ht)).
  rewrite !bind_assoc, (bind_Done _ _ _ _ _ Hget).
  rewrite !bind_assoc, (bind_Done _ _ _ _ _ (dev_modify_Done _ _ _ _ Hpg)).
  rewrite !bind_assoc, (bind_Done _ _ _ _ _ (dev_read_Done _ _ _ Hpc)).
  destruct (Z.gtb_spec (count (port devc)) 1) as [_|]; [|lia].
  unfold bind, ret. f_equal.
  subst sc sg. unfold set_devs.
  cbn [devs rfcomm_dev_list dlcs ttys socks module_refs log].
  rewrite list_insert_insert_eq. reflexivity.
Qed.

(** The run of [rfcomm_tty_close] when another open remains. *)
Lemma rfcomm_tty_close_not_last (s : kstate) (t p : ptr) (ts : tty_struct)
    (dev : rfcomm_dev) (sync : option Z) :
  ttys s !! t = Some ts -> tty_driver_data ts = Some p ->
  devs s !! p = Some (Some dev) ->
  count (port dev) <> 1 -> kref (port dev) <> 1 ->
  rfcomm_tty_close t sync s
  = Done tt
      (set_devs (fun l => <[p := Some (set_port (set_kref (fun n => n - 1))
                                  (set_port (set_count (fun n => n - 1)) dev))]> l) s).
Proof.
  intros Ht Hdd Hp Hc Hk.
  assert (Hlen : (p < length (devs s))%nat) by (eapply lookup_lt_Some; eauto).
  unfold rfcomm_tty_close.
  rewrite (bind_Done _ _ _ _ _ (tty_read_Done _ _ _ Ht)). rewrite Hdd.
  rewrite (bind_Done _ _ _ _ _ (dev_modify_Done _ _ _ _ Hp)).
  set (devc := set_port (set_count (fun n => n - 1)) dev).
  set (sc := set_devs _ s).
  assert (Hpc : devs sc !! p = Some (Some devc)).
  { subst sc. cbn. apply list_lookup_insert_eq. exact Hlen. }
  rewrite (bind_Done _ _ _ _ _ (dev_read_Done _ _ _ Hpc)).
  replace (count (port devc) =? 0) with false.
  2:{ symmetry. apply Z.eqb_neq. subst devc. cbn. lia. }
  rewrite (bind_Done _ _ _ _ _ (eq_refl : ret tt sc = Done tt sc)).
  rewrite (tty_port_put_keeps sc p devc Hpc Hk).
  f_equal. subst sc. unfold set_devs. cbn.
  rewrite list_insert_insert_eq. reflexivity.
Qed.

(** X7.  Opening a device that is open already and closing it again gives
    the kernel state back exactly: the open answers 0 and adds one to the
    open count and one reference, and the close takes both away without
    detaching the tty or closing the channel. *)
Theorem X7_open_close_round_trip (s : kstate) (ids : list Z) (t p : ptr)
    (ts : tty_struct) (dev : rfcomm_dev) (open_err : Z) (sig : bool)
    (env : list (M unit * bool)) (hc : bool) (sync : option Z) :
  registry_ok s ids -> ttys s !! t = Some ts ->
  p ∈ rfcomm_dev_list s -> devs s !! p = Some (Some dev) ->
  dev_id dev = tty_index ts -> tty_driver_data ts = Some p ->
  test_bit RFCOMM_TTY_RELEASED (flags dev) = false ->
  1 <= count (port dev) -> kref (port dev) <> 0 ->
  exists s1 dev1,
    rfcomm_tty_open t open_err sig env hc s = Done (Some (Val 0)) s1 /\
    devs s1 !! p = Some (Some dev1) /\
    count (port dev1) = count (port dev) + 1 /\
    kref (port dev1) = kref (port dev) + 1 /\
    rfcomm_tty_close t sync s1 = Done tt s.
Proof.
  intros Hok Ht Hin Hp Hid Hdd Hrel Hopen Hk.
  assert (Hlen : (p < length (devs s))%nat) by (eapply lookup_lt_Some; eauto).
  eexists _, _. split.
  { eapply rfcomm_tty_open_further_run; eauto. }
  split. { cbn. apply list_lookup_insert_eq. exact Hlen. }
  split; [reflexivity|]. split; [reflexivity|].
  erewrite rfcomm_tty_close_not_last.
  2:{ exact Ht. }
  2:{ exact Hdd. }
  2:{ cbn. apply list_lookup_insert_eq. exact Hlen. }
  2:{ cbn. lia. }
  2:{ cbn. lia. }
  f_equal. unfold set_devs. cbn. rewrite list_insert_insert_eq.
  destruct s; cbn in *. f_equal.
  apply list_insert_id. rewrite Hp. do 2 f_equal.
  destruct dev as [[? ? ? ? ?] ? ? ? ? ? ? ? ? ? ? ?].
  unfold set_port, set_kref, set_count; cbn. do 2 f_equal; lia.
Qed.

(** X8.  A close that is not the last one (the open count is not 1, and the
    reference dropped is not the last) only takes one from the open count
    and drops one reference: the tty stays attached, the channel is not
    closed and nothing is logged. *)
Theorem X8_close_not_last (s : kstate) (t p : ptr) (ts : tty_struct)
    (dev : rfcomm_dev) (sync : option Z) :
  ttys s !! t = Some ts -> tty_driver_data ts = Some p ->
  devs s !! p = Some (Some dev) ->
  count (port dev) <> 1 -> kref (port dev) <> 1 ->
  exists s' dev',
    rfcomm_tty_close t sync s = Done tt s' /\
    devs s' = <[p := Some dev']> (devs s) /\
    count (port dev') = count (port dev) - 1 /\
    kref (port dev') = kref (port dev) - 1 /\
    tty (port dev') = tty (port dev) /\ flags dev' = flags dev /\
    rfcomm_dev_list s' = rfcomm_dev_list s /\ dlcs s' = dlcs s /\
    ttys s' = ttys s /\ log s' = log s.
Proof.
  intros Ht Hdd Hp Hc Hk. eexists _, _. split.
  { eapply rfcomm_tty_close_not_last; eauto. }
  cbn. repeat split; reflexivity.
Qed.

End OpenClose.

Lemma X7_open_close_round_trip_witness :
  exists s1 dev1,
    rfcomm_tty_open (RH := linux_rfcomm_h) 0%nat 0 false [] true Ex.one_open
    = Done (Some (Val 0)) s1 /\
    devs s1 !! 0%nat = Some (Some dev1) /\
    count (port dev1) = count (port ExCalls.open_dev) + 1 /\
    kref (port dev1) = kref (port ExCalls.open_dev) + 1 /\
    rfcomm_tty_close (RH := linux_rfcomm_h) 0%nat None s1 = Done tt Ex.one_open.
Proof.
  apply (X7_open_close_round_trip (RH := linux_rfcomm_h) Ex.one_open [0]
           0%nat 0%nat ExCalls.open_tty ExCalls.open_dev 0 false [] true None).
  - split; [reflexivity|].
    split; [repeat constructor | repeat constructor; simpl; lia].
  - reflexivity.
  - apply list_elem_of_here.
  - reflexivity.
  - reflexivity.
  - reflexivity.
  - reflexivity.
  - simpl. lia.
  - vm_compute. discriminate.
Defined.

Lemma X8_close_not_last_witness :
  exists s' dev',
    rfcomm_tty_close (RH := linux_rfcomm_h) 0%nat None ExMore.twice_open
    = Done tt s' /\
    devs s' = <[0%nat := Some dev']> (devs ExMore.twice_open) /\
    count (port dev') = count (port ExMore.twice_open_dev) - 1 /\
    kref (port dev') = kref (port ExMore.twice_open_dev) - 1 /\
    tty (port dev') = tty (port ExMore.twice_open_dev) /\
    flags dev' = flags ExMore.twice_open_dev /\
    rfcomm_dev_list s' = rfcomm_dev_list ExMore.twice_open /\
    dlcs s' = dlcs ExMore.twice_open /\
    ttys s' = ttys ExMore.twice_open /\ log s' = log ExMore.twice_open.
Proof.
  apply (X8_close_not_last (RH := linux_rfcomm_h) ExMore.twice_open 0%nat 0%nat
           ExCalls.open_tty ExMore.twice_open_dev None).
  - reflexivity.
  - reflexivity.
  - reflexivity.
  - vm_compute. discriminate.
  - vm_compute. discriminate.
Defined.

(** ** Accounting of the transmit buffers *)

Section Accounting.
Context {RH : rfcomm_h} {TH : termios_h}.

Lemma to_int_sub_add (n ts : Z) :
  - 2 ^ 31 <= n < 2 ^ 31 -> to_int (to_int (n + ts) - ts) = n.
Proof.
  intros Hn. unfold to_int.
  replace ((n + ts + 2 ^ 31) mod 2 ^ 32 - 2 ^ 31 - ts + 2 ^ 31)
    with ((n + ts + 2 ^ 31) mod 2 ^ 32 + (- ts)) by lia.
  rewrite Zplus_mod_idemp_l.
  replace (n + ts + 2 ^ 31 + - ts) with (n + 2 ^ 31) by lia.
  rewrite Z.mod_small by lia. lia.
Qed.

(** X9.  An accounted buffer that is allocated and then freed leaves the
    device as it was: the allocation, made while the bytes outstanding are
    below the room of the channel, adds the size of the buffer to the bytes
    outstanding and takes a reference; freeing the buffer gives both back,
    whatever the size. *)
Theorem X9_wmalloc_kfree_round_trip (s : kstate) (p c : ptr) (dev : rfcomm_dev)
    (d : rfcomm_dlc) (size ts : Z) :
  devs s !! p = Some (Some dev) -> dlc dev = Some c -> dlcs s !! c = Some d ->
  - 2 ^ 31 <= wmem_alloc dev < 2 ^ 31 ->
  to_uint (wmem_alloc dev) < rfcomm_room d ->
  1 <= kref (port dev) ->
  exists skb s1 dev1 s2,
    rfcomm_wmalloc p size (Some ts) s = Done (Some skb) s1 /\
    skb_sk skb = Some p /\ skb_truesize skb = ts /\
    devs s1 !! p = Some (Some dev1) /\
    wmem_alloc dev1 = to_int (wmem_alloc dev + ts) /\
    kref (port dev1) = kref (port dev) + 1 /\
    kfree_skb skb s1 = Done tt s2 /\
    devs s2 = devs s /\ dlcs s2 = dlcs s /\
    rfcomm_dev_list s2 = rfcomm_dev_list s /\ ttys s2 = ttys s /\
    socks s2 = socks s /\ module_refs s2 = module_refs s.
Proof.
  intros Hp Hc Hd Hw Hroom Hk.
  assert (Hlen : (p < length (devs s))%nat) by (eapply lookup_lt_Some; eauto).
  destruct (rfcomm_wmalloc_run s p c dev d size (Some ts) Hp Hc Hd)
    as [[_ [Hn|Hfull]]|(ts' & Hts & _ & Hrun)]; [discriminate | lia |].
  inversion Hts; subst ts'.
  set (dev1 := set_wmem_alloc (fun n => to_int (n + ts))
                 (set_port (set_kref (fun n => n + 1)) dev)) in *.
  set (s1 := set_devs _ s) in *.
  assert (Hp1 : devs s1 !! p = Some (Some dev1)).
  { subst s1. cbn. apply list_lookup_insert_eq. exact Hlen. }
  destruct (kfree_skb_accounted s1 p dev1
              {| skb_data := []; skb_truesize := ts; skb_sk := Some p |} Hp1 eq_refl)
    as (s2 & Hfree & D2 & C2 & L2 & T2 & K2 & M2).
  { subst dev1. cbn. lia. }
  eexists _, s1, dev1, s2. split; [exact Hrun|].
  split; [reflexivity|]. split; [reflexivity|]. split; [exact Hp1|].
  split; [reflexivity|]. split; [reflexivity|]. split; [exact Hfree|].
  split.
  { rewrite D2. subst s1. cbn. rewrite list_insert_insert_eq.
    apply list_insert_id. rewrite Hp. do 2 f_equal.
    subst dev1. destruct dev as [[? ? ? ? ?] ? ? ? ? ? ? ? ? ? ? ?].
    unfold set_port, set_kref, set_wmem_alloc; cbn in *.
    rewrite to_int_sub_add by exact Hw. do 2 f_equal. lia. }
  rewrite C2, L2, T2, K2, M2. subst s1. cbn. auto.
Qed.

End Accounting.

Lemma X9_wmalloc_kfree_round_trip_witness :
  exists skb s1 dev1 s2,
    rfcomm_wmalloc 0%nat 100 (Some 256) Ex.one_open = Done (Some skb) s1 /\
    skb_sk skb = Some 0%nat /\ skb_truesize skb = 256 /\
    devs s1 !! 0%nat = Some (Some dev1) /\
    wmem_alloc dev1 = to_int (wmem_alloc ExCalls.open_dev + 256) /\
    kref (port dev1) = kref (port ExCalls.open_dev) + 1 /\
    kfree_skb (RH := linux_rfcomm_h) skb s1 = Done tt s2 /\
    devs s2 = devs Ex.one_open /\ dlcs s2 = dlcs Ex.one_open /\
    rfcomm_dev_list s2 = rfcomm_dev_list Ex.one_open /\
    ttys s2 = ttys Ex.one_open /\
    socks s2 = socks Ex.one_open /\ module_refs s2 = module_refs Ex.one_open.
Proof.
  apply (X9_wmalloc_kfree_round_trip (RH := linux_rfcomm_h) Ex.one_open
           0%nat 1%nat ExCalls.open_dev ExCalls.open_dlc 100 256).
  - reflexivity.
  - reflexivity.
  - reflexivity.
  - vm_compute. split; [discriminate | reflexivity].
  - vm_compute. reflexivity.
  - vm_compute. discriminate.
Defined.

(** ** Flushing the transmit queue *)

Section Flush.
Context {RH : rfcomm_h} {TH : termios_h}.

(** X10.  [rfcomm_tty_flush_buffer] empties the transmit queue of the
    channel: where [rfcomm_tty_chars_in_buffer] answered the MTU for a queue
    that is not empty, it answers 0 after the flush.  The buffers of the
    queue are accounted to the device, which gives up one reference for each;
    the registry and the ttys are untouched. *)
Theorem X10_flush_empties_queue (s : kstate) (t p c : ptr)
    (ts : tty_struct) (dev : rfcomm_dev) (d : rfcomm_dlc) :
  ttys s !! t = Some ts -> tty_driver_data ts = Some p ->
  devs s !! p = Some (Some dev) -> dlc dev = Some c -> dlcs s !! c = Some d ->
  Forall (fun k => skb_sk k = Some p) (dlc_tx_queue d) ->
  Z.of_nat (length (dlc_tx_queue d)) < kref (port dev) ->
  rfcomm_tty_chars_in_buffer t s
  = Done (if bool_decide (dlc_tx_queue d = []) then 0 else to_int (dlc_mtu d)) s /\
  exists s' dev' d',
    rfcomm_tty_flush_buffer t s = Done tt s' /\
    devs s' !! p = Some (Some dev') /\ dlcs s' !! c = Some d' /\
    dlc_tx_queue d' = [] /\
    kref (port dev') = kref (port dev) - Z.of_nat (length (dlc_tx_queue d)) /\
    rfcomm_dev_list s' = rfcomm_dev_list s /\ ttys s' = ttys s /\
    rfcomm_tty_chars_in_buffer t s' = Done 0 s'.
Proof.
  intros Ht Hdd Hp Hc Hd Hq Hk.
  assert (Hlen : (p < length (devs s))%nat) by (eapply lookup_lt_Some; eauto).
  assert (Hclen : (c < length (dlcs s))%nat) by (eapply lookup_lt_Some; eauto).
  split.
  { unfold rfcomm_tty_chars_in_buffer.
    rewrite (bind_Done _ _ _ _ _ (tty_read_Done _ _ _ Ht)). rewrite Hdd.
    rewrite (bind_Done _ _ _ _ _ (dev_read_Done _ _ _ Hp)). rewrite Hc.
    rewrite (bind_Done _ _ _ _ _ (dlc_read_Done _ _ _ Hd)).
    destruct (bool_decide (dlc_tx_queue d = [])); reflexivity. }
  destruct (rfcomm_tty_flush_buffer_owned s t p c ts dev d Ht Hdd Hp Hc Hd Hq Hk)
    as (s' & dev' & Hrun & (D & C & L & T) & Hsame & Hkref).
  assert (Hp' : devs s' !! p = Some (Some dev')).
  { rewrite D. apply list_lookup_insert_eq. exact Hlen. }
  assert (Hd' : dlcs s' !! c = Some (set_dlc_tx_queue (fun _ => []) d)).
  { rewrite C. apply list_lookup_insert_eq. exact Hclen. }
  assert (Hc' : dlc dev' = Some c).
  { rewrite <- Hc. unfold same_but_refs in Hsame.
    apply (f_equal dlc) in Hsame. exact Hsame. }
  exists s', dev', (set_dlc_tx_queue (fun _ => []) d).
  split; [exact Hrun|]. split; [exact Hp'|]. split; [exact Hd'|].
  split; [reflexivity|]. split; [exact Hkref|]. split; [exact L|].
  split; [exact T|].
  unfold rfcomm_tty_chars_in_buffer. rewrite <- T in Ht.
  rewrite (bind_Done _ _ _ _ _ (tty_read_Done _ _ _ Ht)). rewrite Hdd.
  rewrite (bind_Done _ _ _ _ _ (dev_read_Done _ _ _ Hp')). rewrite Hc'.
  rewrite (bind_Done _ _ _ _ _ (dlc_read_Done _ _ _ Hd')). reflexivity.
Qed.

End Flush.

Lemma X10_flush_empties_queue_witness :
  rfcomm_tty_chars_in_buffer 0%nat ExMore.written = Done 127 ExMore.written /\
  exists s' dev' d',
    rfcomm_tty_flush_buffer (RH := linux_rfcomm_h) 0%nat ExMore.written
    = Done tt s' /\
    devs s' !! 0%nat = Some (Some dev') /\ dlcs s' !! 1%nat = Some d' /\
    dlc_tx_queue d' = [] /\
    kref (port dev') = kref (port ExMore.written_dev) - 2 /\
    rfcomm_dev_list s' = rfcomm_dev_list ExMore.written /\
    ttys s' = ttys ExMore.written /\
    rfcomm_tty_chars_in_buffer 0%nat s' = Done 0 s'.
Proof.
  apply (X10_flush_empties_queue (RH := linux_rfcomm_h) ExMore.written
           0%nat 0%nat 1%nat ExCalls.open_tty ExMore.written_dev ExMore.written_dlc).
  - reflexivity.
  - reflexivity.
  - reflexivity.
  - reflexivity.
  - reflexivity.
  - repeat constructor.
  - vm_compute. reflexivity.
Defined.

(** ** Inbound data with nothing pending *)

Section Direct.
Context {RH : rfcomm_h} {TH : termios_h}.

(** One chunk that arrives while nothing is pending. *)
Lemma rfcomm_dev_data_ready_direct (s : kstate) (c p : ptr) (d : rfcomm_dlc)
    (dev : rfcomm_dev) (skb : sk_buff) :
  dlcs s !! c = Some d -> dlc_owner_of d = OwnerDev p ->
  devs s !! p = Some (Some dev) -> pending dev = [] -> inbound skb ->
  rfcomm_dev_data_ready c skb s
  = Done tt
      {| devs := <[p := Some (set_port (set_flip_pushes S)
                            (set_port (set_flip_buf (fun b => b ++ [skb_data skb])) dev))]>
                   (devs s);
         rfcomm_dev_list := rfcomm_dev_list s; dlcs := dlcs s; ttys := ttys s;
         socks := socks s; module_refs := module_refs s;
         log := log s ++ [EvKfreeSkb skb] |}.
Proof.
  intros Hc Ho Hp Hpe Hin. unfold rfcomm_dev_data_ready.
  assert (Hlen : (p < length (devs s))%nat) by (eapply lookup_lt_Some; eauto).
  assert (Hown : dlc_owner_dev c s = Done (Some p) s).
  { unfold dlc_owner_dev. rewrite (bind_Done _ _ _ _ _ (dlc_read_Done _ _ _ Hc)).
    rewrite Ho. reflexivity. }
  rewrite (bind_Done _ _ _ _ _ Hown).
  rewrite (bind_Done _ _ _ _ _ (dev_read_Done _ _ _ Hp)).
  rewrite bool_decide_eq_true_2 by exact Hpe. cbn [negb].
  unfold tty_insert_flip_string, tty_flip_buffer_push.
  rewrite !bind_assoc, (bind_Done _ _ _ _ _ (dev_modify_Done _ _ _ _ Hp)).
  unfold ret at 1. unfold bind at 1.
  set (s1 := set_devs _ s).
  assert (Hp1 : devs s1 !! p
                = Some (Some (set_port (set_flip_buf (fun b => b ++ [skb_data skb])) dev))).
  { subst s1. cbn. apply list_lookup_insert_eq. exact Hlen. }
  rewrite (bind_Done _ _ _ _ _ (dev_modify_Done _ _ _ _ Hp1)).
  rewrite kfree_skb_inbound by exact Hin.
  f_equal. subst s1. cbn. rewrite list_insert_insert_eq. reflexivity.
Qed.

(** X11.  While the pending queue of a device is empty, every inbound chunk
    the channel delivers goes straight to the read buffer of the port, in
    the order of arrival, with one push for each, and is freed; the pending
    queue stays empty and nothing else changes. *)
Theorem X11_data_ready_direct (c p : ptr) (d : rfcomm_dlc) (cs : list sk_buff) :
  forall (s : kstate) (dev : rfcomm_dev),
    dlcs s !! c = Some d -> dlc_owner_of d = OwnerDev p ->
    devs s !! p = Some (Some dev) -> pending dev = [] ->
    Forall inbound cs ->
    exists s' dev',
      data_ready_all c cs s = Done tt s' /\
      devs s' = <[p := Some dev']> (devs s) /\
      pending dev' = [] /\
      flip_buf (port dev') = flip_buf (port dev) ++ map skb_data cs /\
      flip_pushes (port dev') = (length cs + flip_pushes (port dev))%nat /\
      kref (port dev') = kref (port dev) /\
      log s' = log s ++ map EvKfreeSkb cs /\
      rfcomm_dev_list s' = rfcomm_dev_list s /\ dlcs s' = dlcs s /\
      ttys s' = ttys s.
Proof.
  induction cs as [|skb cs IH]; intros s dev Hc Ho Hp Hpe Hin.
  - exists s, dev. cbn. rewrite !app_nil_r.
    split; [reflexivity|]. split; [symmetry; apply list_insert_id; exact Hp|].
    auto 10.
  - inversion Hin as [|? ? Hskb Hcs]; subst.
    assert (Hlen : (p < length (devs s))%nat) by (eapply lookup_lt_Some; eauto).
    cbn [data_ready_all].
    rewrite (bind_Done _ _ _ _ _
               (rfcomm_dev_data_ready_direct s c p d dev skb Hc Ho Hp Hpe Hskb)).
    set (dev1 := set_port (set_flip_pushes S)
                   (set_port (set_flip_buf (fun b => b ++ [skb_data skb])) dev)).
    set (s1 := {| devs := _; rfcomm_dev_list := _ |}).
    destruct (IH s1 dev1) as (s' & dev' & Hrun & D & P & F & N & K & Lg & L & C & T).
    { exact Hc. }
    { exact Ho. }
    { subst s1. cbn. apply list_lookup_insert_eq. exact Hlen. }
    { exact Hpe. }
    { exact Hcs. }
    exists s', dev'. split; [exact Hrun|].
    split. { rewrite D. subst s1. cbn. apply list_insert_insert_eq. }
    split; [exact P|].
    split. { rewrite F. subst dev1. cbn. rewrite <- app_assoc. reflexivity. }
    split. { rewrite N. subst dev1. cbn. lia. }
    split; [exact K|].
    split. { rewrite Lg. subst s1. cbn. rewrite <- app_assoc. reflexivity. }
    rewrite L, C, T. auto.
Qed.

End Direct.

Lemma X11_data_ready_direct_witness :
  exists s' dev',
    data_ready_all (RH := linux_rfcomm_h) 1%nat [Ex.chunk_A; Ex.chunk_B] Ex.one_open
    = Done tt s' /\
    devs s' = <[0%nat := Some dev']> (devs Ex.one_open) /\
    pending dev' = [] /\
    flip_buf (port dev')
    = flip_buf (port ExCalls.open_dev) ++ map skb_data [Ex.chunk_A; Ex.chunk_B] /\
    flip_pushes (port dev') = (2 + flip_pushes (port ExCalls.open_dev))%nat /\
    kref (port dev') = kref (port ExCalls.open_dev) /\
    log s' = log Ex.one_open ++ map EvKfreeSkb [Ex.chunk_A; Ex.chunk_B] /\
    rfcomm_dev_list s' = rfcomm_dev_list Ex.one_open /\
    dlcs s' = dlcs Ex.one_open /\ ttys s' = ttys Ex.one_open.
Proof.
  apply (X11_data_ready_direct (RH := linux_rfcomm_h) 1%nat 0%nat ExCalls.open_dlc
           [Ex.chunk_A; Ex.chunk_B] Ex.one_open ExCalls.open_dev).
  - reflexivity.
  - reflexivity.
  - reflexivity.
  - reflexivity.
  - repeat constructor.
Defined.

(** ** The channel of a device closes *)

Section ChannelCloses.
Context {RH : rfcomm_h} {TH : termios_h}.

(** X12.  When the channel of a registered "release on hang-up" device
    closes while the device has no tty and no other reference, the
    state-change callback destroys the device: the record is freed and
    taken off the registry, and the registry stays well formed without its
    id.  The ttys are untouched. *)
Theorem X12_state_change_removes (s : kstate) (ids : list Z) (c p : ptr)
    (d : rfcomm_dlc) (dev : rfcomm_dev) (e : Z) :
  registry_ok s ids -> p ∈ rfcomm_dev_list s ->
  dlcs s !! c = Some d -> dlc_owner_of d = OwnerDev p ->
  dlc_state d = BT_CLOSED ->
  devs s !! p = Some (Some dev) -> dlc dev = Some c ->
  test_bit RFCOMM_TTY_RELEASED (flags dev) = false ->
  test_bit RFCOMM_RELEASE_ONHUP (flags dev) = true ->
  tty (port dev) = None -> count (port dev) = 0 -> kref (port dev) = 1 ->
  exists s' ids',
    rfcomm_dev_state_change c e s = Done tt s' /\
    devs s' = <[p := None]> (devs s) /\
    rfcomm_dev_list s' = filter (fun q => q <> p) (rfcomm_dev_list s) /\
    ttys s' = ttys s /\
    registry_ok s' ids' /\ (dev_id dev ∉ ids').
Proof.
  intros Hok Hin Hc Ho Hst Hp Hdl Hrel Honhup Htty Hcnt Hk.
  assert (Hlen : (p < length (devs s))%nat) by (eapply lookup_lt_Some; eauto).
  assert (Hown : dlc_owner_dev c s = Done (Some p) s).
  { unfold dlc_owner_dev. rewrite (bind_Done _ _ _ _ _ (dlc_read_Done _ _ _ Hc)).
    rewrite Ho. reflexivity. }
  set (dev1 := set_err e dev).
  set (s1 := {| devs := <[p := Some dev1]> (devs s);
                rfcomm_dev_list := rfcomm_dev_list s; dlcs := dlcs s;
                ttys := ttys s; socks := socks s; module_refs := module_refs s;
                log := log s ++ [EvWakeUpWait p] |}).
  assert (Hp1 : devs s1 !! p = Some (Some dev1)).
  { subst s1. cbn. apply list_lookup_insert_eq. exact Hlen. }
  assert (Hok1 : registry_ok s1 ids).
  { apply (registry_ok_set_dev s s1 ids p dev dev1 Hok Hp); reflexivity. }
  assert (Hc1 : dlcs s1 !! c = Some d) by exact Hc.
  unfold rfcomm_dev_state_change.
  rewrite (bind_Done _ _ _ _ _ Hown).
  rewrite (bind_Done _ _ _ _ _ (dev_modify_Done _ _ _ _ Hp)).
  unfold emit at 1. unfold bind at 1. cbn [devs rfcomm_dev_list dlcs ttys socks
    module_refs log set_devs]. fold dev1. fold s1.
  rewrite (bind_Done _ _ _ _ _ (dlc_read_Done _ _ _ Hc1)). rewrite Hst.
  rewrite (bind_Done _ _ _ _ _ (dev_read_Done _ _ _ Hp1)).
  replace (tty (port dev1)) with (@None ptr) by (symmetry; exact Htty).
  replace (test_bit RFCOMM_RELEASE_ONHUP (flags dev1)) with true
    by (symmetry; exact Honhup).
  rewrite (bind_Done _ _ _ _ _
             (rfcomm_dev_get_found s1 ids p dev1 Hok1 Hin Hp1 Hrel)).
  set (dev2 := set_port (set_kref (fun n => n + 1)) dev1).
  set (s2 := set_devs _ s1).
  assert (Hp2 : devs s2 !! p = Some (Some dev2)).
  { subst s2. cbn. apply list_lookup_insert_eq. rewrite length_insert. exact Hlen. }
  destruct (rfcomm_dev_del_closed s2 p dev2 Hp2 Hrel) as (s3 & Hdel & D3 & L3 & C3 & T3).
  { subst dev2 dev1. cbn. lia. }
  { subst dev2 dev1. cbn. lia. }
  rewrite (bind_Done _ _ _ _ _ Hdel).
  assert (Hp3 : devs s3 !! p
                = Some (Some (set_port (set_kref (fun n => n - 1))
                                (set_flags (set_bit RFCOMM_TTY_RELEASED) dev2)))).
  { rewrite D3. apply list_lookup_insert_eq. subst s2. cbn.
    rewrite !length_insert. exact Hlen. }
  destruct (tty_port_put_last s3 p c _ d Hp3) as (s4 & Hput & D4 & L4 & T4).
  { subst dev2 dev1. cbn. lia. }
  { exact Hdl. }
  { rewrite L3. intros H. apply list_elem_of_filter in H. destruct H as [H _].
    apply H. reflexivity. }
  { rewrite C3. exact Hc. }
  assert (D : devs s4 = <[p := None]> (devs s)).
  { rewrite D4, D3. subst s2 s1. cbn. rewrite !list_insert_insert_eq. reflexivity. }
  assert (L : rfcomm_dev_list s4 = filter (fun q => q <> p) (rfcomm_dev_list s)).
  { rewrite L4, L3. reflexivity. }
  destruct (registry_ok_removed s s4 ids p dev Hok Hin Hp D L) as (ids' & Hok' & Hout).
  exists s4, ids'. split; [exact Hput|]. split; [exact D|]. split; [exact L|].
  split. { rewrite T4, T3. reflexivity. }
  split; assumption.
Qed.

End ChannelCloses.

Lemma X12_state_change_removes_witness :
  exists s' ids',
    rfcomm_dev_state_change (RH := linux_rfcomm_h) 1%nat 0 ExMore.onhup_closed
    = Done tt s' /\
    devs s' = <[0%nat := None]> (devs ExMore.onhup_closed) /\
    rfcomm_dev_list s'
    = filter (fun q => q <> 0%nat) (rfcomm_dev_list ExMore.onhup_closed) /\
    ttys s' = ttys ExMore.onhup_closed /\
    registry_ok (H := linux_rfcomm_h) s' ids' /\
    (dev_id ExMore.onhup_dev ∉ ids').
Proof.
  apply (X12_state_change_removes (RH := linux_rfcomm_h) ExMore.onhup_closed [0]
           1%nat 0%nat ExMore.onhup_closed_dlc ExMore.onhup_dev 0).
  - split; [reflexivity|].
    split; [repeat constructor | repeat constructor; simpl; lia].
  - apply list_elem_of_here.
  - reflexivity.
  - reflexivity.
  - reflexivity.
  - reflexivity.
  - reflexivity.
  - reflexivity.
  - reflexivity.
  - reflexivity.
  - reflexivity.
  - reflexivity.
Defined.

(** ** What holds after any sequence of calls *)

Section Reachable.
Context {RH : rfcomm_h} {TH : termios_h}.

(** X13.  After any sequence of calls from the state the driver starts in,
    the registry is well formed: every entry is a live record, the ids are
    in strictly ascending order and in [0, RFCOMM_MAX_DEV), and no two
    registered devices have the same id. *)
Theorem X13_reachable_registry (baud : ktermios -> Z) (lmax : Z)
    (s s' : kstate) (cs : list call) :
  initial s -> calls_ok cs ->
  run_calls baud lmax cs s = Done tt s' ->
  (exists ids, registry_ok s' ids) /\
  (forall p q dp dq,
     p ∈ rfcomm_dev_list s' -> q ∈ rfcomm_dev_list s' ->
     devs s' !! p = Some (Some dp) -> devs s' !! q = Some (Some dq) ->
     dev_id dp = dev_id dq -> p = q).
Proof.
  intros Hinit Hok Hrun.
  pose proof (run_calls_safe baud lmax cs Hok s (inv_initial s Hinit)) as Hsafe.
  pose proof (safe_inv _ _ _ _ _ Hsafe Hrun) as Hinv. cbv beta in Hinv.
  destruct Hinv as ((ids & Hreg) & _).
  split; [exists ids; exact Hreg|].
  intros p q dp dq Hp Hq Hdp Hdq Hid.
  eapply (registry_unique s' ids p q); eauto.
Qed.

(** X14.  After any sequence of calls from the state the driver starts in,
    the reference count of every registered device covers the reference of
    the registry, one reference for each open and one for each of its
    buffers on a transmit queue; its open count is not negative, and what
    is pending for it are inbound chunks. *)
Theorem X14_reachable_references (baud : ktermios -> Z) (lmax : Z)
    (s s' : kstate) (cs : list call) (p : ptr) (dev : rfcomm_dev) :
  initial s -> calls_ok cs ->
  run_calls baud lmax cs s = Done tt s' ->
  p ∈ rfcomm_dev_list s' -> devs s' !! p = Some (Some dev) ->
  0 <= count (port dev) /\
  1 + count (port dev) + tx_refs s' p <= kref (port dev) /\
  Forall inbound (pending dev).
Proof.
  intros Hinit Hok Hrun Hin Hp.
  pose proof (run_calls_safe baud lmax cs Hok s (inv_initial s Hinit)) as Hsafe.
  pose proof (safe_inv _ _ _ _ _ Hsafe Hrun) as Hinv. cbv beta in Hinv.
  destruct Hinv as (_ & _ & Hdev & _).
  destruct (Hdev p dev Hp) as (Hpend & Hrefs).
  destruct (Hrefs Hin) as (Hk & Hc). unfold no_refs in Hk.
  split; [exact Hc|]. split; [lia | exact Hpend].
Qed.

(** X15.  After any sequence of calls from the state the driver starts in,
    a tty that is attached to a registered device finds it open, and no two
    ttys are attached to the same registered device. *)
Theorem X15_reachable_attachment (baud : ktermios -> Z) (lmax : Z)
    (s s' : kstate) (cs : list call) (t : ptr) (ts : tty_struct) (p : ptr)
    (dev : rfcomm_dev) :
  initial s -> calls_ok cs ->
  run_calls baud lmax cs s = Done tt s' ->
  ttys s' !! t = Some ts -> tty_driver_data ts = Some p ->
  p ∈ rfcomm_dev_list s' -> devs s' !! p = Some (Some dev) ->
  1 <= count (port dev) /\
  (forall t2 ts2, ttys s' !! t2 = Some ts2 -> tty_driver_data ts2 = Some p ->
                  t2 = t).
Proof.
  intros Hinit Hok Hrun Ht Hdd Hin Hp.
  pose proof (run_calls_safe baud lmax cs Hok s (inv_initial s Hinit)) as Hsafe.
  pose proof (safe_inv _ _ _ _ _ Hsafe Hrun) as Hinv. cbv beta in Hinv.
  destruct Hinv as (_ & _ & _ & Hopen & Hone & _).
  split.
  - destruct (Hopen t ts p dev Ht Hdd Hin Hp) as [H|H]; [exact H | discriminate].
  - intros t2 ts2 Ht2 Hdd2. eapply (Hone t2 t); eauto.
Qed.

End Reachable.

Lemma X13_reachable_registry_witness :
  (exists ids, registry_ok (H := linux_rfcomm_h) Ex.one_open ids) /\
  (forall p q dp dq,
     p ∈ rfcomm_dev_list Ex.one_open -> q ∈ rfcomm_dev_list Ex.one_open ->
     devs Ex.one_open !! p = Some (Some dp) ->
     devs Ex.one_open !! q = Some (Some dq) ->
     dev_id dp = dev_id dq -> p = q).
Proof.
  apply (X13_reachable_registry (RH := linux_rfcomm_h) (TH := linux_termios_h)
           Ex.baud_rate 128 Ex.boot Ex.one_open ExCalls.setup).
  - repeat split; repeat constructor.
  - repeat split.
  - vm_compute. reflexivity.
Defined.

Lemma X14_reachable_references_witness :
  0 <= count (port ExCalls.open_dev) /\
  1 + count (port ExCalls.open_dev) + tx_refs Ex.one_open 0%nat
  <= kref (port ExCalls.open_dev) /\
  Forall inbound (pending ExCalls.open_dev).
Proof.
  apply (X14_reachable_references (RH := linux_rfcomm_h) (TH := linux_termios_h)
           Ex.baud_rate 128 Ex.boot Ex.one_open ExCalls.setup 0%nat
           ExCalls.open_dev).
  - repeat split; repeat constructor.
  - repeat split.
  - vm_compute. reflexivity.
  - apply list_elem_of_here.
  - reflexivity.
Defined.

Lemma X15_reachable_attachment_witness :
  1 <= count (port ExCalls.open_dev) /\
  (forall t2 ts2, ttys Ex.one_open !! t2 = Some ts2 ->
                  tty_driver_data ts2 = Some 0%nat -> t2 = 0%nat).
Proof.
  apply (X15_reachable_attachment (RH := linux_rfcomm_h) (TH := linux_termios_h)
           Ex.baud_rate 128 Ex.boot Ex.one_open ExCalls.setup 0%nat
           ExCalls.open_tty 0%nat ExCalls.open_dev).
  - repeat split; repeat constructor.
  - repeat split.
  - vm_compute. reflexivity.
  - reflexivity.
  - reflexivity.
  - apply list_elem_of_here.
  - reflexivity.
Defined.

(** ** Modem control lines *)

Lemma u8_bits (x i : Z) :
  0 <= i -> Z.testbit (to_u8 x) i = (i <? 8) && Z.testbit x i.
Proof.
  intros Hi. unfold to_u8.
  destruct (Z.ltb_spec i 8).
  - rewrite Z.mod_pow2_bits_low by lia. reflexivity.
  - rewrite Z.mod_pow2_bits_high by lia. reflexivity.
Qed.

Lemma pow2_bits (k i : Z) : 0 <= k -> Z.testbit (2 ^ k) i = (i =? k).
Proof.
  intros Hk. rewrite Z.pow2_bits_eqb by exact Hk. apply Z.eqb_sym.
Qed.

Section ModemLines.
Local Existing Instance linux_rfcomm_h.
Local Existing Instance linux_termios_h.

(** X16.  With the constants of Linux, the signals [rfcomm_tty_tiocmset]
    sends are, bit by bit, those the channel had, with the signals named by
    [set] raised and then the signals named by [clear] lowered, in eight
    bits: a signal named in both ends up lowered, and a signal named in
    neither keeps its value. *)
Theorem X16_tiocmset_signals (set clear v24_sig i : Z) :
  0 <= i ->
  Z.testbit (tiocmset_v24_sig set clear v24_sig) i
  = (i <? 8) && ((Z.testbit v24_sig i || Z.testbit (tiocm_v24 set) i)
                 && negb (Z.testbit (tiocm_v24 clear) i)).
Proof.
  intros Hi. unfold tiocmset_v24_sig, tiocm_v24.
  cbn [RFCOMM_V24_RTC RFCOMM_V24_RTR RFCOMM_V24_IC RFCOMM_V24_DV linux_rfcomm_h].
  generalize (negb (Z.land set TIOCM_DSR =? 0) || negb (Z.land set TIOCM_DTR =? 0)).
  generalize (negb (Z.land set TIOCM_RTS =? 0) || negb (Z.land set TIOCM_CTS =? 0)).
  generalize (negb (Z.land set TIOCM_RI =? 0)).
  generalize (negb (Z.land set TIOCM_CD =? 0)).
  generalize (negb (Z.land clear TIOCM_DSR =? 0) || negb (Z.land clear TIOCM_DTR =? 0)).
  generalize (negb (Z.land clear TIOCM_RTS =? 0) || negb (Z.land clear TIOCM_CTS =? 0)).
  generalize (negb (Z.land clear TIOCM_RI =? 0)).
  generalize (negb (Z.land clear TIOCM_CD =? 0)).
  intros c4 c3 c2 c1 s4 s3 s2 s1.
  assert (T4 : Z.testbit 4 i = (i =? 2)) by (apply (pow2_bits 2); lia).
  assert (T8 : Z.testbit 8 i = (i =? 3)) by (apply (pow2_bits 3); lia).
  assert (T64 : Z.testbit 64 i = (i =? 6)) by (apply (pow2_bits 6); lia).
  assert (T128 : Z.testbit 128 i = (i =? 7)) by (apply (pow2_bits 7); lia).
  destruct s1, s2, s3, s4, c1, c2, c3, c4; cbv beta iota zeta;
    repeat first [ rewrite u8_bits by exact Hi | rewrite Z.land_spec
                 | rewrite Z.lor_spec | rewrite Z.lnot_spec by exact Hi
                 | rewrite T4 | rewrite T8 | rewrite T64 | rewrite T128
                 | rewrite Z.bits_0 ];
    destruct (i <? 8), (Z.testbit v24_sig i), (i =? 2), (i =? 3), (i =? 6), (i =? 7);
    reflexivity.
Qed.

Lemma land_pow2 (v k : Z) :
  0 <= k -> Z.land v (2 ^ k) = if Z.testbit v k then 2 ^ k else 0.
Proof.
  intros Hk. apply Z.bits_inj'. intros i Hi.
  rewrite Z.land_spec, pow2_bits by exact Hk.
  destruct (Z.eqb_spec i k) as [->|Hne].
  - destruct (Z.testbit v k); [rewrite pow2_bits by exact Hk|rewrite Z.bits_0].
    + rewrite Z.eqb_refl. reflexivity.
    + reflexivity.
  - rewrite Bool.andb_false_r.
    destruct (Z.testbit v k); [rewrite pow2_bits by exact Hk|rewrite Z.bits_0].
    + symmetry. apply Z.eqb_neq. exact Hne.
    + reflexivity.
Qed.

(** X17.  With the constants of Linux, the two conversions of the file are
    inverse on the four signals: the modem lines that
    [rfcomm_dev_modem_status] reports for V.24 signals name, by the tests of
    [rfcomm_tty_tiocmset], exactly the RTC, RTR, IC and DV bits of those
    signals. *)
Theorem X17_modem_lines_round_trip (v24_sig : Z) :
  tiocm_v24 (v24_to_tiocm v24_sig) = Z.land v24_sig 0xCC.
Proof.
  change 0xCC with (Z.lor (Z.lor (Z.lor (2 ^ 2) (2 ^ 3)) (2 ^ 6)) (2 ^ 7)).
  rewrite !Z.land_lor_distr_r.
  unfold tiocm_v24, v24_to_tiocm.
  cbn [RFCOMM_V24_RTC RFCOMM_V24_RTR RFCOMM_V24_IC RFCOMM_V24_DV linux_rfcomm_h].
  change 4 with (2 ^ 2). change 8 with (2 ^ 3).
  change 64 with (2 ^ 6). change 128 with (2 ^ 7).
  rewrite !land_pow2 by lia.
  destruct (Z.testbit v24_sig 2), (Z.testbit v24_sig 3),
           (Z.testbit v24_sig 6), (Z.testbit v24_sig 7); vm_compute; reflexivity.
Qed.

End ModemLines.

Lemma X16_tiocmset_signals_witness :
  Z.testbit (tiocmset_v24_sig (RH := linux_rfcomm_h) (TH := linux_termios_h)
               0x002 0x040 0x80) 7
  = (7 <? 8) && ((Z.testbit 0x80 7
                  || Z.testbit (tiocm_v24 (RH := linux_rfcomm_h)
                                  (TH := linux_termios_h) 0x002) 7)
                 && negb (Z.testbit (tiocm_v24 (RH := linux_rfcomm_h)
                                       (TH := linux_termios_h) 0x040) 7)).
Proof. apply (X16_tiocmset_signals 0x002 0x040 0x80 7). lia. Defined.

Section ModemStatus.
Context {RH : rfcomm_h} {TH : termios_h}.

(** X18.  When the channel reports V.24 signals for a device that has a tty,
    the callback stores the modem lines they stand for, which
    [rfcomm_tty_tiocmget] then answers; and it asks for a hang-up of the tty
    exactly when the carrier was up before, the new signals have no DV, and
    the tty is not CLOCAL.  Nothing else changes. *)
Theorem X18_modem_status_attached (s : kstate) (c p t : ptr) (d : rfcomm_dlc)
    (dev : rfcomm_dev) (ts : tty_struct) (v : Z) :
  dlcs s !! c = Some d -> dlc_owner_of d = OwnerDev p ->
  devs s !! p = Some (Some dev) -> tty (port dev) = Some t ->
  ttys s !! t = Some ts -> tty_driver_data ts = Some p ->
  exists s',
    rfcomm_dev_modem_status c v s = Done tt s' /\
    devs s' = <[p := Some (set_modem_status (v24_to_tiocm v) dev)]> (devs s) /\
    log s' = log s ++
             (if negb (Z.land (modem_status dev) TIOCM_CD =? 0)
                 && (Z.land v RFCOMM_V24_DV =? 0) && negb (C_CLOCAL ts)
              then [EvTtyHangup t] else []) /\
    rfcomm_dev_list s' = rfcomm_dev_list s /\ dlcs s' = dlcs s /\
    ttys s' = ttys s /\
    rfcomm_tty_tiocmget t s' = Done (v24_to_tiocm v) s'.
Proof.
  intros Hc Ho Hp Htty Ht Hdd.
  assert (Hlen : (p < length (devs s))%nat) by (eapply lookup_lt_Some; eauto).
  assert (Hown : dlc_owner_dev c s = Done (Some p) s).
  { unfold dlc_owner_dev. rewrite (bind_Done _ _ _ _ _ (dlc_read_Done _ _ _ Hc)).
    rewrite Ho. reflexivity. }
  unfold rfcomm_dev_modem_status.
  rewrite (bind_Done _ _ _ _ _ Hown).
  rewrite (bind_Done _ _ _ _ _ (dev_read_Done _ _ _ Hp)).
  rewrite Htty.
  set (cond := negb (Z.land (modem_status dev) TIOCM_CD =? 0)
               && (Z.land v RFCOMM_V24_DV =? 0)).
  assert (Hev : exists s1,
    (if cond then let* ts0 := tty_read t in
                  if negb (C_CLOCAL ts0) then emit (EvTtyHangup t) else ret tt
     else ret tt) s = Done tt s1 /\
    devs s1 = devs s /\ rfcomm_dev_list s1 = rfcomm_dev_list s /\
    dlcs s1 = dlcs s /\ ttys s1 = ttys s /\
    log s1 = log s ++ (if cond && negb (C_CLOCAL ts) then [EvTtyHangup t] else [])).
  { destruct cond; cbn [andb].
    - rewrite (bind_Done _ _ _ _ _ (tty_read_Done _ _ _ Ht)).
      destruct (negb (C_CLOCAL ts)).
      + eexists. split; [reflexivity|]. cbn. auto.
      + exists s. rewrite app_nil_r. auto 10.
    - exists s. rewrite app_nil_r. auto 10. }
  destruct Hev as (s1 & Hrun & D1 & L1 & C1 & T1 & G1).
  rewrite (bind_Done _ _ _ _ _ Hrun).
  rewrite <- D1 in Hp.
  rewrite (dev_modify_Done _ _ _ _ Hp).
  eexists. split; [reflexivity|]. cbn.
  rewrite D1, L1, C1, T1, G1.
  split; [reflexivity|]. split; [reflexivity|]. split; [reflexivity|].
  split; [reflexivity|]. split; [reflexivity|].
  unfold rfcomm_tty_tiocmget.
  assert (Ht' : ttys (set_devs (fun h => <[p := Some (set_modem_status (v24_to_tiocm v) dev)]> h) s1) !! t
                = Some ts) by (cbn; rewrite T1; exact Ht).
  rewrite (bind_Done _ _ _ _ _ (tty_read_Done _ _ _ Ht')). rewrite Hdd.
  rewrite (bind_Done _ _ _ _ _ (eq_refl : deref (Some p) _ = Done p _)).
  erewrite bind_Done.
  2:{ apply dev_read_Done. cbn. rewrite D1. apply list_lookup_insert_eq. exact Hlen. }
  reflexivity.
Qed.

End ModemStatus.

Lemma X18_modem_status_attached_witness :
  exists s',
    rfcomm_dev_modem_status (RH := linux_rfcomm_h) (TH := linux_termios_h)
      1%nat 0x8C Ex.one_open = Done tt s' /\
    devs s'
    = <[0%nat := Some (set_modem_status
                         (v24_to_tiocm (RH := linux_rfcomm_h)
                            (TH := linux_termios_h) 0x8C) ExCalls.open_dev)]>
        (devs Ex.one_open) /\
    log s' = log Ex.one_open ++
             (if negb (Z.land (modem_status ExCalls.open_dev)
                         (TIOCM_CD (termios_h := linux_termios_h)) =? 0)
                 && (Z.land 0x8C (RFCOMM_V24_DV (rfcomm_h := linux_rfcomm_h)) =? 0)
                 && negb (C_CLOCAL (TH := linux_termios_h) ExCalls.open_tty)
              then [EvTtyHangup 0%nat] else []) /\
    rfcomm_dev_list s' = rfcomm_dev_list Ex.one_open /\
    dlcs s' = dlcs Ex.one_open /\ ttys s' = ttys Ex.one_open /\
    rfcomm_tty_tiocmget 0%nat s'
    = Done (v24_to_tiocm (RH := linux_rfcomm_h) (TH := linux_termios_h) 0x8C) s'.
Proof.
  apply (X18_modem_status_attached (RH := linux_rfcomm_h) (TH := linux_termios_h)
           Ex.one_open 1%nat 0%nat 0%nat ExCalls.open_dlc ExCalls.open_dev
           ExCalls.open_tty 0x8C).
  - reflexivity.
  - reflexivity.
  - reflexivity.
  - reflexivity.
  - reflexivity.
  - reflexivity.
Defined.

(** ** Line settings that do not change *)

Section SameSettings.
Context {RH : rfcomm_h} {TH : termios_h}.
Variable tty_termios_baud_rate : ktermios -> Z.

Lemma termios_to_rpn_same (old new : ktermios) :
  c_cflag old = c_cflag new ->
  cc old VSTOP = cc new VSTOP -> cc old VSTART = cc new VSTART ->
  tty_termios_baud_rate old = tty_termios_baud_rate new ->
  rpn_changes (termios_to_rpn tty_termios_baud_rate old new) = 0.
Proof.
  intros Hf Hstop Hstart Hbaud. unfold termios_to_rpn.
  rewrite Hf, Hstop, Hstart, Hbaud. rewrite !Z.eqb_refl. reflexivity.
Qed.

(** X19.  [rfcomm_tty_set_termios] sends nothing and changes nothing when the
    old settings agree with those of the tty in the control flags, the
    start and stop characters and the baud rate, whatever else differs
    between them. *)
Theorem X19_set_termios_unchanged (s : kstate) (t p c session : ptr)
    (ts : tty_struct) (dev : rfcomm_dev) (d : rfcomm_dlc) (old : ktermios) :
  ttys s !! t = Some ts -> tty_driver_data ts = Some p ->
  devs s !! p = Some (Some dev) -> dlc dev = Some c ->
  dlcs s !! c = Some d -> dlc_session d = Some session ->
  c_cflag old = c_cflag (tty_termios ts) ->
  cc old VSTOP = cc (tty_termios ts) VSTOP ->
  cc old VSTART = cc (tty_termios ts) VSTART ->
  tty_termios_baud_rate old = tty_termios_baud_rate (tty_termios ts) ->
  rfcomm_tty_set_termios tty_termios_baud_rate t old s = Done tt s.
Proof.
  intros Ht Hdd Hp Hc Hd Hs Hf Hstop Hstart Hbaud.
  rewrite (rfcomm_tty_set_termios_run tty_termios_baud_rate s t p c session
             ts dev d old Ht Hdd Hp Hc Hd Hs).
  rewrite termios_to_rpn_same by assumption. reflexivity.
Qed.

End SameSettings.

Lemma X19_set_termios_unchanged_witness :
  rfcomm_tty_set_termios (RH := linux_rfcomm_h) (TH := linux_termios_h)
    Ex.baud_rate 0%nat Ex.std_termios Ex.one_open
  = Done tt Ex.one_open.
Proof.
  apply (X19_set_termios_unchanged (RH := linux_rfcomm_h) (TH := linux_termios_h)
           Ex.baud_rate Ex.one_open 0%nat 0%nat 1%nat 0%nat ExCalls.open_tty
           ExCalls.open_dev ExCalls.open_dlc Ex.std_termios).
  - reflexivity.
  - reflexivity.
  - reflexivity.
  - reflexivity.
  - reflexivity.
  - reflexivity.
  - reflexivity.
  - reflexivity.
  - reflexivity.
  - reflexivity.
Defined.

(** ** Creation on the channel of a socket *)

Section CreateReuse.
Context {RH : rfcomm_h} {TH : termios_h}.

(** X20.  RFCOMMCREATEDEV with "reuse channel" on a connected socket, for a
    free id in range and a caller that may ask for it, turns the channel of
    the socket into the channel of the new device: the device gets the
    buffers the socket had received, in order, as its pending queue; the
    socket is left closed with an empty receive queue and its receive
    accounting lowered by their bytes; the channel is owned by the device;
    and the registry is well formed with the new id. *)
Theorem X20_create_reuse_hands_over (s : kstate) (ids : list Z) (sk : ptr)
    (k : sock) (d : rfcomm_dlc) (req : rfcomm_dev_req) (capable : bool)
    (fresh : option rfcomm_dlc) :
  registry_ok s ids ->
  socks s !! sk = Some k -> sk_state k = BT_CONNECTED ->
  dlcs s !! sk_dlc k = Some d -> dlc_owner_of d = OwnerSock sk ->
  req_reuse req = true ->
  req_flags req = NOCAP_FLAGS \/ capable = true ->
  0 <= req_dev_id req < RFCOMM_MAX_DEV -> req_dev_id req ∉ ids ->
  exists s' n,
    rfcomm_create_dev sk (Some req) capable fresh true None s
    = Done (Val (req_dev_id req)) s' /\
    devs s' = devs s ++ [Some (added_dev req (req_dev_id req) (sk_dlc k)
                                 (dlc_remote_v24_sig d) (sk_receive_queue k))] /\
    socks s' = <[sk := set_sk_state BT_CLOSED (drained k)]> (socks s) /\
    dlcs s' = <[sk_dlc k := set_dlc_owner (OwnerDev (length (devs s)))
                              (set_dlc_cb CallbacksDev d)]> (dlcs s) /\
    rfcomm_dev_list s'
    = take n (rfcomm_dev_list s) ++ length (devs s) :: drop n (rfcomm_dev_list s) /\
    registry_ok s' (take n ids ++ req_dev_id req :: drop n ids).
Proof.
  intros Hok Hsk Hst Hd Hown Hre Hcap [Hid0 Hid1] Hfree.
  assert (Hsklen : (sk < length (socks s))%nat) by (eapply lookup_lt_Some; eauto).
  set (s0 := {| devs := devs s; rfcomm_dev_list := rfcomm_dev_list s;
                dlcs := dlcs s; ttys := ttys s; socks := socks s;
                module_refs := module_refs s;
                log := log s ++ [EvDlcHold (sk_dlc k)] |}).
  assert (Hok0 : registry_ok s0 ids) by exact Hok.
  destruct (dev_add_choose_id s0 ids req (Some zero_dev) Hok0 Hid0) as [_ Hch].
  destruct (Hch Hfree) as (n & Hrun & Hn & Hlo & Hhi).
  destruct (Z.ltb_spec (req_dev_id req) RFCOMM_MAX_DEV) as [_|]; [|lia].
  assert (Htk : add_takes req d s0 (sk_receive_queue k) (<[sk := drained k]> (socks s0))).
  { unfold add_takes. rewrite Hre. exists sk, k. auto. }
  destruct (rfcomm_dev_add_at s0 req (sk_dlc k) None (req_dev_id req) n d
              (sk_receive_queue k) _ Hrun Hd Htk)
    as (s1 & Hadd & Hdevs & Hlist & Hdlcs & Httys & Hsocks & _).
  assert (Hsk1 : socks s1 !! sk = Some (drained k)).
  { rewrite Hsocks. apply list_lookup_insert_eq. exact Hsklen. }
  eexists _, n. split.
  { unfold rfcomm_create_dev.
    replace (negb (req_flags req =? NOCAP_FLAGS) && negb capable) with false.
    2:{ symmetry. destruct Hcap as [-> | ->].
        - rewrite Z.eqb_refl. reflexivity.
        - apply Bool.andb_false_r. }
    unfold req_reuse in Hre. rewrite Hre.
    rewrite !bind_assoc, (bind_Done _ _ _ _ _ (sock_read_Done _ _ _ Hsk)).
    rewrite Hst.
    rewrite !bind_assoc. unfold emit at 1. unfold bind at 1. fold s0.
    unfold ret at 1. unfold bind at 1.
    rewrite (bind_Done _ _ _ _ _ Hadd).
    rewrite (bind_Done _ _ _ _ _ (sock_modify_Done _ _ _ _ Hsk1)). reflexivity. }
  cbn. rewrite Hdevs, Hlist, Hdlcs, Hsocks. cbn.
  rewrite list_insert_insert_eq.
  repeat (split; [reflexivity|]).
  assert (Hok1 : registry_ok s1 (take n ids ++ req_dev_id req :: drop n ids)).
  { apply (registry_ok_add s0 s1 ids
             (added_dev req (req_dev_id req) (sk_dlc k) (dlc_remote_v24_sig d)
                (sk_receive_queue k)) n Hok0 Hdevs Hlist); cbn; auto. }
  exact Hok1.
Qed.

End CreateReuse.

Lemma X20_create_reuse_hands_over_witness :
  exists s' n,
    rfcomm_create_dev (RH := linux_rfcomm_h) (TH := linux_termios_h)
      0%nat (Some (Ex.req_id 4 1)) true None true None Ex.boot
    = Done (Val 4) s' /\
    devs s' = devs Ex.boot ++
              [Some (added_dev (H := linux_rfcomm_h) (H0 := linux_termios_h)
                       (Ex.req_id 4 1) 4 0%nat 0 [Ex.chunk_A; Ex.chunk_B])] /\
    socks s' = <[0%nat := set_sk_state BT_CLOSED (drained ExMore.boot_sock)]>
                 (socks Ex.boot) /\
    dlcs s' = <[0%nat := set_dlc_owner (OwnerDev 0%nat)
                           (set_dlc_cb CallbacksDev ExMore.boot_dlc)]>
                (dlcs Ex.boot) /\
    rfcomm_dev_list s'
    = take n (rfcomm_dev_list Ex.boot) ++ 0%nat :: drop n (rfcomm_dev_list Ex.boot) /\
    registry_ok (H := linux_rfcomm_h) s' (take n [] ++ 4 :: drop n []).
Proof.
  apply (X20_create_reuse_hands_over (RH := linux_rfcomm_h) (TH := linux_termios_h)
           Ex.boot [] 0%nat ExMore.boot_sock ExMore.boot_dlc (Ex.req_id 4 1)
           true None).
  - split; [reflexivity|]. split; constructor.
  - reflexivity.
  - reflexivity.
  - reflexivity.
  - reflexivity.
  - reflexivity.
  - right. reflexivity.
  - cbn. lia.
  - apply not_elem_of_nil.
Defined.

(** ** Registration of the tty device fails *)

Section RegisterFails.
Context {RH : rfcomm_h} {TH : termios_h}.

Lemma filter_ne_id (x : ptr) (l : list ptr) :
  Forall (fun q => q <> x) l -> filter (fun q => q <> x) l = l.
Proof.
  induction 1 as [|q l Hq Hl IH]; [reflexivity|].
  rewrite filter_cons_True by exact Hq. rewrite IH. reflexivity.
Qed.

(** The pointers on the registry are below the end of the heap. *)
Lemma listed_below (s : kstate) (ids : list Z) :
  registry_ok s ids ->
  Forall (fun q => q <> length (devs s)) (rfcomm_dev_list s).
Proof.
  intros Hok. apply Forall_forall. intros q Hq.
  destruct (listed_live s ids q Hok Hq) as (dq & Hdq).
  apply lookup_lt_Some in Hdq. lia.
Qed.

Lemma filter_inserted (s : kstate) (ids : list Z) (n : nat) :
  registry_ok s ids ->
  filter (fun x => x <> length (devs s))
    (take n (rfcomm_dev_list s) ++ length (devs s) :: drop n (rfcomm_dev_list s))
  = rfcomm_dev_list s.
Proof.
  intros Hok. pose proof (listed_below s ids Hok) as Hall.
  rewrite filter_app, filter_cons_False by (intros H; apply H; reflexivity).
  rewrite !filter_ne_id.
  - apply take_drop.
  - apply Forall_drop. exact Hall.
  - apply Forall_take. exact Hall.
Qed.

(** X21.  When the registration of the tty device fails, for a create with
    "reuse channel" on a connected socket and a free id, the create answers
    the error of the registration and the registry is as before, with the
    new record freed.  But the socket has lost its received buffers, the
    channel keeps the freed record as its owner, with the callbacks of the
    device, and the module count stays raised: a chunk the channel delivers
    afterwards makes [rfcomm_dev_data_ready] read the freed record. *)
Theorem X21_register_fails_reuse (s : kstate) (ids : list Z) (sk : ptr)
    (k : sock) (d : rfcomm_dlc) (req : rfcomm_dev_req) (capable : bool)
    (fresh : option rfcomm_dlc) (e : Z) (skb : sk_buff) :
  registry_ok s ids ->
  socks s !! sk = Some k -> sk_state k = BT_CONNECTED ->
  dlcs s !! sk_dlc k = Some d -> dlc_owner_of d = OwnerSock sk ->
  req_reuse req = true ->
  req_flags req = NOCAP_FLAGS \/ capable = true ->
  0 <= req_dev_id req < RFCOMM_MAX_DEV -> req_dev_id req ∉ ids ->
  exists s',
    rfcomm_create_dev sk (Some req) capable fresh true (Some e) s
    = Done (Err (Eraw e)) s' /\
    devs s' = devs s ++ [None] /\
    rfcomm_dev_list s' = rfcomm_dev_list s /\ registry_ok s' ids /\
    socks s' = <[sk := drained k]> (socks s) /\
    dlcs s' = <[sk_dlc k := set_dlc_owner (OwnerDev (length (devs s)))
                              (set_dlc_cb CallbacksDev d)]> (dlcs s) /\
    module_refs s' = module_refs s + 1 /\
    rfcomm_dev_data_ready (sk_dlc k) skb s' = Fault.
Proof.
  intros Hok Hsk Hst Hd Hown Hre Hcap [Hid0 Hid1] Hfree.
  assert (Hclen : (sk_dlc k < length (dlcs s))%nat) by (eapply lookup_lt_Some; eauto).
  set (s0 := {| devs := devs s; rfcomm_dev_list := rfcomm_dev_list s;
                dlcs := dlcs s; ttys := ttys s; socks := socks s;
                module_refs := module_refs s;
                log := log s ++ [EvDlcHold (sk_dlc k)] |}).
  assert (Hok0 : registry_ok s0 ids) by exact Hok.
  destruct (dev_add_choose_id s0 ids req (Some zero_dev) Hok0 Hid0) as [_ Hch].
  destruct (Hch Hfree) as (n & Hrun & Hn & Hlo & Hhi).
  destruct (Z.ltb_spec (req_dev_id req) RFCOMM_MAX_DEV) as [_|]; [|lia].
  assert (Htk : add_takes req d s0 (sk_receive_queue k) (<[sk := drained k]> (socks s0))).
  { unfold add_takes. rewrite Hre. exists sk, k. auto. }
  destruct (rfcomm_dev_add_at s0 req (sk_dlc k) (Some e) (req_dev_id req) n d
              (sk_receive_queue k) _ Hrun Hd Htk)
    as (s1 & Hadd & Hdevs & Hlist & Hdlcs & Httys & Hsocks & Hmod & _).
  cbn [devs rfcomm_dev_list dlcs socks module_refs s0] in Hdevs, Hlist, Hdlcs, Hsocks, Hmod.
  rewrite (filter_inserted s ids n Hok) in Hlist.
  eexists. split.
  { unfold rfcomm_create_dev.
    replace (negb (req_flags req =? NOCAP_FLAGS) && negb capable) with false.
    2:{ symmetry. destruct Hcap as [-> | ->].
        - rewrite Z.eqb_refl. reflexivity.
        - apply Bool.andb_false_r. }
    unfold req_reuse in Hre. rewrite Hre.
    rewrite !bind_assoc, (bind_Done _ _ _ _ _ (sock_read_Done _ _ _ Hsk)).
    rewrite Hst.
    rewrite !bind_assoc. unfold emit at 1. unfold bind at 1. fold s0.
    unfold ret at 1. unfold bind at 1.
    rewrite (bind_Done _ _ _ _ _ Hadd). reflexivity. }
  cbn. rewrite Hdevs, Hlist, Hdlcs, Hsocks, Hmod.
  split; [reflexivity|]. split; [reflexivity|].
  split.
  { apply (registry_ok_off_list s _ ids Hok); cbn.
    - reflexivity.
    - intros q Hq. apply lookup_app_l.
      destruct (listed_live s ids q Hok Hq) as (dq & Hdq).
      eapply lookup_lt_Some; eauto. }
  split; [reflexivity|]. split; [reflexivity|]. split; [reflexivity|].
  unfold rfcomm_dev_data_ready, dlc_owner_dev.
  rewrite !bind_assoc.
  erewrite bind_Done.
  2:{ apply dlc_read_Done. cbn.
      apply list_lookup_insert_eq. exact Hclen. }
  cbn [dlc_owner_of set_dlc_owner].
  unfold ret at 1. unfold bind at 1.
  unfold bind at 1. unfold dev_read. cbn [devs].
  rewrite lookup_snoc. reflexivity.
Qed.

End RegisterFails.

Lemma X21_register_fails_reuse_witness :
  exists s',
    rfcomm_create_dev (RH := linux_rfcomm_h) (TH := linux_termios_h)
      0%nat (Some (Ex.req_id 4 1)) true None true (Some (-12)) Ex.boot
    = Done (Err (Eraw (-12))) s' /\
    devs s' = devs Ex.boot ++ [None] /\
    rfcomm_dev_list s' = rfcomm_dev_list Ex.boot /\
    registry_ok (H := linux_rfcomm_h) s' [] /\
    socks s' = <[0%nat := drained ExMore.boot_sock]> (socks Ex.boot) /\
    dlcs s' = <[0%nat := set_dlc_owner (OwnerDev 0%nat)
                           (set_dlc_cb CallbacksDev ExMore.boot_dlc)]>
                (dlcs Ex.boot) /\
    module_refs s' = module_refs Ex.boot + 1 /\
    rfcomm_dev_data_ready (RH := linux_rfcomm_h) 0%nat Ex.chunk_C s' = Fault.
Proof.
  apply (X21_register_fails_reuse (RH := linux_rfcomm_h) (TH := linux_termios_h)
           Ex.boot [] 0%nat ExMore.boot_sock ExMore.boot_dlc (Ex.req_id 4 1)
           true None (-12) Ex.chunk_C).
  - split; [reflexivity|]. split; constructor.
  - reflexivity.
  - reflexivity.
  - reflexivity.
  - reflexivity.
  - reflexivity.
  - right. reflexivity.
  - cbn. lia.
  - apply not_elem_of_nil.
Defined.

(** ** The order of the list the ioctl copies out *)

Section ListOrder.
Context {RH : rfcomm_h}.
Variable DEV_LIST_MAX : Z.

Lemma info_at_id (s : kstate) (p : ptr) (e : rfcomm_dev_info) (i : Z) :
  info_at s p = Some e -> id_of s p = Some i -> di_id e = i.
Proof.
  unfold info_at, id_of. destruct (dev_at s p) as [dev|]; [|discriminate].
  destruct (test_bit RFCOMM_TTY_RELEASED (flags dev)); [discriminate|].
  destruct (dlc dev) as [c|]; [|discriminate].
  destruct (dlcs s !! c); [|discriminate].
  intros H1 H2. inversion H1; inversion H2; subst. reflexivity.
Qed.

Lemma visible_ids_sorted (s : kstate) (l : list ptr) (ids : list Z) :
  Forall2 (fun p i => id_of s p = Some i) l ids ->
  StronglySorted Z.lt ids ->
  StronglySorted Z.lt (map di_id (omap (info_at s) l)) /\
  (forall x, x ∈ map di_id (omap (info_at s) l) -> x ∈ ids).
Proof.
  induction 1 as [|p i l ids Hp Hl IH]; intros Hs.
  - split; [constructor|]. intros x Hx. exact Hx.
  - apply StronglySorted_inv in Hs. destruct Hs as [Hs Hlt].
    destruct (IH Hs) as [IH1 IH2]. cbn [omap list_omap].
    destruct (info_at s p) as [e|] eqn:He.
    + cbn [map]. rewrite (info_at_id s p e i He Hp). split.
      * constructor; [exact IH1|]. apply Forall_forall. intros x Hx.
        rewrite Forall_forall in Hlt. apply Hlt. apply IH2. exact Hx.
      * intros x Hx. apply elem_of_cons in Hx. destruct Hx as [->|Hx].
        -- apply list_elem_of_here.
        -- apply elem_of_cons. right. apply IH2. exact Hx.
    + split; [exact IH1|]. intros x Hx. apply elem_of_cons. right.
      apply IH2. exact Hx.
Qed.

Lemma sorted_prefix (l1 l2 : list Z) :
  StronglySorted Z.lt (l1 ++ l2) -> StronglySorted Z.lt l1.
Proof.
  induction l1 as [|x l1 IH]; intros H; [constructor|].
  cbn in H. apply StronglySorted_inv in H. destruct H as [H1 H2].
  constructor; [apply IH; exact H1|].
  apply Forall_app in H2. destruct H2 as [H2 _]. exact H2.
Qed.

(** X22.  On a well-formed registry whose records have their channels,
    RFCOMMGETDEVLIST asked for [n] entries ([0 < n] up to the bound) copies
    out at most [n] entries, in strictly ascending order of id, hence each
    device at most once, and only ids of the registry. *)
Theorem X22_get_dev_list_sorted (s : kstate) (ids : list Z) (n : Z) :
  registry_ok s ids -> registry_linked s -> 0 < n <= DEV_LIST_MAX ->
  exists dl,
    rfcomm_get_dev_list DEV_LIST_MAX (Some n) true true s = Done (Val 0, dl) s /\
    Z.of_nat (length dl) <= n /\
    StronglySorted Z.lt (map di_id dl) /\
    (forall e, e ∈ dl -> di_id e ∈ ids).
Proof.
  intros Hok Hl [Hn0 Hn].
  destruct Hok as (H1 & H2 & _). apply registry_ids_Forall2 in H1.
  destruct (visible_ids_sorted s _ ids H1 H2) as [Hs Hin].
  exists (take (Z.to_nat n) (visible_infos s)). split.
  { unfold rfcomm_get_dev_list.
    replace (n =? 0) with false by (symmetry; apply Z.eqb_neq; lia).
    replace (n >? DEV_LIST_MAX) with false
      by (symmetry; rewrite Z.gtb_ltb; apply Z.ltb_ge; lia).
    cbn [orb negb]. unfold bind at 1. unfold get_state.
    rewrite (bind_Done _ _ _ _ _
               (dev_list_collect_take s n _ Hl [] ltac:(cbn; lia))).
    reflexivity. }
  split. { rewrite length_take. lia. }
  split.
  { rewrite <- firstn_map.
    apply (sorted_prefix _ (drop (Z.to_nat n) (map di_id (visible_infos s)))).
    rewrite take_drop. exact Hs. }
  intros e He. apply Hin. apply list_elem_of_fmap_2.
  eapply subseteq_take. exact He.
Qed.

End ListOrder.

Lemma X22_get_dev_list_sorted_witness :
  exists dl,
    rfcomm_get_dev_list (RH := linux_rfcomm_h) 128 (Some 2) true true Ex.three
    = Done (Val 0, dl) Ex.three /\
    Z.of_nat (length dl) <= 2 /\
    StronglySorted Z.lt (map di_id dl) /\
    (forall e, e ∈ dl -> di_id e ∈ [0; 1; 2]).
Proof.
  apply (X22_get_dev_list_sorted (RH := linux_rfcomm_h) 128 Ex.three [0; 1; 2] 2).
  - split; [reflexivity|].
    split; [repeat constructor | repeat constructor; simpl; lia].
  - repeat (constructor; [eexists _, _, _; repeat split; reflexivity|]).
    constructor.
  - lia.
Defined.

(** ** A write the channel refuses *)

Section WriteRefused.
Context {RH : rfcomm_h} {TH : termios_h}.

(** X23.  When the channel refuses the first buffer of a write,
    [rfcomm_tty_write] answers the error of the channel and leaves the
    device as it was: the buffer is freed, so the bytes accounted for it and
    the reference it held are given back, and nothing is queued. *)
Theorem X23_write_refused_restores (s : kstate) (t p c : ptr) (ts : tty_struct)
    (dev : rfcomm_dev) (d : rfcomm_dlc) (buf : list byte) (cnt : Z)
    (world : nat -> option Z * Z) (fuel : nat) (tsz e : Z) :
  ttys s !! t = Some ts -> tty_driver_data ts = Some p ->
  devs s !! p = Some (Some dev) -> dlc dev = Some c -> dlcs s !! c = Some d ->
  - 2 ^ 31 <= wmem_alloc dev < 2 ^ 31 ->
  to_uint (wmem_alloc dev) < rfcomm_room d ->
  1 <= kref (port dev) ->
  cnt <> 0 -> world 0%nat = (Some tsz, e) -> e < 0 ->
  exists s',
    rfcomm_tty_write t buf cnt world (S fuel) s = Done (Some e) s' /\
    devs s' = devs s /\ dlcs s' = dlcs s /\
    rfcomm_dev_list s' = rfcomm_dev_list s /\ ttys s' = ttys s /\
    socks s' = socks s /\ module_refs s' = module_refs s.
Proof.
  intros Ht Hdd Hp Hc Hd Hw Hroom Hk Hcnt Hworld He.
  assert (Hlen : (p < length (devs s))%nat) by (eapply lookup_lt_Some; eauto).
  unfold rfcomm_tty_write.
  rewrite (bind_Done _ _ _ _ _ (tty_read_Done _ _ _ Ht)). rewrite Hdd.
  rewrite (bind_Done _ _ _ _ _ (eq_refl : deref (Some p) s = Done p s)).
  rewrite (bind_Done _ _ _ _ _ (dev_read_Done _ _ _ Hp)). rewrite Hc.
  rewrite (bind_Done _ _ _ _ _ (eq_refl : deref (Some c) s = Done c s)).
  cbn [tty_write_loop].
  replace (cnt =? 0) with false by (symmetry; apply Z.eqb_neq; exact Hcnt).
  rewrite !bind_assoc, (bind_Done _ _ _ _ _ (dlc_read_Done _ _ _ Hd)).
  rewrite Hworld. cbn [fst snd].
  set (size := to_int (Z.min (to_uint cnt) (to_uint (dlc_mtu d)))).
  destruct (rfcomm_wmalloc_run s p c dev d (size + RFCOMM_SKB_RESERVE) (Some tsz)
              Hp Hc Hd)
    as [[_ [Hn|Hfull]]|(ts' & Hts & _ & Hrun)]; [discriminate | lia |].
  inversion Hts; subst ts'.
  rewrite !bind_assoc, (bind_Done _ _ _ _ _ Hrun).
  cbn [skb_truesize skb_sk].
  set (dev1 := set_wmem_alloc (fun n => to_int (n + tsz))
                 (set_port (set_kref (fun n => n + 1)) dev)) in *.
  set (s1 := set_devs _ s) in *.
  set (skb := {| skb_data := take (Z.to_nat size) (drop (Z.to_nat 0) buf);
                 skb_truesize := tsz; skb_sk := Some p |}).
  rewrite !bind_assoc, (bind_Done _ _ _ _ _ (rfcomm_dlc_send_refused s1 c skb e He)).
  replace (e <? 0) with true by (symmetry; apply Z.ltb_lt; exact He).
  set (s2 := {| devs := devs s1; rfcomm_dev_list := _ |}).
  assert (Hp2 : devs s2 !! p = Some (Some dev1)).
  { subst s2 s1. cbn. apply list_lookup_insert_eq. exact Hlen. }
  destruct (kfree_skb_accounted s2 p dev1 skb Hp2 eq_refl)
    as (s3 & Hfree & D3 & C3 & L3 & T3 & K3 & M3).
  { subst dev1. cbn. lia. }
  rewrite !bind_assoc, (bind_Done _ _ _ _ _ Hfree).
  eexists. split; [reflexivity|].
  rewrite D3, C3, L3, T3, K3, M3. subst s2 s1. cbn.
  split; [|auto 10].
  rewrite list_insert_insert_eq.
  apply list_insert_id. rewrite Hp. do 2 f_equal.
  subst dev1. destruct dev as [[? ? ? ? ?] ? ? ? ? ? ? ? ? ? ? ?].
  unfold set_port, set_kref, set_wmem_alloc; cbn in *.
  rewrite to_int_sub_add by exact Hw. do 2 f_equal. lia.
Qed.

End WriteRefused.

Lemma X23_write_refused_restores_witness :
  exists s',
    rfcomm_tty_write (RH := linux_rfcomm_h) 0%nat (repeat "x"%byte 300) 300
      (fun _ => (Some 512, -11)) 300 Ex.one_open = Done (Some (-11)) s' /\
    devs s' = devs Ex.one_open /\ dlcs s' = dlcs Ex.one_open /\
    rfcomm_dev_list s' = rfcomm_dev_list Ex.one_open /\
    ttys s' = ttys Ex.one_open /\
    socks s' = socks Ex.one_open /\ module_refs s' = module_refs Ex.one_open.
Proof.
  apply (X23_write_refused_restores (RH := linux_rfcomm_h) Ex.one_open
           0%nat 0%nat 1%nat ExCalls.open_tty ExCalls.open_dev ExCalls.open_dlc
           (repeat "x"%byte 300) 300 (fun _ => (Some 512, -11)) 299 512 (-11)).
  - reflexivity.
  - reflexivity.
  - reflexivity.
  - reflexivity.
  - reflexivity.
  - vm_compute. split; [discriminate | reflexivity].
  - vm_compute. reflexivity.
  - vm_compute. discriminate.
  - lia.
  - reflexivity.
  - lia.
Defined.

(** ** Hang-up of an open device *)

Section HangupOpen.
Context {RH : rfcomm_h} {TH : termios_h}.

(** X24.  A hang-up of the tty of an open device empties the transmit queue
    of its channel and keeps the record on the registry.  A "release on
    hang-up" device is marked released by it: its open count, tty and
    channel stay as they are, but a look-up of its id finds nothing any
    more.  Any other device keeps its flags. *)
Theorem X24_hangup_open (s : kstate) (ids : list Z) (t p c : ptr)
    (ts : tty_struct) (dev : rfcomm_dev) (d : rfcomm_dlc) :
  flag_bits_ok ->
  registry_ok s ids -> p ∈ rfcomm_dev_list s ->
  ttys s !! t = Some ts -> tty_driver_data ts = Some p ->
  devs s !! p = Some (Some dev) -> dlc dev = Some c -> dlcs s !! c = Some d ->
  test_bit RFCOMM_TTY_RELEASED (flags dev) = false ->
  0 < count (port dev) ->
  Forall (fun k => skb_sk k = Some p) (dlc_tx_queue d) ->
  Z.of_nat (length (dlc_tx_queue d)) < kref (port dev) ->
  exists s' dev' d',
    rfcomm_tty_hangup t s = Done tt s' /\
    devs s' = <[p := Some dev']> (devs s) /\
    dlcs s' = <[c := d']> (dlcs s) /\ dlc_tx_queue d' = [] /\
    rfcomm_dev_list s' = rfcomm_dev_list s /\ ttys s' = ttys s /\
    count (port dev') = count (port dev) /\ tty (port dev') = tty (port dev) /\
    dlc dev' = dlc dev /\
    flags dev' = (if test_bit RFCOMM_RELEASE_ONHUP (flags dev)
                  then set_bit RFCOMM_TTY_RELEASED (flags dev) else flags dev) /\
    (test_bit RFCOMM_RELEASE_ONHUP (flags dev) = true ->
     rfcomm_dev_get (dev_id dev) s' = Done None s').
Proof.
  intros Hbits Hok Hin Ht Hdd Hp Hc Hd Hrel Hcnt Hq Hk.
  destruct (rfcomm_tty_hangup_open s ids t p c ts dev d Hbits Hok Hin Ht Hdd Hp
              Hc Hd Hrel Hcnt Hq Hk)
    as (s' & dev' & Hrun & Hupd & Hsame & _).
  pose proof Hupd as (D & C & L & T).
  destruct (same_but_refs_fields _ _ Hsame) as (Fid & Ffl & Fcnt & Ftty & Fdlc & _).
  exists s', dev', (set_dlc_tx_queue (fun _ => []) d).
  split; [exact Hrun|]. split; [exact D|]. split; [exact C|].
  split; [reflexivity|]. split; [exact L|]. split; [exact T|].
  destruct (test_bit RFCOMM_RELEASE_ONHUP (flags dev)) eqn:Honhup.
  - cbn in Fid, Ffl, Fcnt, Ftty, Fdlc.
    split; [exact Fcnt|]. split; [exact Ftty|]. split; [exact Fdlc|].
    split; [exact Ffl|]. intros _.
    rewrite <- Fid.
    apply (rfcomm_dev_get_released s' ids p dev').
    + eapply updated_registry_ok; eauto.
    + rewrite L. exact Hin.
    + eapply updated_dev; eauto.
    + rewrite Ffl. apply test_released_set.
      destruct Hbits as (_ & H & _). exact H.
  - split; [exact Fcnt|]. split; [exact Ftty|]. split; [exact Fdlc|].
    split; [exact Ffl|]. intros H. discriminate.
Qed.

End HangupOpen.

Lemma X24_hangup_open_witness :
  exists s' dev' d',
    rfcomm_tty_hangup (RH := linux_rfcomm_h) 0%nat ExMore.onhup_open = Done tt s' /\
    devs s' = <[0%nat := Some dev']> (devs ExMore.onhup_open) /\
    dlcs s' = <[1%nat := d']> (dlcs ExMore.onhup_open) /\ dlc_tx_queue d' = [] /\
    rfcomm_dev_list s' = rfcomm_dev_list ExMore.onhup_open /\
    ttys s' = ttys ExMore.onhup_open /\
    count (port dev') = count (port ExMore.onhup_open_dev) /\
    tty (port dev') = tty (port ExMore.onhup_open_dev) /\
    dlc dev' = dlc ExMore.onhup_open_dev /\
    flags dev' = (if test_bit (RFCOMM_RELEASE_ONHUP (rfcomm_h := linux_rfcomm_h))
                       (flags ExMore.onhup_open_dev)
                  then set_bit (RFCOMM_TTY_RELEASED (rfcomm_h := linux_rfcomm_h))
                         (flags ExMore.onhup_open_dev)
                  else flags ExMore.onhup_open_dev) /\
    (test_bit (RFCOMM_RELEASE_ONHUP (rfcomm_h := linux_rfcomm_h))
       (flags ExMore.onhup_open_dev) = true ->
     rfcomm_dev_get (RH := linux_rfcomm_h) (dev_id ExMore.onhup_open_dev) s'
     = Done None s').
Proof.
  apply (X24_hangup_open (RH := linux_rfcomm_h) ExMore.onhup_open [0]
           0%nat 0%nat 1%nat ExMore.onhup_open_tty ExMore.onhup_open_dev
           ExMore.onhup_open_dlc).
  - unfold flag_bits_ok. cbn. lia.
  - split; [reflexivity|].
    split; [repeat constructor | repeat constructor; simpl; lia].
  - apply list_elem_of_here.
  - reflexivity.
  - reflexivity.
  - reflexivity.
  - reflexivity.
  - reflexivity.
  - reflexivity.
  - vm_compute. reflexivity.
  - constructor.
  - vm_compute. reflexivity.
Defined.

(** ** The last close of a device that stays *)

Section LastClose.
Context {RH : rfcomm_h} {TH : termios_h}.

Local Ltac look Hlen :=
  cbn [devs set_devs set_ttys]; rewrite ?list_insert_insert_eq;
  apply list_lookup_insert_eq; rewrite ?length_insert; exact Hlen.

(** X25.  The last close of a device that is not marked released detaches
    it and keeps it registered: the open count falls to 0, the tty and the
    record no longer point at each other, the "attached" flag is cleared,
    the channel is asked to close, and one reference is dropped.  The device
    stays on the registry, to be opened again. *)
Theorem X25_last_close_detaches (s : kstate) (t p c : ptr) (ts : tty_struct)
    (dev : rfcomm_dev) :
  ttys s !! t = Some ts -> tty_driver_data ts = Some p ->
  devs s !! p = Some (Some dev) -> count (port dev) = 1 ->
  dlc dev = Some c ->
  test_bit RFCOMM_TTY_RELEASED (flags dev) = false ->
  RFCOMM_TTY_ATTACHED <> RFCOMM_TTY_RELEASED ->
  kref (port dev) <> 1 ->
  exists s' dev',
    rfcomm_tty_close t None s = Done tt s' /\
    devs s' = <[p := Some dev']> (devs s) /\
    count (port dev') = 0 /\ tty (port dev') = None /\
    kref (port dev') = kref (port dev) - 1 /\
    flags dev' = clear_bit RFCOMM_TTY_ATTACHED (flags dev) /\
    tty_dev_parent dev' = false /\ dlc dev' = Some c /\
    dev_id dev' = dev_id dev /\
    ttys s' = <[t := set_tty_driver_data None ts]> (ttys s) /\
    rfcomm_dev_list s' = rfcomm_dev_list s /\ dlcs s' = dlcs s /\
    log s' = log s ++ (if tty_dev_parent dev then [EvDeviceMove p false] else [])
                   ++ [EvDlcClose c].
Proof.
  intros Ht Hdd Hp Hcnt Hc Hrel Hne Hk.
  assert (Hlen : (p < length (devs s))%nat) by (eapply lookup_lt_Some; eauto).
  unfold rfcomm_tty_close.
  rewrite (bind_Done _ _ _ _ _ (tty_read_Done _ _ _ Ht)). rewrite Hdd.
  rewrite (bind_Done _ _ _ _ _ (dev_modify_Done _ _ _ _ Hp)).
  set (dev1 := set_port (set_count (fun n => n - 1)) dev).
  set (s1 := set_devs _ s).
  assert (Hp1 : devs s1 !! p = Some (Some dev1)) by (subst s1; look Hlen).
  rewrite (bind_Done _ _ _ _ _ (dev_read_Done _ _ _ Hp1)).
  replace (count (port dev1) =? 0) with true.
  2:{ symmetry. apply Z.eqb_eq. subst dev1. cbn. lia. }
  (* the move of the tty device *)
  assert (Hmove : exists s2,
    (if tty_dev_parent dev1
     then let* _ := emit (EvDeviceMove p false) in
          dev_modify p (set_tty_dev_parent false)
     else ret tt) s1 = Done tt s2 /\
    devs s2 = <[p := Some (set_tty_dev_parent false dev1)]> (devs s) /\
    rfcomm_dev_list s2 = rfcomm_dev_list s /\ dlcs s2 = dlcs s /\
    ttys s2 = ttys s /\
    log s2 = log s ++ (if tty_dev_parent dev then [EvDeviceMove p false] else [])).
  { change (tty_dev_parent dev1) with (tty_dev_parent dev).
    destruct (tty_dev_parent dev) eqn:Hpar.
    - unfold emit at 1. unfold bind at 1.
      erewrite dev_modify_Done by (subst s1; look Hlen).
      eexists. split; [reflexivity|]. subst s1. cbn.
      rewrite list_insert_insert_eq. auto 10.
    - exists s1. split; [reflexivity|]. subst s1. cbn. rewrite app_nil_r.
      split; [|auto].
      f_equal. f_equal. subst dev1.
      destruct dev as [[? ? ? ? ?] ? ? ? ? ? ? ? ? ? ? ?]. cbn in *.
      rewrite Hpar. reflexivity. }
  destruct Hmove as (s2 & Hrun2 & D2 & L2 & C2 & T2 & G2).
  rewrite !bind_assoc, (bind_Done _ _ _ _ _ Hrun2).
  change (dlc dev1) with (dlc dev). rewrite Hc.
  rewrite !bind_assoc.
  rewrite (bind_Done _ _ _ _ _ (eq_refl : deref (Some c) s2 = Done c s2)).
  unfold rfcomm_dlc_close. rewrite !bind_assoc.
  unfold emit at 1. unfold bind at 1. unfold ret at 1. unfold bind at 1.
  set (s3 := {| devs := devs s2; rfcomm_dev_list := _ |}).
  set (dev2 := set_tty_dev_parent false dev1) in *.
  assert (Hp3 : devs s3 !! p = Some (Some dev2)).
  { subst s3. cbn [devs]. rewrite D2. apply list_lookup_insert_eq. exact Hlen. }
  rewrite !bind_assoc, (bind_Done _ _ _ _ _ (dev_modify_Done _ _ _ _ Hp3)).
  set (dev3 := set_flags (clear_bit RFCOMM_TTY_ATTACHED) dev2).
  set (s4 := set_devs _ s3).
  assert (Ht4 : ttys s4 !! t = Some ts).
  { subst s4 s3. cbn. rewrite T2. exact Ht. }
  rewrite !bind_assoc, (bind_Done _ _ _ _ _ (tty_modify_Done _ _ _ _ Ht4)).
  set (s5 := set_ttys _ s4).
  assert (Hp5 : devs s5 !! p = Some (Some dev3)).
  { subst s5 s4 s3. cbn. rewrite D2. rewrite list_insert_insert_eq.
    apply list_lookup_insert_eq. exact Hlen. }
  rewrite !bind_assoc, (bind_Done _ _ _ _ _ (dev_modify_Done _ _ _ _ Hp5)).
  set (dev4 := set_port (set_tty None) dev3).
  set (s6 := set_devs _ s5).
  assert (Hp6 : devs s6 !! p = Some (Some dev4)).
  { subst s6 s5 s4 s3. cbn. rewrite D2. rewrite !list_insert_insert_eq.
    apply list_lookup_insert_eq. exact Hlen. }
  rewrite !bind_assoc, (bind_Done _ _ _ _ _ (dev_read_Done _ _ _ Hp6)).
  replace (test_bit RFCOMM_TTY_RELEASED (flags dev4)) with false.
  2:{ symmetry. subst dev4 dev3 dev2 dev1. cbn [flags set_port set_flags set_tty_dev_parent].
      rewrite test_bit_clear_bit_other by congruence. exact Hrel. }
  unfold ret at 1. unfold bind at 1.
  rewrite (tty_port_put_keeps s6 p dev4 Hp6 Hk).
  eexists _, _. split; [reflexivity|].
  subst s6 s5 s4 s3. cbn. rewrite D2, L2, C2, T2, G2.
  rewrite !list_insert_insert_eq. rewrite <- app_assoc.
  split; [reflexivity|]. subst dev4 dev3 dev2 dev1. cbn.
  repeat (split; [first [reflexivity | lia | assumption]|]). reflexivity.
Qed.

End LastClose.

Lemma X25_last_close_detaches_witness :
  exists s' dev',
    rfcomm_tty_close (RH := linux_rfcomm_h) 0%nat None Ex.one_open = Done tt s' /\
    devs s' = <[0%nat := Some dev']> (devs Ex.one_open) /\
    count (port dev') = 0 /\ tty (port dev') = None /\
    kref (port dev') = kref (port ExCalls.open_dev) - 1 /\
    flags dev' = clear_bit (RFCOMM_TTY_ATTACHED (rfcomm_h := linux_rfcomm_h))
                   (flags ExCalls.open_dev) /\
    tty_dev_parent dev' = false /\ dlc dev' = Some 1%nat /\
    dev_id dev' = dev_id ExCalls.open_dev /\
    ttys s' = <[0%nat := set_tty_driver_data None ExCalls.open_tty]> (ttys Ex.one_open) /\
    rfcomm_dev_list s' = rfcomm_dev_list Ex.one_open /\
    dlcs s' = dlcs Ex.one_open /\
    log s' = log Ex.one_open
             ++ (if tty_dev_parent ExCalls.open_dev then [EvDeviceMove 0%nat false]
                 else [])
             ++ [EvDlcClose 1%nat].
Proof.
  apply (X25_last_close_detaches (RH := linux_rfcomm_h) Ex.one_open 0%nat 0%nat
           1%nat ExCalls.open_tty ExCalls.open_dev).
  - reflexivity.
  - reflexivity.
  - reflexivity.
  - reflexivity.
  - reflexivity.
  - reflexivity.
  - cbn. lia.
  - vm_compute. discriminate.
Defined.

(** ** The first open on a connected channel *)

Section FirstOpen.
Context {RH : rfcomm_h} {TH : termios_h}.

(** The record of a device after the first part of its first open on tty
    [t]. *)
Local Abbreviation attached t dev :=
  (set_flags (set_bit RFCOMM_TTY_ATTACHED)
     (set_port (set_tty (Some t))
        (set_port (set_count (fun n => n + 1))
           (set_port (set_kref (fun n => n + 1)) dev)))).

Lemma rfcomm_tty_open_attach_first (s : kstate) (ids : list Z) (t p c : ptr)
    (ts : tty_struct) (dev : rfcomm_dev) (open_err : Z) :
  registry_ok s ids -> ttys s !! t = Some ts ->
  p ∈ rfcomm_dev_list s -> devs s !! p = Some (Some dev) ->
  dev_id dev = tty_index ts ->
  test_bit RFCOMM_TTY_RELEASED (flags dev) = false ->
  count (port dev) = 0 -> dlc dev = Some c -> 0 <= open_err ->
  exists s1,
    rfcomm_tty_open_attach t open_err s = Done (inr (p, c)) s1 /\
    devs s1 = <[p := Some (attached t dev)]> (devs s) /\
    ttys s1 = <[t := set_tty_driver_data (Some p) ts]> (ttys s) /\
    rfcomm_dev_list s1 = rfcomm_dev_list s /\ dlcs s1 = dlcs s /\
    socks s1 = socks s /\
    log s1 = log s ++ [EvDlcOpen c (src dev) (dst dev) (channel dev)].
Proof.
  intros Hok Ht Hin Hp Hid Hrel Hzero Hdl Herr.
  assert (Hlen : (p < length (devs s))%nat) by (eapply lookup_lt_Some; eauto).
  pose proof (rfcomm_dev_get_found s ids p dev Hok Hin Hp Hrel) as Hget.
  rewrite Hid in Hget.
  set (devg := set_port (set_kref (fun n => n + 1)) dev) in *.
  set (sg := set_devs (fun l => <[p := Some devg]> l) s) in *.
  assert (Hpg : devs sg !! p = Some (Some devg))
    by (simpl; apply list_lookup_insert_eq; exact Hlen).
  set (devc := set_port (set_count (fun n => n + 1)) devg).
  set (sc := set_devs (fun l => <[p := Some devc]> l) sg).
  assert (Hpc : devs sc !! p = Some (Some devc)).
  { simpl. apply list_lookup_insert_eq. rewrite length_insert. exact Hlen. }
  unfold rfcomm_tty_open_attach.
  rewrite (bind_Done _ _ _ _ _ (tty_read_Done _ _ _ Ht)).
  rewrite (bind_Done _ _ _ _ _ Hget).
  rewrite (bind_Done _ _ _ _ _ (dev_modify_Done _ _ _ _ Hpg)).
  rewrite (bind_Done _ _ _ _ _ (dev_read_Done _ _ _ Hpc)).
  replace (count (port devc) >? 1) with false.
  2:{ symmetry. rewrite Z.gtb_ltb. apply Z.ltb_ge. subst devc devg. cbn. lia. }
  change (dlc devc) with (dlc dev). rewrite Hdl.
  rewrite (bind_Done _ _ _ _ _ (eq_refl : deref (Some c) sc = Done c sc)).
  rewrite (bind_Done _ _ _ _ _ (tty_modify_Done t _ sc ts Ht)).
  set (st := set_ttys (fun l => <[t := set_tty_driver_data (Some p) ts]> l) sc).
  rewrite (bind_Done _ _ _ _ _ (dev_modify_Done p _ st devc Hpc)).
  set (devt := set_port (set_tty (Some t)) devc).
  set (s5 := set_devs (fun l => <[p := Some devt]> l) st).
  assert (Hp5 : devs s5 !! p = Some (Some devt)).
  { simpl. apply list_lookup_insert_eq. rewrite !length_insert. exact Hlen. }
  rewrite (bind_Done _ _ _ _ _ (dev_modify_Done p _ s5 devt Hp5)).
  unfold emit at 1. unfold bind at 1.
  replace (open_err <? 0) with false by (symmetry; apply Z.ltb_ge; exact Herr).
  eexists. split; [reflexivity|]. cbn.
  rewrite !list_insert_insert_eq. auto 10.
Qed.

(** X26.  The first open of a registered device whose channel is connected
    does not sleep and answers what the core answered to the request to
    open the channel, 0 or a positive value: the tty and the record point at
    each other, the open count is 1 with one more reference, the core is
    asked to open the channel, the tty device is moved under the connection
    only when the answer is 0, and everything that was pending for the
    device reaches the read buffer of the port in order, each chunk freed,
    before the channel is unthrottled. *)
Theorem X26_first_open_connected (s : kstate) (ids : list Z) (t p c : ptr)
    (ts : tty_struct) (dev : rfcomm_dev) (d : rfcomm_dlc) (open_err : Z)
    (sig : bool) (env : list (M unit * bool)) (hc : bool) :
  registry_ok s ids -> ttys s !! t = Some ts ->
  p ∈ rfcomm_dev_list s -> devs s !! p = Some (Some dev) ->
  dev_id dev = tty_index ts ->
  test_bit RFCOMM_TTY_RELEASED (flags dev) = false ->
  count (port dev) = 0 -> dlc dev = Some c -> 0 <= open_err ->
  dlcs s !! c = Some d -> dlc_state d = BT_CONNECTED ->
  Forall inbound (pending dev) ->
  exists s' dev',
    rfcomm_tty_open t open_err sig env hc s = Done (Some (Val open_err)) s' /\
    devs s' = <[p := Some dev']> (devs s) /\
    count (port dev') = 1 /\ tty (port dev') = Some t /\
    kref (port dev') = kref (port dev) + 1 /\
    flags dev' = set_bit RFCOMM_TTY_ATTACHED (flags dev) /\
    tty_dev_parent dev' = (if open_err =? 0 then hc else tty_dev_parent dev) /\
    pending dev' = [] /\
    flip_buf (port dev') = flip_buf (port dev) ++ map skb_data (pending dev) /\
    ttys s' = <[t := set_tty_driver_data (Some p) ts]> (ttys s) /\
    rfcomm_dev_list s' = rfcomm_dev_list s /\ dlcs s' = dlcs s /\
    log s' = log s ++ [EvDlcOpen c (src dev) (dst dev) (channel dev)]
                   ++ (if open_err =? 0 then [EvDeviceMove p hc] else [])
                   ++ map EvKfreeSkb (pending dev) ++ [EvDlcUnthrottle c].
Proof.
  intros Hok Ht Hin Hp Hid Hrel Hzero Hdl Herr Hd Hst Hpend.
  assert (Hlen : (p < length (devs s))%nat) by (eapply lookup_lt_Some; eauto).
  destruct (rfcomm_tty_open_attach_first s ids t p c ts dev open_err
              Hok Ht Hin Hp Hid Hrel Hzero Hdl Herr)
    as (s1 & Hatt & D1 & T1 & L1 & C1 & K1 & G1).
  unfold rfcomm_tty_open. rewrite (bind_Done _ _ _ _ _ Hatt).
  assert (Hwait : rfcomm_tty_open_wait env p c open_err sig s1
                  = Done (Some (Val open_err)) s1).
  { assert (Hchk : rfcomm_tty_open_check p c open_err sig s1
                   = Done (Some (Val open_err)) s1).
    { unfold rfcomm_tty_open_check. rewrite <- C1 in Hd.
      rewrite (bind_Done _ _ _ _ _ (dlc_read_Done _ _ _ Hd)). rewrite Hst.
      reflexivity. }
    destruct env as [|[m b] env]; cbn [rfcomm_tty_open_wait];
      rewrite (bind_Done _ _ _ _ _ Hchk); reflexivity. }
  rewrite (bind_Done _ _ _ _ _ Hwait).
  unfold rfcomm_tty_open_finish. rewrite ?bind_assoc.
  set (devB := set_tty_dev_parent
                 (if open_err =? 0 then hc else tty_dev_parent dev)
                 (attached t dev)).
  assert (Hp1 : devs s1 !! p = Some (Some (attached t dev))).
  { rewrite D1. apply list_lookup_insert_eq. exact Hlen. }
  (* the move of the tty device, made when the answer is 0 *)
  assert (Hmove : exists s3,
    (match Val open_err with
     | Val 0 => let* _ := emit (EvDeviceMove p hc) in
                dev_modify p (set_tty_dev_parent hc)
     | _ => ret tt
     end) s1 = Done tt s3 /\
    devs s3 = <[p := Some devB]> (devs s) /\
    ttys s3 = ttys s1 /\ rfcomm_dev_list s3 = rfcomm_dev_list s1 /\
    dlcs s3 = dlcs s1 /\
    log s3 = log s1 ++ (if open_err =? 0 then [EvDeviceMove p hc] else [])).
  { destruct (Z.eqb_spec open_err 0) as [->|Hne].
    - unfold emit at 1. unfold bind at 1.
      erewrite dev_modify_Done by (cbn [devs]; exact Hp1).
      eexists. split; [reflexivity|]. cbn. rewrite D1, list_insert_insert_eq.
      auto 10.
    - exists s1. split.
      { destruct open_err as [|q|q]; [congruence | reflexivity | reflexivity]. }
      rewrite app_nil_r. split; [|auto 10].
      rewrite D1. reflexivity. }
  destruct Hmove as (s3 & Hrun3 & D3 & T3 & L3 & C3 & G3).
  rewrite (bind_Done _ _ _ _ _ Hrun3).
  assert (Hp3 : devs s3 !! p = Some (Some devB)).
  { rewrite D3. apply list_lookup_insert_eq. exact Hlen. }
  destruct (copy_pending_loop_ok p (pending dev) (length (pending dev)) s3 devB 0
              Hp3 eq_refl Hpend (le_n _))
    as (s4 & Hloop & D4 & G4 & L4 & C4 & T4 & _).
  set (devC := set_pending (fun _ => [])
                 (set_port (set_flip_buf (fun b => b ++ map skb_data (pending dev))) devB))
    in *.
  assert (Hp4 : devs s4 !! p = Some (Some devC)).
  { rewrite D4. apply list_lookup_insert_eq. rewrite D3, length_insert. exact Hlen. }
  assert (Hcp : exists s5 dev5,
    rfcomm_tty_copy_pending p s3 = Done tt s5 /\
    devs s5 = <[p := Some dev5]> (devs s4) /\
    set_port (set_flip_pushes (fun _ => O)) dev5
    = set_port (set_flip_pushes (fun _ => O)) devC /\
    log s5 = log s4 /\ rfcomm_dev_list s5 = rfcomm_dev_list s4 /\
    dlcs s5 = dlcs s4 /\ ttys s5 = ttys s4).
  { unfold rfcomm_tty_copy_pending.
    rewrite (bind_Done _ _ _ _ _ (dev_read_Done _ _ _ Hp3)).
    change (pending devB) with (pending dev).
    rewrite (bind_Done _ _ _ _ _ Hloop).
    destruct (0 + sum_len (pending dev) >? 0).
    - unfold tty_flip_buffer_push. rewrite (dev_modify_Done _ _ _ _ Hp4).
      eexists _, _. split; [reflexivity|]. cbn. auto 10.
    - exists s4, devC. split; [reflexivity|].
      split; [symmetry; apply list_insert_id; exact Hp4|]. auto 10. }
  destruct Hcp as (s5 & dev5 & Hrun5 & D5 & E5 & G5 & L5 & C5 & T5).
  rewrite ?bind_assoc, (bind_Done _ _ _ _ _ Hrun5).
  assert (Hp5 : devs s5 !! p = Some (Some dev5)).
  { rewrite D5. apply list_lookup_insert_eq. rewrite D4, D3, !length_insert.
    exact Hlen. }
  rewrite ?bind_assoc, (bind_Done _ _ _ _ _ (dev_read_Done _ _ _ Hp5)).
  assert (F5 : dlc dev5 = Some c /\ count (port dev5) = 1 /\
               tty (port dev5) = Some t /\
               kref (port dev5) = kref (port dev) + 1 /\
               flags dev5 = set_bit RFCOMM_TTY_ATTACHED (flags dev) /\
               tty_dev_parent dev5
               = (if open_err =? 0 then hc else tty_dev_parent dev) /\
               pending dev5 = [] /\
               flip_buf (port dev5)
               = flip_buf (port dev) ++ map skb_data (pending dev)).
  { destruct dev5 as [[? ? ? ? ?] ? ? ? ? ? ? ? ? ? ? ?].
    subst devC devB. destruct dev as [[? ? ? ? ?] ? ? ? ? ? ? ? ? ? ? ?].
    cbn in *. inversion E5; subst. repeat split; try reflexivity; lia. }
  destruct F5 as (F1 & F2 & F3 & F4 & F6 & F9 & F7 & F8).
  rewrite F1.
  rewrite ?bind_assoc.
  rewrite (bind_Done _ _ _ _ _ (eq_refl : deref (Some c) s5 = Done c s5)).
  unfold emit at 1. unfold bind at 1. unfold ret at 1. unfold bind at 1.
  eexists _, dev5. split; [reflexivity|]. cbn.
  rewrite D5, D4, D3, G5, G4, G3, L5, L4, L3, C5, C4, C3, T5, T4, T3.
  rewrite T1, L1, C1, G1. rewrite !list_insert_insert_eq.
  rewrite <- !app_assoc. cbn [app].
  repeat (split; [first [reflexivity | assumption]|]). reflexivity.
Qed.

End FirstOpen.

Lemma X26_first_open_connected_witness :
  exists s' dev',
    rfcomm_tty_open (RH := linux_rfcomm_h) 0%nat 5 false [] true Ex.handoff
    = Done (Some (Val 5)) s' /\
    devs s' = <[0%nat := Some dev']> (devs Ex.handoff) /\
    count (port dev') = 1 /\ tty (port dev') = Some 0%nat /\
    kref (port dev') = kref (port ExMore.handoff_dev) + 1 /\
    flags dev' = set_bit (RFCOMM_TTY_ATTACHED (rfcomm_h := linux_rfcomm_h))
                   (flags ExMore.handoff_dev) /\
    tty_dev_parent dev'
    = (if 5 =? 0 then true else tty_dev_parent ExMore.handoff_dev) /\
    pending dev' = [] /\
    flip_buf (port dev')
    = flip_buf (port ExMore.handoff_dev)
      ++ map skb_data (pending ExMore.handoff_dev) /\
    ttys s' = <[0%nat := set_tty_driver_data (Some 0%nat) (Ex.new_tty 0)]>
                (ttys Ex.handoff) /\
    rfcomm_dev_list s' = rfcomm_dev_list Ex.handoff /\
    dlcs s' = dlcs Ex.handoff /\
    log s' = log Ex.handoff
             ++ [EvDlcOpen 0%nat (src ExMore.handoff_dev) (dst ExMore.handoff_dev)
                   (channel ExMore.handoff_dev)]
             ++ (if 5 =? 0 then [EvDeviceMove 0%nat true] else [])
             ++ map EvKfreeSkb (pending ExMore.handoff_dev)
             ++ [EvDlcUnthrottle 0%nat].
Proof.
  apply (X26_first_open_connected (RH := linux_rfcomm_h) Ex.handoff [0]
           0%nat 0%nat 0%nat (Ex.new_tty 0) ExMore.handoff_dev ExMore.handoff_dlc
           5 false [] true).
  - split; [reflexivity|].
    split; [repeat constructor | repeat constructor; simpl; lia].
  - reflexivity.
  - apply list_elem_of_here.
  - reflexivity.
  - reflexivity.
  - reflexivity.
  - reflexivity.
  - reflexivity.
  - lia.
  - reflexivity.
  - reflexivity.
  - repeat constructor.
Defined.
